(* ===== verification/_CoqProject ===== *)
-Q . S2P
Prelude.v
Text.v
Search.v
Codec.v
Widget.v
SearchWin.v
Editor.v
FileOps.v
EditOps.v
Input.v
Shortcuts.v
Help.v
Session.v
App.v
