(* ===== verification/Prelude.v ===== *)
(** * A verification development of the Tkinter text editor

    The repository is a notepad-style editor written in Python on Tkinter
    ([src/main.py], [src/text_editor.py] and the classes under
    [src/operations/] and [src/manager/]).  Its parts and how they interact:

    - [TextEditor] ([src/text_editor.py]) owns the state: the Tk text widget,
      [current_file], [is_modified], [current_encoding], the window title and
      the status bar.  It binds the widget's [<<Modified>>] virtual event to
      [mark_as_modified] and routes the window's close button to
      [exit_application].
    - [FileOperations] ([src/operations/file_operations.py]) implements New,
      Open (trying the encodings utf-8, latin-1, utf-16, cp1252 in turn),
      Save (with a [.bak] copy of the previous file), Save As, the
      unsaved-changes prompt and the encoding change.
    - [SearchOperations] ([src/operations/search_operations.py]) scans the
      widget with Tk's [search] command, tags every non-overlapping
      occurrence of the search term and reports a count.
    - [EditOperations] ([src/operations/edit_operations.py]) forwards undo,
      redo and the clipboard commands to the widget.
    - [ErrorHandler] ([src/error_handler.py]) logs a failure and optionally
      shows it in a message box; [setup_logging]
      ([src/config/logger_config.py]) configures the log at level INFO.
    - [MenuManager], [DialogManager] and [main] build menus, show static
      dialogs and start the Tk main loop.

    ** Files of the development

    - [Prelude] (this file): the Python exception and result types, the
      state-and-exception monad [PyM] in which every handler is written (a
      Python exception does not roll back the state changes made before it,
      so the state is threaded through the error case too), its notation in
      [py_scope], the [editor] hint database and the list lemmas the
      components share.
    - [Text]: a Python [str] as the list of its code points ([pystr]), the
      [str.strip] of the search entry and Python's [isspace], the case
      folding Tk's [-nocase] search applies, and the [get(1.0, END)] view of
      the widget, which always ends in the newline Tk keeps after the text.
    - [Search]: [perform_search] of [open_search_window]: Tk's forward
      [search] from an index to [END], the loop that tags every match and
      advances by ["{pos}+{len(term)}c"], the result label and the jump
      to the first match.  Indices count characters; Tk 8.6 counts a
      character above U+FFFF as two 16-bit units, and [tk_forward] turns
      the units of ["+{n}c"] into characters.  Proved: the loop
      terminates for every entry (enough fuel is [length content + 1]
      iterations and more fuel changes nothing); for a term with no
      character above U+FFFF its matches are exactly the greedy leftmost
      non-overlapping occurrences (an inductive specification [greedy]
      and a refinement theorem with uniqueness of the specification),
      while an astral term is counted over overlapping matches
      ([perform_search_astral_overlap]); ranges are sorted, disjoint, in
      bounds and start at matches; an empty or blank term never scans;
      the search is idempotent; the spec's "Hello world hello" example.

    - [Codec]: the four codecs [open_file] names, as byte-level decoders
      and encoders following CPython's strict codecs: utf-8 (overlong
      forms, surrogates and code points above U+10FFFF rejected), latin-1,
      utf-16 (the BOM FF FE written on encoding, either BOM accepted on
      decoding, surrogate pairs) and cp1252 (its five undefined bytes);
      a codec is a [Record] of its two operations and [codec_roundtrip] is
      its law, proved for each of them.  Text mode reads with universal
      newlines and writes "\n" as [os.linesep].  Proved: decoding inverts
      encoding for every codec, the text-mode round trip for a text
      without "\r" on POSIX and Windows, and that strict utf-8 decoding
      is canonical (whatever it accepts is the encoding of its result).
      The data types of text and files: a character of a Python [str] is a
      Unicode scalar value ([is_scalar]: below U+110000, not a surrogate)
      and a file holds bytes ([is_byte]).  Proved: every codec writes
      bytes whatever it is given (bounds), reading bytes with any of them
      gives scalar values with no "\r" left, and utf-8 and utf-16 encode
      every text of scalar values.
    - [Widget]: the Tk text widget as the editor observes it, following Tk
      8.6's [tkText.c]: the text, the [isDirty] counter behind
      [edit_modified()], the number of queued [<<Modified>>] events, the
      [insert] mark (right gravity), the range of the [sel] tag, the
      ranges of the "found" tag (kept as Tk keeps a tag: maximal runs of
      tagged characters, which move, stretch, shrink, vanish and join as
      the text is edited) and the clipboard, with Tk's index clamping (the
      final newline is never deleted, "end" is after it).  Proved: every
      call keeps the marks, the selection and the "found" ranges inside
      the text, the ranges in order and apart ([widget_wf]; [tag_ok] with
      the lemmas on [ins_ranges], [del_ranges] and [tag_norm]), and no
      call but the search's adds a "found" range ([found_clear]); a
      selection to "end"
      reads the final newline; deleting a range and inserting it back
      restores the text; every call keeps the text and the clipboard made
      of scalar values ([widget_typed]).  The undo and redo stacks of
      [undo=True] follow [tkUndo.c]: atoms, separators, [-autoseparators]
      and the counter moving both ways.  Proved: [edit undo] reverts an
      insertion that starts its own group and [edit redo] replays it;
      undo and redo keep the widget consistent and typed.
    - [SearchWin]: [open_search_window] and [close_search] of the same
      class: the state behind [editor.search_window] and [case_sensitive]
      and the Tk window operations; every user action on the dialog
      (Search, [<Return>], Close, [<Escape>], the window manager, typing
      in the entry, "Match case") is an event of the step function
      [search_step] on that state and the text widget, whose "found" tag
      the search sets and [close_search] clears.  Proved: every event
      keeps the dialog's invariant (window operations well bracketed, one
      window at most, no "found" range without it), leaves the widget
      well formed and changes nothing of it but that tag.
    - [Editor]: the world the handlers run in (a file system as a [gmap]
      from path to bytes and a [gset] of read-only paths, the widget, the
      [TextEditor] attributes with the search dialog's state, the scripted
      dialog answers, the dialogs
      shown and the log), the primitive effects ([read_text],
      [write_text], [copy2], the dialogs, [logging] under the INFO
      threshold), [handle_error], [mark_as_modified] and the event loop
      [run_pending].  Proved: the event loop drains the queue and leaves
      the counter clear, and what it may change ([frame]).  [fs_ok]: every
      file holds bytes.
    - [FileOps]: [new_file], [verify_unsaved_changes], [open_file] (its
      encoding loop is [open_with]), [save_file] with its backup step
      [make_backup], [save_file_as], [change_encoding] and
      [exit_application], each the whole method with its guards and its
      [try]/[except] branches.  Proved: the encoding loop reads every file
      (latin-1 accepts every byte sequence), what Save writes and backs up,
      the truncation a failed encode leaves behind, that Cancel keeps
      everything, that Save As makes no backup, that an untitled document
      changes encoding without a prompt, and that a utf-16 file reopens as
      latin-1 because the loop tries latin-1 first.
    - [EditOps]: [copy], [cut], [paste], [select_all], [undo] and [redo]
      of [EditOperations]; [undo] and [redo] run Tk's [edit undo] and
      [edit redo] of [Widget], and the value tkinter returns is a section
      parameter (the empty string under Tk 8.6).  Proved: Select All,
      Cut, Paste adds a newline; Cut then Paste restores the text; Paste
      with no clipboard and Undo with an empty stack only log an ERROR
      line.
    - [Input]: a key press as Tk dispatches it, the widget's [<KeyPress>]
      binding [update_status_bar] first, then Tk's class binding that
      inserts the character; a click.  Proved: the status bar shows the
      cursor position before the key; typing over Select All replaces the
      whole text.
    - [Shortcuts]: the six keys of [setup_keyboard_shortcuts] as Tk runs
      them in the text: the widget's [<KeyPress>] binding, the [Text]
      class binding of [text.tcl] (for Control-o the "open line", which
      inserts a newline; for Control-n, Control-f and Control-a the
      emacs-like motions through [tk::TextSetCursor], which move the
      cursor, drop the selection and close the undo group), then the root
      binding; and [open_search], the File > Search item.
    - [Session]: the menu commands, key presses, clicks and shortcuts as
      a [command] type, [dispatch] running a handler and then the event
      loop, the search dialog's events ([dialog_step]: the handler of
      [SearchWin] on the editor's attributes and the widget, then the
      event loop), and the [reachable] states from startup, where a
      command runs only when the dialog lets it through ([cmd_allowed]:
      the dialog's grab keeps the pointer from the menus and the text;
      keys reach the text only when it has the focus, which the search
      gives it; the window manager's close button of the main window
      stays usable).  Proved by rule induction: the invariant of every
      reachable state (a known encoding, no queued event, the flag clear,
      marks, selection and "found" ranges inside the text, the Encoding
      Error box never shown, one search window at most and no highlighting
      without it); how Open and New leave the modified flag in each delivery mode, what typing
      does, that Control-o answered with Cancel leaves a newline in the
      document, and the save/open cycles that do not restore the text (a
      utf-8 save comes back with one more newline; a latin-1 document
      whose characters spell UTF-8 comes back as different utf-8 text).
      A second invariant, [data_ok], is proved for every handler through
      [returns] (what a read gives back in a state that satisfies the
      invariant): the widget holds scalar values and every file bytes, so
      saving a reachable document in utf-8 or utf-16 never meets an
      encoding error.  Liveness: Exit ends the main loop whenever no save
      is asked for (a clean document, or the answer No).  Undo and Redo
      are commands: Undo takes back a typed character that started its
      own undo group and Redo types it again; since [open_file] never
      resets the undo stack, two
      Undo after an Open bring the previous document back under the
      opened file's name.  With both windows open: while the dialog's
      entry has the focus no event edits the document and only the main
      window's close button gets through, yet Close always releases the
      editor; Control-f with the dialog open only raises it; Control-a
      selects all whatever the class binding did; and the search's
      highlighting follows what the user types ([Widget.tagged], the text
      under each "found" range: a match around the cursor stretches over
      the character, every other match keeps its characters).
      The Help menu's three items ([Help]: [DialogManager]'s two fixed
      information boxes and the manual page) are commands too.
    - [App]: [main] and [TextEditor.__init__] against a [boot_env] (the
      log directory, the display, the failures of the text area and the
      menus).  Proved: with nothing failing, [main] enters the main loop
      in exactly [Session.initial_world], whatever the record held before
      [__init__] (every attribute the session reads is assigned there); a
      failing text area is reported
      as the [AttributeError] of the not yet created [error_handler].

    ** Parameters

    The platform's [os.linesep] is a section variable of the handlers
    (the round-trip theorems assume "\n" or "\r\n").  The delivery of
    [<<Modified>>] is the type [delivery]: [Queued] is Tk 8.6, where the
    event is queued and [mark_as_modified] runs after the handler returns;
    [Immediate] runs the binding right after each widget call.  Theorems
    that hold in both modes are stated for any [mode].  Tk's [-nocase]
    folding is a variable of the search and of [Session.reachable]; the
    examples use [tcl_lower], which is Tcl's on the Latin-1 range.

    ** Fuel

    [perform_search]'s loop gets [length content + 1] iterations: every
    iteration but the last tags a match and advances the start by
    [len(term) >= 1], so the loop ends within that many ([Search] proves
    it, and that more fuel changes nothing).  The event loop [run_pending]
    gets [pending + 2] rounds: each round takes one queued event and the
    binding queues at most one more only when it clears a set flag, so
    the measure [drain_measure] (pending events plus the flag) decreases
    ([Editor.process_events_drains]); an undo that leaves the counter
    below zero queues an event too, so the measure still bounds it.

    ** Not modelled

    The construction of the menus ([MenuManager.create_menu] is modelled
    only by the commands it binds and by its failure), the layout of the
    search window, the [<<UndoStack>>] event and the undo depth counter
    (the stack is unlimited, [maxundo=-1]), keys other than printable
    characters and the six shortcuts (Tk's own Control-z, Control-c and
    the like in the text are not commands), scrolling ([see]), the
    widget's geometry and fonts, and the timestamps of the log.  The
    class bindings are those of [text.tcl] with [tk_strictMotif] false on
    X11; the indices Control-n and Control-a move the cursor to depend on
    the display lines, so they come with the command, as a click's index
    does.  Tk's [-nocase] folding above U+00FF is a parameter of the
    search. *)

From stdpp Require Export base list gmap strings.
From Stdlib Require Export ZArith Lia.

(** ** Python exceptions and results *)

(** The exceptions the modelled code raises or catches.  [OSError] stands
    for the remaining I/O failures (a missing file, a directory);
    [TclError] carries the message of the failing Tk command, and
    [AttributeError] the message of a missing attribute. *)
Inductive exn :=
| UnicodeDecodeError
| UnicodeEncodeError
| PermissionError
| FileNotFoundError
| OSError
| LookupError
| TclError (msg : string)
| AttributeError (msg : string).

#[export] Instance exn_eq_dec : EqDecision exn.
Proof. solve_decision. Defined.

(** The message [str(e)] renders; the real strings carry the path and the
    errno, which no theorem depends on. *)
Definition exn_str (e : exn) : string :=
  match e with
  | UnicodeDecodeError => "codec can't decode byte"
  | UnicodeEncodeError => "codec can't encode character"
  | PermissionError => "[Errno 13] Permission denied"
  | FileNotFoundError => "[Errno 2] No such file or directory"
  | OSError => "[Errno 21] Is a directory"
  | LookupError => "unknown encoding"
  | TclError msg => msg
  | AttributeError msg => msg
  end.

(** The outcome of a Python statement: a value or a raised exception. *)
Inductive pyresult (A : Type) :=
| Ok (a : A)
| Raise (e : exn).
Arguments Ok {A} a.
Arguments Raise {A} e.

(** ** The state-and-exception monad

    [PyM S A] runs against a state [S] and returns a [pyresult] with the
    state reached, also when an exception escapes. *)
Definition PyM (S A : Type) : Type := S -> pyresult A * S.

Section Monad.
Context {S : Type}.

Definition ret {A} (a : A) : PyM S A := fun s => (Ok a, s).

Definition bind {A B} (m : PyM S A) (k : A -> PyM S B) : PyM S B :=
  fun s => match m s with
           | (Ok a, s') => k a s'
           | (Raise e, s') => (Raise e, s')
           end.

Definition raise {A} (e : exn) : PyM S A := fun s => (Raise e, s).

Definition gets {A} (f : S -> A) : PyM S A := fun s => (Ok (f s), s).

Definition modify (f : S -> S) : PyM S unit := fun s => (Ok tt, f s).

(** [try: m except e: h e], where [h e = None] re-raises [e]. *)
Definition try_except {A} (m : PyM S A) (h : exn -> option (PyM S A)) : PyM S A :=
  fun s => match m s with
           | (Ok a, s') => (Ok a, s')
           | (Raise e, s') =>
               match h e with Some k => k s' | None => (Raise e, s') end
           end.

(** [except Exception]: every exception of the model is caught. *)
Definition catch_all {A} (m : PyM S A) (h : exn -> PyM S A) : PyM S A :=
  try_except m (fun e => Some (h e)).

End Monad.

Declare Scope py_scope.
Delimit Scope py_scope with py.
Notation "x <- m ;; k" := (bind m (fun x => k))
  (at level 100, m at next level, right associativity) : py_scope.
Notation "m ;; k" := (bind m (fun _ => k))
  (at level 100, right associativity) : py_scope.
Notation "'try' m 'except' h" := (catch_all m h)
  (at level 100, m at next level, h at next level) : py_scope.

(** ** Python truthiness of the values dialogs return *)

(** [askyesnocancel] returns [None], [True] or [False]; the file dialogs
    return a path, the empty string when cancelled. *)
Inductive pyval :=
| PNone
| PBool (b : bool)
| PStr (s : string).

Definition truthy (v : pyval) : bool :=
  match v with
  | PNone => false
  | PBool b => b
  | PStr s => negb (bool_decide (s = EmptyString))
  end.

(** ** Shared automation and list lemmas *)

Create HintDb editor discriminated.

Section MonadLaws.
Context {S : Type}.

Lemma bind_ret_l {A B} (a : A) (k : A -> PyM S B) s : bind (ret a) k s = k a s.
Proof. reflexivity. Qed.

Lemma bind_ret_r {A} (m : PyM S A) s : bind m ret s = m s.
Proof. unfold bind, ret. by destruct (m s) as [[] ?]. Qed.

Lemma bind_ret_unit (m : PyM S unit) s : bind m (fun _ => ret tt) s = m s.
Proof. unfold bind, ret. by destruct (m s) as [[[]|e] s']. Qed.

Lemma bind_assoc {A B C} (m : PyM S A) (k : A -> PyM S B) (k' : B -> PyM S C) s :
  bind (bind m k) k' s = bind m (fun a => bind (k a) k') s.
Proof. unfold bind. by destruct (m s) as [[] ?]. Qed.

Lemma bind_raise {A B} (e : exn) (k : A -> PyM S B) s :
  bind (raise e) k s = (Raise e, s).
Proof. reflexivity. Qed.
End MonadLaws.

(** Unfold the monad combinators after the handler's own definition. *)
Ltac py_unfold :=
  cbv beta delta [bind ret raise gets modify try_except catch_all] iota.

(** Destruct a boolean test or a decision that blocks reduction. *)
Ltac case_test :=
  match goal with
  | |- context [if ?b then _ else _] => destruct b eqn:?
  | |- context [match ?b with true => _ | false => _ end] => destruct b eqn:?
  end.

Lemma drop_length_le {A} (l : list A) n : length (drop n l) <= length l.
Proof. rewrite length_drop. lia. Qed.

Lemma drop_S_tail {A} (l : list A) n x t :
  drop n l = x :: t -> drop (S n) l = t.
Proof.
  intros H. rewrite <- Nat.add_1_r, <- drop_drop, H. done.
Qed.

Lemma drop_nil_ge {A} (l : list A) n : drop n l = [] -> length l <= n.
Proof. intros H. apply (f_equal length) in H. rewrite length_drop in H. simpl in H. lia. Qed.

(** The slice [l[a:b]] of a concatenation: inside its left part, inside
    its right part, or across the boundary. *)
Lemma slice_app_l {A} (l1 l2 : list A) a b :
  b <= length l1 -> take (b - a) (drop a (l1 ++ l2)) = take (b - a) (drop a l1).
Proof.
  intros Hb. destruct (decide (a <= length l1)).
  - rewrite drop_app_le by lia. apply take_app_le. rewrite length_drop. lia.
  - replace (b - a) with 0 by lia. by rewrite !take_0.
Qed.

Lemma slice_app_r {A} (l1 l2 : list A) a b :
  length l1 <= a -> take (b - a) (drop a (l1 ++ l2)) = take (b - a) (drop (a - length l1) l2).
Proof. intros Ha. by rewrite drop_app_ge. Qed.

Lemma slice_app_across {A} (l1 l2 : list A) a b :
  a <= length l1 <= b -> take (b - a) (drop a (l1 ++ l2)) = drop a l1 ++ take (b - length l1) l2.
Proof.
  intros H. rewrite drop_app_le, take_app by lia. rewrite take_ge by (rewrite length_drop; lia).
  rewrite length_drop. do 2 f_equal. lia.
Qed.

#[export] Hint Resolve drop_length_le : editor.
Create Rewrite HintDb editor_len.
#[export] Hint Rewrite @length_drop @length_app @length_take : editor_len.

(** [lia] after naming the quotients and remainders of [/] and [mod]. *)
Ltac zlia := Z.to_euclidean_division_equations; lia.

(** Case on every [Z] comparison of the goal and close the arithmetic
    cases with [lia]. *)
Ltac z_cases :=
  repeat match goal with
  | |- context [Z.leb ?a ?b] => destruct (Z.leb_spec a b)
  | |- context [Z.ltb ?a ?b] => destruct (Z.ltb_spec a b)
  | |- context [Z.eqb ?a ?b] => destruct (Z.eqb_spec a b)
  end; simpl; try done; try zlia.

(** ** Bit operations as arithmetic *)

Lemma lor_shiftl_add a b n :
  (0 <= n)%Z -> (0 <= b < 2 ^ n)%Z -> Z.lor (Z.shiftl a n) b = (a * 2 ^ n + b)%Z.
Proof.
  intros Hn Hb.
  assert (Hl : Z.land (Z.shiftl a n) b = 0%Z).
  { apply Z.bits_inj'. intros m Hm. rewrite Z.land_spec, Z.shiftl_spec, Z.testbit_0_l by lia.
    destruct (Z.lt_ge_cases m n).
    - rewrite Z.testbit_neg_r by lia. reflexivity.
    - destruct (Z.eq_dec b 0) as [->|Hb0]; [rewrite Z.testbit_0_l; apply Bool.andb_false_r|].
      rewrite (Z.bits_above_log2 b m); [apply Bool.andb_false_r|lia|].
      apply Z.log2_lt_pow2; [lia|]. pose proof (Z.pow_le_mono_r 2 n m). lia. }
  pose proof (Z.add_lor_land (Z.shiftl a n) b) as E.
  rewrite Hl in E. rewrite Z.shiftl_mul_pow2 in E |- * by lia. lia.
Qed.

(** A constant whose low [n] bits are clear, or-ed with a value below
    [2^n], is their sum: how a UTF-8 lead or continuation byte is built. *)
Lemma lor_const_add k x n :
  (0 <= n)%Z -> (k mod 2 ^ n = 0)%Z -> (0 <= x < 2 ^ n)%Z -> Z.lor k x = (k + x)%Z.
Proof.
  intros Hn Hk Hx.
  assert (Hkq : k = Z.shiftl (k / 2 ^ n) n).
  { rewrite Z.shiftl_mul_pow2 by done. pose proof (Z.div_mod k (2 ^ n)).
    assert (2 ^ n <> 0)%Z by (apply Z.pow_nonzero; lia). lia. }
  rewrite Hkq at 1. rewrite lor_shiftl_add by done.
  rewrite Z.shiftl_mul_pow2 in Hkq by done. lia.
Qed.

Lemma land_low_mod x n : (0 <= n)%Z -> Z.land x (2 ^ n - 1) = (x mod 2 ^ n)%Z.
Proof. intros Hn. rewrite <- Z.land_ones by done. f_equal. by rewrite Z.ones_equiv, Z.sub_1_r. Qed.

(** The same three facts with the power of two written as a literal [m],
    so that [lia] sees constant divisors. *)
Lemma lor_lit k x n m :
  m = (2 ^ n)%Z -> (0 <= n)%Z -> (k mod m = 0)%Z -> (0 <= x < m)%Z -> Z.lor k x = (k + x)%Z.
Proof. intros ->. apply lor_const_add. Qed.

Lemma land_lit x k n m :
  m = (2 ^ n)%Z -> k = (m - 1)%Z -> (0 <= n)%Z -> Z.land x k = (x mod m)%Z.
Proof. intros -> ->. apply land_low_mod. Qed.

Lemma shiftr_lit c n m : m = (2 ^ n)%Z -> (0 <= n)%Z -> Z.shiftr c n = (c / m)%Z.
Proof. intros ->. apply Z.shiftr_div_pow2. Qed.

Lemma shiftl_lor_lit a b n m :
  m = (2 ^ n)%Z -> (0 <= n)%Z -> (0 <= b < m)%Z -> Z.lor (Z.shiftl a n) b = (a * m + b)%Z.
Proof. intros ->. apply lor_shiftl_add. Qed.

(** The side conditions of the [_lit] lemmas: a literal power of two, a
    literal remainder, or a bound. *)
Ltac bit_side := first [reflexivity | zlia].

(** Case on every [nat] comparison of the goal and the hypotheses and
    close the arithmetic cases with [lia]. *)
Ltac nat_cases :=
  repeat match goal with
  | |- context [Nat.leb ?a ?b] => destruct (Nat.leb_spec a b)
  | |- context [Nat.ltb ?a ?b] => destruct (Nat.ltb_spec a b)
  | |- context [Nat.min ?a ?b] => destruct (Nat.min_spec a b) as [[? ->]|[? ->]]
  | H : context [Nat.leb ?a ?b] |- _ => destruct (Nat.leb_spec a b)
  | H : context [Nat.ltb ?a ?b] |- _ => destruct (Nat.ltb_spec a b)
  end; simpl in *; try done; try lia.

(** ** Invariants of monadic code

    [preserves P m]: from a state satisfying [P], [m] ends in a state
    satisfying [P], whatever it returns or raises. *)
Definition preserves {S A} (P : S -> Prop) (m : PyM S A) : Prop :=
  forall s r s', P s -> m s = (r, s') -> P s'.

(** [returns P m Q]: from a state satisfying [P], every value [m]
    returns satisfies [Q]. *)
Definition returns {S A} (P : S -> Prop) (m : PyM S A) (Q : A -> Prop) : Prop :=
  forall s a s', P s -> m s = (Ok a, s') -> Q a.

Section Preserves.
Context {S : Type} (P : S -> Prop).

Lemma preserves_ret {A} (a : A) : preserves P (ret a).
Proof. by intros s r s' Hs [= _ <-]. Qed.

Lemma preserves_raise {A} e : preserves P (@raise S A e).
Proof. by intros s r s' Hs [= _ <-]. Qed.

Lemma preserves_gets {A} (f : S -> A) : preserves P (gets f).
Proof. by intros s r s' Hs [= _ <-]. Qed.

Lemma preserves_modify f : (forall s, P s -> P (f s)) -> preserves P (modify f).
Proof. intros Hf s r s' Hs [= _ <-]. by apply Hf. Qed.

Lemma preserves_bind {A B} (m : PyM S A) (k : A -> PyM S B) :
  preserves P m -> (forall a, preserves P (k a)) -> preserves P (bind m k).
Proof.
  intros Hm Hk s r s' Hs. unfold bind.
  destruct (m s) as [[a|e] s1] eqn:E.
  - apply Hk. eapply Hm; eauto.
  - intros [= _ <-]. eapply Hm; eauto.
Qed.

(** A bind whose continuation only keeps [P] for the values [m] can
    return. *)
Lemma preserves_bind_returns {A B} (m : PyM S A) (k : A -> PyM S B) Q :
  preserves P m -> returns P m Q -> (forall a, Q a -> preserves P (k a)) -> preserves P (bind m k).
Proof.
  intros Hm HQ Hk s r s' Hs. unfold bind.
  destruct (m s) as [[a|e] s1] eqn:E.
  - apply (Hk a (HQ s a s1 Hs E)). eapply Hm; eauto.
  - intros [= _ <-]. eapply Hm; eauto.
Qed.

(** [gets f] returns [f] of a state satisfying [P]. *)
Lemma returns_gets {A} (f : S -> A) : returns P (gets f) (fun a => exists s, P s /\ a = f s).
Proof. intros s a s' Hs [= <- _]. eauto. Qed.

Lemma preserves_try_except {A} (m : PyM S A) h :
  preserves P m ->
  (forall e, match h e with Some k => preserves P k | None => True end) ->
  preserves P (try_except m h).
Proof.
  intros Hm Hh s r s' Hs. unfold try_except.
  destruct (m s) as [[a|e] s1] eqn:E.
  - intros [= _ <-]. eapply Hm; eauto.
  - specialize (Hh e). destruct (h e) as [k|].
    + apply Hh. eapply Hm; eauto.
    + intros [= _ <-]. eapply Hm; eauto.
Qed.

Lemma preserves_catch_all {A} (m : PyM S A) h :
  preserves P m -> (forall e, preserves P (h e)) -> preserves P (catch_all m h).
Proof. intros Hm Hh. apply preserves_try_except; [done|]. intros e. apply Hh. Qed.
End Preserves.

#[export] Hint Resolve preserves_ret preserves_raise preserves_gets : editor.

(** Walk a handler: split binds, handlers, [if] and [match], and close the
    leaves with the [editor] hints. *)
Ltac preserve_tac :=
  repeat match goal with
  | |- preserves _ (bind _ _) => apply preserves_bind; [|intros ?]
  | |- preserves _ (catch_all _ _) => apply preserves_catch_all; [|intros ?]
  | |- preserves _ (try_except _ _) => apply preserves_try_except; [|intros ?; simpl]
  | |- preserves _ (if ?b then _ else _) => destruct b
  | |- preserves _ (match ?x with _ => _ end) => destruct x
  | |- True => exact I
  end; try solve [eauto with editor].
