(* ===== verification/Text.v ===== *)
(** * Python strings and the text views the editor reads

    A Python [str] is a sequence of code points; [pystr] is that list.
    This file holds what the handlers apply to strings: Python's
    [str.isspace] and [str.strip] (the search entry is stripped before the
    scan), the case folding of Tk's [-nocase] search, and the content that
    [text_widget.get(1.0, tk.END)] returns, which always ends in the
    newline Tk keeps after the last line. *)

From S2P Require Import Prelude.

Local Open Scope Z_scope.

(** A Python [str]: its code points. *)
Abbreviation pystr := (list Z).

(** The code point of a newline, ["\n"]. *)
Definition LF : Z := 10.
(** The code point of a carriage return, ["\r"]. *)
Definition CR : Z := 13.

(** A Unicode scalar value: a code point below U+110000 that is not a
    surrogate.  Every character the codecs decode, and every character a
    key press types, is one. *)
Definition is_scalar (c : Z) : Prop := 0 <= c < 1114112 /\ ~ (55296 <= c <= 57343).

#[export] Instance is_scalar_dec c : Decision (is_scalar c).
Proof. unfold is_scalar. apply _. Defined.

(** [str.isspace] on one character: the characters whose bidirectional
    class is WS, B or S, or whose category is Zs. *)
Definition isspace (c : Z) : bool :=
  ((9 <=? c) && (c <=? 13)) || ((28 <=? c) && (c <=? 32)) ||
  (c =? 133) || (c =? 160) || (c =? 5760) ||
  ((8192 <=? c) && (c <=? 8202)) || (c =? 8232) || (c =? 8233) ||
  (c =? 8239) || (c =? 8287) || (c =? 12288).

(** [str.lstrip()] without argument. *)
Fixpoint lstrip (s : pystr) : pystr :=
  match s with
  | [] => []
  | c :: r => if isspace c then lstrip r else s
  end.

(** [str.rstrip()] without argument. *)
Definition rstrip (s : pystr) : pystr := reverse (lstrip (reverse s)).

(** [str.strip()]: whitespace removed at both ends. *)
Definition strip (s : pystr) : pystr := rstrip (lstrip s).

(** Tcl's [Tcl_UniCharToLower] on the Latin-1 range, which is what the
    [-nocase] comparison applies to both the pattern and the text: A-Z and
    the accented capitals U+00C0 to U+00DE except the sign U+00D7.  Above
    U+00FF the search model below is parametric in the folding. *)
Definition tcl_lower (c : Z) : Z :=
  if ((65 <=? c) && (c <=? 90)) || ((192 <=? c) && (c <=? 222) && negb (c =? 215))
  then c + 32 else c.

(** [text_widget.get(1.0, tk.END)]: the text followed by the newline Tk
    always keeps after the last character. *)
Definition tk_get_all (t : pystr) : pystr := t ++ [LF].

(** ** Lemmas *)

Lemma is_scalar_LF : is_scalar LF.
Proof. unfold is_scalar, LF. lia. Qed.

Lemma is_scalar_CR : is_scalar CR.
Proof. unfold is_scalar, CR. lia. Qed.

#[export] Hint Resolve is_scalar_LF is_scalar_CR : editor.
#[export] Hint Constructors Forall : editor.

Lemma tk_get_all_scalars t : Forall is_scalar t -> Forall is_scalar (tk_get_all t).
Proof. intros H. unfold tk_get_all. apply Forall_app. auto with editor. Qed.

Lemma lstrip_nil_iff s : lstrip s = [] <-> Forall (fun c => isspace c = true) s.
Proof.
  induction s as [|c s IH]; simpl; [split; auto|].
  destruct (isspace c) eqn:Hc.
  - rewrite IH. split; [by constructor|]. by inversion 1.
  - split; [done|]. inversion 1. congruence.
Qed.

Lemma lstrip_suffix s : lstrip s `suffix_of` s.
Proof.
  induction s as [|c s IH]; simpl; [done|].
  destruct (isspace c); [by apply suffix_cons_r | reflexivity].
Qed.

Lemma lstrip_head s c r : lstrip s = c :: r -> isspace c = false.
Proof.
  induction s as [|d s IH]; simpl; [done|].
  destruct (isspace d) eqn:Hd; [done|]. by intros [= -> ->].
Qed.

Lemma rstrip_nil_iff s : rstrip s = [] <-> Forall (fun c => isspace c = true) s.
Proof.
  unfold rstrip. rewrite <- Forall_reverse, <- lstrip_nil_iff.
  split; [|by intros ->].
  intros H. apply (f_equal reverse) in H. by rewrite reverse_involutive in H.
Qed.

Lemma strip_nil_iff s : strip s = [] <-> Forall (fun c => isspace c = true) s.
Proof.
  unfold strip. rewrite rstrip_nil_iff. etrans; [|apply lstrip_nil_iff].
  split; [|by intros ->; constructor].
  destruct (lstrip s) as [|c r] eqn:E; [done|].
  inversion 1. apply lstrip_head in E. congruence.
Qed.


Lemma tk_get_all_length t : length (tk_get_all t) = S (length t).
Proof. unfold tk_get_all. rewrite length_app. simpl. lia. Qed.

#[export] Hint Rewrite tk_get_all_length : editor_len.
