(* ===== verification/Search.v ===== *)
(** * The search engine: [perform_search] of [SearchOperations]

    [open_search_window] ([src/operations/search_operations.py]) builds a
    dialog whose Search button runs the closure [perform_search].  It
    removes the ["found"] tag, strips the entry, refuses a blank term, and
    then loops on the widget's [search] command: each match at [pos] is
    tagged up to [pos+len(term)c], counted, and the next search starts at
    the end of the match.  The label reports the count and the view jumps
    to the first tagged range.

    The Tk [search] command is modelled by [tk_search]: the first index
    at or after [start] where the pattern matches, comparing characters
    after a folding (identity for a case-sensitive search, the
    [nocase_fold] of the section otherwise).  Indices count characters.
    Tk 8.6 counts a character above U+FFFF as two units, and the code
    mixes the two counts: [len(term)] is Python's count of characters and
    ["{pos}+{n}c"] moves by Tk units; [tk_forward] converts.  The loop is
    [search_loop], with fuel; [perform_search] runs it with
    [length content + 1] iterations, which [perform_search_terminates]
    shows is always enough.  The greedy specification holds for terms
    without characters above U+FFFF ([perform_search_refines_greedy]);
    [perform_search_astral_overlap] shows an astral term counted twice
    over overlapping matches. *)

From S2P Require Import Prelude Text.



(** ** Tk's exact forward search *)

(** ** Tk's index arithmetic

    Tk 8.6 keeps its text in 16-bit units: a character above U+FFFF is a
    surrogate pair, and the index arithmetic ["pos+Nc"] counts the two
    units.  The model indexes the text by characters; [tk_forward u n] is
    the number of characters at the start of [u] that [n] units cover
    (an index inside a pair is rounded up to the end of the pair, and
    the end of the text stops it). *)
Definition tk_width (c : Z) : nat := if (c <? 65536)%Z then 1 else 2.

Fixpoint tk_forward (u : pystr) (n : nat) : nat :=
  match n, u with
  | O, _ => O
  | S _, [] => O
  | S _, c :: u' => S (tk_forward u' (n - tk_width c))
  end.

Section Folded.
(** The character folding applied to both sides of the comparison. *)
Variable fold : Z -> Z.

(** [prefixb p t]: the text [t] begins with the pattern [p]. *)
Fixpoint prefixb (p t : pystr) : bool :=
  match p, t with
  | [], _ => true
  | a :: p', b :: t' => Z.eqb (fold a) (fold b) && prefixb p' t'
  | _ :: _, [] => false
  end.

(** The pattern occurs at offset [j] of [t]. *)
Definition match_at (t p : pystr) (j : nat) : bool := prefixb p (drop j t).

(** Scan the suffix [t] of the text, which starts at offset [j]. *)
Fixpoint scan (p t : pystr) (j : nat) : option nat :=
  match t with
  | [] => if prefixb p [] then Some j else None
  | _ :: t' => if prefixb p t then Some j else scan p t' (S j)
  end.

(** [text_widget.search(term, start, tk.END)]: the index of the first
    match at or after [start], or the empty string ([None]). *)
Definition tk_search (t p : pystr) (start : nat) : option nat :=
  scan p (drop start t) start.

(** The state of the [while True] loop: [start], [count] and the ranges
    added to the ["found"] tag, in the order of the [tag_add] calls. *)
Record loop_state := {
  ls_start : nat;
  ls_count : nat;
  ls_found : list (nat * nat)
}.

(** One pass of the loop body per unit of fuel; [None] when the fuel
    runs out before the [break].  [n] is [len(term)], which Python counts
    in characters and Tk, in ["{pos}+{n}c"], in units. *)
Fixpoint search_loop (fuel : nat) (t p : pystr) (n : nat) (s : loop_state) : option loop_state :=
  match fuel with
  | O => None
  | S fuel' =>
      match tk_search t p (ls_start s) with
      | None => Some s
      | Some pos =>
          let e := (pos + tk_forward (drop pos t) n)%nat in
          search_loop fuel' t p n
            {| ls_start := e; ls_count := S (ls_count s);
               ls_found := ls_found s ++ [(pos, e)] |}
      end
  end.

(** ** The specification: greedy leftmost non-overlapping occurrences

    [greedy t p i ms]: scanning [t] from offset [i], the occurrences
    found are [ms]: the leftmost occurrence at or after [i], then the
    greedy occurrences after its end. *)
Inductive greedy (t p : pystr) : nat -> list (nat * nat) -> Prop :=
| greedy_done i :
    (forall j, (i <= j)%nat -> match_at t p j = false) ->
    greedy t p i []
| greedy_next i j ms :
    (i <= j)%nat -> match_at t p j = true ->
    (forall k, (i <= k < j)%nat -> match_at t p k = false) ->
    greedy t p (j + length p) ms ->
    greedy t p i ((j, j + length p)%nat :: ms).
End Folded.

Arguments Build_loop_state : clear implicits.

(** ** The handler's state *)

(** The text of the result label. *)
Inductive label_text :=
| LEmpty
| LEnterTerm
| LFound (n : nat)
| LNoMatches.

(** The foreground of the result label; it is created blue. *)
Inductive color := Blue | Red.

(** What [perform_search] changes: the ranges of the ["found"] tag, the
    label's text and colour, the index last passed to [see], and whether
    [focus_set] moved the focus to the text. *)
Record search_view := {
  found : list (nat * nat);
  label : label_text;
  label_fg : color;
  seen : option nat;
  text_focus : bool
}.

(** The dialog as [open_search_window] creates it. *)
Definition initial_view : search_view :=
  {| found := []; label := LEmpty; label_fg := Blue; seen := None; text_focus := false |}.

(** The spec's sample buffer "Hello world hello" and the term "hello". *)
Definition hello_text : list Z :=
  [72; 101; 108; 108; 111; 32; 119; 111; 114; 108; 100; 32; 104; 101; 108; 108; 111]%Z.
Definition hello_term : list Z := [104; 101; 108; 108; 111]%Z.
(** A term that does not occur in it: "xyz". *)
Definition xyz_term : list Z := [120; 121; 122]%Z.

(** [tag_ranges("found")[0]]: Tk returns the tagged ranges in index
    order, so the first element is the least start. *)
Definition first_tag_start (rs : list (nat * nat)) : option nat :=
  foldr (fun r acc => Some (match acc with
                            | None => fst r
                            | Some a => Nat.min (fst r) a
                            end)) None rs.

Section Handler.
(** Tk's [-nocase] folding of a character. *)
Variable nocase_fold : Z -> Z.

(** The folding [search] applies, read from the "Match case" box. *)
Definition search_fold (case_sensitive : bool) : Z -> Z :=
  if case_sensitive then (fun c => c) else nocase_fold.

(** [perform_search]: [entry] is [search_entry.get()], [t] the text of
    the widget, [case_sensitive] the check box. *)
Definition perform_search (case_sensitive : bool) (entry t : pystr)
    (v : search_view) : option search_view :=
  let v := {| found := []; label := label v; label_fg := label_fg v;
              seen := seen v; text_focus := text_focus v |} in
  let term := strip entry in
  match term with
  | [] => Some {| found := []; label := LEnterTerm; label_fg := Red;
                  seen := seen v; text_focus := text_focus v |}
  | _ :: _ =>
      let content := tk_get_all t in
      match search_loop (search_fold case_sensitive) (S (length content)) content term (length term)
              (Build_loop_state 0%nat 0%nat []) with
      | None => None
      | Some s =>
          if (0 <? ls_count s)%nat then
            Some {| found := ls_found s; label := LFound (ls_count s);
                    label_fg := label_fg v;
                    seen := first_tag_start (ls_found s); text_focus := true |}
          else
            Some {| found := ls_found s; label := LNoMatches; label_fg := Red;
                    seen := seen v; text_focus := text_focus v |}
      end
  end.
End Handler.

(** The ranges start at or after [i], are non-empty and each starts at or
    after the end of the previous one: sorted and pairwise disjoint. *)
Fixpoint ordered_from (i : nat) (rs : list (nat * nat)) : Prop :=
  match rs with
  | [] => True
  | r :: rs' => (i <= fst r < snd r)%nat /\ ordered_from (snd r) rs'
  end.

(** ** Tk's search and the specification *)

Section FoldedFacts.
Variable fold : Z -> Z.

Lemma prefixb_length p u : prefixb fold p u = true -> length p <= length u.
Proof.
  revert u. induction p as [|a p IH]; intros [|b u]; simpl; try done; [lia|].
  intros [_ H]%andb_prop. apply IH in H. lia.
Qed.

(** A non-empty pattern ends inside the text where it matches. *)
Lemma match_at_bound t p j :
  p <> [] -> match_at fold t p j = true -> (j + length p <= length t)%nat.
Proof.
  unfold match_at. intros Hp H%prefixb_length. rewrite length_drop in H.
  destruct p; simpl in *; [done|].
  destruct (decide (j <= length t)%nat); lia.
Qed.

Lemma match_at_past t p j :
  p <> [] -> (length t <= j)%nat -> match_at fold t p j = false.
Proof.
  intros Hp Hj. unfold match_at. rewrite drop_ge by done. by destruct p.
Qed.

Lemma scan_sound t p k : forall u j,
  u = drop j t -> scan fold p u j = Some k ->
  (j <= k)%nat /\ match_at fold t p k = true /\
  (forall m, (j <= m < k)%nat -> match_at fold t p m = false).
Proof.
  induction u as [|c u IH]; intros j Hu; simpl.
  - destruct (prefixb fold p []) eqn:E; intros; simplify_eq.
    unfold match_at. rewrite <- Hu. split_and!; [lia|done|lia].
  - destruct (prefixb fold p (c :: u)) eqn:E; intros Hs; simplify_eq.
    + unfold match_at. rewrite <- Hu. split_and!; [lia|done|lia].
    + destruct (IH (S j) (eq_sym (drop_S_tail _ _ _ _ (eq_sym Hu))) Hs)
        as (Hle & Hm & Hmin).
      split_and!; [lia|done|]. intros m Hm'.
      destruct (decide (m = j)) as [->|]; [|apply Hmin; lia].
      unfold match_at. by rewrite <- Hu.
Qed.

Lemma scan_none t p : forall u j,
  u = drop j t -> scan fold p u j = None ->
  forall m, (j <= m)%nat -> match_at fold t p m = false.
Proof.
  induction u as [|c u IH]; intros j Hu; simpl.
  - destruct (prefixb fold p []) eqn:E; [done|]. intros _ m Hm.
    symmetry in Hu. apply drop_nil_ge in Hu.
    unfold match_at. by rewrite drop_ge by lia.
  - destruct (prefixb fold p (c :: u)) eqn:E; [done|]. intros Hs m Hm.
    destruct (decide (m = j)) as [->|].
    + unfold match_at. by rewrite <- Hu.
    + apply (IH (S j)); [|done|lia].
      exact (eq_sym (drop_S_tail _ _ _ _ (eq_sym Hu))).
Qed.

Lemma tk_search_sound t p i j :
  tk_search fold t p i = Some j ->
  (i <= j)%nat /\ match_at fold t p j = true /\
  (forall k, (i <= k < j)%nat -> match_at fold t p k = false).
Proof. apply scan_sound. done. Qed.

Lemma tk_search_none t p i :
  tk_search fold t p i = None -> forall j, (i <= j)%nat -> match_at fold t p j = false.
Proof. apply scan_none. done. Qed.

(** The greedy occurrences from an offset are unique. *)
Lemma greedy_unique t p i ms1 ms2 :
  greedy fold t p i ms1 -> greedy fold t p i ms2 -> ms1 = ms2.
Proof.
  intros H1. revert ms2. induction H1 as [i Hnone|i j ms Hij Hj Hmin Hrest IH];
    intros ms2 H2; inversion H2 as [|i' j' ms' Hij' Hj' Hmin' Hrest']; subst.
  - done.
  - by rewrite Hnone in Hj'.
  - match goal with Hn : forall j, _ -> match_at _ _ _ j = false |- _ =>
      by rewrite Hn in Hj end.
  - assert (j = j') as <-.
    { destruct (Nat.lt_total j j') as [Hlt|[?|Hlt]]; [|done|].
      - by rewrite Hmin' in Hj by lia.
      - by rewrite Hmin in Hj' by lia. }
    f_equal. by apply IH.
Qed.

Lemma tk_forward_le u n : (tk_forward u n <= length u)%nat.
Proof.
  revert n. induction u as [|c u IH]; intros [|n]; simpl; try lia.
  specialize (IH (S n - tk_width c)%nat). lia.
Qed.

Lemma tk_forward_pos u n : (0 < n)%nat -> u <> [] -> (0 < tk_forward u n)%nat.
Proof. destruct n, u; simpl; intros; try done; lia. Qed.

(** Over a match of a term with no character above U+FFFF, when the
    folding keeps widths, [len(term)] units are [len(term)] characters. *)
Lemma tk_forward_match p u :
  (forall c, tk_width (fold c) = tk_width c) -> Forall (fun c => tk_width c = 1) p ->
  prefixb fold p u = true -> tk_forward u (length p) = length p.
Proof.
  intros Hf. revert u. induction p as [|a p IH]; intros u Hp; [by destruct u|].
  destruct u as [|b u]; [done|]. simpl. intros [Hab%Z.eqb_eq Hpu]%andb_prop.
  apply Forall_cons in Hp as [Ha Hp].
  assert (Hb : tk_width b = 1) by (rewrite <- (Hf b), <- Hab, Hf; exact Ha).
  rewrite Hb. replace (S (length p) - 1)%nat with (length p) by lia. by rewrite IH.
Qed.

(** The loop with enough fuel computes the greedy occurrences when, at
    every match, [n] units are the term's length in characters: the
    refinement of [search_loop] by [greedy], with termination. *)
Lemma search_loop_greedy t p n :
  p <> [] -> (forall j, match_at fold t p j = true -> tk_forward (drop j t) n = length p) ->
  forall fuel s, (length t - ls_start s < fuel)%nat ->
  exists ms e, greedy fold t p (ls_start s) ms /\
    search_loop fold fuel t p n s =
      Some (Build_loop_state e (ls_count s + length ms) (ls_found s ++ ms)).
Proof.
  intros Hp HA. induction fuel as [|fuel IH]; intros s Hf; [lia|]. simpl.
  destruct (tk_search fold t p (ls_start s)) as [pos|] eqn:Hs.
  - destruct (tk_search_sound _ _ _ _ Hs) as (Hle & Hm & Hmin).
    pose proof (match_at_bound _ _ _ Hp Hm) as Hb. rewrite (HA pos Hm).
    assert (length p <> 0%nat) by (destruct p; simpl; [done|lia]).
    edestruct (IH (Build_loop_state (pos + length p) (S (ls_count s))
                     (ls_found s ++ [(pos, pos + length p)])))
      as (ms & e & Hg & ->); [simpl; lia|].
    exists ((pos, pos + length p)%nat :: ms), e. split.
    + by constructor.
    + simpl. rewrite <- app_assoc. do 3 f_equal. lia.
  - exists [], (ls_start s). split.
    + constructor. by apply tk_search_none.
    + destruct s; simpl. by rewrite Nat.add_0_r, app_nil_r.
Qed.

(** Whatever the term, the loop with enough fuel ends; its ranges start
    at matches, are in order and end inside the text. *)
Lemma search_loop_runs t p n :
  p <> [] -> (0 < n)%nat -> forall fuel s, (length t - ls_start s < fuel)%nat ->
  exists ms e, search_loop fold fuel t p n s =
      Some (Build_loop_state e (ls_count s + length ms) (ls_found s ++ ms)) /\
    ordered_from (ls_start s) ms /\
    Forall (fun r => (snd r <= length t)%nat /\ match_at fold t p (fst r) = true) ms.
Proof.
  intros Hp Hn. induction fuel as [|fuel IH]; intros s Hf; [lia|]. simpl.
  destruct (tk_search fold t p (ls_start s)) as [pos|] eqn:Hs.
  - destruct (tk_search_sound _ _ _ _ Hs) as (Hle & Hm & _).
    pose proof (match_at_bound _ _ _ Hp Hm) as Hb.
    assert (Hd : drop pos t <> []) by (intros Hd%drop_nil_ge; destruct p; simpl in *; [done|lia]).
    pose proof (tk_forward_pos (drop pos t) n Hn Hd) as H1.
    pose proof (tk_forward_le (drop pos t) n) as H2. rewrite length_drop in H2.
    edestruct (IH (Build_loop_state (pos + tk_forward (drop pos t) n) (S (ls_count s))
                     (ls_found s ++ [(pos, pos + tk_forward (drop pos t) n)])))
      as (ms & e' & -> & Ho & Hr); [simpl; lia|].
    exists ((pos, pos + tk_forward (drop pos t) n)%nat :: ms), e'. split_and!.
    + simpl. rewrite <- app_assoc. do 3 f_equal. lia.
    + simpl. split; [lia|done].
    + constructor; [simpl; split; [lia|done]|done].
  - exists [], (ls_start s). split_and!; [|done|done].
    destruct s; simpl. by rewrite Nat.add_0_r, app_nil_r.
Qed.

(** Adding fuel to a finished loop changes nothing. *)
Lemma search_loop_more_fuel t p n fuel s r :
  search_loop fold fuel t p n s = Some r -> search_loop fold (S fuel) t p n s = Some r.
Proof.
  revert s. induction fuel as [|fuel IH]; intros s; [done|].
  simpl. destruct (tk_search fold t p (ls_start s)); [|done]. apply IH.
Qed.

End FoldedFacts.

(** With an empty pattern Tk's search matches at once where it starts. *)
Lemma tk_search_nil fold t i : tk_search fold t [] i = Some i.
Proof. unfold tk_search. by destruct (drop i t). Qed.

(** Tcl's [-nocase] folding keeps characters below U+FFFF below it. *)
Lemma tcl_lower_width c : tk_width (tcl_lower c) = tk_width c.
Proof.
  unfold tcl_lower, tk_width.
  destruct (((65 <=? c) && (c <=? 90)) || ((192 <=? c) && (c <=? 222) && negb (c =? 215)))%Z eqn:E; [|done].
  rewrite ?orb_true_iff, ?andb_true_iff, ?Z.leb_le in E.
  destruct (Z.ltb_spec (c + 32) 65536), (Z.ltb_spec c 65536); try done; lia.
Qed.

Section HandlerFacts.
Variable nocase_fold : Z -> Z.

Lemma perform_search_blank_eq cs entry t v :
  strip entry = [] ->
  perform_search nocase_fold cs entry t v =
    Some {| found := []; label := LEnterTerm; label_fg := Red;
            seen := seen v; text_focus := text_focus v |}.
Proof. intros E. unfold perform_search. by rewrite E. Qed.

(** The run of the loop that [perform_search] starts on a non-blank term. *)
Lemma perform_search_run cs entry t :
  strip entry <> [] ->
  exists ms e,
    search_loop (search_fold nocase_fold cs) (S (length (tk_get_all t)))
      (tk_get_all t) (strip entry) (length (strip entry)) (Build_loop_state 0 0 []) =
      Some (Build_loop_state e (length ms) ms) /\
    ordered_from 0 ms /\
    Forall (fun r => (snd r <= length (tk_get_all t))%nat /\
                     match_at (search_fold nocase_fold cs) (tk_get_all t) (strip entry) (fst r) = true) ms.
Proof.
  intros Hne. assert (Hn : (0 < length (strip entry))%nat) by (destruct (strip entry); [done|simpl; lia]).
  destruct (search_loop_runs (search_fold nocase_fold cs) (tk_get_all t) (strip entry)
    (length (strip entry)) Hne Hn (S (length (tk_get_all t))) (Build_loop_state 0 0 []) ltac:(simpl; lia))
    as (ms & e & Hrun & Ho & Hr).
  exists ms, e. by split_and!.
Qed.

(** On a term with no character above U+FFFF, with a folding that keeps
    widths, the run computes the greedy occurrences. *)
Lemma perform_search_run_greedy cs entry t :
  (forall c, tk_width (nocase_fold c) = tk_width c) -> Forall (fun c => tk_width c = 1) (strip entry) ->
  strip entry <> [] ->
  exists ms e,
    greedy (search_fold nocase_fold cs) (tk_get_all t) (strip entry) 0 ms /\
    search_loop (search_fold nocase_fold cs) (S (length (tk_get_all t)))
      (tk_get_all t) (strip entry) (length (strip entry)) (Build_loop_state 0 0 []) =
      Some (Build_loop_state e (length ms) ms).
Proof.
  intros Hf Hb Hne.
  assert (HA : forall j, match_at (search_fold nocase_fold cs) (tk_get_all t) (strip entry) j = true ->
                 tk_forward (drop j (tk_get_all t)) (length (strip entry)) = length (strip entry)).
  { intros j Hm. apply (tk_forward_match (search_fold nocase_fold cs)); [|done|exact Hm]. intros c. unfold search_fold. by destruct cs. }
  destruct (search_loop_greedy (search_fold nocase_fold cs) (tk_get_all t) (strip entry)
    (length (strip entry)) Hne HA (S (length (tk_get_all t))) (Build_loop_state 0 0 []) ltac:(simpl; lia))
    as (ms & e & Hg & Hrun).
  by exists ms, e.
Qed.

Lemma perform_search_nonblank_eq cs entry t v ms e :
  strip entry <> [] ->
  search_loop (search_fold nocase_fold cs) (S (length (tk_get_all t)))
    (tk_get_all t) (strip entry) (length (strip entry)) (Build_loop_state 0 0 []) =
    Some (Build_loop_state e (length ms) ms) ->
  perform_search nocase_fold cs entry t v =
    Some (if (0 <? length ms)%nat
          then {| found := ms; label := LFound (length ms); label_fg := label_fg v;
                  seen := first_tag_start ms; text_focus := true |}
          else {| found := ms; label := LNoMatches; label_fg := Red;
                  seen := seen v; text_focus := text_focus v |}).
Proof.
  intros Hne Hrun. unfold perform_search.
  destruct (strip entry) as [|c r]; [done|]. rewrite Hrun. simpl.
  by destruct (0 <? length ms)%nat.
Qed.

(** What a search tags: nothing for a blank term; otherwise ranges that
    start at matches of the stripped term, in order, inside
    [get(1.0, END)]. *)
Lemma perform_search_found cs entry t v v' :
  perform_search nocase_fold cs entry t v = Some v' ->
  (strip entry = [] /\ found v' = []) \/
  (strip entry <> [] /\ ordered_from 0 (found v') /\
   Forall (fun r => (snd r <= length (tk_get_all t))%nat /\
                    match_at (search_fold nocase_fold cs) (tk_get_all t) (strip entry) (fst r) = true)
     (found v')).
Proof.
  destruct (decide (strip entry = [])) as [E|Hne].
  - rewrite perform_search_blank_eq by done. intros [= <-]. by left.
  - destruct (perform_search_run cs entry t Hne) as (ms & e & Hrun & Ho & Hr).
    rewrite (perform_search_nonblank_eq cs entry t v ms e Hne Hrun). intros [= <-]. right.
    by destruct (0 <? length ms)%nat.
Qed.
End HandlerFacts.

(** ** Properties of [perform_search] *)

Section SearchClaims.
Variable nocase_fold : Z -> Z.

(** C1 (refinement).  On a term that is not blank after [strip()] and
    has no character above U+FFFF (so that Python's [len(term)] and Tk's
    unit count of ["{pos}+{len(term)}c"] agree), with a [-nocase] folding
    that keeps characters on their side of U+FFFF, [perform_search]
    returns, and the ranges it tags are exactly the greedy leftmost
    non-overlapping occurrences of the stripped term in [get(1.0, END)]
    (the specification [greedy] has no other solution), and the label
    reports their number, or "No matches found". *)
Theorem perform_search_refines_greedy (cs : bool) (entry t : pystr) (v : search_view) :
  (forall c, tk_width (nocase_fold c) = tk_width c) -> Forall (fun c => tk_width c = 1) (strip entry) ->
  strip entry <> [] ->
  exists v', perform_search nocase_fold cs entry t v = Some v' /\
    (forall ms, greedy (search_fold nocase_fold cs) (tk_get_all t) (strip entry) 0 ms
                <-> found v' = ms) /\
    label v' = match found v' with [] => LNoMatches | _ => LFound (length (found v')) end.
Proof.
  intros Hf Hb Hne. destruct (perform_search_run_greedy nocase_fold cs entry t Hf Hb Hne) as (ms & e & Hg & Hrun).
  rewrite (perform_search_nonblank_eq nocase_fold cs entry t v ms e Hne Hrun).
  eexists; split; [reflexivity|].
  assert (Hiff : forall ms', greedy (search_fold nocase_fold cs) (tk_get_all t) (strip entry) 0 ms'
                             <-> ms = ms').
  { intros ms'. split; [by apply greedy_unique|by intros <-]. }
  destruct ms as [|r ms]; simpl; auto.
Qed.

(** C2 (termination).  [perform_search] always returns: the fuel of
    [length content + 1] loop iterations it runs with is never exhausted,
    whatever the entry (characters above U+FFFF included), the text and
    the check box. *)
Theorem perform_search_terminates (cs : bool) (entry t : pystr) (v : search_view) :
  exists v', perform_search nocase_fold cs entry t v = Some v'.
Proof.
  destruct (decide (strip entry = [])) as [E|Hne].
  - rewrite perform_search_blank_eq by done. eauto.
  - destruct (perform_search_run nocase_fold cs entry t Hne) as (ms & e & Hrun & _).
    rewrite (perform_search_nonblank_eq nocase_fold cs entry t v ms e Hne Hrun). eauto.
Qed.

(** C3 (error).  A term made only of whitespace (or empty) is refused
    before any scan: no range is tagged (the previous highlighting is
    removed) and the label says "Enter a search term" in red. *)
Theorem perform_search_blank_term (cs : bool) (entry t : pystr) (v : search_view) :
  Forall (fun c => isspace c = true) entry ->
  perform_search nocase_fold cs entry t v =
    Some {| found := []; label := LEnterTerm; label_fg := Red;
            seen := seen v; text_focus := text_focus v |}.
Proof. intros H. apply perform_search_blank_eq. by apply strip_nil_iff. Qed.

(** C37 (safety).  Every tagged range starts at an occurrence of the stripped term and
    ends within [get(1.0, END)], and the ranges are sorted and pairwise
    disjoint, whatever the term. *)
Theorem perform_search_ranges (cs : bool) (entry t : pystr) (v v' : search_view) :
  perform_search nocase_fold cs entry t v = Some v' ->
  ordered_from 0 (found v') /\
  Forall (fun r => (snd r <= S (length t))%nat /\
                   match_at (search_fold nocase_fold cs) (tk_get_all t) (strip entry) (fst r) = true)
         (found v').
Proof.
  intros E. destruct (perform_search_found nocase_fold cs entry t v v' E) as [[_ ->]|(_ & Ho & Hr)]; [done|].
  split; [done|]. refine (Forall_impl _ _ _ Hr _). intros r [Hb Hm]. by rewrite tk_get_all_length in Hb.
Qed.

(** C38 (functional).  Searching twice with the same entry and text
    gives the same state as searching once: the handler is idempotent. *)
Theorem perform_search_idempotent (cs : bool) (entry t : pystr) (v v' : search_view) :
  perform_search nocase_fold cs entry t v = Some v' ->
  perform_search nocase_fold cs entry t v' = Some v'.
Proof.
  destruct (decide (strip entry = [])) as [E|Hne].
  - rewrite !perform_search_blank_eq by done. by intros [= <-].
  - destruct (perform_search_run nocase_fold cs entry t Hne) as (ms & e & Hrun & _).
    rewrite !(perform_search_nonblank_eq nocase_fold cs entry t _ ms e Hne Hrun).
    intros [= <-]. by destruct (0 <? length ms)%nat.
Qed.

(** The [strip()] guard is what makes the loop finite:
    with an empty term Tk's [search] matches where it starts, [start]
    never advances, and the loop exhausts any fuel. *)
Theorem search_loop_empty_term_diverges (fold : Z -> Z) (fuel : nat) (t : pystr) (s : loop_state) :
  search_loop fold fuel t [] 0 s = None.
Proof.
  revert s. induction fuel as [|fuel IH]; intros s; [done|].
  simpl. rewrite tk_search_nil. apply IH.
Qed.

(** C6 (functional).  A successful search leaves the label's colour as
    it was: after a search that found nothing (label red), the next
    "Found n match(es)" is shown in red too. *)
Theorem perform_search_keeps_color (cs : bool) (entry t : pystr) (v v' : search_view) :
  perform_search nocase_fold cs entry t v = Some v' -> found v' <> [] ->
  label_fg v' = label_fg v.
Proof.
  destruct (decide (strip entry = [])) as [E|Hne].
  - rewrite perform_search_blank_eq by done. by intros [= <-].
  - destruct (perform_search_run nocase_fold cs entry t Hne) as (ms & e & Hrun & _).
    rewrite (perform_search_nonblank_eq nocase_fold cs entry t v ms e Hne Hrun).
    intros [= <-]. destruct ms; simpl; done.
Qed.
End SearchClaims.

(** The spec's example: in "Hello world hello" the
    case-insensitive search for "hello" tags two matches, at offsets 0 and
    12, and jumps to offset 0; the case-sensitive search tags one, at 12. *)
Example perform_search_hello_example :
  perform_search tcl_lower false hello_term hello_text initial_view =
    Some {| found := [(0, 5); (12, 17)]; label := LFound 2; label_fg := Blue;
            seen := Some 0; text_focus := true |} /\
  perform_search tcl_lower true hello_term hello_text initial_view =
    Some {| found := [(12, 17)]; label := LFound 1; label_fg := Blue;
            seen := Some 12; text_focus := true |}.
Proof. split; vm_compute; reflexivity. Qed.

(** The term "\U0001F600\U0001F600" and the text of three of them:
    characters above U+FFFF, two Tk units each. *)
Definition astral_term : pystr := [128512; 128512]%Z.
Definition astral_text : pystr := [128512; 128512; 128512]%Z.

(** Where Python's [len(term)] and Tk's units disagree: the search for
    the astral term in the astral text advances by two units, one
    character, after each match, so it counts two matches, the second
    starting inside the first, where the greedy occurrences are one. *)
Lemma perform_search_astral_overlap :
  perform_search tcl_lower true astral_term astral_text initial_view =
    Some {| found := [(0, 1); (1, 2)]; label := LFound 2; label_fg := Blue;
            seen := Some 0; text_focus := true |} /\
  greedy (search_fold tcl_lower true) (tk_get_all astral_text) astral_term 0 [(0, 2)].
Proof.
  split; [vm_compute; reflexivity|].
  change [(0, 2)] with [(0, 0 + length astral_term)%nat].
  apply (greedy_next (search_fold tcl_lower true) (tk_get_all astral_text) astral_term 0 0 []);
    [lia|reflexivity|lia|].
  apply greedy_done. intros j Hj.
  destruct (decide (j < 4)%nat) as [Hlt|Hge].
  - assert (j = 2 \/ j = 3)%nat as [-> | ->] by (cbn in Hj; lia); reflexivity.
  - apply match_at_past; [discriminate|cbn; lia].
Qed.

(** ** Witnesses *)

Lemma perform_search_refines_greedy_witness :
  exists v', perform_search tcl_lower false hello_term hello_text initial_view = Some v' /\
    (forall ms, greedy (search_fold tcl_lower false) (tk_get_all hello_text) (strip hello_term) 0 ms
                <-> found v' = ms) /\
    label v' = match found v' with [] => LNoMatches | _ => LFound (length (found v')) end.
Proof.
  apply (perform_search_refines_greedy tcl_lower false hello_term hello_text initial_view).
  - exact tcl_lower_width.
  - vm_compute. repeat constructor.
  - vm_compute. discriminate.
Defined.

Lemma perform_search_blank_term_witness :
  perform_search tcl_lower true [32; 9]%Z hello_text initial_view =
    Some {| found := []; label := LEnterTerm; label_fg := Red;
            seen := seen initial_view; text_focus := text_focus initial_view |}.
Proof.
  apply (perform_search_blank_term tcl_lower true [32; 9]%Z hello_text initial_view).
  repeat constructor.
Defined.

Lemma perform_search_ranges_witness :
  let v' := {| found := [(0, 5); (12, 17)]; label := LFound 2; label_fg := Blue;
               seen := Some 0; text_focus := true |} in
  ordered_from 0 (found v') /\
  Forall (fun r => (snd r <= S (length hello_text))%nat /\
                   match_at (search_fold tcl_lower false) (tk_get_all hello_text)
                     (strip hello_term) (fst r) = true) (found v').
Proof.
  intros v'.
  apply (perform_search_ranges tcl_lower false hello_term hello_text initial_view v').
  vm_compute. reflexivity.
Defined.

Lemma perform_search_idempotent_witness :
  let v' := {| found := [(12, 17)]; label := LFound 1; label_fg := Blue;
               seen := Some 12; text_focus := true |} in
  perform_search tcl_lower true hello_term hello_text v' = Some v'.
Proof.
  intros v'.
  apply (perform_search_idempotent tcl_lower true hello_term hello_text initial_view v').
  vm_compute. reflexivity.
Defined.

Lemma perform_search_keeps_color_witness :
  let v1 := {| found := []; label := LNoMatches; label_fg := Red;
               seen := None; text_focus := false |} in
  let v2 := {| found := [(12, 17)]; label := LFound 1; label_fg := Red;
               seen := Some 12; text_focus := true |} in
  perform_search tcl_lower true xyz_term hello_text initial_view = Some v1 /\
  label_fg v2 = label_fg v1.
Proof.
  intros v1 v2. split; [vm_compute; reflexivity|].
  apply (perform_search_keeps_color tcl_lower true hello_term hello_text v1 v2).
  - vm_compute. reflexivity.
  - discriminate.
Defined.
