(* ===== verification/Codec.v ===== *)
(** * The text codecs [open] and [write] go through

    [FileOperations.open_file] reads a file with [open(path, 'r',
    encoding=e)] for e in utf-8, latin-1, utf-16 and cp1252, and
    [save_file] / [save_file_as] write with [open(path, 'w',
    encoding=current_encoding)].  This file models the four CPython codecs
    as functions on bytes (a byte is a [Z] in [0, 256)):

    - [utf8_decode] is CPython's strict decoder: it refuses overlong forms,
      surrogates (ED A0..BF), code points above U+10FFFF and truncated
      sequences; [utf8_encode_char] refuses lone surrogates;
    - latin-1 maps each byte to the code point of the same value and
      refuses code points above U+00FF on encoding.

    The codecs share the interface [codec] (a record of the two
    operations), whose law, [codec_roundtrip], says that decoding what
    the encoder produced gives the text back.  The last part proves the
    data types the rest of the development relies on: every encoder
    writes bytes, every decoder reads Unicode scalar values ([is_scalar])
    out of bytes ([is_byte]), and utf-8 and utf-16 encode every text. *)

From S2P Require Import Prelude Text.

Local Open Scope Z_scope.

(** Bytes as CPython's codecs see them. *)
Abbreviation bytes := (list Z).

(** The value of a byte. *)
Definition is_byte (b : Z) : Prop := 0 <= b < 256.

(** ** Encoding a whole string *)

(** [str.encode]: every character through [f], failing on the first
    character [f] refuses ([UnicodeEncodeError]). *)
Fixpoint encode_with (f : Z -> option bytes) (s : pystr) : option bytes :=
  match s with
  | [] => Some []
  | c :: r =>
      match f c, encode_with f r with
      | Some b, Some bs => Some (b ++ bs)
      | _, _ => None
      end
  end.

(** ** UTF-8 *)

(** The six payload bits of a continuation byte, [b & 0x3F]. *)
Definition cbits (b : Z) : Z := Z.land b 63.

(** A continuation byte, 0x80 to 0xBF. *)
Definition cont (b : Z) : bool := (128 <=? b) && (b <=? 191).

(** The second byte of a three-byte sequence: after E0 it must be A0..BF
    (no overlong form), after ED 80..9F (no surrogate). *)
Definition second3 (b0 b1 : Z) : bool :=
  if b0 =? 224 then (160 <=? b1) && (b1 <=? 191)
  else if b0 =? 237 then (128 <=? b1) && (b1 <=? 159)
  else cont b1.

(** The second byte of a four-byte sequence: after F0 it must be 90..BF
    (no overlong form), after F4 80..8F (nothing above U+10FFFF). *)
Definition second4 (b0 b1 : Z) : bool :=
  if b0 =? 240 then (144 <=? b1) && (b1 <=? 191)
  else if b0 =? 244 then (128 <=? b1) && (b1 <=? 143)
  else cont b1.

(** [bytes.decode('utf-8')] with the strict error handler. *)
Fixpoint utf8_decode (bs : bytes) : option pystr :=
  match bs with
  | [] => Some []
  | b0 :: r0 =>
      if b0 <? 128 then cons b0 <$> utf8_decode r0
      else if (194 <=? b0) && (b0 <=? 223) then
        match r0 with
        | b1 :: r1 =>
            if cont b1
            then cons (Z.lor (Z.shiftl (Z.land b0 31) 6) (cbits b1)) <$> utf8_decode r1
            else None
        | [] => None
        end
      else if (224 <=? b0) && (b0 <=? 239) then
        match r0 with
        | b1 :: b2 :: r2 =>
            if second3 b0 b1 && cont b2
            then cons (Z.lor (Z.shiftl (Z.lor (Z.shiftl (Z.land b0 15) 6) (cbits b1)) 6)
                             (cbits b2)) <$> utf8_decode r2
            else None
        | _ => None
        end
      else if (240 <=? b0) && (b0 <=? 244) then
        match r0 with
        | b1 :: b2 :: b3 :: r3 =>
            if second4 b0 b1 && cont b2 && cont b3
            then cons (Z.lor (Z.shiftl (Z.lor (Z.shiftl (Z.lor (Z.shiftl (Z.land b0 7) 6)
                                                              (cbits b1)) 6)
                                                 (cbits b2)) 6)
                             (cbits b3)) <$> utf8_decode r3
            else None
        | _ => None
        end
      else None
  end.

(** The UTF-8 encoder on one code point; a surrogate U+D800..U+DFFF
    raises ("surrogates not allowed"). *)
Definition utf8_encode_char (c : Z) : option bytes :=
  if (0 <=? c) && (c <? 128) then Some [c]
  else if (128 <=? c) && (c <? 2048) then
    Some [Z.lor 192 (Z.shiftr c 6); Z.lor 128 (cbits c)]
  else if (2048 <=? c) && (c <? 65536) then
    if (55296 <=? c) && (c <=? 57343) then None
    else Some [Z.lor 224 (Z.shiftr c 12); Z.lor 128 (cbits (Z.shiftr c 6));
               Z.lor 128 (cbits c)]
  else if (65536 <=? c) && (c <? 1114112) then
    Some [Z.lor 240 (Z.shiftr c 18); Z.lor 128 (cbits (Z.shiftr c 12));
          Z.lor 128 (cbits (Z.shiftr c 6)); Z.lor 128 (cbits c)]
  else None.

(** ** Latin-1 *)

(** [bytes.decode('latin-1')]: every byte is the code point of its value. *)
Definition latin1_decode (bs : bytes) : option pystr := Some bs.

(** The latin-1 encoder refuses code points above U+00FF. *)
Definition latin1_encode_char (c : Z) : option bytes :=
  if (0 <=? c) && (c <? 256) then Some [c] else None.

(** ** UTF-16 *)

(** A 16-bit code unit from its two bytes, in little- or big-endian
    order. *)
Definition unit16 (big : bool) (b0 b1 : Z) : Z :=
  if big then Z.lor (Z.shiftl b0 8) b1 else Z.lor (Z.shiftl b1 8) b0.

(** The code units of the 'utf-16-le' or 'utf-16-be' decoder: a high
    surrogate must be followed by a low one; a lone surrogate or an odd
    trailing byte raises. *)
Fixpoint utf16_units (big : bool) (bs : bytes) : option pystr :=
  match bs with
  | [] => Some []
  | [_] => None
  | b0 :: b1 :: r =>
      let u := unit16 big b0 b1 in
      if (u <? 55296) || (57343 <? u) then cons u <$> utf16_units big r
      else if u <=? 56319 then
        match r with
        | b2 :: b3 :: r' =>
            let u2 := unit16 big b2 b3 in
            if (56320 <=? u2) && (u2 <=? 57343)
            then cons (Z.lor (Z.shiftl (u - 55296) 10) (u2 - 56320) + 65536)
                   <$> utf16_units big r'
            else None
        | _ => None
        end
      else None
  end.

(** [bytes.decode('utf-16')]: a byte order mark FF FE or FE FF chooses the
    order and is dropped; without one the platform order, little-endian,
    is used. *)
Definition utf16_decode (bs : bytes) : option pystr :=
  match bs with
  | 255 :: 254 :: r => utf16_units false r
  | 254 :: 255 :: r => utf16_units true r
  | _ => utf16_units false bs
  end.

(** The little-endian code units of one code point; a lone surrogate
    raises. *)
Definition utf16le_encode_char (c : Z) : option bytes :=
  if (0 <=? c) && (c <? 65536) then
    if (55296 <=? c) && (c <=? 57343) then None
    else Some [Z.land c 255; Z.shiftr c 8]
  else if (65536 <=? c) && (c <? 1114112) then
    let hi := Z.lor 55296 (Z.shiftr (c - 65536) 10) in
    let lo := Z.lor 56320 (Z.land (c - 65536) 1023) in
    Some [Z.land hi 255; Z.shiftr hi 8; Z.land lo 255; Z.shiftr lo 8]
  else None.

(** [str.encode('utf-16')]: the byte order mark FF FE, then the text in
    little-endian order. *)
Definition utf16_encode (s : pystr) : option bytes :=
  app [255; 254] <$> encode_with utf16le_encode_char s.

(** ** cp1252 *)

(** The code points of the bytes 0x80 to 0x9F; the five bytes 0x81, 0x8D,
    0x8F, 0x90 and 0x9D are undefined and raise on decoding. *)
Definition cp1252_high : list (option Z) :=
  [Some 8364; None; Some 8218; Some 402; Some 8222; Some 8230; Some 8224; Some 8225;
   Some 710; Some 8240; Some 352; Some 8249; Some 338; None; Some 381; None;
   None; Some 8216; Some 8217; Some 8220; Some 8221; Some 8226; Some 8211; Some 8212;
   Some 732; Some 8482; Some 353; Some 8250; Some 339; None; Some 382; Some 376].

(** The decoding of one byte. *)
Definition cp1252_decode_byte (b : Z) : option Z :=
  if (128 <=? b) && (b <? 160) then mjoin (cp1252_high !! Z.to_nat (b - 128))
  else Some b.

(** [bytes.decode('cp1252')]. *)
Fixpoint cp1252_decode (bs : bytes) : option pystr :=
  match bs with
  | [] => Some []
  | b :: r =>
      match cp1252_decode_byte b, cp1252_decode r with
      | Some c, Some s => Some (c :: s)
      | _, _ => None
      end
  end.

(** The position of a code point in [cp1252_high]. *)
Fixpoint find_high (c : Z) (l : list (option Z)) (i : nat) : option nat :=
  match l with
  | [] => None
  | o :: l' => if bool_decide (o = Some c) then Some i else find_high c l' (S i)
  end.

(** The cp1252 encoder on one code point. *)
Definition cp1252_encode_char (c : Z) : option bytes :=
  if ((0 <=? c) && (c <? 128)) || ((160 <=? c) && (c <? 256)) then Some [c]
  else (fun i => [128 + Z.of_nat i]) <$> find_high c cp1252_high 0.

(** ** The codec interface *)

(** What [open] needs of an encoding: [bytes.decode] and [str.encode],
    [None] when they raise. *)
Record codec := {
  decode : bytes -> option pystr;
  encode : pystr -> option bytes
}.

Definition utf8 : codec := {| decode := utf8_decode; encode := encode_with utf8_encode_char |}.
Definition latin1 : codec := {| decode := latin1_decode; encode := encode_with latin1_encode_char |}.
Definition utf16 : codec := {| decode := utf16_decode; encode := utf16_encode |}.
Definition cp1252 : codec := {| decode := cp1252_decode; encode := encode_with cp1252_encode_char |}.

(** [codecs.lookup] on the names the editor uses: the list of
    [open_file] and the lower-cased labels of the Encoding menu. *)
Definition lookup_codec (name : string) : option codec :=
  if bool_decide (name = "utf-8") then Some utf8
  else if bool_decide (name = "latin-1") then Some latin1
  else if bool_decide (name = "utf-16") then Some utf16
  else if bool_decide (name = "cp1252") then Some cp1252
  else None.

(** ** Text mode *)

(** Universal newlines, what [f.read()] applies after decoding: "\r\n"
    and a lone "\r" become "\n". *)
Fixpoint univ_newlines (s : pystr) : pystr :=
  match s with
  | [] => []
  | c :: r =>
      if c =? CR then
        match r with
        | d :: r' => if d =? LF then LF :: univ_newlines r' else LF :: univ_newlines r
        | [] => [LF]
        end
      else c :: univ_newlines r
  end.

(** What [f.write(s)] does to newlines: each "\n" becomes [os.linesep]. *)
Definition write_newlines (linesep s : pystr) : pystr :=
  concat (map (fun c => if c =? LF then linesep else [c]) s).

(** [open(path, 'r', encoding=k).read()] on the file's bytes. *)
Definition text_read (k : codec) (bs : bytes) : pyresult pystr :=
  match decode k bs with
  | Some s => Ok (univ_newlines s)
  | None => Raise UnicodeDecodeError
  end.

(** The bytes [open(path, 'w', encoding=k).write(s)] leaves in the file,
    or the error the encoder raises. *)
Definition text_write (k : codec) (linesep s : pystr) : pyresult bytes :=
  match encode k (write_newlines linesep s) with
  | Some bs => Ok bs
  | None => Raise UnicodeEncodeError
  end.

(** The law a codec satisfies: decoding an encoding gives the text. *)
Definition codec_roundtrip (k : codec) : Prop :=
  forall s bs, encode k s = Some bs -> decode k bs = Some s.

(** ** Lemmas *)

Lemma cbits_mod b : cbits b = b mod 64.
Proof. apply (land_lit b 63 6 64); done. Qed.

(** One decoding step per sequence length. *)
Lemma utf8_decode_step1 b0 r :
  0 <= b0 < 128 -> utf8_decode (b0 :: r) = cons b0 <$> utf8_decode r.
Proof. intros. remember r as r0. simpl. z_cases. Qed.

Lemma utf8_decode_step2 b0 b1 r :
  194 <= b0 <= 223 -> cont b1 = true ->
  utf8_decode (b0 :: b1 :: r) =
    cons (Z.lor (Z.shiftl (Z.land b0 31) 6) (cbits b1)) <$> utf8_decode r.
Proof. intros ? H1. remember (b1 :: r) as r0 eqn:Hr. simpl. z_cases. subst r0. simpl. by rewrite H1. Qed.

Lemma utf8_decode_step3 b0 b1 b2 r :
  224 <= b0 <= 239 -> second3 b0 b1 = true -> cont b2 = true ->
  utf8_decode (b0 :: b1 :: b2 :: r) =
    cons (Z.lor (Z.shiftl (Z.lor (Z.shiftl (Z.land b0 15) 6) (cbits b1)) 6) (cbits b2))
      <$> utf8_decode r.
Proof. intros ? H1 H2. remember (b1 :: b2 :: r) as r0 eqn:Hr. simpl. z_cases. subst r0. simpl. by rewrite H1, H2. Qed.

Lemma utf8_decode_step4 b0 b1 b2 b3 r :
  240 <= b0 <= 244 -> second4 b0 b1 = true -> cont b2 = true -> cont b3 = true ->
  utf8_decode (b0 :: b1 :: b2 :: b3 :: r) =
    cons (Z.lor (Z.shiftl (Z.lor (Z.shiftl (Z.lor (Z.shiftl (Z.land b0 7) 6) (cbits b1)) 6)
                                (cbits b2)) 6) (cbits b3)) <$> utf8_decode r.
Proof. intros ? H1 H2 H3. remember (b1 :: b2 :: b3 :: r) as r0 eqn:Hr. simpl. z_cases. subst r0. simpl. by rewrite H1, H2, H3. Qed.

(** A continuation byte built by the encoder. *)
Lemma cont_byte x : cont (Z.lor 128 (x mod 64)) = true /\ cbits (Z.lor 128 (x mod 64)) = x mod 64.
Proof.
  rewrite (lor_lit 128 _ 6 64) by bit_side. unfold cont. rewrite cbits_mod.
  split; [z_cases|zlia].
Qed.

Ltac utf8_bytes :=
  repeat match goal with
  | |- context [cont (Z.lor 128 (?x mod 64))] => rewrite (proj1 (cont_byte x))
  | |- context [cbits (Z.lor 128 (?x mod 64))] => rewrite (proj2 (cont_byte x))
  end.

Lemma utf8_roundtrip2 c r :
  128 <= c < 2048 ->
  utf8_decode (Z.lor 192 (c / 64) :: Z.lor 128 (c mod 64) :: r) = cons c <$> utf8_decode r.
Proof.
  intros Hc. rewrite (lor_lit 192 _ 6 64) by bit_side.
  rewrite utf8_decode_step2 by (zlia || apply cont_byte). utf8_bytes.
  rewrite (land_lit _ 31 5 32), (shiftl_lor_lit _ _ 6 64) by bit_side.
  do 2 f_equal. zlia.
Qed.

Lemma utf8_roundtrip3 c r :
  2048 <= c < 65536 -> ~ (55296 <= c <= 57343) ->
  utf8_decode (Z.lor 224 (c / 4096) :: Z.lor 128 ((c / 64) mod 64) :: Z.lor 128 (c mod 64) :: r)
    = cons c <$> utf8_decode r.
Proof.
  intros Hc Hs. rewrite (lor_lit 224 _ 4 16) by bit_side.
  rewrite utf8_decode_step3; [|zlia| |apply cont_byte].
  - utf8_bytes.
    rewrite (land_lit _ 15 4 16), !(shiftl_lor_lit _ _ 6 64) by bit_side.
    do 2 f_equal. zlia.
  - rewrite (lor_lit 128 _ 6 64) by bit_side. unfold second3, cont. z_cases.
Qed.

Lemma utf8_roundtrip4 c r :
  65536 <= c < 1114112 ->
  utf8_decode (Z.lor 240 (c / 262144) :: Z.lor 128 ((c / 4096) mod 64) ::
               Z.lor 128 ((c / 64) mod 64) :: Z.lor 128 (c mod 64) :: r)
    = cons c <$> utf8_decode r.
Proof.
  intros Hc. rewrite (lor_lit 240 _ 3 8) by bit_side.
  rewrite utf8_decode_step4; [|zlia| |apply cont_byte|apply cont_byte].
  - utf8_bytes.
    rewrite (land_lit _ 7 3 8), !(shiftl_lor_lit _ _ 6 64) by bit_side.
    do 2 f_equal. zlia.
  - rewrite (lor_lit 128 _ 6 64) by bit_side. unfold second4, cont. z_cases.
Qed.

(** Decoding the bytes of one encoded character gives it back. *)
Lemma utf8_decode_encode_char c b r :
  utf8_encode_char c = Some b -> utf8_decode (b ++ r) = cons c <$> utf8_decode r.
Proof.
  unfold utf8_encode_char. rewrite !cbits_mod.
  rewrite (shiftr_lit c 6 64), (shiftr_lit c 12 4096), (shiftr_lit c 18 262144) by done.
  z_cases; intros [= <-]; cbn [app];
    first [ apply utf8_decode_step1 | apply utf8_roundtrip2
          | apply utf8_roundtrip3 | apply utf8_roundtrip4 ]; lia.
Qed.

Lemma utf8_roundtrip : codec_roundtrip utf8.
Proof.
  intros s. simpl. induction s as [|c s IH]; intros bs; simpl; [by intros [= <-]|].
  destruct (utf8_encode_char c) as [b|] eqn:Hc; [|done].
  destruct (encode_with utf8_encode_char s) as [bs'|]; [|done]. intros [= <-].
  rewrite (utf8_decode_encode_char c b bs' Hc), (IH bs' eq_refl). done.
Qed.

Lemma latin1_roundtrip : codec_roundtrip latin1.
Proof.
  intros s. simpl. induction s as [|c s IH]; intros bs; simpl; [by intros [= <-]|].
  destruct (latin1_encode_char c) as [b|] eqn:Hc; [|done].
  destruct (encode_with latin1_encode_char s) as [bs'|]; [|done]. intros [= <-].
  unfold latin1_encode_char in Hc. destruct ((0 <=? c) && (c <? 256)); [|done].
  injection Hc as <-. unfold latin1_decode in *. by injection (IH bs' eq_refl) as ->.
Qed.

Lemma utf16_units_step1 big b0 b1 r :
  let u := unit16 big b0 b1 in
  (u < 55296 \/ 57343 < u) ->
  utf16_units big (b0 :: b1 :: r) = cons u <$> utf16_units big r.
Proof.
  intros u Hu. remember r as r0 eqn:Hr. simpl. fold u.
  destruct Hu; z_cases; by rewrite orb_true_r.
Qed.

Lemma utf16_units_step2 big b0 b1 b2 b3 r :
  let u := unit16 big b0 b1 in
  let u2 := unit16 big b2 b3 in
  55296 <= u <= 56319 -> 56320 <= u2 <= 57343 ->
  utf16_units big (b0 :: b1 :: b2 :: b3 :: r) =
    cons (Z.lor (Z.shiftl (u - 55296) 10) (u2 - 56320) + 65536) <$> utf16_units big r.
Proof.
  intros u u2 Hu Hu2. remember (b2 :: b3 :: r) as r0 eqn:Hr. simpl. fold u.
  z_cases. subst r0. fold u2. z_cases.
Qed.

(** The two bytes of a code unit, low byte first, give it back. *)
Lemma unit16_le u : 0 <= u < 65536 -> unit16 false (Z.land u 255) (Z.shiftr u 8) = u.
Proof.
  intros Hu. unfold unit16.
  rewrite (land_lit u 255 8 256), (shiftr_lit u 8 256), (shiftl_lor_lit _ _ 8 256) by bit_side.
  zlia.
Qed.

Lemma utf16_roundtrip_bmp c r :
  0 <= c < 65536 -> ~ (55296 <= c <= 57343) ->
  utf16_units false (Z.land c 255 :: Z.shiftr c 8 :: r) = cons c <$> utf16_units false r.
Proof. intros. rewrite utf16_units_step1; rewrite unit16_le; (done || lia). Qed.

Lemma utf16_roundtrip_supp c r :
  65536 <= c < 1114112 ->
  let hi := Z.lor 55296 (Z.shiftr (c - 65536) 10) in
  let lo := Z.lor 56320 (Z.land (c - 65536) 1023) in
  utf16_units false (Z.land hi 255 :: Z.shiftr hi 8 :: Z.land lo 255 :: Z.shiftr lo 8 :: r)
    = cons c <$> utf16_units false r.
Proof.
  intros Hc hi lo. subst hi lo.
  rewrite (shiftr_lit _ 10 1024), (land_lit _ 1023 10 1024) by bit_side.
  rewrite (lor_lit 55296 _ 10 1024), (lor_lit 56320 _ 10 1024) by bit_side.
  rewrite utf16_units_step2; rewrite ?unit16_le; try zlia.
  rewrite (shiftl_lor_lit _ _ 10 1024) by bit_side. do 2 f_equal. zlia.
Qed.

Lemma utf16_decode_encode_char c b r :
  utf16le_encode_char c = Some b -> utf16_units false (b ++ r) = cons c <$> utf16_units false r.
Proof.
  unfold utf16le_encode_char. z_cases; intros [= <-]; cbn [app];
    first [apply utf16_roundtrip_bmp | apply utf16_roundtrip_supp]; lia.
Qed.

Lemma utf16_roundtrip : codec_roundtrip utf16.
Proof.
  intros s bs. simpl. unfold utf16_encode.
  destruct (encode_with utf16le_encode_char s) as [us|] eqn:E; [|done]. intros [= <-].
  unfold utf16_decode. cbn [app]. revert us E.
  induction s as [|c s IH]; intros us; simpl; [by intros [= <-]|].
  destruct (utf16le_encode_char c) as [b|] eqn:Hc; [|done].
  destruct (encode_with utf16le_encode_char s) as [us'|]; [|done]. intros [= <-].
  rewrite (utf16_decode_encode_char c b us' Hc), (IH us' eq_refl). done.
Qed.

Lemma find_high_spec c l k i :
  find_high c l k = Some i -> (k <= i)%nat /\ l !! (i - k)%nat = Some (Some c).
Proof.
  revert k. induction l as [|o l IH]; intros k; simpl; [done|].
  case_bool_decide as Ho.
  - intros [= <-]. subst o. rewrite Nat.sub_diag. done.
  - intros H. destruct (IH (S k) H) as [Hle Hl]. split; [lia|].
    replace (i - k)%nat with (S (i - S k)) by lia. done.
Qed.

Lemma cp1252_decode_encode_char c b :
  cp1252_encode_char c = Some b -> exists b0, b = [b0] /\ cp1252_decode_byte b0 = Some c.
Proof.
  unfold cp1252_encode_char.
  destruct (((0 <=? c) && (c <? 128)) || ((160 <=? c) && (c <? 256))) eqn:E.
  - intros [= <-]. exists c. split; [done|]. unfold cp1252_decode_byte.
    revert E. z_cases.
  - destruct (find_high c cp1252_high 0) as [i|] eqn:Hf; [|done]. intros [= <-].
    destruct (find_high_spec _ _ _ _ Hf) as [_ Hl]. rewrite Nat.sub_0_r in Hl.
    assert (i < 32)%nat by (apply lookup_lt_Some in Hl; done).
    exists (128 + Z.of_nat i). split; [done|]. unfold cp1252_decode_byte.
    replace (Z.to_nat (128 + Z.of_nat i - 128)) with i by lia. rewrite Hl. z_cases.
Qed.

Lemma cp1252_roundtrip : codec_roundtrip cp1252.
Proof.
  intros s. simpl. induction s as [|c s IH]; intros bs; simpl; [by intros [= <-]|].
  destruct (cp1252_encode_char c) as [b|] eqn:Hc; [|done].
  destruct (encode_with cp1252_encode_char s) as [bs'|]; [|done]. intros [= <-].
  destruct (cp1252_decode_encode_char c b Hc) as (b0 & -> & Hb). simpl.
  by rewrite Hb, (IH bs' eq_refl).
Qed.

(** ** Newline translation *)

Lemma univ_newlines_no_cr s : CR ∉ s -> univ_newlines s = s.
Proof.
  induction s as [|c s IH]; intros Hs; simpl; [done|].
  rewrite not_elem_of_cons in Hs.
  destruct (Z.eqb_spec c CR); [naive_solver|]. rewrite IH; naive_solver.
Qed.

Section Linesep.
(** The platform's [os.linesep]: "\n" on POSIX, "\r\n" on Windows. *)
Variable linesep : pystr.
Hypothesis linesep_ok : linesep = [LF] \/ linesep = [CR; LF].

(** Reading back what was written restores a text without "\r". *)
Lemma univ_write_newlines s : CR ∉ s -> univ_newlines (write_newlines linesep s) = s.
Proof.
  induction s as [|c s IH]; intros Hs; [done|].
  rewrite not_elem_of_cons in Hs. unfold write_newlines in *. simpl.
  destruct (Z.eqb_spec c LF) as [->|Hc].
  - destruct linesep_ok as [-> | ->]; simpl; rewrite IH; naive_solver.
  - simpl. destruct (Z.eqb_spec c CR); [naive_solver|]. rewrite IH; naive_solver.
Qed.

(** Text mode round trip for a codec satisfying its law. *)
Lemma text_roundtrip k s bs :
  codec_roundtrip k -> CR ∉ s -> text_write k linesep s = Ok bs -> text_read k bs = Ok s.
Proof.
  intros Hk Hs. unfold text_write, text_read.
  destruct (encode k (write_newlines linesep s)) as [b|] eqn:E; [|done]. intros [= <-].
  rewrite (Hk _ _ E). by rewrite univ_write_newlines.
Qed.
End Linesep.

Lemma lookup_codec_roundtrip name k : lookup_codec name = Some k -> codec_roundtrip k.
Proof.
  unfold lookup_codec. repeat case_bool_decide; intros [= <-];
    auto using utf8_roundtrip, latin1_roundtrip, utf16_roundtrip, cp1252_roundtrip.
Qed.

(** ** Decoding is canonical: the decoder accepts exactly the encoder's
    output *)

(** The code point of a decoded sequence, as arithmetic. *)
Lemma dec2_val b0 b1 :
  194 <= b0 <= 223 -> 128 <= b1 <= 191 ->
  Z.lor (Z.shiftl (Z.land b0 31) 6) (cbits b1) = (b0 - 192) * 64 + (b1 - 128).
Proof. intros. rewrite (land_lit b0 31 5 32), cbits_mod, (shiftl_lor_lit _ _ 6 64) by bit_side. zlia. Qed.

Lemma dec3_val b0 b1 b2 :
  224 <= b0 <= 239 -> 128 <= b1 <= 191 -> 128 <= b2 <= 191 ->
  Z.lor (Z.shiftl (Z.lor (Z.shiftl (Z.land b0 15) 6) (cbits b1)) 6) (cbits b2) =
    ((b0 - 224) * 64 + (b1 - 128)) * 64 + (b2 - 128).
Proof.
  intros. rewrite (land_lit b0 15 4 16), !cbits_mod, (shiftl_lor_lit _ (b1 mod 64) 6 64) by bit_side.
  rewrite (shiftl_lor_lit _ (b2 mod 64) 6 64) by bit_side. zlia.
Qed.

Lemma dec4_val b0 b1 b2 b3 :
  240 <= b0 <= 244 -> 128 <= b1 <= 191 -> 128 <= b2 <= 191 -> 128 <= b3 <= 191 ->
  Z.lor (Z.shiftl (Z.lor (Z.shiftl (Z.lor (Z.shiftl (Z.land b0 7) 6) (cbits b1)) 6) (cbits b2)) 6)
        (cbits b3) =
    (((b0 - 240) * 64 + (b1 - 128)) * 64 + (b2 - 128)) * 64 + (b3 - 128).
Proof.
  intros. rewrite (land_lit b0 7 3 8), !cbits_mod, (shiftl_lor_lit _ (b1 mod 64) 6 64) by bit_side.
  rewrite (shiftl_lor_lit _ (b2 mod 64) 6 64), (shiftl_lor_lit _ (b3 mod 64) 6 64) by bit_side. zlia.
Qed.

Lemma range_false a b x : ~ (a <= x <= b) -> (a <=? x) && (x <=? b) = false.
Proof. z_cases. Qed.

(** Rewrite every comparison of the goal whose value [lia] knows. *)
Ltac z_decide :=
  repeat match goal with
  | |- context [(?a <=? ?x) && (?x <=? ?b)] => rewrite (range_false a b x) by lia
  | |- context [Z.leb ?a ?b] =>
      first [rewrite (proj2 (Z.leb_le a b)) by lia | rewrite (proj2 (Z.leb_gt a b)) by lia]
  | |- context [Z.ltb ?a ?b] =>
      first [rewrite (proj2 (Z.ltb_lt a b)) by lia | rewrite (proj2 (Z.ltb_ge a b)) by lia]
  end; cbn [andb].

Lemma range_spec a b x : (a <=? x) && (x <=? b) = true -> a <= x <= b.
Proof. z_cases. Qed.

Lemma cont_spec b : cont b = true -> 128 <= b <= 191.
Proof. apply range_spec. Qed.

Lemma second3_spec b0 b1 :
  second3 b0 b1 = true -> 128 <= b1 <= 191 /\ (b0 = 224 -> 160 <= b1) /\ (b0 = 237 -> b1 <= 159).
Proof. unfold second3, cont. z_cases. Qed.

Lemma second4_spec b0 b1 :
  second4 b0 b1 = true -> 128 <= b1 <= 191 /\ (b0 = 240 -> 144 <= b1) /\ (b0 = 244 -> b1 <= 143).
Proof. unfold second4, cont. z_cases. Qed.

(** The encoder on each range, as arithmetic. *)
Lemma enc2_val c :
  128 <= c < 2048 -> utf8_encode_char c = Some [192 + c / 64; 128 + c mod 64].
Proof.
  intros. unfold utf8_encode_char. z_decide.
  rewrite !cbits_mod, (shiftr_lit c 6 64) by done.
  rewrite (lor_lit 192 _ 6 64), (lor_lit 128 _ 6 64) by bit_side. reflexivity.
Qed.

Lemma enc3_val c :
  2048 <= c < 65536 -> ~ (55296 <= c <= 57343) ->
  utf8_encode_char c = Some [224 + c / 4096; 128 + (c / 64) mod 64; 128 + c mod 64].
Proof.
  intros. unfold utf8_encode_char. z_decide.
  rewrite !cbits_mod, (shiftr_lit c 6 64), (shiftr_lit c 12 4096) by done.
  rewrite (lor_lit 224 _ 4 16), !(lor_lit 128 _ 6 64) by bit_side. reflexivity.
Qed.

Lemma enc4_val c :
  65536 <= c < 1114112 ->
  utf8_encode_char c =
    Some [240 + c / 262144; 128 + (c / 4096) mod 64; 128 + (c / 64) mod 64; 128 + c mod 64].
Proof.
  intros. unfold utf8_encode_char. z_decide.
  rewrite !cbits_mod, (shiftr_lit c 6 64), (shiftr_lit c 12 4096), (shiftr_lit c 18 262144) by done.
  rewrite (lor_lit 240 _ 3 8), !(lor_lit 128 _ 6 64) by bit_side. reflexivity.
Qed.

Lemma encode_with_cons f c s b bs :
  f c = Some b -> encode_with f s = Some bs -> encode_with f (c :: s) = Some (b ++ bs).
Proof. intros H1 H2. simpl. by rewrite H1, H2. Qed.

(** One decoded sequence followed by a tail that re-encodes. *)
Lemma canon_cons c pre r s :
  (forall s', utf8_decode r = Some s' -> encode_with utf8_encode_char s' = Some r) ->
  utf8_encode_char c = Some pre -> (cons c <$> utf8_decode r) = Some s ->
  encode_with utf8_encode_char s = Some (pre ++ r).
Proof.
  intros IH Hc Hd. destruct (utf8_decode r) as [s0|] eqn:Hr; [|done].
  injection Hd as <-. apply encode_with_cons; [done|by apply IH].
Qed.

(** What the strict decoder accepts, the encoder writes back. *)
Lemma utf8_decode_reencode (bs : bytes) (s : pystr) :
  Forall is_byte bs -> utf8_decode bs = Some s -> encode utf8 s = Some bs.
Proof.
  unfold is_byte.
  simpl. revert s. induction bs as [bs IH] using (induction_ltof1 _ (@length Z)).
  unfold ltof in IH. intros s Hb Hd. destruct bs as [|b0 r0]; [by injection Hd as <-|].
  rewrite Forall_cons in Hb. destruct Hb as [Hb0 Hb].
  cbn [utf8_decode] in Hd. destruct (Z.ltb_spec b0 128).
  - apply (canon_cons b0 [b0] r0 s); [intros; apply IH; simpl; auto|unfold utf8_encode_char; by z_decide|done].
  - destruct ((194 <=? b0) && (b0 <=? 223)) eqn:E2.
    { destruct r0 as [|b1 r1]; [done|]. destruct (cont b1) eqn:C1; [|done].
      rewrite Forall_cons in Hb. destruct Hb as [_ Hb].
      assert (R : 194 <= b0 <= 223 /\ 128 <= b1 <= 191) by (split; [apply range_spec|apply cont_spec]; done).
      rewrite dec2_val in Hd by tauto.
      refine (canon_cons _ [b0; b1] r1 s _ _ Hd); [intros; apply IH; simpl; auto|].
      rewrite enc2_val by lia. do 3 f_equal; zlia. }
    destruct ((224 <=? b0) && (b0 <=? 239)) eqn:E3.
    { destruct r0 as [|b1 [|b2 r2]]; [done|done|]. destruct (second3 b0 b1 && cont b2) eqn:C; [|done].
      rewrite !Forall_cons in Hb. destruct Hb as (_ & _ & Hb).
      apply andb_prop in C as [C1%second3_spec C2%cont_spec]. apply range_spec in E3.
      assert (R : 224 <= b0 <= 239 /\ 128 <= b1 <= 191 /\ 128 <= b2 <= 191 /\
                  (b0 = 224 -> 160 <= b1) /\ (b0 = 237 -> b1 <= 159)) by tauto.
      rewrite dec3_val in Hd by tauto.
      refine (canon_cons _ [b0; b1; b2] r2 s _ _ Hd); [intros; apply IH; simpl; auto|].
      rewrite enc3_val by zlia. do 4 f_equal; zlia. }
    destruct ((240 <=? b0) && (b0 <=? 244)) eqn:E4; [|done].
    destruct r0 as [|b1 [|b2 [|b3 r3]]]; [done|done|done|].
    destruct (second4 b0 b1 && cont b2 && cont b3) eqn:C; [|done].
    rewrite !Forall_cons in Hb. destruct Hb as (_ & _ & _ & Hb).
    apply andb_prop in C as [[C1%second4_spec C2%cont_spec]%andb_prop C3%cont_spec]. apply range_spec in E4.
    assert (R : 240 <= b0 <= 244 /\ 128 <= b1 <= 191 /\ 128 <= b2 <= 191 /\ 128 <= b3 <= 191 /\
                (b0 = 240 -> 144 <= b1) /\ (b0 = 244 -> b1 <= 143)) by tauto.
    rewrite dec4_val in Hd by tauto.
    refine (canon_cons _ [b0; b1; b2; b3] r3 s _ _ Hd); [intros; apply IH; simpl; auto|].
    rewrite enc4_val by zlia. do 5 f_equal; zlia.
Qed.

(** ** Bytes out, Unicode scalar values in *)

Ltac bytes_tac :=
  repeat (apply Forall_cons_2; [unfold is_byte; zlia|]); apply Forall_nil_2.

Lemma utf8_encode_char_none c : ~ is_scalar c -> utf8_encode_char c = None.
Proof.
  unfold is_scalar, utf8_encode_char. intros H.
  destruct (decide (c < 0)); [z_decide; reflexivity|].
  destruct (decide (1114112 <= c)); [z_decide; reflexivity|].
  z_decide. reflexivity.
Qed.

(** The UTF-8 encoder writes every scalar value, as bytes. *)
Lemma utf8_encode_char_ok c :
  is_scalar c -> exists b, utf8_encode_char c = Some b /\ Forall is_byte b.
Proof.
  unfold is_scalar. intros [Hc Hs].
  destruct (decide (c < 128)).
  { exists [c]. split; [unfold utf8_encode_char; z_decide; reflexivity|bytes_tac]. }
  destruct (decide (c < 2048)); [eexists; split; [apply enc2_val; lia|bytes_tac]|].
  destruct (decide (c < 65536)); [eexists; split; [apply enc3_val; lia|bytes_tac]|].
  eexists; split; [apply enc4_val; lia|bytes_tac].
Qed.

Lemma utf8_encode_char_spec c b :
  utf8_encode_char c = Some b -> is_scalar c /\ Forall is_byte b.
Proof.
  destruct (decide (is_scalar c)) as [H|H]; [|by rewrite utf8_encode_char_none].
  destruct (utf8_encode_char_ok c H) as (b' & -> & Hb). by intros [= <-].
Qed.

Lemma utf16le_encode_char_none c : ~ is_scalar c -> utf16le_encode_char c = None.
Proof.
  unfold is_scalar, utf16le_encode_char. intros H.
  destruct (decide (c < 0)); [z_decide; reflexivity|].
  destruct (decide (1114112 <= c)); [z_decide; reflexivity|].
  z_decide. reflexivity.
Qed.

(** The UTF-16 encoder writes every scalar value, as bytes. *)
Lemma utf16le_encode_char_ok c :
  is_scalar c -> exists b, utf16le_encode_char c = Some b /\ Forall is_byte b.
Proof.
  unfold is_scalar. intros [Hc Hs]. unfold utf16le_encode_char.
  destruct (decide (c < 65536)).
  - z_decide. eexists; split; [reflexivity|].
    rewrite (land_lit c 255 8 256), (shiftr_lit c 8 256) by bit_side. bytes_tac.
  - z_decide. eexists; split; [reflexivity|]. cbv zeta.
    rewrite (shiftr_lit _ 10 1024), (land_lit _ 1023 10 1024) by bit_side.
    rewrite (lor_lit 55296 _ 10 1024), (lor_lit 56320 _ 10 1024) by bit_side.
    rewrite !(land_lit _ 255 8 256), !(shiftr_lit _ 8 256) by bit_side. bytes_tac.
Qed.

Lemma utf16le_encode_char_spec c b :
  utf16le_encode_char c = Some b -> is_scalar c /\ Forall is_byte b.
Proof.
  destruct (decide (is_scalar c)) as [H|H]; [|by rewrite utf16le_encode_char_none].
  destruct (utf16le_encode_char_ok c H) as (b' & -> & Hb). by intros [= <-].
Qed.

Lemma latin1_encode_char_bytes c b : latin1_encode_char c = Some b -> Forall is_byte b.
Proof.
  unfold latin1_encode_char. destruct ((0 <=? c) && (c <? 256)) eqn:E; [|done].
  intros [= <-]. apply andb_prop in E as [E1%Z.leb_le E2%Z.ltb_lt]. bytes_tac.
Qed.

Lemma cp1252_encode_char_bytes c b : cp1252_encode_char c = Some b -> Forall is_byte b.
Proof.
  unfold cp1252_encode_char.
  destruct (((0 <=? c) && (c <? 128)) || ((160 <=? c) && (c <? 256))) eqn:E.
  - intros [= <-]. apply orb_true_iff in E as [E|E];
      apply andb_prop in E as [E1%Z.leb_le E2%Z.ltb_lt]; bytes_tac.
  - destruct (find_high c cp1252_high 0) as [i|] eqn:F; [|done]. intros [= <-].
    destruct (find_high_spec c cp1252_high 0 i F) as [_ Hl].
    apply lookup_lt_Some in Hl. simpl in Hl. bytes_tac.
Qed.

Lemma encode_with_bytes f s bs :
  (forall c b, f c = Some b -> Forall is_byte b) ->
  encode_with f s = Some bs -> Forall is_byte bs.
Proof.
  intros Hf. revert bs. induction s as [|c s IH]; intros bs; simpl; [by intros [= <-]|].
  destruct (f c) as [b|] eqn:Hc; [|done].
  destruct (encode_with f s) as [bs'|]; [|done]. intros [= <-].
  apply Forall_app_2; [exact (Hf c b Hc)|by apply IH].
Qed.

(** A string whose characters [f] all accepts is encoded. *)
Lemma encode_with_ok f s :
  (forall c, is_scalar c -> exists b, f c = Some b) ->
  Forall is_scalar s -> exists bs, encode_with f s = Some bs.
Proof.
  intros Hf. induction 1 as [|c s Hc _ [bs IH]]; [by exists []|].
  destruct (Hf c Hc) as [b Hb]. exists (b ++ bs). by apply encode_with_cons.
Qed.

(** The characters of an encoded string are the ones [f] accepts. *)
Lemma encode_with_chars f s bs :
  encode_with f s = Some bs -> Forall (fun c => exists b, f c = Some b) s.
Proof.
  revert bs. induction s as [|c s IH]; intros bs; simpl; [done|].
  destruct (f c) as [b|] eqn:Hc; [|done].
  destruct (encode_with f s) as [bs'|] eqn:E; [|done]. intros _.
  constructor; [by exists b|by apply (IH bs')].
Qed.

Lemma encode_bytes name k s bs :
  lookup_codec name = Some k -> encode k s = Some bs -> Forall is_byte bs.
Proof.
  unfold lookup_codec. repeat case_bool_decide; intros [= <-]; simpl.
  - apply encode_with_bytes. intros c b Hb. exact (proj2 (utf8_encode_char_spec c b Hb)).
  - apply encode_with_bytes, latin1_encode_char_bytes.
  - unfold utf16_encode. destruct (encode_with utf16le_encode_char s) as [us|] eqn:E; [|done].
    intros [= <-]. do 2 (apply Forall_cons_2; [unfold is_byte; lia|]).
    apply (encode_with_bytes utf16le_encode_char s); [|done]. intros c b Hb. exact (proj2 (utf16le_encode_char_spec c b Hb)).
  - apply encode_with_bytes, cp1252_encode_char_bytes.
Qed.

(** [os.linesep] is text. *)
Lemma write_newlines_scalars linesep s :
  Forall is_scalar linesep -> Forall is_scalar s -> Forall is_scalar (write_newlines linesep s).
Proof.
  intros Hl Hs. unfold write_newlines. apply Forall_concat, Forall_fmap.
  eapply Forall_impl; [exact Hs|]. intros c Hc. simpl. destruct (c =? LF); auto.
Qed.

Lemma univ_newlines_scalars s : Forall is_scalar s -> Forall is_scalar (univ_newlines s).
Proof.
  induction s as [s IH] using (induction_ltof1 _ (@length Z)). unfold ltof in IH.
  destruct s as [|c r]; [done|]. intros Hs. apply Forall_cons in Hs as [Hc Hr]. simpl.
  destruct (c =? CR).
  - destruct r as [|d r']; [auto with editor|].
    apply Forall_cons in Hr as [Hd Hr'].
    destruct (d =? LF); constructor; auto with editor; apply IH; simpl; auto.
  - constructor; [done|]. apply IH; simpl; auto.
Qed.

(** *** What the decoders produce from bytes *)

Lemma latin1_decode_scalars bs s :
  Forall is_byte bs -> latin1_decode bs = Some s -> Forall is_scalar s.
Proof.
  intros Hb [= <-]. eapply Forall_impl; [exact Hb|]. unfold is_byte, is_scalar. lia.
Qed.

Lemma cp1252_high_scalars :
  Forall (fun o => match o with Some c => is_scalar c | None => True end) cp1252_high.
Proof. unfold cp1252_high, is_scalar. repeat constructor; lia. Qed.

Lemma cp1252_decode_scalars bs s :
  Forall is_byte bs -> cp1252_decode bs = Some s -> Forall is_scalar s.
Proof.
  intros Hb. revert s. induction Hb as [|b bs Hb0 _ IH]; intros s; simpl; [by intros [= <-]|].
  destruct (cp1252_decode_byte b) as [c|] eqn:Hc; [|done].
  destruct (cp1252_decode bs) as [s'|]; [|done]. intros [= <-]. constructor; [|by apply IH].
  unfold cp1252_decode_byte in Hc. destruct ((128 <=? b) && (b <? 160)).
  - destruct (cp1252_high !! Z.to_nat (b - 128)) as [o|] eqn:Hl; [|done].
    simpl in Hc. subst o. exact (Forall_lookup_1 _ _ _ _ cp1252_high_scalars Hl).
  - injection Hc as <-. unfold is_byte, is_scalar in *. lia.
Qed.

(** A code unit read from two bytes. *)
Lemma unit16_range big b0 b1 : is_byte b0 -> is_byte b1 -> 0 <= unit16 big b0 b1 < 65536.
Proof.
  unfold is_byte, unit16. intros H0 H1.
  destruct big; rewrite (shiftl_lor_lit _ _ 8 256) by bit_side; lia.
Qed.

Lemma utf16_units_scalars big bs s :
  Forall is_byte bs -> utf16_units big bs = Some s -> Forall is_scalar s.
Proof.
  revert s. induction bs as [bs IH] using (induction_ltof1 _ (@length Z)). unfold ltof in IH.
  intros s Hb. destruct bs as [|b0 [|b1 r]]; simpl; [by intros [= <-]|done|].
  apply Forall_cons in Hb as [H0 Hb]. apply Forall_cons in Hb as [H1 Hr].
  pose proof (unit16_range big b0 b1 H0 H1) as Hu.
  destruct ((unit16 big b0 b1 <? 55296) || (57343 <? unit16 big b0 b1)) eqn:E.
  - destruct (utf16_units big r) as [s'|] eqn:Er; [|done]. intros [= <-].
    constructor; [|apply (IH r); simpl; auto; lia].
    apply orb_true_iff in E. unfold is_scalar. destruct E as [E%Z.ltb_lt|E%Z.ltb_lt]; lia.
  - apply orb_false_iff in E as [E1%Z.ltb_ge E2%Z.ltb_ge].
    destruct (unit16 big b0 b1 <=? 56319) eqn:E3; [|done]. apply Z.leb_le in E3.
    destruct r as [|b2 [|b3 r']]; [done|done|].
    apply Forall_cons in Hr as [H2 Hr]. apply Forall_cons in Hr as [H3 Hr'].
    pose proof (unit16_range big b2 b3 H2 H3) as Hu2.
    destruct ((56320 <=? unit16 big b2 b3) && (unit16 big b2 b3 <=? 57343)) eqn:E4; [|done].
    apply range_spec in E4.
    destruct (utf16_units big r') as [s'|] eqn:Er; [|done]. intros [= <-].
    constructor; [|apply (IH r'); simpl; auto; lia].
    rewrite (shiftl_lor_lit _ _ 10 1024) by bit_side. unfold is_scalar. lia.
Qed.

Lemma utf16_decode_scalars bs s :
  Forall is_byte bs -> utf16_decode bs = Some s -> Forall is_scalar s.
Proof.
  intros Hb. unfold utf16_decode.
  repeat (case_match; try (apply utf16_units_scalars; done));
    subst; repeat (apply Forall_cons in Hb as [_ Hb]); by apply utf16_units_scalars.
Qed.

Lemma utf8_decode_scalars bs s :
  Forall is_byte bs -> utf8_decode bs = Some s -> Forall is_scalar s.
Proof.
  intros Hb Hd. pose proof (utf8_decode_reencode bs s Hb Hd) as E. simpl in E.
  eapply Forall_impl; [exact (encode_with_chars _ _ _ E)|].
  intros c [b Hc]. exact (proj1 (utf8_encode_char_spec c b Hc)).
Qed.

Lemma decode_scalars name k bs s :
  lookup_codec name = Some k -> Forall is_byte bs -> decode k bs = Some s -> Forall is_scalar s.
Proof.
  unfold lookup_codec. repeat case_bool_decide; intros [= <-]; simpl.
  - apply utf8_decode_scalars.
  - apply latin1_decode_scalars.
  - apply utf16_decode_scalars.
  - apply cp1252_decode_scalars.
Qed.

(** What [f.read()] returns of a file holding bytes is text. *)
Lemma text_read_scalars name k bs s :
  lookup_codec name = Some k -> Forall is_byte bs -> text_read k bs = Ok s -> Forall is_scalar s.
Proof.
  intros Hk Hb. unfold text_read. destruct (decode k bs) as [s0|] eqn:E; [|done].
  intros [= <-]. apply univ_newlines_scalars. exact (decode_scalars name k bs s0 Hk Hb E).
Qed.

(** Universal newlines leave no carriage return. *)
Lemma univ_newlines_cr_free s : CR ∉ univ_newlines s.
Proof.
  induction s as [s IH] using (induction_ltof1 _ (@length Z)). unfold ltof in IH.
  assert (Hne : CR <> LF) by discriminate.
  destruct s as [|c r]; simpl; [apply not_elem_of_nil|].
  destruct (Z.eqb_spec c CR) as [->|Hc].
  - destruct r as [|d r']; [by rewrite list_elem_of_singleton|].
    destruct (d =? LF); rewrite elem_of_cons; intros [?|Hin]; try done;
      (eapply IH; [|exact Hin]); simpl; lia.
  - rewrite elem_of_cons. intros [E|Hin]; [congruence|]. eapply IH; [|exact Hin]. simpl; lia.
Qed.

(** The utf-8 and utf-16 encoders write every text; latin-1 and cp1252
    refuse characters outside their repertoire. *)
Lemma text_write_unicode name k linesep s :
  name = "utf-8" \/ name = "utf-16" -> lookup_codec name = Some k ->
  Forall is_scalar linesep -> Forall is_scalar s -> exists bs, text_write k linesep s = Ok bs.
Proof.
  intros Hn Hk Hl Hs. unfold text_write.
  pose proof (write_newlines_scalars linesep s Hl Hs) as Hw.
  destruct Hn as [->| ->]; injection Hk as <-; simpl.
  - destruct (encode_with_ok utf8_encode_char _ (fun c Hc => let '(ex_intro _ b (conj E _)) :=
      utf8_encode_char_ok c Hc in ex_intro _ b E) Hw) as [bs ->]. eauto.
  - unfold utf16_encode.
    destruct (encode_with_ok utf16le_encode_char _ (fun c Hc => let '(ex_intro _ b (conj E _)) :=
      utf16le_encode_char_ok c Hc in ex_intro _ b E) Hw) as [bs ->]. eauto.
Qed.

(** ** Mixing codecs: a latin-1 save read back as utf-8 *)

Lemma encode_with_app f s1 s2 b1 b2 :
  encode_with f s1 = Some b1 -> encode_with f s2 = Some b2 -> encode_with f (s1 ++ s2) = Some (b1 ++ b2).
Proof.
  revert b1. induction s1 as [|c s1 IH]; intros b1; simpl; [by intros [= <-]|].
  destruct (f c) as [b|]; [|done]. destruct (encode_with f s1) as [r|]; [|done].
  intros [= <-] H2. by rewrite (IH r eq_refl H2), app_assoc.
Qed.

(** The latin-1 encoder writes bytes as they are. *)
Lemma latin1_encode_bytes bs : Forall is_byte bs -> encode_with latin1_encode_char bs = Some bs.
Proof.
  induction 1 as [|b bs Hb _ IH]; [done|]. unfold is_byte in Hb.
  apply (encode_with_cons _ b bs [b] bs); [|done]. unfold latin1_encode_char.
  by rewrite (proj2 (Z.leb_le 0 b)), (proj2 (Z.ltb_lt b 256)) by lia.
Qed.

(** With "\n" as [os.linesep], writing leaves newlines alone. *)
Lemma write_newlines_lf s : write_newlines [LF] s = s.
Proof.
  unfold write_newlines. induction s as [|c s IH]; [done|]. simpl. rewrite IH.
  by destruct (Z.eqb_spec c LF) as [->|].
Qed.

(** A text that utf-8 encodes to [bs], shown as latin-1 characters (the
    bytes themselves) and saved in latin-1 on POSIX, is the file
    [bs ++ "\n"], which text mode reads back in utf-8 as the text. *)
Lemma latin1_save_utf8_read u bs :
  encode utf8 u = Some bs -> CR ∉ u ->
  text_write latin1 [LF] (bs ++ [LF]) = Ok (bs ++ [LF]) /\ text_read utf8 (bs ++ [LF]) = Ok (u ++ [LF]).
Proof.
  intros Hu Hcr. assert (Hb : Forall is_byte bs) by exact (encode_bytes "utf-8" utf8 u bs eq_refl Hu).
  split.
  - unfold text_write. rewrite write_newlines_lf. cbn [encode latin1]. rewrite latin1_encode_bytes; [done|].
    apply Forall_app_2; [done|]. repeat constructor; unfold is_byte, LF; lia.
  - eapply text_roundtrip; [by left|exact utf8_roundtrip| |].
    + rewrite elem_of_app, list_elem_of_singleton. intros [?|?]; [done|discriminate].
    + unfold text_write. rewrite write_newlines_lf. cbn [encode utf8] in *.
      by rewrite (encode_with_app _ u [LF] bs [LF] Hu eq_refl).
Qed.
