(* ===== verification/Widget.v ===== *)
(** * The Tk text widget, as far as the editor observes it

    [TextEditor.create_text_area] ([src/text_editor.py]) creates a
    [ScrolledText] with [undo=True] and binds [<<Modified>>] to
    [mark_as_modified].  The handlers call [delete], [insert], [get],
    [edit_modified()] / [edit_modified(False)], [tag_add] / [tag_ranges]
    on the [sel] tag, [tag_add] / [tag_remove] on the search's "found"
    tag, [mark_set] on the [insert] mark and the
    [clipboard_*] commands on it.

    This file models the widget's side of those calls, following Tk 8.6's
    [tkText.c]: the text, the modified counter [isDirty] behind
    [edit_modified], the [<<Modified>>] virtual events the widget
    generates, the [insert] mark, the range of the [sel] tag and the
    clipboard.  An insertion or deletion that changes the text increments
    the counter and generates the event when the counter was zero;
    [edit_modified(False)] resets the counter and generates the event when
    the flag changes.  Tk 8.6 queues the event ([TkSendVirtualEvent]):
    [w_pending] counts the queued events; the editor's handler runs when the
    event loop takes them.

    Indices are offsets into the text followed by the newline Tk always
    keeps at its end: [0] is "1.0", [length t] is the position before that
    newline, where [insert] and the inserted text are clamped, and
    [tk_end] is "end", after it.  Marks follow Tk's gravity ([insert] has
    right gravity), and a range of the [sel] tag grows when text is
    inserted strictly inside it, moves with insertions before it, and
    shrinks with deletions; an emptied range is no range.  The "found"
    tag of the search is a list of such ranges: Tk keeps a tag as the set
    of characters that carry it, so ranges that touch after a deletion
    join into one ([tag_norm]), and [tag_ok] says the list is in that
    form.  [tagged] reads back the characters under each range;
    [tagged_insert] says how an insertion changes them ([tag_stretch]).

    The widget is created with [undo=True] and [maxundo=-1] (no limit), so
    every insertion and deletion is recorded on Tk's undo stack
    ([tkUndo.c]): an atom with the text and the index, a separator
    between groups ([-autoseparators] puts one when the kind of edit
    changes, and [edit separator] puts one explicitly), the redo stack
    cleared by every new edit.  [edit undo] reverts the atoms down to the
    next separator and moves them to the redo stack, the counter going
    down by one per edit; [edit redo] replays a group.  Where Tk's sources
    leave the separator that ends a reverted group, this model keeps it on
    the stack. *)

From S2P Require Import Prelude Text Search.

(** An entry of the undo stack ([TkUndoAtom] of Tk's [tkUndo.c]): the
    insertion of [s] at [i] or the deletion of [s] from [i], each standing
    for the apply and revert scripts [TextPushUndoAction] builds, or a
    separator between two groups. *)
Inductive undo_atom :=
| UInsert (i : nat) (s : pystr)
| UDelete (i : nat) (s : pystr)
| USep.

(** [lastEditMode] of the shared text. *)
Inductive edit_mode := EditOther | EditInsert | EditDelete.

#[export] Instance edit_mode_eq_dec : EqDecision edit_mode.
Proof. solve_decision. Defined.

(** The widget: its text without the final newline Tk keeps, the
    [isDirty] counter, the number of queued [<<Modified>>] events, the
    [insert] mark, the range of the [sel] tag, the clipboard ([None]
    when no one owns it), the undo and redo stacks (top first), the mode
    of the last recorded edit, the [-autoseparators] option and the
    ranges of the "found" tag the search adds, in order. *)
Record widget := {
  w_text : pystr;
  w_dirty : Z;
  w_pending : nat;
  w_insert : nat;
  w_sel : option (nat * nat);
  w_clip : option pystr;
  w_undo : list undo_atom;
  w_redo : list undo_atom;
  w_last : edit_mode;
  w_autosep : bool;
  w_found : list (nat * nat)
}.

(** The empty widget [create_text_area] makes: [undo=True] with the
    default [-autoseparators 1]. *)
Definition empty_widget : widget :=
  {| w_text := []; w_dirty := 0; w_pending := 0; w_insert := 0; w_sel := None; w_clip := None;
     w_undo := []; w_redo := []; w_last := EditOther; w_autosep := true;
     w_found := [] |}.

(** The index "end": after the final newline. *)
Definition tk_end (w : widget) : nat := S (length (w_text w)).

(** Tk's [UpdateDirtyFlag]: the counter moves by [d] (up for an edit and
    for a redone atom, down for an undone one), and a [<<Modified>>] event
    is generated when it was or becomes zero. *)
Definition note_dirty (d : Z) (w : widget) : widget :=
  {| w_text := w_text w;
     w_dirty := (w_dirty w + d)%Z;
     w_pending := if Z.eqb (w_dirty w) 0 || Z.eqb (w_dirty w + d) 0 then S (w_pending w) else w_pending w;
     w_insert := w_insert w; w_sel := w_sel w; w_clip := w_clip w;
     w_undo := w_undo w; w_redo := w_redo w; w_last := w_last w; w_autosep := w_autosep w; w_found := w_found w |}.

(** An edit in the normal mode. *)
Definition note_edit (w : widget) : widget := note_dirty 1 w.

(** A mark of right gravity after [n] characters are inserted at [i]. *)
Definition ins_pos (i n m : nat) : nat := if Nat.leb i m then m + n else m.

(** The [sel] range after [n] characters are inserted at [i]: characters
    inserted strictly inside it take the tag of both neighbours. *)
Definition ins_range (i n : nat) (r : option (nat * nat)) : option (nat * nat) :=
  match r with
  | None => None
  | Some (a, b) =>
      if Nat.ltb a i && Nat.ltb i b then Some (a, b + n)
      else if Nat.leb i a then Some (a + n, b + n)
      else Some (a, b)
  end.

(** A position after the characters [x .. y-1] are deleted. *)
Definition del_pos (x y p : nat) : nat :=
  if Nat.leb p x then p else if Nat.leb y p then p - (y - x) else x.

Definition del_range (x y : nat) (r : option (nat * nat)) : option (nat * nat) :=
  match r with
  | None => None
  | Some (a, b) =>
      let a' := del_pos x y a in
      let b' := del_pos x y b in
      if Nat.ltb a' b' then Some (a', b') else None
  end.

(** Tk keeps a tag as the set of characters that carry it, its ranges
    the maximal runs: two ranges that touch are one.  [tag_merge cur rs]
    joins the ranges of an ordered list that touch. *)
Fixpoint tag_merge (cur : nat * nat) (rs : list (nat * nat)) : list (nat * nat) :=
  match rs with
  | [] => [cur]
  | r :: rs' =>
      if Nat.eqb (snd cur) (fst r) then tag_merge (fst cur, snd r) rs'
      else cur :: tag_merge r rs'
  end.

Definition tag_norm (rs : list (nat * nat)) : list (nat * nat) :=
  match rs with
  | [] => []
  | r :: rs' => tag_merge r rs'
  end.

(** The ranges of another tag ("found") after an insertion: each moves
    as the [sel] range does. *)
Definition ins_ranges (i n : nat) (rs : list (nat * nat)) : list (nat * nat) :=
  omap (fun r => ins_range i n (Some r)) rs.

(** After a deletion: emptied ranges vanish and ranges brought together
    join. *)
Definition del_ranges (x y : nat) (rs : list (nat * nat)) : list (nat * nat) :=
  tag_norm (omap (fun r => del_range x y (Some r)) rs).

(** The insertion of [s] at the (clamped) index [i] in the B-tree, with
    the marks and tags moved, and the counter moved by [d]. *)
Definition ins_chars (d : Z) (i : nat) (s : pystr) (w : widget) : widget :=
  note_dirty d
    {| w_text := take i (w_text w) ++ s ++ drop i (w_text w);
       w_dirty := w_dirty w; w_pending := w_pending w;
       w_insert := ins_pos i (length s) (w_insert w);
       w_sel := ins_range i (length s) (w_sel w); w_clip := w_clip w;
       w_undo := w_undo w; w_redo := w_redo w; w_last := w_last w; w_autosep := w_autosep w;
       w_found := ins_ranges i (length s) (w_found w) |}.

(** The deletion of the characters [x .. y-1]. *)
Definition del_chars (d : Z) (x y : nat) (w : widget) : widget :=
  note_dirty d
    {| w_text := take x (w_text w) ++ drop y (w_text w);
       w_dirty := w_dirty w; w_pending := w_pending w;
       w_insert := del_pos x y (w_insert w);
       w_sel := del_range x y (w_sel w); w_clip := w_clip w;
       w_undo := w_undo w; w_redo := w_redo w; w_last := w_last w; w_autosep := w_autosep w;
       w_found := del_ranges x y (w_found w) |}.

(** [TkUndoInsertSeparator]: a separator on a stack whose top is an atom. *)
Definition sep_push (u : list undo_atom) : list undo_atom :=
  match u with
  | [] => []
  | USep :: _ => u
  | _ :: _ => USep :: u
  end.

(** The recording of an edit of mode [m]: with [-autoseparators] a
    separator first when the mode changes, then the atom
    ([TextPushUndoAction]); pushing an action clears the redo stack
    ([TkUndoPushAction]). *)
Definition push_undo (m : edit_mode) (a : undo_atom) (w : widget) : widget :=
  {| w_text := w_text w; w_dirty := w_dirty w; w_pending := w_pending w;
     w_insert := w_insert w; w_sel := w_sel w; w_clip := w_clip w;
     w_undo := a :: (if w_autosep w && negb (bool_decide (w_last w = m)) then sep_push (w_undo w)
                     else w_undo w);
     w_redo := []; w_last := m; w_autosep := w_autosep w; w_found := w_found w |}.

(** [insert(index, s)]: the index is clamped before the final newline; an
    empty string changes nothing. *)
Definition tk_insert (i : nat) (s : pystr) (w : widget) : widget :=
  let i := Nat.min i (length (w_text w)) in
  match s with
  | [] => w
  | _ :: _ => push_undo EditInsert (UInsert i s) (ins_chars 1 i s w)
  end.

(** [delete(x, y)]: the final newline is never deleted, and an empty
    range changes nothing. *)
Definition tk_delete (x y : nat) (w : widget) : widget :=
  let y := Nat.min y (length (w_text w)) in
  if Nat.leb y x then w
  else push_undo EditDelete (UDelete x (take (y - x) (drop x (w_text w)))) (del_chars 1 x y w).

(** [delete(1.0, tk.END)]. *)
Definition tk_delete_all (w : widget) : widget := tk_delete 0 (tk_end w) w.

(** [get(x, y)]: the characters between the two indices, the final
    newline included when [y] is "end". *)
Definition tk_get (x y : nat) (w : widget) : pystr :=
  take (y - x) (drop x (w_text w ++ [LF])).

(** [edit_modified()]: the counter is not zero. *)
Definition tk_modified (w : widget) : bool := negb (Z.eqb (w_dirty w) 0).

(** [edit_modified(False)]: the counter is reset; the event is generated
    when the flag changes. *)
Definition tk_reset_modified (w : widget) : widget :=
  {| w_text := w_text w;
     w_dirty := 0;
     w_pending := if tk_modified w then S (w_pending w) else w_pending w;
     w_insert := w_insert w; w_sel := w_sel w; w_clip := w_clip w;
     w_undo := w_undo w; w_redo := w_redo w; w_last := w_last w; w_autosep := w_autosep w; w_found := w_found w |}.

(** The event loop takes one queued [<<Modified>>] event. *)
Definition tk_take_event (w : widget) : widget :=
  {| w_text := w_text w; w_dirty := w_dirty w; w_pending := pred (w_pending w);
     w_insert := w_insert w; w_sel := w_sel w; w_clip := w_clip w;
     w_undo := w_undo w; w_redo := w_redo w; w_last := w_last w; w_autosep := w_autosep w; w_found := w_found w |}.

(** [mark_set(tk.INSERT, index)]: clamped before the final newline. *)
Definition tk_mark_set_insert (i : nat) (w : widget) : widget :=
  {| w_text := w_text w; w_dirty := w_dirty w; w_pending := w_pending w;
     w_insert := Nat.min i (length (w_text w)); w_sel := w_sel w; w_clip := w_clip w;
     w_undo := w_undo w; w_redo := w_redo w; w_last := w_last w; w_autosep := w_autosep w; w_found := w_found w |}.

(** [tag_add(tk.SEL, "1.0", tk.END)]: the whole text and its final
    newline are selected, whatever was selected before. *)
Definition tk_select_all (w : widget) : widget :=
  {| w_text := w_text w; w_dirty := w_dirty w; w_pending := w_pending w;
     w_insert := w_insert w; w_sel := Some (0, tk_end w); w_clip := w_clip w;
     w_undo := w_undo w; w_redo := w_redo w; w_last := w_last w; w_autosep := w_autosep w; w_found := w_found w |}.

(** [tag_remove(tk.SEL, "1.0", tk.END)]. *)
Definition tk_clear_sel (w : widget) : widget :=
  {| w_text := w_text w; w_dirty := w_dirty w; w_pending := w_pending w;
     w_insert := w_insert w; w_sel := None; w_clip := w_clip w;
     w_undo := w_undo w; w_redo := w_redo w; w_last := w_last w; w_autosep := w_autosep w; w_found := w_found w |}.

(** [clipboard_clear()]: the application owns an empty clipboard. *)
Definition tk_clipboard_clear (w : widget) : widget :=
  {| w_text := w_text w; w_dirty := w_dirty w; w_pending := w_pending w;
     w_insert := w_insert w; w_sel := w_sel w; w_clip := Some [];
     w_undo := w_undo w; w_redo := w_redo w; w_last := w_last w; w_autosep := w_autosep w; w_found := w_found w |}.

(** [clipboard_append(s)]. *)
Definition tk_clipboard_append (s : pystr) (w : widget) : widget :=
  {| w_text := w_text w; w_dirty := w_dirty w; w_pending := w_pending w;
     w_insert := w_insert w; w_sel := w_sel w;
     w_clip := Some (default [] (w_clip w) ++ s);
     w_undo := w_undo w; w_redo := w_redo w; w_last := w_last w; w_autosep := w_autosep w; w_found := w_found w |}.

(** The message of [clipboard_get] on an unowned clipboard: CLIPBOARD
    selection doesn't exist or form "STRING" not defined. *)
Definition clipboard_missing_msg : string :=
  let q := String (Ascii.ascii_of_nat 34) EmptyString in
  "CLIPBOARD selection doesn't exist or form " +:+ q +:+ "STRING" +:+ q +:+ " not defined".

(** [clipboard_get()]: an unowned clipboard raises. *)
Definition tk_clipboard_get (w : widget) : pyresult pystr :=
  match w_clip w with
  | Some s => Ok s
  | None => Raise (TclError clipboard_missing_msg)
  end.

(** [edit_separator()]: [TkUndoInsertUndoSeparator]. *)
Definition tk_edit_separator (w : widget) : widget :=
  {| w_text := w_text w; w_dirty := w_dirty w; w_pending := w_pending w;
     w_insert := w_insert w; w_sel := w_sel w; w_clip := w_clip w;
     w_undo := sep_push (w_undo w); w_redo := w_redo w; w_last := w_last w; w_autosep := w_autosep w; w_found := w_found w |}.

(** [configure(autoseparators=b)]. *)
Definition tk_configure_autosep (b : bool) (w : widget) : widget :=
  {| w_text := w_text w; w_dirty := w_dirty w; w_pending := w_pending w;
     w_insert := w_insert w; w_sel := w_sel w; w_clip := w_clip w;
     w_undo := w_undo w; w_redo := w_redo w; w_last := w_last w; w_autosep := b;
     w_found := w_found w |}.

(** [tag_remove("found", "1.0", tk.END)] followed by [tag_add("found",
    a, b)] for each range [(a, b)] of [rs], in order: the tag holds the
    characters of the ranges, which touch only end to start when [rs] is
    ordered. *)
Definition tk_set_found (rs : list (nat * nat)) (w : widget) : widget :=
  {| w_text := w_text w; w_dirty := w_dirty w; w_pending := w_pending w;
     w_insert := w_insert w; w_sel := w_sel w; w_clip := w_clip w;
     w_undo := w_undo w; w_redo := w_redo w; w_last := w_last w; w_autosep := w_autosep w;
     w_found := tag_norm rs |}.

(** The two stacks replaced. *)
Definition with_stacks (u r : list undo_atom) (w : widget) : widget :=
  {| w_text := w_text w; w_dirty := w_dirty w; w_pending := w_pending w;
     w_insert := w_insert w; w_sel := w_sel w; w_clip := w_clip w;
     w_undo := u; w_redo := r; w_last := w_last w; w_autosep := w_autosep w; w_found := w_found w |}.

(** [insert] and [delete] while undo is switched off ([TextEditUndo] and
    [TextEditRedo] clear [sharedTextPtr->undo] while they run the scripts):
    nothing is recorded, and the counter moves by [d]. *)
Definition edit_insert (d : Z) (i : nat) (s : pystr) (w : widget) : widget :=
  let i := Nat.min i (length (w_text w)) in
  match s with
  | [] => w
  | _ :: _ => ins_chars d i s w
  end.

Definition edit_delete (d : Z) (x y : nat) (w : widget) : widget :=
  let y := Nat.min y (length (w_text w)) in
  if Nat.leb y x then w else del_chars d x y w.

(** The revert script of an atom: undoing an insertion deletes it and
    sets [insert] at its start; undoing a deletion inserts the text back
    and sets [insert] after it.  The counter goes down. *)
Definition revert_atom (a : undo_atom) (w : widget) : widget :=
  match a with
  | UInsert i s => tk_mark_set_insert i (edit_delete (-1) i (i + length s) w)
  | UDelete i s => tk_mark_set_insert (i + length s) (edit_insert (-1) i s w)
  | USep => w
  end.

(** The apply script of an atom, run again by a redo: the counter goes
    up. *)
Definition apply_atom (a : undo_atom) (w : widget) : widget :=
  match a with
  | UInsert i s => tk_mark_set_insert (i + length s) (edit_insert 1 i s w)
  | UDelete i s => tk_mark_set_insert i (edit_delete 1 i (i + length s) w)
  | USep => w
  end.

(** The loop of [TkUndoRevert] and [TkUndoApply]: pop the atoms of one
    group from [src] down to the next separator, which stays, run each
    one's script and push it on [dst]. *)
Fixpoint run_group (run : undo_atom -> widget -> widget) (src dst : list undo_atom) (w : widget)
    : widget * list undo_atom * list undo_atom :=
  match src with
  | [] => (w, [], dst)
  | USep :: _ => (w, src, dst)
  | a :: src' => run_group run src' (a :: dst) (run a w)
  end.

(** [edit_undo()]: [TkUndoRevert] puts a separator on both stacks, pops
    the one on top of the undo stack and reverts the group under it,
    pushing its atoms on the redo stack and a separator after them.  With
    an empty undo stack it fails ("nothing to undo"); the flag says
    whether it succeeded. *)
Definition tk_edit_undo (w : widget) : bool * widget :=
  match sep_push (w_undo w) with
  | [] => (false, with_stacks [] (sep_push (w_redo w)) w)
  | _ :: u =>
      let '(w', u', r') := run_group revert_atom u (sep_push (w_redo w)) w in
      (true, with_stacks u' (sep_push r') w')
  end.

(** [edit_redo()]: [TkUndoApply] puts a separator on the undo stack, pops
    the redo stack (skipping a separator on top) and applies the group,
    pushing it back on the undo stack and a separator after it.  With an
    empty redo stack it fails ("nothing to redo"), the separator pushed. *)
Definition tk_edit_redo (w : widget) : bool * widget :=
  match w_redo w with
  | [] => (false, with_stacks (sep_push (w_undo w)) [] w)
  | top :: r =>
      let r0 := match top with USep => r | _ => top :: r end in
      let '(w', r', u') := run_group apply_atom r0 (sep_push (w_undo w)) w in
      (true, with_stacks (sep_push u') r' w')
  end.

(** The ranges of a tag as Tk keeps them: non-empty, in order, from [i]
    on, separated by at least one character, and ending at [e] at the
    latest. *)
Fixpoint tag_ok (i e : nat) (rs : list (nat * nat)) : Prop :=
  match rs with
  | [] => True
  | r :: rs' => i <= fst r < snd r /\ snd r <= e /\ tag_ok (S (snd r)) e rs'
  end.

(** The widget's own consistency: [insert] is inside the text, the
    [sel] range is non-empty and ends at "end" at the latest, and so do
    the ranges of the "found" tag. *)
Definition widget_wf (w : widget) : Prop :=
  w_insert w <= length (w_text w) /\
  match w_sel w with
  | None => True
  | Some (a, b) => a < b <= tk_end w
  end /\
  tag_ok 0 (tk_end w) (w_found w).

(** The text an atom records. *)
Definition atom_text (a : undo_atom) : pystr :=
  match a with UInsert _ s | UDelete _ s => s | USep => [] end.

(** Every text a stack records consists of scalar values. *)
Definition atoms_typed (u : list undo_atom) : Prop :=
  Forall (fun a => Forall is_scalar (atom_text a)) u.

(** The widget holds Python text: every character of the text, of the
    clipboard and of the texts the undo and redo stacks record is a
    Unicode scalar value. *)
Definition widget_typed (w : widget) : Prop :=
  Forall is_scalar (w_text w) /\
  match w_clip w with Some s => Forall is_scalar s | None => True end /\
  atoms_typed (w_undo w) /\ atoms_typed (w_redo w).

(** A stack whose next group ends here: it is empty or has a separator
    on top. *)
Definition group_end (u : list undo_atom) : Prop :=
  match u with [] => True | USep :: _ => True | _ :: _ => False end.

(** An edit of mode [m] starts a new undo group: the stack ends a group
    already, or [-autoseparators] is on and the mode changes. *)
Definition new_group (m : edit_mode) (wd : widget) : Prop :=
  group_end (w_undo wd) \/ (w_autosep wd = true /\ w_last wd <> m).

(** The characters each range of the "found" tag covers: what
    [tag_ranges("found")] read back with [get] shows highlighted. *)
Definition tagged (w : widget) : list pystr :=
  map (fun r => tk_get (fst r) (snd r) w) (w_found w).

(** The characters a range [r] covers after [s] is inserted at [k], from
    those [sl] it covered before: a range around [k] covers [s] too, any
    other covers the same characters. *)
Definition tag_stretch (k : nat) (s : pystr) (r : nat * nat) (sl : pystr) : pystr :=
  if Nat.ltb (fst r) k && Nat.ltb k (snd r) then take (k - fst r) sl ++ s ++ drop (k - fst r) sl else sl.

(** ** Lemmas *)

Lemma tk_modified_note_edit w : (0 <= w_dirty w)%Z -> tk_modified (note_edit w) = true.
Proof. intros H. unfold tk_modified, note_edit. simpl. destruct (Z.eqb_spec (w_dirty w + 1) 0); [lia|done]. Qed.

Lemma tk_delete_all_text w : w_text (tk_delete_all w) = [].
Proof.
  unfold tk_delete_all, tk_delete, tk_end. rewrite Nat.min_r by lia.
  destruct (Nat.leb_spec (length (w_text w)) 0); [by apply nil_length_inv; lia|].
  cbn [push_undo del_chars note_dirty w_text]. by rewrite take_0, drop_all.
Qed.

Lemma tk_insert_text_nil s w : w_text w = [] -> w_text (tk_insert 0 s w) = s.
Proof. intros H. unfold tk_insert. destruct s; simpl; [done|]. rewrite H. by rewrite app_nil_r. Qed.

(** An edit on an unmodified widget queues exactly one event. *)
Lemma note_edit_pending w :
  w_dirty w = 0%Z -> w_pending (note_edit w) = S (w_pending w).
Proof. intros H. unfold note_edit. simpl. by rewrite H. Qed.

Lemma tk_delete_all_nil w : w_text w = [] -> tk_delete_all w = w.
Proof. intros H. unfold tk_delete_all, tk_delete, tk_end. by rewrite H. Qed.

Lemma tk_delete_all_dirty w : w_text w <> [] -> w_dirty (tk_delete_all w) = (w_dirty w + 1)%Z.
Proof.
  intros H. unfold tk_delete_all, tk_delete, tk_end. rewrite Nat.min_r by lia.
  destruct (w_text w); [done|]. reflexivity.
Qed.

Lemma tk_insert_dirty i s w :
  w_dirty (tk_insert i s w) = (w_dirty w + match s with [] => 0 | _ => 1 end)%Z.
Proof. unfold tk_insert. destruct s; simpl; lia. Qed.

Lemma length_insert_text i (s t : pystr) :
  i <= length t -> length (take i t ++ s ++ drop i t) = length t + length s.
Proof. intros H. rewrite !length_app, length_take, length_drop. lia. Qed.

Lemma length_delete_text x y (t : pystr) :
  x < y -> y <= length t -> length (take x t ++ drop y t) = x + (length t - y).
Proof. intros H1 H2. rewrite length_app, length_take, length_drop. lia. Qed.

(** ** The ranges of a tag *)

Lemma tag_ok_weaken i j e rs : j <= i -> tag_ok i e rs -> tag_ok j e rs.
Proof. destruct rs as [|r rs]; [done|]. intros Hj (Hr & He & Hrs). split_and!; [lia|lia|done|done]. Qed.

Lemma ordered_from_weaken i j rs : j <= i -> ordered_from i rs -> ordered_from j rs.
Proof. destruct rs as [|r rs]; [done|]. intros Hj (Hr & Hrs). split_and!; [lia|lia|done]. Qed.

(** An insertion of [n] characters at [k] moves the ranges apart or
    stretches one of them: they stay separated, and end [n] further at
    the latest. *)
Lemma ins_ranges_cons k n r rs :
  ins_ranges k n (r :: rs) =
    match ins_range k n (Some r) with Some r' => r' :: ins_ranges k n rs | None => ins_ranges k n rs end.
Proof. done. Qed.

Lemma tag_ok_ins_ranges k n i e rs :
  tag_ok i e rs -> tag_ok (if Nat.ltb k i then i + n else i) (e + n) (ins_ranges k n rs).
Proof.
  revert i. induction rs as [|[a b] rs IH]; intros i H; [done|]. destruct H as (Hr & He & Hrs). simpl in Hr, He.
  specialize (IH _ Hrs).
  rewrite ins_ranges_cons.
  unfold ins_range. nat_cases; split_and!; try lia; (eapply tag_ok_weaken; [|exact IH]; lia).
Qed.

Lemma del_pos_mono x y p q : p <= q -> del_pos x y p <= del_pos x y q.
Proof. unfold del_pos. nat_cases. Qed.

(** A deletion of [x .. y-1] keeps the order of the ranges that are
    left, and their ends come [y - x] closer. *)
Lemma del_ranges_ordered x y i e rs :
  y <= e -> tag_ok i e rs ->
  ordered_from (del_pos x y i) (omap (fun r => del_range x y (Some r)) rs) /\
  Forall (fun r => snd r <= e - (y - x)) (omap (fun r => del_range x y (Some r)) rs).
Proof.
  intros Hye. revert i. induction rs as [|[a b] rs IH]; intros i H; [split; [done|constructor]|].
  destruct H as (Hr & He & Hrs). simpl in Hr, He, Hrs. destruct (IH _ Hrs) as [Ho Hb].
  assert (Ho' : ordered_from (del_pos x y b) (omap (fun r => del_range x y (Some r)) rs))
    by (refine (ordered_from_weaken _ _ _ _ Ho); apply del_pos_mono; lia).
  cbn [omap]. unfold del_range at 1. simpl. destruct (Nat.ltb_spec (del_pos x y a) (del_pos x y b)); simpl.
  - split; [split_and!; [apply del_pos_mono; lia|done|done]|].
    constructor; [|done]. simpl. unfold del_pos. nat_cases.
  - split; [|done]. refine (ordered_from_weaken _ _ _ _ Ho'). apply del_pos_mono; lia.
Qed.

(** Joining the ranges that touch gives ranges separated by a
    character. *)
Lemma tag_merge_ok j e cur rs :
  j <= fst cur < snd cur -> snd cur <= e -> ordered_from (snd cur) rs ->
  Forall (fun r => snd r <= e) rs -> tag_ok j e (tag_merge cur rs).
Proof.
  revert j cur. induction rs as [|r rs IH]; intros j cur Hc He Ho Hb; cbn [tag_merge]; [cbn [tag_ok]; repeat split; lia|].
  destruct Ho as [Hr Ho]. apply Forall_cons in Hb as [Hre Hb].
  destruct (Nat.eqb_spec (snd cur) (fst r)).
  - apply IH; simpl; [lia|done|done|done].
  - split_and!; [lia|lia|done|]. apply IH; [lia|done|done|done].
Qed.

Lemma tag_norm_ok i e rs :
  ordered_from i rs -> Forall (fun r => snd r <= e) rs -> tag_ok i e (tag_norm rs).
Proof.
  destruct rs as [|r rs]; [done|]. intros [Hr Ho] Hb. apply Forall_cons in Hb as [Hre Hb].
  by apply tag_merge_ok.
Qed.

(** ** Well-formedness is kept by every call *)

Lemma wf_note_edit w : widget_wf w -> widget_wf (note_edit w).
Proof. done. Qed.

Lemma wf_edit_insert d i s w : widget_wf w -> widget_wf (edit_insert d i s w).
Proof.
  unfold widget_wf, tk_end, edit_insert. intros (Hi & Hs & Hf). destruct s as [|c s]; [done|].
  cbn [ins_chars note_dirty w_text w_insert w_sel w_found]. rewrite (length_insert_text _ (c :: s)) by lia.
  split_and!; [unfold ins_pos; nat_cases|unfold ins_range; destruct (w_sel w) as [[a b]|]; nat_cases|].
  exact (tag_ok_ins_ranges _ (length (c :: s)) 0 _ _ Hf).
Qed.

Lemma wf_edit_delete d x y w : widget_wf w -> widget_wf (edit_delete d x y w).
Proof.
  unfold widget_wf, tk_end, edit_delete. intros (Hi & Hs & Hf).
  assert (Hy : Nat.min y (length (w_text w)) <= length (w_text w)) by lia.
  revert Hy. generalize (Nat.min y (length (w_text w))) as y'. intros y' Hy.
  destruct (Nat.leb_spec y' x); [done|].
  cbn [del_chars note_dirty w_text w_insert w_sel w_found]. rewrite length_delete_text by lia.
  split_and!; [unfold del_pos; nat_cases|unfold del_range; destruct (w_sel w) as [[a b]|]; cbv zeta; unfold del_pos; nat_cases|].
  destruct (del_ranges_ordered x y' 0 (S (length (w_text w))) _ ltac:(lia) Hf) as [Ho Hb]. apply tag_norm_ok; [exact Ho|].
  refine (Forall_impl _ _ _ Hb _). intros r. lia.
Qed.

Lemma wf_push_undo m a w : widget_wf w -> widget_wf (push_undo m a w).
Proof. done. Qed.

Lemma wf_insert i s w : widget_wf w -> widget_wf (tk_insert i s w).
Proof.
  intros H. unfold tk_insert. destruct s as [|c s]; [done|].
  apply wf_push_undo. exact (wf_edit_insert 1 i (c :: s) w H).
Qed.

Lemma wf_delete x y w : widget_wf w -> widget_wf (tk_delete x y w).
Proof.
  intros H. pose proof (wf_edit_delete 1 x y w H) as H'. unfold tk_delete. unfold edit_delete in H'.
  destruct (Nat.leb _ x); [done|]. by apply wf_push_undo.
Qed.

Lemma wf_delete_all w : widget_wf w -> widget_wf (tk_delete_all w).
Proof. apply wf_delete. Qed.

Lemma wf_reset_modified w : widget_wf w -> widget_wf (tk_reset_modified w).
Proof. done. Qed.

Lemma wf_take_event w : widget_wf w -> widget_wf (tk_take_event w).
Proof. done. Qed.

Lemma wf_mark_set_insert i w : widget_wf w -> widget_wf (tk_mark_set_insert i w).
Proof. unfold widget_wf, tk_mark_set_insert, tk_end. simpl. intros (_ & Hs & Hf). split_and!; [lia|done|done]. Qed.

Lemma wf_select_all w : widget_wf w -> widget_wf (tk_select_all w).
Proof. unfold widget_wf, tk_select_all, tk_end. simpl. intros (Hi & _ & Hf). split_and!; [lia|lia|lia|done]. Qed.

Lemma wf_clear_sel w : widget_wf w -> widget_wf (tk_clear_sel w).
Proof. unfold widget_wf. simpl. tauto. Qed.

Lemma wf_clipboard_clear w : widget_wf w -> widget_wf (tk_clipboard_clear w).
Proof. done. Qed.

Lemma wf_clipboard_append s w : widget_wf w -> widget_wf (tk_clipboard_append s w).
Proof. done. Qed.

Lemma wf_edit_separator w : widget_wf w -> widget_wf (tk_edit_separator w).
Proof. done. Qed.

Lemma wf_configure_autosep b w : widget_wf w -> widget_wf (tk_configure_autosep b w).
Proof. done. Qed.

Lemma wf_revert_atom a w : widget_wf w -> widget_wf (revert_atom a w).
Proof.
  intros H. destruct a; simpl; [| |done]; apply wf_mark_set_insert; [by apply wf_edit_delete|by apply wf_edit_insert].
Qed.

Lemma wf_apply_atom a w : widget_wf w -> widget_wf (apply_atom a w).
Proof.
  intros H. destruct a; simpl; [| |done]; apply wf_mark_set_insert; [by apply wf_edit_insert|by apply wf_edit_delete].
Qed.

Lemma wf_run_group run src dst w :
  (forall a w, widget_wf w -> widget_wf (run a w)) -> widget_wf w -> widget_wf (run_group run src dst w).1.1.
Proof.
  intros Hrun. revert dst w. induction src as [|a src IH]; intros dst w Hw; simpl; [done|].
  destruct a; try (apply IH; by apply Hrun). done.
Qed.

Lemma wf_edit_undo w : widget_wf w -> widget_wf (tk_edit_undo w).2.
Proof.
  intros Hw. unfold tk_edit_undo. destruct (sep_push (w_undo w)) as [|x u]; [done|].
  pose proof (wf_run_group revert_atom u (sep_push (w_redo w)) w wf_revert_atom Hw).
  destruct (run_group _ _ _ _) as [[w' u'] r']. done.
Qed.

Lemma wf_edit_redo w : widget_wf w -> widget_wf (tk_edit_redo w).2.
Proof.
  intros Hw. unfold tk_edit_redo. destruct (w_redo w) as [|x r]; [done|].
  pose proof (wf_run_group apply_atom (match x with USep => r | _ => x :: r end) (sep_push (w_undo w)) w
    wf_apply_atom Hw).
  destruct (run_group _ _ _ _) as [[w' r'] u']. done.
Qed.

Lemma wf_empty : widget_wf empty_widget.
Proof. unfold widget_wf. simpl. split_and!; [lia|done|done]. Qed.

(** The ranges a search tags, ordered and ending at "end" at the latest,
    are kept by Tk as separated ranges. *)
Lemma wf_set_found rs w :
  ordered_from 0 rs -> Forall (fun r => snd r <= tk_end w) rs -> widget_wf w -> widget_wf (tk_set_found rs w).
Proof. intros Ho Hb (Hi & Hs & _). split_and!; [done|done|by apply tag_norm_ok]. Qed.

#[export] Hint Resolve wf_note_edit wf_insert wf_delete wf_delete_all wf_reset_modified
  wf_take_event wf_mark_set_insert wf_select_all wf_clear_sel wf_clipboard_clear
  wf_clipboard_append wf_empty wf_edit_separator wf_configure_autosep wf_edit_undo wf_edit_redo : editor.

(** ** No call but the search's tags characters "found" *)

(** The "found" tag has no range. *)
Definition found_clear (w : widget) : Prop := w_found w = [].

Ltac found_clear_tac :=
  unfold found_clear; intros Hc; repeat case_match; simpl; rewrite ?Hc; reflexivity.

Lemma clear_ins_chars d i s w : found_clear w -> found_clear (ins_chars d i s w).
Proof. found_clear_tac. Qed.

Lemma clear_del_chars d x y w : found_clear w -> found_clear (del_chars d x y w).
Proof. found_clear_tac. Qed.

Lemma clear_note_edit w : found_clear w -> found_clear (note_edit w).
Proof. found_clear_tac. Qed.

Lemma clear_insert i s w : found_clear w -> found_clear (tk_insert i s w).
Proof. unfold tk_insert. found_clear_tac. Qed.

Lemma clear_delete x y w : found_clear w -> found_clear (tk_delete x y w).
Proof. unfold tk_delete. found_clear_tac. Qed.

Lemma clear_delete_all w : found_clear w -> found_clear (tk_delete_all w).
Proof. apply clear_delete. Qed.

Lemma clear_same f w : w_found (f w) = w_found w -> found_clear w -> found_clear (f w).
Proof. unfold found_clear. congruence. Qed.

Lemma clear_edit_insert d i s w : found_clear w -> found_clear (edit_insert d i s w).
Proof. unfold edit_insert. found_clear_tac. Qed.

Lemma clear_edit_delete d x y w : found_clear w -> found_clear (edit_delete d x y w).
Proof. unfold edit_delete. found_clear_tac. Qed.

Lemma clear_revert_atom a w : found_clear w -> found_clear (revert_atom a w).
Proof.
  intros H. destruct a; [| |done]; apply (clear_same (tk_mark_set_insert _)); try reflexivity;
    [apply clear_edit_delete|apply clear_edit_insert]; done.
Qed.

Lemma clear_apply_atom a w : found_clear w -> found_clear (apply_atom a w).
Proof.
  intros H. destruct a; [| |done]; apply (clear_same (tk_mark_set_insert _)); try reflexivity;
    [apply clear_edit_insert|apply clear_edit_delete]; done.
Qed.

Lemma clear_run_group run src dst w :
  (forall a w, found_clear w -> found_clear (run a w)) -> found_clear w ->
  found_clear (run_group run src dst w).1.1.
Proof.
  intros Hrun. revert dst w. induction src as [|a src IH]; intros dst w Hw; simpl; [done|].
  destruct a; try (apply IH; by apply Hrun). done.
Qed.

Lemma clear_edit_undo w : found_clear w -> found_clear (tk_edit_undo w).2.
Proof.
  intros Hw. unfold tk_edit_undo. destruct (sep_push (w_undo w)) as [|x u]; [done|].
  pose proof (clear_run_group revert_atom u (sep_push (w_redo w)) w clear_revert_atom Hw).
  destruct (run_group _ _ _ _) as [[w' u'] r']. done.
Qed.

Lemma clear_edit_redo w : found_clear w -> found_clear (tk_edit_redo w).2.
Proof.
  intros Hw. unfold tk_edit_redo. destruct (w_redo w) as [|x r]; [done|].
  pose proof (clear_run_group apply_atom (match x with USep => r | _ => x :: r end) (sep_push (w_undo w)) w
    clear_apply_atom Hw).
  destruct (run_group _ _ _ _) as [[w' r'] u']. done.
Qed.

Lemma clear_empty : found_clear empty_widget.
Proof. done. Qed.

#[export] Hint Resolve clear_note_edit clear_insert clear_delete clear_delete_all
  clear_edit_undo clear_edit_redo clear_empty : editor.
(** The calls that leave the tag alone. *)
#[export] Hint Extern 4 (found_clear (_ ?w)) => (apply (clear_same _ w); [reflexivity|]) : editor.

(** ** Selections and the final newline *)

(** [get("1.0", tk.END)] of a range ending at "end" includes the final
    newline. *)
Lemma tk_get_to_end wd : tk_get 0 (tk_end wd) wd = w_text wd ++ [LF].
Proof.
  unfold tk_get, tk_end. rewrite Nat.sub_0_r, drop_0. apply take_ge.
  rewrite length_app. simpl. lia.
Qed.

(** A range inside the text. *)
Lemma tk_get_inside a b wd :
  b <= length (w_text wd) -> tk_get a b wd = take (b - a) (drop a (w_text wd)).
Proof.
  intros Hb. by apply slice_app_l.
Qed.

(** Deleting a range containing [insert] leaves [insert] at its start, and
    inserting the deleted characters there restores the text. *)
Lemma delete_reinsert a b wd :
  a < b <= length (w_text wd) -> a <= w_insert wd <= b ->
  w_insert (tk_delete a b wd) = a /\
  w_text (tk_insert a (take (b - a) (drop a (w_text wd))) (tk_delete a b wd)) = w_text wd.
Proof.
  intros Hab Hi. unfold tk_delete. rewrite Nat.min_l by lia.
  destruct (Nat.leb_spec b a); [lia|]. cbn [push_undo ins_chars del_chars note_dirty w_text w_insert w_sel].
  split; [unfold del_pos; nat_cases|].
  assert (Hl : length (take a (w_text wd)) = a) by (rewrite length_take; lia).
  destruct (take (b - a) (drop a (w_text wd))) as [|c s] eqn:Es.
  { apply (f_equal length) in Es. rewrite length_take, length_drop in Es. simpl in Es. lia. }
  unfold tk_insert. cbn [push_undo ins_chars del_chars note_dirty w_text w_insert w_sel]. rewrite length_app, Hl, Nat.min_l by lia.
  rewrite take_app_length' by done. rewrite drop_app_length' by done.
  rewrite <- Es, app_assoc, take_take_drop. replace (a + (b - a)) with b by lia. apply take_drop.
Qed.

(** The text after an insertion depends on the text only. *)
Lemma tk_insert_text_congr i s wd wd' :
  w_text wd = w_text wd' -> w_text (tk_insert i s wd) = w_text (tk_insert i s wd').
Proof. intros H. unfold tk_insert. destruct s; [done|]. cbn [push_undo ins_chars note_dirty w_text]. by rewrite H. Qed.

Lemma tk_insert_clip i s wd : w_clip (tk_insert i s wd) = w_clip wd.
Proof. unfold tk_insert. by destruct s. Qed.

(** Deleting from "1.0" to the end of the text empties it and brings
    [insert] back to "1.0". *)
Lemma tk_delete_from_start n wd :
  w_insert wd <= length (w_text wd) -> length (w_text wd) <= n ->
  w_text (tk_delete 0 n wd) = [] /\ w_insert (tk_delete 0 n wd) = 0.
Proof.
  intros Hi Hn. unfold tk_delete. rewrite Nat.min_r by lia.
  destruct (Nat.leb_spec (length (w_text wd)) 0).
  - split; [by apply nil_length_inv; lia|lia].
  - cbn [push_undo ins_chars del_chars note_dirty w_text w_insert w_sel]. rewrite drop_all. split; [done|]. unfold del_pos. nat_cases.
Qed.

Lemma tk_delete_clip x y wd : w_clip (tk_delete x y wd) = w_clip wd.
Proof. unfold tk_delete. by case_match. Qed.

(** ** Highlighting follows the text *)

(** The slice of one range after an insertion at [k] in [t]. *)
Lemma ins_range_slice k s t a b :
  k <= length t ->
  exists a' b', ins_range k (length s) (Some (a, b)) = Some (a', b') /\
    take (b' - a') (drop a' (take k t ++ s ++ drop k t ++ [LF])) =
    tag_stretch k s (a, b) (take (b - a) (drop a (t ++ [LF]))).
Proof.
  intros Hk. unfold ins_range, tag_stretch. cbn [fst snd].
  assert (Hl : length (take k t) = k) by (rewrite length_take; lia).
  assert (Ht : t ++ [LF] = take k t ++ (drop k t ++ [LF])) by by rewrite app_assoc, take_drop.
  rewrite Ht.
  destruct (Nat.ltb_spec a k); [destruct (Nat.ltb_spec k b)|]; simpl;
    [|destruct (Nat.leb_spec k a); [lia|]|destruct (Nat.leb_spec k a); [|lia]]; eexists _, _; (split; [done|]).
  - rewrite slice_app_across, Hl by lia. rewrite slice_app_across, Hl by lia.
    rewrite take_app_ge by lia. replace (b + length s - k - length s) with (b - k) by lia.
    rewrite (take_app_length' (drop a (take k t))), (drop_app_length' (drop a (take k t)))
      by (rewrite length_drop; lia). done.
  - rewrite !slice_app_l by lia. done.
  - rewrite app_assoc, slice_app_r by (rewrite length_app; lia).
    rewrite slice_app_r by lia. rewrite length_app, Hl. f_equal; [lia|f_equal; lia].
Qed.

(** Inserting [s] at [k] stretches the ranges of "found" around [k] over
    [s] and moves the others with their characters. *)
Lemma tagged_insert k s wd :
  tagged (tk_insert k s wd) =
    map (fun r => tag_stretch (Nat.min k (length (w_text wd))) s r (tk_get (fst r) (snd r) wd)) (w_found wd).
Proof.
  unfold tagged, tk_insert. destruct s as [|c s].
  - apply map_ext. intros [a b]. unfold tag_stretch. case_match; [simpl; by rewrite take_drop|done].
  - unfold tk_get. cbn [push_undo ins_chars note_dirty w_text w_found].
    assert (Hk : Nat.min k (length (w_text wd)) <= length (w_text wd)) by lia.
    induction (w_found wd) as [|[a b] rs IH]; [done|]. rewrite ins_ranges_cons.
    destruct (ins_range_slice _ (c :: s) _ a b Hk) as (a' & b' & -> & Hs).
    cbn [map fst snd]. rewrite IH, <- Hs. by rewrite <- !app_assoc.
Qed.

(** ** Typing is kept by every call *)

Lemma atoms_typed_sep_push u : atoms_typed u -> atoms_typed (sep_push u).
Proof. unfold atoms_typed. destruct u as [|[] u]; simpl; auto. Qed.

Lemma typed_text_insert i s t :
  Forall is_scalar s -> Forall is_scalar t -> Forall is_scalar (take i t ++ s ++ drop i t).
Proof. intros Hs Ht. apply Forall_app_2; [by apply Forall_take|apply Forall_app_2; [done|by apply Forall_drop]]. Qed.

Lemma typed_text_delete x y t : Forall is_scalar t -> Forall is_scalar (take x t ++ drop y t).
Proof. intros Ht. apply Forall_app_2; [by apply Forall_take|by apply Forall_drop]. Qed.

Lemma typed_empty : widget_typed empty_widget.
Proof. split_and!; simpl; constructor. Qed.

Lemma typed_note_dirty d w : widget_typed w -> widget_typed (note_dirty d w).
Proof. done. Qed.

Lemma typed_note_edit w : widget_typed w -> widget_typed (note_edit w).
Proof. done. Qed.

Lemma typed_ins_chars d i s w : Forall is_scalar s -> widget_typed w -> widget_typed (ins_chars d i s w).
Proof. intros Hs (Ht & Hc & Hu & Hr). split_and!; try done. by apply typed_text_insert. Qed.

Lemma typed_del_chars d x y w : widget_typed w -> widget_typed (del_chars d x y w).
Proof. intros (Ht & Hc & Hu & Hr). split_and!; try done. by apply typed_text_delete. Qed.

Lemma typed_push_undo m a w :
  Forall is_scalar (atom_text a) -> widget_typed w -> widget_typed (push_undo m a w).
Proof.
  intros Ha (Ht & Hc & Hu & Hr). split_and!; try done; cbn [push_undo w_undo w_redo]; [|constructor].
  constructor; [done|]. destruct (w_autosep w && _); [by apply atoms_typed_sep_push|done].
Qed.

Lemma typed_insert i s w : Forall is_scalar s -> widget_typed w -> widget_typed (tk_insert i s w).
Proof.
  intros Hs Hw. unfold tk_insert. destruct s as [|c s]; [done|].
  apply typed_push_undo; [done|by apply typed_ins_chars].
Qed.

Lemma typed_delete x y w : widget_typed w -> widget_typed (tk_delete x y w).
Proof.
  intros Hw. unfold tk_delete. cbv zeta. destruct (Nat.leb _ x); [done|].
  apply typed_push_undo; [|by apply typed_del_chars].
  apply Forall_take, Forall_drop. apply Hw.
Qed.

Lemma typed_delete_all w : widget_typed w -> widget_typed (tk_delete_all w).
Proof. apply typed_delete. Qed.

Lemma typed_reset_modified w : widget_typed w -> widget_typed (tk_reset_modified w).
Proof. done. Qed.

Lemma typed_take_event w : widget_typed w -> widget_typed (tk_take_event w).
Proof. done. Qed.

Lemma typed_mark_set_insert i w : widget_typed w -> widget_typed (tk_mark_set_insert i w).
Proof. done. Qed.

Lemma typed_select_all w : widget_typed w -> widget_typed (tk_select_all w).
Proof. done. Qed.

Lemma typed_clear_sel w : widget_typed w -> widget_typed (tk_clear_sel w).
Proof. done. Qed.

Lemma typed_clipboard_clear w : widget_typed w -> widget_typed (tk_clipboard_clear w).
Proof. intros (Ht & _ & Hu & Hr). split_and!; simpl; auto. Qed.

Lemma typed_clipboard_append s w :
  Forall is_scalar s -> widget_typed w -> widget_typed (tk_clipboard_append s w).
Proof.
  intros Hs (Ht & Hc & Hu & Hr). split_and!; try done. cbn [w_clip tk_clipboard_append].
  apply Forall_app_2; [|done]. destruct (w_clip w); simpl; auto.
Qed.

Lemma typed_edit_separator w : widget_typed w -> widget_typed (tk_edit_separator w).
Proof. intros (Ht & Hc & Hu & Hr). split_and!; try done. by apply atoms_typed_sep_push. Qed.

Lemma typed_configure_autosep b w : widget_typed w -> widget_typed (tk_configure_autosep b w).
Proof. done. Qed.

Lemma typed_with_stacks u r w :
  atoms_typed u -> atoms_typed r -> widget_typed w -> widget_typed (with_stacks u r w).
Proof. intros Hu Hr (Ht & Hc & _ & _). by split_and!. Qed.

Lemma typed_edit_insert d i s w : Forall is_scalar s -> widget_typed w -> widget_typed (edit_insert d i s w).
Proof. intros Hs Hw. unfold edit_insert. destruct s; [done|]. by apply typed_ins_chars. Qed.

Lemma typed_edit_delete d x y w : widget_typed w -> widget_typed (edit_delete d x y w).
Proof. intros Hw. unfold edit_delete. cbv zeta. destruct (Nat.leb _ x); [done|]. by apply typed_del_chars. Qed.

Lemma typed_revert_atom a w : Forall is_scalar (atom_text a) -> widget_typed w -> widget_typed (revert_atom a w).
Proof.
  intros Ha Hw. destruct a; simpl in *; [| |done];
    apply typed_mark_set_insert; [by apply typed_edit_delete|by apply typed_edit_insert].
Qed.

Lemma typed_apply_atom a w : Forall is_scalar (atom_text a) -> widget_typed w -> widget_typed (apply_atom a w).
Proof.
  intros Ha Hw. destruct a; simpl in *; [| |done];
    apply typed_mark_set_insert; [by apply typed_edit_insert|by apply typed_edit_delete].
Qed.

(** A group run by scripts that keep the typing keeps it, and moves typed
    atoms from one typed stack to the other. *)
Lemma typed_run_group run src dst w :
  (forall a w, Forall is_scalar (atom_text a) -> widget_typed w -> widget_typed (run a w)) ->
  atoms_typed src -> atoms_typed dst -> widget_typed w ->
  widget_typed (run_group run src dst w).1.1 /\ atoms_typed (run_group run src dst w).1.2 /\
  atoms_typed (run_group run src dst w).2.
Proof.
  intros Hrun. revert dst w. induction src as [|a src IH]; intros dst w Hs Hd Hw; simpl; [split_and!; by auto|].
  apply Forall_cons in Hs as [Ha Hs]. destruct a; try (apply IH; [done|by constructor|by apply Hrun]).
  simpl. split_and!; [done|by constructor|done].
Qed.

Lemma typed_edit_undo w : widget_typed w -> widget_typed (tk_edit_undo w).2.
Proof.
  intros Hw. pose proof Hw as (_ & _ & Hu & Hr). unfold tk_edit_undo.
  pose proof (atoms_typed_sep_push _ Hu) as Hu'. pose proof (atoms_typed_sep_push _ Hr) as Hr'.
  destruct (sep_push (w_undo w)) as [|x u]; [by apply typed_with_stacks|].
  apply Forall_cons in Hu' as [_ Hu'].
  destruct (typed_run_group revert_atom u (sep_push (w_redo w)) w typed_revert_atom Hu' Hr' Hw) as (H1 & H2 & H3).
  destruct (run_group _ _ _ _) as [[w' u'] r']. simpl in *. apply typed_with_stacks; [done|by apply atoms_typed_sep_push|done].
Qed.

Lemma typed_edit_redo w : widget_typed w -> widget_typed (tk_edit_redo w).2.
Proof.
  intros Hw. pose proof Hw as (_ & _ & Hu & Hr). unfold tk_edit_redo.
  pose proof (atoms_typed_sep_push _ Hu) as Hu'.
  destruct (w_redo w) as [|x r]; [apply typed_with_stacks; [done|apply Forall_nil_2|done]|].
  apply Forall_cons in Hr as [Hx Hr].
  assert (Hr0 : atoms_typed (match x with USep => r | _ => x :: r end)) by (destruct x; by try constructor).
  destruct (typed_run_group apply_atom _ (sep_push (w_undo w)) w typed_apply_atom Hr0 Hu' Hw) as (H1 & H2 & H3).
  destruct (run_group _ _ _ _) as [[w' r'] u']. simpl in *. apply typed_with_stacks; [by apply atoms_typed_sep_push|done|done].
Qed.

(** What [get] reads of a typed widget is text. *)
Lemma tk_get_typed x y w : widget_typed w -> Forall is_scalar (tk_get x y w).
Proof.
  intros [Ht _]. unfold tk_get. apply Forall_take, Forall_drop, Forall_app_2; [done|].
  constructor; [apply is_scalar_LF|constructor].
Qed.

(** What [clipboard_get] returns of a typed widget is text. *)
Lemma tk_clipboard_get_typed w s : widget_typed w -> tk_clipboard_get w = Ok s -> Forall is_scalar s.
Proof. intros (_ & Hc & _). unfold tk_clipboard_get. destruct (w_clip w); [by intros [= <-]|done]. Qed.

#[export] Hint Resolve typed_note_edit typed_insert typed_delete typed_delete_all
  typed_reset_modified typed_take_event typed_mark_set_insert typed_select_all
  typed_clear_sel typed_clipboard_clear typed_clipboard_append tk_get_typed
  typed_edit_separator typed_configure_autosep typed_edit_undo typed_edit_redo : editor.

(** ** Undo and redo *)

Lemma tk_mark_set_insert_text i wd : w_text (tk_mark_set_insert i wd) = w_text wd.
Proof. reflexivity. Qed.

Lemma group_end_sep_push u : group_end (sep_push u).
Proof. by destruct u as [|[] u]. Qed.

(** An edit that starts a new group is alone in it. *)
Lemma push_undo_new_group m a wd :
  new_group m wd -> exists u, w_undo (push_undo m a wd) = a :: u /\ group_end u.
Proof.
  intros Hg. eexists; split; [reflexivity|]. cbn [push_undo w_undo].
  destruct (w_autosep wd && negb (bool_decide (w_last wd = m))) eqn:E; [apply group_end_sep_push|].
  destruct Hg as [Hg|[Ha Hl]]; [done|]. rewrite Ha, bool_decide_false in E by done. discriminate.
Qed.

(** [edit undo] on a stack whose top group is one atom: the atom is
    reverted and moves to the redo stack. *)
Lemma tk_edit_undo_group wd a u :
  a <> USep -> group_end u -> (w_undo wd = a :: u \/ w_undo wd = USep :: a :: u) ->
  tk_edit_undo wd = (true, with_stacks u (sep_push (a :: sep_push (w_redo wd))) (revert_atom a wd)).
Proof.
  intros Ha Hu Hw. unfold tk_edit_undo.
  assert (E : sep_push (w_undo wd) = USep :: a :: u) by (destruct Hw as [-> | ->]; by destruct a).
  rewrite E. cbn [run_group]. destruct a; [| |done]; destruct u as [|[] u]; simpl in Hu; done.
Qed.

Lemma with_stacks_text u r wd : w_text (with_stacks u r wd) = w_text wd.
Proof. reflexivity. Qed.

Lemma with_stacks_insert u r wd : w_insert (with_stacks u r wd) = w_insert wd.
Proof. reflexivity. Qed.

(** [edit redo] on a redo stack holding one group of one atom. *)
Lemma tk_edit_redo_one wd a :
  a <> USep -> (w_redo wd = [a] \/ w_redo wd = [USep; a]) ->
  tk_edit_redo wd = (true, with_stacks (sep_push (a :: sep_push (w_undo wd))) [] (apply_atom a wd)).
Proof. intros Ha Hr. unfold tk_edit_redo. destruct Hr as [-> | ->]; by destruct a. Qed.

(** The text after an insertion inside the text. *)
Lemma edit_insert_text d i s wd :
  i <= length (w_text wd) -> w_text (edit_insert d i s wd) = take i (w_text wd) ++ s ++ drop i (w_text wd).
Proof.
  intros Hi. unfold edit_insert. rewrite Nat.min_l by done.
  destruct s; [simpl; by rewrite take_drop|done].
Qed.

(** Deleting what was just inserted gives the text back. *)
Lemma edit_delete_inserted d i s t wd :
  i <= length t -> s <> [] -> w_text wd = take i t ++ s ++ drop i t ->
  w_text (edit_delete d i (i + length s) wd) = t.
Proof.
  intros Hi Hs Ht. unfold edit_delete. rewrite Ht, length_insert_text, Nat.min_l by lia.
  destruct (Nat.leb_spec (i + length s) i); [destruct s; [done|simpl in *; lia]|].
  cbn [del_chars note_dirty w_text]. rewrite Ht.
  assert (Hl : length (take i t) = i) by (rewrite length_take; lia).
  rewrite take_app_length' by done. rewrite app_assoc, drop_app_length'; [apply take_drop|].
  rewrite length_app, Hl. lia.
Qed.

(** Undoing an insertion deletes it again. *)
Lemma revert_insert_text i s t wd :
  i <= length t -> s <> [] -> w_text wd = take i t ++ s ++ drop i t ->
  w_text (revert_atom (UInsert i s) wd) = t /\ w_insert (revert_atom (UInsert i s) wd) = i.
Proof.
  intros Hi Hs Ht. cbn [revert_atom]. rewrite tk_mark_set_insert_text.
  pose proof (edit_delete_inserted (-1) i s t wd Hi Hs Ht) as Hd. split; [done|].
  unfold tk_mark_set_insert. cbn [w_insert]. rewrite Hd. lia.
Qed.

(** Redoing an insertion inserts it again. *)
Lemma apply_insert_text i s wd :
  i <= length (w_text wd) -> w_text (apply_atom (UInsert i s) wd) = take i (w_text wd) ++ s ++ drop i (w_text wd).
Proof. intros Hi. cbn [apply_atom]. rewrite tk_mark_set_insert_text. by apply edit_insert_text. Qed.

(** With [-autoseparators] on, a change of mode closes the group below. *)
Lemma push_undo_mode_change m a w :
  w_autosep w = true -> w_last w <> m -> w_undo (push_undo m a w) = a :: sep_push (w_undo w).
Proof. intros Ha Hl. cbn [push_undo w_undo]. by rewrite Ha, bool_decide_false. Qed.

(** Replacing the whole text (as [open_file] does: [delete(1.0, END)],
    then [insert(1.0, content)]) records two groups on top of the old
    stack: the deletion of the old text, then the insertion. *)
Lemma replace_undo_stack wd C :
  w_text wd <> [] -> C <> [] -> w_autosep wd = true -> w_last wd <> EditDelete ->
  w_text (tk_insert 0 C (tk_delete_all wd)) = C /\
  w_undo (tk_insert 0 C (tk_delete_all wd)) =
    UInsert 0 C :: USep :: UDelete 0 (w_text wd) :: sep_push (w_undo wd).
Proof.
  intros Ht HC Ha Hl. unfold tk_delete_all, tk_delete, tk_end. rewrite Nat.min_r by lia.
  destruct (Nat.leb_spec (length (w_text wd)) 0) as [E|_]; [destruct (w_text wd); [done|simpl in E; lia]|].
  rewrite Nat.sub_0_r, drop_0, take_ge by lia.
  set (wdel := push_undo EditDelete (UDelete 0 (w_text wd)) (del_chars 1 0 (length (w_text wd)) wd)).
  assert (Tdel : w_text wdel = []).
  { unfold wdel. cbn [push_undo del_chars note_dirty w_text]. by rewrite take_0, drop_all. }
  assert (Udel : w_undo wdel = UDelete 0 (w_text wd) :: sep_push (w_undo wd))
    by (unfold wdel; rewrite push_undo_mode_change; [reflexivity|exact Ha|done]).
  destruct C as [|c C]; [done|]. unfold tk_insert. rewrite Tdel. cbn [length Nat.min]. split.
  - cbn [push_undo ins_chars note_dirty w_text]. rewrite Tdel. apply app_nil_r.
  - rewrite push_undo_mode_change; [|exact Ha|done]. change (w_undo (ins_chars 1 0 (c :: C) wdel)) with (w_undo wdel).
    by rewrite Udel.
Qed.

(** The first undo after such a replacement removes the inserted text. *)
Lemma undo_insert_group X C D u :
  w_undo X = UInsert 0 C :: USep :: D :: u -> w_text X = C -> C <> [] ->
  (tk_edit_undo X).1 = true /\ w_text (tk_edit_undo X).2 = [] /\ w_undo (tk_edit_undo X).2 = USep :: D :: u.
Proof.
  intros HU HT HC. rewrite (tk_edit_undo_group X (UInsert 0 C) (USep :: D :: u)); [|discriminate|exact I|by left].
  cbn [fst snd]. rewrite with_stacks_text. split_and!; [done| |done].
  apply (revert_insert_text 0 C [] X); [simpl; lia|done|]. rewrite HT. simpl. symmetry. apply app_nil_r.
Qed.

(** The next undo inserts the deleted text back. *)
Lemma undo_delete_group Y T u :
  w_undo Y = USep :: UDelete 0 T :: u -> group_end u -> w_text Y = [] ->
  (tk_edit_undo Y).1 = true /\ w_text (tk_edit_undo Y).2 = T.
Proof.
  intros HU Hu HT. rewrite (tk_edit_undo_group Y (UDelete 0 T) u); [|discriminate|done|by right].
  cbn [fst snd]. rewrite with_stacks_text. split; [done|]. cbn [revert_atom].
  rewrite tk_mark_set_insert_text, edit_insert_text by (rewrite HT; simpl; lia). rewrite HT. simpl. apply app_nil_r.
Qed.

(** An insertion alone on top of the undo stack, with nothing to redo:
    [edit undo] removes it, and [edit redo], on any widget with the text
    and the redo stack [edit undo] left, puts it back. *)
Lemma undo_redo_top_insert X i s t u :
  i <= length t -> s <> [] -> w_text X = take i t ++ s ++ drop i t ->
  w_undo X = UInsert i s :: u -> group_end u -> w_redo X = [] ->
  (tk_edit_undo X).1 = true /\ w_text (tk_edit_undo X).2 = t /\
  forall Y, w_text Y = t -> w_redo Y = w_redo (tk_edit_undo X).2 ->
    (tk_edit_redo Y).1 = true /\ w_text (tk_edit_redo Y).2 = w_text X.
Proof.
  intros Hi Hs Ht Hu Hg Hr.
  rewrite (tk_edit_undo_group X (UInsert i s) u); [|discriminate|done|by left].
  cbn [fst snd]. rewrite with_stacks_text. destruct (revert_insert_text i s t X Hi Hs Ht) as [Ht' _].
  split_and!; [done|done|]. intros Y HY HR. cbn [w_redo with_stacks] in HR. rewrite Hr in HR.
  rewrite (tk_edit_redo_one Y (UInsert i s)); [|discriminate|right; exact HR].
  cbn [fst snd]. rewrite with_stacks_text, apply_insert_text by (rewrite HY; done). by rewrite HY, Ht.
Qed.
