(* ===== verification/SearchWin.v ===== *)
(** * The search window: [open_search_window] and [close_search]

    [SearchOperations.open_search_window]
    ([src/operations/search_operations.py]) raises the existing window when
    [editor.search_window] exists; otherwise it creates a [Toplevel], grabs
    the pointer, gives the focus to an empty entry, adds the "Match case"
    check box on the editor's [case_sensitive] variable and an empty blue
    label.  The Search button and [<Return>] in the entry run the closure
    [perform_search] of [Search]; the Close button, [<Escape>] and the
    window manager's close button run [close_search], which removes the
    "found" tag, destroys the window and forgets it.

    The state is [search_state]: the window (its entry and label), the
    check box's variable, the last [see] index, whether [focus_set] gave
    the text the keyboard focus, and the Tk window operations performed
    so far.  The "found" tag is on the text widget ([w_found] of
    [Widget]): the handlers act on the pair of the state and the widget.
    An event is one user action on the dialog ([search_event]);
    [search_step] is [None] for an action on a window that does not
    exist, and for a key that cannot reach the window: [<Return>] is
    bound on the entry and [<Escape>] on the window, and a key goes to
    the widget with the focus, which is the text after a successful
    search.  [Editor] keeps the state among the editor's attributes, and
    [Session] dispatches the events. *)

From S2P Require Import Prelude Text Search Widget.

(** The Tk window operations of the handlers: [tk.Toplevel(...)],
    [grab_set()], [lift()] and [destroy()]. *)
Inductive winop := WCreate | WGrab | WLift | WDestroy.

(** The dialog's own widgets: the text of the entry and the result label. *)
Record search_window := {
  sw_entry : pystr;
  sw_label : label_text;
  sw_fg : color
}.

(** [editor.search_window], [editor.case_sensitive], the index last
    passed to [see], whether [focus_set] gave the text the focus, and the
    window operations in order. *)
Record search_state := {
  ss_window : option search_window;
  ss_case : bool;
  ss_seen : option nat;
  ss_focus : bool;
  ss_ops : list winop
}.

(** [TextEditor.__init__]: no window, [tk.BooleanVar()] is false. *)
Definition initial_search : search_state :=
  {| ss_window := None; ss_case := false; ss_seen := None; ss_focus := false; ss_ops := [] |}.

(** The part of the state [perform_search] reads and writes. *)
Definition view_of (s : search_state) (sw : search_window) (wd : widget) : search_view :=
  {| found := w_found wd; label := sw_label sw; label_fg := sw_fg sw;
     seen := ss_seen s; text_focus := ss_focus s |}.

Definition with_ops (ops : list winop) (s : search_state) : search_state :=
  {| ss_window := ss_window s; ss_case := ss_case s; ss_seen := ss_seen s;
     ss_focus := ss_focus s; ss_ops := ss_ops s ++ ops |}.

(** [open_search_window]: the guard on an existing window, then the
    window, its grab, the entry with the focus and the empty blue label. *)
Definition open_search_window (s : search_state) : search_state :=
  match ss_window s with
  | Some _ => with_ops [WLift] s
  | None =>
      {| ss_window := Some {| sw_entry := []; sw_label := LEmpty; sw_fg := Blue |};
         ss_case := ss_case s; ss_seen := ss_seen s;
         ss_focus := false; ss_ops := ss_ops s ++ [WCreate; WGrab] |}
  end.

(** [close_search]: [tag_remove("found", "1.0", END)], [destroy()] and
    [search_window = None]. *)
Definition close_search (s : search_state) (wd : widget) : search_state * widget :=
  ({| ss_window := None; ss_case := ss_case s; ss_seen := ss_seen s;
      ss_focus := ss_focus s; ss_ops := ss_ops s ++ [WDestroy] |},
   tk_set_found [] wd).

Section Window.
(** Tk's [-nocase] folding of a character. *)
Variable nocase_fold : Z -> Z.

(** The closure [perform_search] on the window [sw], searching the text
    of the widget: the label, [see], [focus_set] and the "found" tag. *)
Definition search_clicked (sw : search_window) (s : search_state) (wd : widget)
    : search_state * widget :=
  match perform_search nocase_fold (ss_case s) (sw_entry sw) (w_text wd) (view_of s sw wd) with
  | Some v =>
      ({| ss_window := Some {| sw_entry := sw_entry sw; sw_label := label v; sw_fg := label_fg v |};
          ss_case := ss_case s; ss_seen := seen v; ss_focus := text_focus v; ss_ops := ss_ops s |},
       tk_set_found (found v) wd)
  | None => (s, wd)
  end.

(** What the user can do with the dialog. *)
Inductive search_event :=
| SOpen                    (* File > Search, or Control-f *)
| SType (e : pystr)        (* edit the entry: its new text *)
| SClickEntry              (* click into the entry: it takes the focus *)
| SToggleCase              (* click "Match case" *)
| SSearchButton
| SReturn                  (* <Return> in the entry *)
| SCloseButton
| SEscape                  (* <Escape> in the window *)
| SDeleteWindow.           (* the window manager's close button *)

(** One event.  Typing, [<Return>] and [<Escape>] reach the window only
    while its entry has the keyboard focus. *)
Definition search_step (ev : search_event) (s : search_state) (wd : widget)
    : option (search_state * widget) :=
  match ev, ss_window s with
  | SOpen, _ => Some (open_search_window s, wd)
  | _, None => None
  | SType e, Some sw =>
      if ss_focus s then None
      else Some ({| ss_window := Some {| sw_entry := e; sw_label := sw_label sw; sw_fg := sw_fg sw |};
                    ss_case := ss_case s; ss_seen := ss_seen s;
                    ss_focus := ss_focus s; ss_ops := ss_ops s |}, wd)
  | SClickEntry, Some _ =>
      Some ({| ss_window := ss_window s; ss_case := ss_case s;
               ss_seen := ss_seen s; ss_focus := false; ss_ops := ss_ops s |}, wd)
  | SToggleCase, Some _ =>
      Some ({| ss_window := ss_window s; ss_case := negb (ss_case s);
               ss_seen := ss_seen s; ss_focus := ss_focus s; ss_ops := ss_ops s |}, wd)
  | SSearchButton, Some sw => Some (search_clicked sw s wd)
  | SReturn, Some sw => if ss_focus s then None else Some (search_clicked sw s wd)
  | SEscape, Some _ => if ss_focus s then None else Some (close_search s wd)
  | SCloseButton, Some _ | SDeleteWindow, Some _ => Some (close_search s wd)
  end.

End Window.

(** Replays window operations from the state [opened]: [None] when one
    is impossible (a second window created while one exists, an operation
    on no window), otherwise whether a window exists at the end. *)
Fixpoint bracketed (opened : bool) (ops : list winop) : option bool :=
  match ops with
  | [] => Some opened
  | WCreate :: r => if opened then None else bracketed true r
  | WDestroy :: r => if opened then bracketed false r else None
  | _ :: r => if opened then bracketed true r else None
  end.

Definition window_open (s : search_state) : bool :=
  match ss_window s with Some _ => true | None => false end.

(** The dialog's invariant: at most one window at any time, the one the
    state names, and no "found" range without a window. *)
Definition search_inv (s : search_state) (wd : widget) : Prop :=
  bracketed false (ss_ops s) = Some (window_open s) /\
  (ss_window s = None -> found_clear wd).


(** ** Lemmas *)

Lemma bracketed_app o l1 l2 :
  bracketed o (l1 ++ l2) = match bracketed o l1 with Some o' => bracketed o' l2 | None => None end.
Proof.
  revert o. induction l1 as [|op l1 IH]; intros o; [done|].
  destruct op, o; simpl; auto.
Qed.

(** The window operations a handler appends, from a state with or
    without a window. *)
Lemma bracketed_snoc o ops l o' :
  bracketed o ops = Some o' -> bracketed o (ops ++ l) = bracketed o' l.
Proof. intros H. by rewrite bracketed_app, H. Qed.

Lemma search_inv_initial wd : found_clear wd -> search_inv initial_search wd.
Proof. done. Qed.

(** The invariant speaks of the widget's "found" tag only. *)
Lemma search_inv_same_found s wd wd' : w_found wd' = w_found wd -> search_inv s wd -> search_inv s wd'.
Proof. unfold search_inv, found_clear. intros E [Hb Hc]. split; [done|]. by rewrite E. Qed.

(** Opening (or raising) the window keeps the invariant. *)
Lemma search_inv_open s wd : search_inv s wd -> search_inv (open_search_window s) wd.
Proof.
  intros (Hb & Hc). unfold search_inv, window_open in *. unfold open_search_window, with_ops.
  destruct (ss_window s) as [sw|] eqn:Hw; cbn [ss_ops ss_window].
  - split; [|intros H; congruence]. rewrite ?Hw. first [exact Hb|by erewrite bracketed_snoc by exact Hb].
  - split; [|intros H; congruence]. by erewrite bracketed_snoc by exact Hb.
Qed.

Section WindowFacts.
Variable nocase_fold : Z -> Z.

(** The ranges a search tags are in order and end at "end" at the
    latest. *)
Lemma perform_search_tags s sw wd v :
  perform_search nocase_fold (ss_case s) (sw_entry sw) (w_text wd) (view_of s sw wd) = Some v ->
  ordered_from 0 (found v) /\ Forall (fun r => snd r <= tk_end wd) (found v).
Proof.
  intros E. destruct (perform_search_found _ _ _ _ _ _ E) as [[_ ->]|(_ & Ho & Hr)]; [done|].
  split; [done|]. refine (Forall_impl _ _ _ Hr _).
  intros r [Hb _]. rewrite tk_get_all_length in Hb. exact Hb.
Qed.

(** An event changes the widget only by the "found" tag, which it leaves
    as Tk keeps tags. *)
Lemma search_step_widget ev s wd s' wd' :
  search_step nocase_fold ev s wd = Some (s', wd') ->
  wd' = wd \/ exists rs, wd' = tk_set_found rs wd /\ ordered_from 0 rs /\
                         Forall (fun r => snd r <= tk_end wd) rs.
Proof.
  unfold search_step, search_clicked, close_search.
  destruct ev, (ss_window s) as [sw|]; try discriminate; try (destruct (ss_focus s); [discriminate|]);
    try (destruct (perform_search _ _ _ _ _) as [v|] eqn:E); intros [= _ <-]; try (by left);
    try (right; exists []; split_and!; [done|done|constructor]).
  all: right; exists (found v); split; [done|exact (perform_search_tags s sw wd v E)].
Qed.

(** What an event keeps of the widget: everything but the "found" tag. *)
Lemma search_step_keeps ev s wd s' wd' :
  search_step nocase_fold ev s wd = Some (s', wd') ->
  w_text wd' = w_text wd /\ w_dirty wd' = w_dirty wd /\ w_pending wd' = w_pending wd /\
  w_insert wd' = w_insert wd /\ w_sel wd' = w_sel wd /\ w_clip wd' = w_clip wd /\
  w_undo wd' = w_undo wd /\ w_redo wd' = w_redo wd.
Proof. intros E. by destruct (search_step_widget ev s wd s' wd' E) as [->|(rs & -> & _)]. Qed.

Lemma search_step_typed ev s wd s' wd' :
  widget_typed wd -> search_step nocase_fold ev s wd = Some (s', wd') -> widget_typed wd'.
Proof.
  intros Hw E. destruct (search_step_keeps ev s wd s' wd' E) as (Ht & _ & _ & _ & _ & Hc & Hu & Hr).
  unfold widget_typed. by rewrite Ht, Hc, Hu, Hr.
Qed.

Lemma search_step_wf ev s wd s' wd' :
  widget_wf wd -> search_step nocase_fold ev s wd = Some (s', wd') -> widget_wf wd'.
Proof.
  intros Hw E. destruct (search_step_widget ev s wd s' wd' E) as [->|(rs & -> & Ho & Hb)]; [done|].
  by apply wf_set_found.
Qed.

(** The dialog's invariant is kept by every event. *)
Lemma search_step_inv ev s wd s' wd' :
  search_inv s wd -> search_step nocase_fold ev s wd = Some (s', wd') -> search_inv s' wd'.
Proof.
  intros (Hb & Hf). unfold search_step, search_clicked.
  destruct ev; destruct (ss_window s) as [sw|] eqn:Hw;
    try discriminate; try (destruct (ss_focus s); [discriminate|]);
    try (destruct (perform_search _ _ _ _ _) eqn:E); intros [= <- <-];
    unfold search_inv, open_search_window, close_search, with_ops, window_open in *; rewrite ?Hw in *;
    cbn [ss_ops ss_window]; split_and!; try done;
    erewrite bracketed_snoc by exact Hb; done.
Qed.
End WindowFacts.
