(* ===== verification/Editor.v ===== *)
(** * The editor's world and its primitive effects

    [TextEditor] ([src/text_editor.py]) holds [current_file],
    [is_modified], [current_encoding], the window title and the status
    bar; [ErrorHandler] ([src/error_handler.py]) logs and reports failures;
    [setup_logging] ([src/config/logger_config.py]) sets the log level.
    The handlers of [FileOperations] run against:

    - a file system: a [gmap] from path to bytes and a [gset] of paths
      where opening for writing raises [PermissionError];
    - the Tk widget of [Widget];
    - the dialogs: each [messagebox.ask*] or file dialog is recorded in
      [w_ui] and takes the next scripted answer of [w_answers] (a dialog
      with no scripted answer is dismissed: [None]);
    - the message boxes shown ([w_ui]) and the log ([w_log]).

    Every handler is a [PyM world] computation.  [mark_as_modified] is the
    [<<Modified>>] binding; [run_pending] is the event loop taking the
    queued events.  The section variable [mode] says when the loop takes
    them: [Queued] after the running handler returns (Tk 8.6, whose
    [TkSendVirtualEvent] queues the event), [Immediate] right after the
    widget call that generated them (Tk versions that deliver it with
    [Tk_HandleEvent]). *)

From S2P Require Import Prelude Text Codec Widget SearchWin.

(** ** The state *)

(** The file system: contents, and the paths that refuse writing. *)
Record fsys := {
  fs_files : gmap string bytes;
  fs_readonly : gset string
}.

(** The severities of Python's [logging]. *)
Inductive level := DEBUG | INFO | WARNING | ERROR | CRITICAL.

Definition level_rank (l : level) : nat :=
  match l with DEBUG => 10 | INFO => 20 | WARNING => 30 | ERROR => 40 | CRITICAL => 50 end.

(** The dialogs and message boxes the handlers open, and the pages
    [webbrowser.open] shows. *)
Inductive ui :=
| ShowError (title body : string)
| AskYesNoCancel (title body : string)
| AskYesNo (title body : string)
| AskOpenFilename
| AskSaveAsFilename
| ShowInfo (title body : string)
| OpenBrowser (url : string).

(** The attributes of [TextEditor] the handlers read and write, whether
    [root.mainloop()] still runs, and the search dialog: its attributes
    [search_window] and [case_sensitive] with what [SearchWin] keeps of
    the dialog's widgets. *)
Record editor := {
  current_file : option string;
  is_modified : bool;
  current_encoding : string;
  title : string;
  status : string;
  running : bool;
  search_dialog : search_state
}.

Record world := {
  w_fs : fsys;
  w_widget : widget;
  w_ed : editor;
  w_answers : list pyval;
  w_ui : list ui;
  w_log : list (level * string)
}.

Abbreviation EdM := (PyM world).

(** When the event loop delivers [<<Modified>>]. *)
Inductive delivery := Queued | Immediate.

(** ** Constants of the code *)

(** The level [setup_logging] passes to [logging.basicConfig]. *)
Definition log_threshold : level := INFO.

(** A newline inside a Python string literal. *)
Definition nl : string := String (Ascii.ascii_of_nat 10) EmptyString.

(** The state [TextEditor.__init__] builds. *)
Definition initial_editor : editor :=
  {| current_file := None; is_modified := false; current_encoding := "utf-8";
     title := "Text Editor - Untitled"; status := "Ready | Line: 1, Column: 1";
     running := true; search_dialog := initial_search |}.

(** The path separator "/". *)
Definition slash : Ascii.ascii := Ascii.ascii_of_nat 47.

(** [os.path.basename] on a POSIX path: what follows the last "/". *)
Fixpoint has_slash (s : string) : bool :=
  match s with
  | EmptyString => false
  | String c r => Ascii.eqb c slash || has_slash r
  end.

Fixpoint basename (s : string) : string :=
  match s with
  | EmptyString => EmptyString
  | String c r => if has_slash r then basename r else if Ascii.eqb c slash then r else s
  end.

(** [title.startswith("*")]. *)
Definition starred (t : string) : bool := String.prefix "*" t.

(** [title[1:]]. *)
Definition drop_first (t : string) : string :=
  match t with EmptyString => EmptyString | String _ r => r end.

(** ** Updating the state *)

Definition set_ed (f : editor -> editor) (w : world) : world :=
  {| w_fs := w_fs w; w_widget := w_widget w; w_ed := f (w_ed w);
     w_answers := w_answers w; w_ui := w_ui w; w_log := w_log w |}.

Definition set_widget (f : widget -> widget) (w : world) : world :=
  {| w_fs := w_fs w; w_widget := f (w_widget w); w_ed := w_ed w;
     w_answers := w_answers w; w_ui := w_ui w; w_log := w_log w |}.

Definition set_fs (f : fsys -> fsys) (w : world) : world :=
  {| w_fs := f (w_fs w); w_widget := w_widget w; w_ed := w_ed w;
     w_answers := w_answers w; w_ui := w_ui w; w_log := w_log w |}.

Definition with_file (o : option string) (e : editor) : editor :=
  {| current_file := o; is_modified := is_modified e; current_encoding := current_encoding e;
     title := title e; status := status e; running := running e; search_dialog := search_dialog e |}.

Definition with_modified (b : bool) (e : editor) : editor :=
  {| current_file := current_file e; is_modified := b; current_encoding := current_encoding e;
     title := title e; status := status e; running := running e; search_dialog := search_dialog e |}.

Definition with_encoding (enc : string) (e : editor) : editor :=
  {| current_file := current_file e; is_modified := is_modified e; current_encoding := enc;
     title := title e; status := status e; running := running e; search_dialog := search_dialog e |}.

Definition with_title (t : string) (e : editor) : editor :=
  {| current_file := current_file e; is_modified := is_modified e;
     current_encoding := current_encoding e; title := t; status := status e;
     running := running e; search_dialog := search_dialog e |}.

Definition with_status (t : string) (e : editor) : editor :=
  {| current_file := current_file e; is_modified := is_modified e;
     current_encoding := current_encoding e; title := title e; status := t;
     running := running e; search_dialog := search_dialog e |}.

Definition with_running (b : bool) (e : editor) : editor :=
  {| current_file := current_file e; is_modified := is_modified e;
     current_encoding := current_encoding e; title := title e; status := status e;
     running := b; search_dialog := search_dialog e |}.

Definition with_search (d : search_state) (e : editor) : editor :=
  {| current_file := current_file e; is_modified := is_modified e;
     current_encoding := current_encoding e; title := title e; status := status e;
     running := running e; search_dialog := d |}.

Definition put_file (p : string) (b : bytes) (f : fsys) : fsys :=
  {| fs_files := <[p := b]> (fs_files f); fs_readonly := fs_readonly f |}.

(** Every file holds bytes. *)
Definition fs_ok (f : fsys) : Prop := map_Forall (fun _ b => Forall is_byte b) (fs_files f).

(** ** Effects *)

Local Open Scope py_scope.

(** A dialog: recorded, answered by the next scripted answer. *)
Definition ask (q : ui) : EdM pyval :=
  fun w => match w_answers w with
           | a :: r => (Ok a, {| w_fs := w_fs w; w_widget := w_widget w; w_ed := w_ed w;
                                 w_answers := r; w_ui := w_ui w ++ [q]; w_log := w_log w |})
           | [] => (Ok PNone, {| w_fs := w_fs w; w_widget := w_widget w; w_ed := w_ed w;
                                 w_answers := []; w_ui := w_ui w ++ [q]; w_log := w_log w |})
           end.

(** [messagebox.showerror]. *)
Definition show (q : ui) : EdM unit :=
  modify (fun w => {| w_fs := w_fs w; w_widget := w_widget w; w_ed := w_ed w;
                      w_answers := w_answers w; w_ui := w_ui w ++ [q]; w_log := w_log w |}).

(** [logging.<level>(msg)]: written when the level reaches the threshold. *)
Definition log (l : level) (msg : string) : EdM unit :=
  if Nat.leb (level_rank log_threshold) (level_rank l) then
    modify (fun w => {| w_fs := w_fs w; w_widget := w_widget w; w_ed := w_ed w;
                        w_answers := w_answers w; w_ui := w_ui w;
                        w_log := w_log w ++ [(l, msg)] |})
  else ret tt.

(** [ErrorHandler.handle_error(operation, error, show_user)]. *)
Definition handle_error (operation : string) (e : exn) (show_user : bool) : EdM unit :=
  log ERROR ("Error en " +:+ operation +:+ ": " +:+ exn_str e) ;;
  log DEBUG "Traceback (most recent call last)" ;;
  if show_user then
    show (ShowError "Error" ("Ocurrio algo cuando: " +:+ operation +:+ ":" +:+ nl +:+
                             exn_str e +:+ nl +:+
                             "Revise el archivo <<editor_errors.log>> en la carpeta ./log"))
  else ret tt.

(** [TextEditor.mark_as_modified], the [<<Modified>>] binding. *)
Definition mark_as_modified : EdM unit :=
  try (m <- gets (fun w => tk_modified (w_widget w)) ;;
       if m then
         modify (set_ed (with_modified true)) ;;
         t <- gets (fun w => title (w_ed w)) ;;
         (if starred t then ret tt else modify (set_ed (with_title ("*" +:+ t)))) ;;
         modify (set_widget tk_reset_modified)
       else ret tt)
  except (fun e => handle_error "mark as modified" e false).

(** The event loop taking up to [fuel] queued [<<Modified>>] events. *)
Fixpoint process_events (fuel : nat) : EdM unit :=
  match fuel with
  | O => ret tt
  | S fuel' =>
      p <- gets (fun w => w_pending (w_widget w)) ;;
      match p with
      | O => ret tt
      | S _ => modify (set_widget tk_take_event) ;; mark_as_modified ;; process_events fuel'
      end
  end.

(** All the queued events: each runs the handler, which queues at most one
    more while it resets the counter, so [pending + 2] rounds suffice. *)
Definition run_pending : EdM unit :=
  fun w => process_events (S (S (w_pending (w_widget w)))) w.

(** [os.path.exists]. *)
Definition path_exists (p : string) : EdM bool :=
  gets (fun w => bool_decide (is_Some (fs_files (w_fs w) !! p))).

(** [shutil.copy2(src, dst)]: the bytes are copied. *)
Definition copy2 (src dst : string) : EdM unit :=
  fun w => match fs_files (w_fs w) !! src with
           | None => (Raise FileNotFoundError, w)
           | Some b =>
               if bool_decide (dst ∈ fs_readonly (w_fs w)) then (Raise PermissionError, w)
               else (Ok tt, set_fs (put_file dst b) w)
           end.

(** [with open(path, 'r', encoding=enc) as f: content = f.read()]. *)
Definition read_text (p enc : string) : EdM pystr :=
  fun w => match fs_files (w_fs w) !! p with
           | None => (Raise FileNotFoundError, w)
           | Some b =>
               match lookup_codec enc with
               | None => (Raise LookupError, w)
               | Some k => (text_read k b, w)
               end
           end.

Section Platform.
(** [os.linesep]. *)
Variable linesep : pystr.
(** When the event loop delivers [<<Modified>>]. *)
Variable mode : delivery.

(** [with open(path, 'w', encoding=enc) as f: f.write(s)]: opening
    truncates the file before the encoder runs, so a failing encoder
    leaves it empty. *)
Definition write_text (p enc : string) (s : pystr) : EdM unit :=
  fun w =>
    if bool_decide (p ∈ fs_readonly (w_fs w)) then (Raise PermissionError, w)
    else
      let w1 := set_fs (put_file p []) w in
      match lookup_codec enc with
      | None => (Raise LookupError, w1)
      | Some k =>
          match text_write k linesep s with
          | Ok b => (Ok tt, set_fs (put_file p b) w1)
          | Raise e => (Raise e, w1)
          end
      end.

(** A call on the widget, after which an [Immediate] delivery runs the
    binding at once. *)
Definition widget_call (f : widget -> widget) : EdM unit :=
  modify (set_widget f) ;;
  match mode with Immediate => run_pending | Queued => ret tt end.
End Platform.

(** [text_widget.get(1.0, tk.END)]. *)
Definition widget_get : EdM pystr := gets (fun w => tk_get_all (w_text (w_widget w))).

(** What the [<<Modified>>] binding may change: only [is_modified], the
    title and the widget's counter and queue. *)
Definition frame (w w' : world) : Prop :=
  w_fs w' = w_fs w /\ w_ui w' = w_ui w /\ w_answers w' = w_answers w /\
  w_log w' = w_log w /\ w_text (w_widget w') = w_text (w_widget w) /\
  current_file (w_ed w') = current_file (w_ed w) /\
  current_encoding (w_ed w') = current_encoding (w_ed w) /\
  status (w_ed w') = status (w_ed w) /\ running (w_ed w') = running (w_ed w) /\
  w_insert (w_widget w') = w_insert (w_widget w) /\ w_sel (w_widget w') = w_sel (w_widget w) /\
  w_clip (w_widget w') = w_clip (w_widget w) /\
  w_undo (w_widget w') = w_undo (w_widget w) /\ w_redo (w_widget w') = w_redo (w_widget w) /\
  w_last (w_widget w') = w_last (w_widget w) /\ w_autosep (w_widget w') = w_autosep (w_widget w) /\
  w_found (w_widget w') = w_found (w_widget w) /\ search_dialog (w_ed w') = search_dialog (w_ed w).

(** The counter is not zero only while an event is queued (it goes
    below zero when an undo reverts edits the flag no longer counts). *)
Definition widget_ok (wd : widget) : Prop :=
  w_dirty wd <> 0%Z -> w_pending wd <> 0.

(** Sample states for the examples: a file system with one file
    ["a.txt"] holding "hi\n", and a world with a quiet widget holding
    [text], the editor record [ed] and the dialog answers [answers]. *)
Definition sample_fs : fsys :=
  {| fs_files := {["a.txt" := [104; 105; 10]%Z]}; fs_readonly := ∅ |}.

Definition sample_world (ed : editor) (text : pystr) (answers : list pyval) : world :=
  {| w_fs := sample_fs;
     w_widget := {| w_text := text; w_dirty := 0; w_pending := 0; w_insert := 0; w_sel := None;
                   w_clip := None; w_undo := []; w_redo := []; w_last := EditOther; w_autosep := true;
                   w_found := [] |};
     w_ed := ed; w_answers := answers; w_ui := []; w_log := [] |}.

(** The number of binding runs the queue still needs. *)
Definition drain_measure (wd : widget) : nat :=
  w_pending wd + (if tk_modified wd then 1 else 0).

(** ** Lemmas *)

Lemma frame_refl w : frame w w.
Proof. unfold frame. tauto. Qed.

Lemma frame_trans w1 w2 w3 : frame w1 w2 -> frame w2 w3 -> frame w1 w3.
Proof. unfold frame. intuition congruence. Qed.

#[export] Hint Resolve frame_refl : editor.

Lemma mark_as_modified_frame w :
  exists w', mark_as_modified w = (Ok tt, w') /\ frame w w'.
Proof.
  unfold mark_as_modified, catch_all, try_except, bind, gets, modify, ret.
  destruct (tk_modified (w_widget w)); [|eauto with editor]. simpl.
  destruct (starred (title (w_ed w))); simpl; eexists; (split; [reflexivity|]);
    unfold frame; simpl; tauto.
Qed.

Lemma process_events_frame fuel w :
  exists w', process_events fuel w = (Ok tt, w') /\ frame w w'.
Proof.
  revert w. induction fuel as [|fuel IH]; intros w; simpl; [eauto with editor|].
  unfold bind, gets, modify, ret. destruct (w_pending (w_widget w)); [eauto with editor|].
  destruct (mark_as_modified_frame (set_widget tk_take_event w)) as (w1 & -> & F1).
  destruct (IH w1) as (w2 & -> & F2). eexists; split; [reflexivity|].
  eapply frame_trans; [|eapply frame_trans; [exact F1|exact F2]].
  unfold frame; simpl; tauto.
Qed.

Lemma run_pending_frame w : exists w', run_pending w = (Ok tt, w') /\ frame w w'.
Proof. apply process_events_frame. Qed.

(** The binding's effect: when the counter is set, the document becomes
    modified, the title starred, and the counter reset (queuing one more
    event); otherwise nothing changes. *)
Lemma mark_as_modified_spec w :
  exists w', mark_as_modified w = (Ok tt, w') /\ frame w w' /\
    is_modified (w_ed w') = is_modified (w_ed w) || tk_modified (w_widget w) /\
    w_widget w' = (if tk_modified (w_widget w) then tk_reset_modified (w_widget w)
                   else w_widget w) /\
    title (w_ed w') = (if tk_modified (w_widget w) && negb (starred (title (w_ed w)))
                       then "*" +:+ title (w_ed w) else title (w_ed w)).
Proof.
  unfold mark_as_modified, catch_all, try_except, bind, gets, modify, ret.
  destruct (tk_modified (w_widget w)); simpl.
  - destruct (starred (title (w_ed w))); simpl; eexists; (split; [reflexivity|]);
      unfold frame; simpl; rewrite ?orb_true_r; tauto.
  - eexists; split; [reflexivity|]. rewrite orb_false_r. split_and!; auto with editor.
Qed.

Lemma starred_star t : starred ("*" +:+ t) = true.
Proof. by destruct t. Qed.

Lemma process_events_drains fuel w :
  widget_ok (w_widget w) -> drain_measure (w_widget w) < fuel ->
  exists w', process_events fuel w = (Ok tt, w') /\ frame w w' /\
    w_pending (w_widget w') = 0 /\ w_dirty (w_widget w') = 0%Z /\
    is_modified (w_ed w') = is_modified (w_ed w) || tk_modified (w_widget w) /\
    (tk_modified (w_widget w) = true -> starred (title (w_ed w')) = true) /\
    (tk_modified (w_widget w) = false -> title (w_ed w') = title (w_ed w)).
Proof.
  revert w. induction fuel as [|fuel IH]; intros w Hp Hm; [lia|]. simpl.
  unfold bind, gets, modify, ret, drain_measure, tk_modified in *.
  destruct (w_pending (w_widget w)) as [|p] eqn:Ep.
  - destruct (Z.eqb_spec (w_dirty (w_widget w)) 0) as [Hz|Hz]; [|by destruct (Hp Hz)].
    eexists; split; [reflexivity|]. rewrite orb_false_r.
    split_and!; auto with editor; simpl; by intros.
  - destruct (mark_as_modified_spec (set_widget tk_take_event w))
      as (w1 & -> & F1 & Hmod1 & Hw1 & Ht1).
    simpl in Hmod1, Hw1, Ht1. unfold tk_modified in Hmod1, Hw1, Ht1. simpl in Hmod1, Hw1, Ht1.
    destruct (IH w1) as (w2 & -> & F2 & Hp2 & Hd2 & Hmod2 & Hs2 & Ht2).
    { rewrite Hw1. unfold widget_ok, tk_reset_modified, tk_modified, tk_take_event. simpl.
      destruct (Z.eqb_spec (w_dirty (w_widget w)) 0); simpl; lia. }
    { rewrite Hw1. unfold tk_reset_modified, tk_modified, tk_take_event. simpl.
      rewrite ?Ep. simpl.
      destruct (Z.eqb_spec (w_dirty (w_widget w)) 0) as [E|E]; [rewrite E|]; simpl in *; lia. }
    eexists; split; [reflexivity|].
    assert (Fw : frame w (set_widget tk_take_event w)) by (unfold frame; simpl; tauto).
    split; [eapply frame_trans; [exact Fw|eapply frame_trans; [exact F1|exact F2]]|].
    rewrite Hw1 in Hmod2, Hs2, Ht2. rewrite Hmod2, Hmod1.
    unfold tk_reset_modified, tk_modified, tk_take_event in *.
    destruct (Z.eqb_spec (w_dirty (w_widget w)) 0) as [Hz|Hz].
    + rewrite Hz in *. simpl in *. rewrite !orb_false_r.
      split_and!; try done. intros _. rewrite Ht2, Ht1; done.
    + simpl in *. rewrite !orb_true_r, orb_false_r.
      split_and!; try done. intros _. rewrite Ht2 by done. rewrite Ht1.
      destruct (starred (title (w_ed w))) eqn:S; [done|]. apply starred_star.
Qed.

Lemma widget_ok_note_edit wd : widget_ok wd -> widget_ok (note_edit wd).
Proof.
  unfold widget_ok, note_edit, note_dirty. simpl. intros Hp.
  destruct (Z.eqb_spec (w_dirty wd) 0); simpl; [lia|]. destruct (Z.eqb_spec (w_dirty wd + 1) 0); simpl; lia.
Qed.

Lemma widget_ok_delete x y wd : widget_ok wd -> widget_ok (tk_delete x y wd).
Proof. intros H. unfold tk_delete. case_match; [done|]. apply widget_ok_note_edit. exact H. Qed.

Lemma widget_ok_delete_all wd : widget_ok wd -> widget_ok (tk_delete_all wd).
Proof. apply widget_ok_delete. Qed.

(** The calls that touch neither the counter nor the queue. *)
Lemma widget_ok_same wd wd' :
  w_dirty wd' = w_dirty wd -> w_pending wd' = w_pending wd -> widget_ok wd -> widget_ok wd'.
Proof. unfold widget_ok. intros -> ->. done. Qed.

Lemma widget_ok_insert i s wd : widget_ok wd -> widget_ok (tk_insert i s wd).
Proof.
  intros H. unfold tk_insert. destruct s; [done|].
  apply widget_ok_note_edit. exact H.
Qed.

Lemma widget_ok_quiet wd : w_pending wd = 0 -> w_dirty wd = 0%Z -> widget_ok wd.
Proof. unfold widget_ok. lia. Qed.

Lemma widget_ok_note_dirty d wd : widget_ok wd -> widget_ok (note_dirty d wd).
Proof.
  unfold widget_ok, note_dirty. simpl. intros Hp.
  destruct (Z.eqb_spec (w_dirty wd) 0); simpl; [lia|]. destruct (Z.eqb_spec (w_dirty wd + d) 0); simpl; lia.
Qed.

Lemma widget_ok_edit_insert d i s wd : widget_ok wd -> widget_ok (edit_insert d i s wd).
Proof. intros H. unfold edit_insert. destruct s; [done|]. by apply widget_ok_note_dirty. Qed.

Lemma widget_ok_edit_delete d x y wd : widget_ok wd -> widget_ok (edit_delete d x y wd).
Proof. intros H. unfold edit_delete. cbv zeta. destruct (Nat.leb _ x); [done|]. by apply widget_ok_note_dirty. Qed.

Lemma widget_ok_revert_atom a wd : widget_ok wd -> widget_ok (revert_atom a wd).
Proof.
  intros H. destruct a; simpl; [apply widget_ok_edit_delete|apply widget_ok_edit_insert|]; done.
Qed.

Lemma widget_ok_apply_atom a wd : widget_ok wd -> widget_ok (apply_atom a wd).
Proof.
  intros H. destruct a; simpl; [apply widget_ok_edit_insert|apply widget_ok_edit_delete|]; done.
Qed.

Lemma widget_ok_run_group run src dst wd :
  (forall a wd, widget_ok wd -> widget_ok (run a wd)) -> widget_ok wd ->
  widget_ok (run_group run src dst wd).1.1.
Proof.
  intros Hrun. revert dst wd. induction src as [|a src IH]; intros dst wd Hw; simpl; [done|].
  destruct a; try (apply IH; by apply Hrun). done.
Qed.

(** Undo and redo keep the counter consistent with the queue: each
    reverted or reapplied edit moves the counter and queues an event when
    it leaves or reaches zero. *)
Lemma widget_ok_edit_undo wd : widget_ok wd -> widget_ok (tk_edit_undo wd).2.
Proof.
  intros Hw. unfold tk_edit_undo. destruct (sep_push (w_undo wd)) as [|x u]; [done|].
  pose proof (widget_ok_run_group revert_atom u (sep_push (w_redo wd)) wd widget_ok_revert_atom Hw).
  destruct (run_group _ _ _ _) as [[w' u'] r']. done.
Qed.

Lemma widget_ok_edit_redo wd : widget_ok wd -> widget_ok (tk_edit_redo wd).2.
Proof.
  intros Hw. unfold tk_edit_redo. destruct (w_redo wd) as [|x r]; [done|].
  pose proof (widget_ok_run_group apply_atom (match x with USep => r | _ => x :: r end) (sep_push (w_undo wd)) wd
    widget_ok_apply_atom Hw).
  destruct (run_group _ _ _ _) as [[w' r'] u']. done.
Qed.

#[export] Hint Resolve widget_ok_note_edit widget_ok_delete widget_ok_delete_all widget_ok_insert
  widget_ok_edit_undo widget_ok_edit_redo : editor.

(** The event loop, when the widget satisfies [widget_ok]: it ends with
    no queued event and the counter clear. *)
Lemma run_pending_quiet w :
  widget_ok (w_widget w) ->
  exists w', run_pending w = (Ok tt, w') /\ frame w w' /\
    w_pending (w_widget w') = 0 /\ w_dirty (w_widget w') = 0%Z /\
    is_modified (w_ed w') = is_modified (w_ed w) || tk_modified (w_widget w) /\
    (tk_modified (w_widget w) = true -> starred (title (w_ed w')) = true) /\
    (tk_modified (w_widget w) = false -> title (w_ed w') = title (w_ed w)).
Proof.
  intros H. apply process_events_drains; [done|].
  unfold drain_measure. destruct (tk_modified (w_widget w)); lia.
Qed.

(** A widget call that keeps [widget_ok]: in both delivery modes the
    widget ends satisfying it, and only what the binding may change
    differs from the plain update. *)
Lemma widget_call_spec mode f w :
  (forall wd, widget_ok wd -> widget_ok (f wd)) -> widget_ok (w_widget w) ->
  exists w', widget_call mode f w = (Ok tt, w') /\ frame (set_widget f w) w' /\
    widget_ok (w_widget w') /\
    match mode with
    | Queued => w' = set_widget f w
    | Immediate => w_pending (w_widget w') = 0 /\ w_dirty (w_widget w') = 0%Z
    end.
Proof.
  intros Hf Hw. unfold widget_call, bind, modify, ret. destruct mode.
  - eexists; split; [reflexivity|]. split_and!; [apply frame_refl|by apply Hf|done].
  - destruct (run_pending_quiet (set_widget f w)) as (w' & -> & F & Hp & Hd & _); [by apply Hf|].
    eexists; split; [reflexivity|]. split_and!; [done|by apply widget_ok_quiet|done|done].
Qed.

Lemma string_length_app s1 s2 :
  String.length (s1 +:+ s2) = String.length s1 + String.length s2.
Proof. induction s1 as [|c s1 IH]; simpl; [done|]. by rewrite IH. Qed.

(** The backup path is another path. *)
Lemma bak_ne p : p +:+ ".bak" <> p.
Proof. intros H. apply (f_equal String.length) in H. rewrite string_length_app in H. simpl in H. lia. Qed.

(** [handle_error] with [show_user=False]: one ERROR line; the DEBUG
    traceback is below the threshold. *)
Lemma handle_error_silent o e w :
  handle_error o e false w =
    (Ok tt, {| w_fs := w_fs w; w_widget := w_widget w; w_ed := w_ed w; w_answers := w_answers w;
               w_ui := w_ui w; w_log := w_log w ++ [(ERROR, "Error en " +:+ o +:+ ": " +:+ exn_str e)] |}).
Proof. reflexivity. Qed.

(** What a [frame] keeps of the widget. *)
Lemma frame_widget w w' :
  frame w w' ->
  w_text (w_widget w') = w_text (w_widget w) /\ w_insert (w_widget w') = w_insert (w_widget w) /\
  w_sel (w_widget w') = w_sel (w_widget w) /\ w_clip (w_widget w') = w_clip (w_widget w) /\
  w_found (w_widget w') = w_found (w_widget w).
Proof. unfold frame. tauto. Qed.

(** The highlighted text is part of what a frame keeps. *)
Lemma frame_tagged w w' : frame w w' -> tagged (w_widget w') = tagged (w_widget w).
Proof. intros F. destruct (frame_widget _ _ F) as (Ht & _ & _ & _ & Hf). unfold tagged, tk_get. by rewrite Ht, Hf. Qed.

(** The widget's consistency only depends on what a [frame] keeps. *)
Lemma wf_frame w w' : frame w w' -> widget_wf (w_widget w) -> widget_wf (w_widget w').
Proof.
  intros F. destruct (frame_widget w w' F) as (Ht & Hi & Hs & _ & Hf).
  unfold widget_wf, tk_end. by rewrite Ht, Hi, Hs, Hf.
Qed.

(** A widget call that sets the modified flag: after it, either the flag
    is still set for the event loop or the binding has already marked the
    document. *)
Lemma widget_call_marks mode f w :
  (forall wd, widget_ok wd -> widget_ok (f wd)) -> widget_ok (w_widget w) ->
  tk_modified (f (w_widget w)) = true ->
  exists w', widget_call mode f w = (Ok tt, w') /\ frame (set_widget f w) w' /\
    widget_ok (w_widget w') /\
    (tk_modified (w_widget w') = true \/
     (is_modified (w_ed w') = true /\ starred (title (w_ed w')) = true)).
Proof.
  intros Hf Hw Hm. unfold widget_call, bind, modify, ret. destruct mode.
  - eexists; split; [reflexivity|]. split_and!; [apply frame_refl|by apply Hf|by left].
  - destruct (run_pending_quiet (set_widget f w)) as (w' & -> & F & Hp & Hd & Hmod & Hst & _);
      [by apply Hf|].
    eexists; split; [reflexivity|]. split_and!; [done|by apply widget_ok_quiet|right].
    rewrite Hmod. simpl in *. rewrite Hm, orb_true_r. split; [done|by apply Hst].
Qed.

(** The event loop after such a call: the document ends marked. *)
Lemma run_pending_marks w :
  widget_ok (w_widget w) ->
  (tk_modified (w_widget w) = true \/ (is_modified (w_ed w) = true /\ starred (title (w_ed w)) = true)) ->
  exists w', run_pending w = (Ok tt, w') /\ frame w w' /\
    is_modified (w_ed w') = true /\ starred (title (w_ed w')) = true.
Proof.
  intros Hw H. destruct (run_pending_quiet w Hw) as (w' & E & F & _ & _ & Hm & Hs & Ht).
  exists w'. split_and!; [done|done| |].
  - rewrite Hm. destruct H as [-> | [-> _]]; by rewrite ?orb_true_r.
  - destruct (tk_modified (w_widget w)) eqn:M; [by apply Hs|].
    rewrite Ht by done. destruct H as [? | [_ ?]]; [congruence|done].
Qed.

(** ** Files hold bytes *)

Lemma fs_ok_put p b f : fs_ok f -> Forall is_byte b -> fs_ok (put_file p b f).
Proof. intros Hf Hb. unfold fs_ok, put_file. simpl. by apply map_Forall_insert_2. Qed.

Lemma fs_ok_sample : fs_ok sample_fs.
Proof. unfold fs_ok, sample_fs. simpl. apply map_Forall_singleton. repeat constructor; unfold is_byte; lia. Qed.
