(* ===== verification/FileOps.v ===== *)
(** * The file operations: [FileOperations] and [exit_application]

    One definition per method of [src/operations/file_operations.py], in
    the [PyM world] monad of [Editor]: [new_file],
    [verify_unsaved_changes], [open_file] (its loop over the encodings is
    [open_with]), [save_file], [save_file_as] and [change_encoding]; and
    [TextEditor.exit_application] of [src/text_editor.py], which calls
    [verify_unsaved_changes].  The section variables are the platform's
    [os.linesep] and the delivery of [<<Modified>>] (see [Editor]). *)

From S2P Require Import Prelude Text Codec Widget Editor.

Local Open Scope py_scope.

(** The encodings [open_file] tries, in this order. *)
Definition open_encodings : list string := ["utf-8"; "latin-1"; "utf-16"; "cp1252"].

(** [if not file_path: return]: a file dialog returns the chosen path, or
    the empty string when cancelled. *)
Definition dialog_path (v : pyval) : option string :=
  match v with
  | PStr s => if truthy v then Some s else None
  | _ => None
  end.

(** [if self.editor.current_file and ...]: [None] and [""] are false. *)
Definition file_truthy (cf : option string) : bool :=
  match cf with Some p => truthy (PStr p) | None => false end.

(** The body of the "Permission Error" message box of [save_file]. *)
Definition permission_msg : string :=
  "You don't have permissions to save in this location." +:+ nl +:+
  "Try saving in another folder or with a different name.".

(** The body of the "Encoding Error" message box of [open_file]. *)
Definition encoding_error_msg : string :=
  "Could not read the file with common encodings." +:+ nl +:+
  "The file might be corrupted or use an unsupported encoding.".

Section Handlers.
Variable linesep : pystr.
Variable mode : delivery.

(** [FileOperations.save_file_as]. *)
Definition save_file_as : EdM bool :=
  v <- ask AskSaveAsFilename ;;
  match dialog_path v with
  | None => ret false
  | Some p =>
      try (content <- widget_get ;;
           enc <- gets (fun w => current_encoding (w_ed w)) ;;
           write_text linesep p enc content ;;
           modify (set_ed (with_file (Some p))) ;;
           modify (set_ed (with_modified false)) ;;
           modify (set_ed (with_title ("Text Editor - " +:+ basename p))) ;;
           modify (set_ed (with_status ("Saved as: " +:+ p))) ;;
           log INFO ("File saved as: " +:+ p) ;;
           ret true)
      except (fun e => handle_error "save as" e true ;; ret false)
  end.

(** The backup step of [save_file]: a failed copy is only logged. *)
Definition make_backup (p : string) : EdM unit :=
  ex <- path_exists p ;;
  if ex then
    try (copy2 p (p +:+ ".bak"))
    except (fun e => log WARNING ("Could not create backup: " +:+ exn_str e))
  else ret tt.

(** [FileOperations.save_file]. *)
Definition save_file : EdM bool :=
  cf <- gets (fun w => current_file (w_ed w)) ;;
  match cf with
  | None => save_file_as
  | Some p =>
      try_except
        (content <- widget_get ;;
         make_backup p ;;
         enc <- gets (fun w => current_encoding (w_ed w)) ;;
         write_text linesep p enc content ;;
         modify (set_ed (with_modified false)) ;;
         t <- gets (fun w => title (w_ed w)) ;;
         (if starred t then modify (set_ed (with_title (drop_first t))) else ret tt) ;;
         modify (set_ed (with_status ("Saved: " +:+ p))) ;;
         log INFO ("File saved: " +:+ p) ;;
         ret true)
        (fun e => Some (match e with
                        | PermissionError =>
                            show (ShowError "Permission Error" permission_msg) ;; ret false
                        | _ => handle_error "save file" e true ;; ret false
                        end))
  end.

(** [FileOperations.verify_unsaved_changes(operation)]. *)
Definition verify_unsaved_changes (operation : string) : EdM bool :=
  m <- gets (fun w => is_modified (w_ed w)) ;;
  if m then
    r <- ask (AskYesNoCancel "Unsaved Changes"
                ("Do you want to save changes before " +:+ operation +:+ "?")) ;;
    match r with
    | PNone => ret false
    | _ => if truthy r then save_file else ret true
    end
  else ret true.

(** [FileOperations.new_file]. *)
Definition new_file : EdM unit :=
  ok <- verify_unsaved_changes "create a new file" ;;
  if negb ok then ret tt
  else
    try (widget_call mode tk_delete_all ;;
         modify (set_ed (with_file None)) ;;
         modify (set_ed (with_modified false)) ;;
         modify (set_ed (with_title "Text Editor - Untitled")) ;;
         modify (set_ed (with_status "New file created")) ;;
         log INFO "New file created")
    except (fun e => handle_error "create new file" e true).

(** The [for encoding in encodings] loop of [open_file]: a decoding
    error goes on with the next encoding, any other error is reported and
    ends the loop, and the first success loads the text and returns. *)
Fixpoint open_with (p : string) (encs : list string) : EdM unit :=
  match encs with
  | [] => show (ShowError "Encoding Error" encoding_error_msg)
  | enc :: rest =>
      try_except
        (content <- read_text p enc ;;
         widget_call mode tk_delete_all ;;
         widget_call mode (tk_insert 0 content) ;;
         modify (set_ed (with_file (Some p))) ;;
         modify (set_ed (with_modified false)) ;;
         modify (set_ed (with_encoding enc)) ;;
         modify (set_ed (with_title ("Text Editor - " +:+ basename p +:+ " [" +:+ enc +:+ "]"))) ;;
         modify (set_ed (with_status ("File opened: " +:+ p +:+ " (" +:+ enc +:+ ")"))) ;;
         log INFO ("File opened: " +:+ p +:+ " with encoding " +:+ enc))
        (fun e => Some (match e with
                        | UnicodeDecodeError => open_with p rest
                        | _ => handle_error ("open file " +:+ p +:+ " with encoding " +:+ enc) e true
                        end))
  end.

(** [FileOperations.open_file]. *)
Definition open_file : EdM unit :=
  ok <- verify_unsaved_changes "opening another file" ;;
  if negb ok then ret tt
  else
    v <- ask AskOpenFilename ;;
    match dialog_path v with
    | None => ret tt
    | Some p => open_with p open_encodings
    end.

(** [FileOperations.change_encoding(encoding)]. *)
Definition change_encoding (enc : string) : EdM unit :=
  cf <- gets (fun w => current_file (w_ed w)) ;;
  m <- gets (fun w => is_modified (w_ed w)) ;;
  go <- (if file_truthy cf && m then
           r <- ask (AskYesNo "Change Encoding"
                       ("Changing the encoding will lose unsaved changes." +:+ nl +:+
                        "Do you want to continue?")) ;;
           ret (truthy r)
         else ret true) ;;
  if negb go then ret tt
  else
    modify (set_ed (with_encoding enc)) ;;
    (match cf with
     | Some p =>
         if file_truthy cf
         then modify (set_ed (with_title ("Text Editor - " +:+ basename p +:+ " [" +:+ enc +:+ "]")))
         else ret tt
     | None => ret tt
     end) ;;
    modify (set_ed (with_status ("Encoding changed to: " +:+ enc))).

(** [TextEditor.exit_application]: [root.quit()] ends the main loop. *)
Definition exit_application : EdM unit :=
  try (ok <- verify_unsaved_changes "exit" ;;
       if negb ok then ret tt
       else modify (set_ed (with_running false)) ;; log INFO "Aplicacion cerrada")
  except (fun e => handle_error "exit" e true ;; modify (set_ed (with_running false))).
End Handlers.

(** The editor record of the examples after "a.txt" was opened with
    encoding [enc], modified or not. *)
Definition sample_named (enc : string) (m : bool) : editor :=
  with_modified m (with_encoding enc (with_file (Some "a.txt") initial_editor)).

(** The encoding [open_file]'s loop settles on, and the text it loads. *)
Definition opened_encoding (b : bytes) : string :=
  match utf8_decode b with Some _ => "utf-8" | None => "latin-1" end.

Definition opened_text (b : bytes) : pystr := univ_newlines (default b (utf8_decode b)).

(** ** Lemmas *)

Section Facts.
Variable linesep : pystr.
Variable mode : delivery.

(** Loading a file whose read succeeded. *)
Lemma open_with_loaded p enc rest w content :
  read_text p enc w = (Ok content, w) -> widget_ok (w_widget w) ->
  exists w', open_with mode p (enc :: rest) w = (Ok tt, w') /\
    w_text (w_widget w') = content /\ widget_ok (w_widget w') /\
    current_file (w_ed w') = Some p /\ current_encoding (w_ed w') = enc /\
    is_modified (w_ed w') = false /\
    title (w_ed w') = "Text Editor - " +:+ basename p +:+ " [" +:+ enc +:+ "]" /\
    w_ui w' = w_ui w /\ w_fs w' = w_fs w /\ w_answers w' = w_answers w /\
    match mode with
    | Queued => w_widget w' = tk_insert 0 content (tk_delete_all (w_widget w))
    | Immediate => w_pending (w_widget w') = 0 /\ w_dirty (w_widget w') = 0%Z
    end /\
    (widget_wf (w_widget w) -> widget_wf (w_widget w')) /\
    search_dialog (w_ed w') = search_dialog (w_ed w) /\
    (found_clear (w_widget w) -> found_clear (w_widget w')).
Proof.
  intros Hr Hw. simpl. unfold try_except, bind at 1. rewrite Hr.
  destruct (widget_call_spec mode tk_delete_all w) as (w1 & E1 & F1 & H1 & M1);
    [auto with editor|done|].
  destruct (widget_call_spec mode (tk_insert 0 content) w1) as (w2 & E2 & F2 & H2 & M2);
    [auto with editor|done|].
  assert (Hwf : widget_wf (w_widget w) -> widget_wf (w_widget w2)).
  { intros Hf. eapply wf_frame; [exact F2|]. apply wf_insert.
    eapply wf_frame; [exact F1|]. by apply wf_delete_all. }
  assert (Hfc : found_clear (w_widget w) -> found_clear (w_widget w2)).
  { unfold found_clear. intros Hc. destruct (frame_widget _ _ F2) as (_ & _ & _ & _ & ->).
    cbn [w_widget set_widget]. apply clear_insert.
    unfold found_clear. destruct (frame_widget _ _ F1) as (_ & _ & _ & _ & ->).
    cbn [w_widget set_widget]. by apply clear_delete_all. }
  assert (Hsd : search_dialog (w_ed w2) = search_dialog (w_ed w)).
  { destruct F1 as (_&_&_&_&_&_&_&_&_&_&_&_&_&_&_&_&_&S1). destruct F2 as (_&_&_&_&_&_&_&_&_&_&_&_&_&_&_&_&_&S2).
    simpl in *. congruence. }
  unfold bind. rewrite E1, E2. unfold modify, log, ret. simpl.
  eexists; split; [reflexivity|]. simpl.
  destruct F1 as (? & ? & ? & ? & T1 & ?). destruct F2 as (? & ? & ? & ? & T2 & ?).
  simpl in *. split_and!; try congruence; try exact Hwf; try exact H2; try exact Hfc.
  - rewrite T2. apply tk_insert_text_nil. rewrite T1. apply tk_delete_all_text.
  - destruct mode; [|done]. subst w2 w1. done.
Qed.
End Facts.

Section Facts2.
Variable linesep : pystr.
Variable mode : delivery.

Lemma open_with_decode_error p enc rest w :
  read_text p enc w = (Raise UnicodeDecodeError, w) ->
  open_with mode p (enc :: rest) w = open_with mode p rest w.
Proof. intros Hr. simpl. unfold try_except, bind at 1. by rewrite Hr. Qed.

Lemma read_text_ok p enc k b w :
  fs_files (w_fs w) !! p = Some b -> lookup_codec enc = Some k ->
  read_text p enc w = (text_read k b, w).
Proof. intros Hb Hk. unfold read_text. by rewrite Hb, Hk. Qed.

(** The backup step on a writable backup path. *)
Lemma make_backup_spec p w :
  (p +:+ ".bak") ∉ fs_readonly (w_fs w) ->
  make_backup p w =
    (Ok tt, match fs_files (w_fs w) !! p with
            | Some b => set_fs (put_file (p +:+ ".bak") b) w
            | None => w
            end).
Proof.
  intros Hro. unfold make_backup, path_exists, bind, gets, catch_all, try_except, copy2.
  destruct (fs_files (w_fs w) !! p) as [b|] eqn:Hb; simpl.
  - by rewrite Hb, bool_decide_false.
  - reflexivity.
Qed.
(** A successful [save_file], with everything it leaves unchanged. *)
Lemma save_file_success p k bs w :
  current_file (w_ed w) = Some p ->
  lookup_codec (current_encoding (w_ed w)) = Some k ->
  p ∉ fs_readonly (w_fs w) -> (p +:+ ".bak") ∉ fs_readonly (w_fs w) ->
  text_write k linesep (tk_get_all (w_text (w_widget w))) = Ok bs ->
  exists w', save_file linesep w = (Ok true, w') /\
    fs_files (w_fs w') !! p = Some bs /\
    fs_files (w_fs w') !! (p +:+ ".bak") =
      match fs_files (w_fs w) !! p with
      | Some b0 => Some b0
      | None => fs_files (w_fs w) !! (p +:+ ".bak")
      end /\
    is_modified (w_ed w') = false /\ w_ui w' = w_ui w /\ w_widget w' = w_widget w /\
    current_file (w_ed w') = Some p /\ current_encoding (w_ed w') = current_encoding (w_ed w) /\
    w_answers w' = w_answers w /\ fs_readonly (w_fs w') = fs_readonly (w_fs w).
Proof.
  intros Hf Hk Hro Hbro Hw. unfold save_file, bind at 1, gets. rewrite Hf.
  unfold try_except, bind at 1, widget_get, gets.
  unfold bind at 1. rewrite (make_backup_spec p w Hbro).
  destruct (fs_files (w_fs w) !! p) as [b0|] eqn:Hb0;
    unfold bind, gets, write_text, modify, log, ret; simpl;
    rewrite bool_decide_false by done; rewrite Hk, Hw; simpl;
    destruct (starred (title (w_ed w))); simpl; eexists; (split; [reflexivity|]); simpl;
    rewrite ?lookup_insert_eq; split_and!; try done;
    rewrite ?lookup_insert_ne by (apply not_eq_sym, bak_ne); rewrite ?lookup_insert_eq; done.
Qed.


Lemma open_with_outcome p b w :
  fs_files (w_fs w) !! p = Some b -> widget_ok (w_widget w) ->
  exists w', open_with mode p open_encodings w = (Ok tt, w') /\
    w_text (w_widget w') = opened_text b /\ widget_ok (w_widget w') /\
    current_file (w_ed w') = Some p /\ current_encoding (w_ed w') = opened_encoding b /\
    is_modified (w_ed w') = false /\
    title (w_ed w') = "Text Editor - " +:+ basename p +:+ " [" +:+ opened_encoding b +:+ "]" /\
    w_ui w' = w_ui w /\ w_fs w' = w_fs w /\ w_answers w' = w_answers w /\
    match mode with
    | Queued => w_widget w' = tk_insert 0 (opened_text b) (tk_delete_all (w_widget w))
    | Immediate => w_pending (w_widget w') = 0 /\ w_dirty (w_widget w') = 0%Z
    end /\
    (widget_wf (w_widget w) -> widget_wf (w_widget w')) /\
    search_dialog (w_ed w') = search_dialog (w_ed w) /\
    (found_clear (w_widget w) -> found_clear (w_widget w')).
Proof.
  intros Hb Hw. unfold open_encodings, opened_text, opened_encoding.
  destruct (utf8_decode b) as [s|] eqn:E; cbn [default].
  - apply open_with_loaded; [|done].
    rewrite (read_text_ok p "utf-8" utf8 b w Hb) by done. unfold text_read. simpl. by rewrite E.
  - rewrite open_with_decode_error.
    2:{ rewrite (read_text_ok p "utf-8" utf8 b w Hb) by done. unfold text_read. simpl. by rewrite E. }
    apply open_with_loaded; [|done]. by rewrite (read_text_ok p "latin-1" latin1 b w Hb).
Qed.
End Facts2.

(** ** Properties of the file operations *)

Section FileClaims.
Variable linesep : pystr.
Variable mode : delivery.

(** C7 (functional).  [open_file]'s loop reads every existing file: the
    UTF-8 attempt succeeds when the bytes are valid UTF-8, and otherwise
    latin-1, which decodes every byte, does.  The text is loaded with
    universal newlines applied, the document is named after the file and
    unmodified, and no message box is shown: the utf-16 and cp1252
    attempts and the "Encoding Error" box are never reached. *)
Theorem open_with_reads_every_file (p : string) (b : bytes) (w : world) :
  fs_files (w_fs w) !! p = Some b -> widget_ok (w_widget w) ->
  exists w', open_with mode p open_encodings w = (Ok tt, w') /\
    current_encoding (w_ed w') = (match utf8_decode b with Some _ => "utf-8" | None => "latin-1" end) /\
    w_text (w_widget w') = univ_newlines (default b (utf8_decode b)) /\
    current_file (w_ed w') = Some p /\ is_modified (w_ed w') = false /\
    w_ui w' = w_ui w.
Proof.
  intros Hb Hw.
  destruct (open_with_outcome mode p b w Hb Hw)
    as (w' & -> & Ht & _ & Hf & He & Hm & _ & Hui & _).
  eexists; split; [reflexivity|]. done.
Qed.

(** C8 (functional).  [save_file] on a named document whose encoding
    can represent the text: the previous content of the file is copied to
    [path.bak], the file then holds the encoded [get(1.0, END)], the
    document is unmodified, and no message box is shown. *)
Theorem save_file_writes_with_backup (p : string) (k : codec) (bs : bytes) (w : world) :
  current_file (w_ed w) = Some p ->
  lookup_codec (current_encoding (w_ed w)) = Some k ->
  p ∉ fs_readonly (w_fs w) -> (p +:+ ".bak") ∉ fs_readonly (w_fs w) ->
  text_write k linesep (tk_get_all (w_text (w_widget w))) = Ok bs ->
  exists w', save_file linesep w = (Ok true, w') /\
    fs_files (w_fs w') !! p = Some bs /\
    fs_files (w_fs w') !! (p +:+ ".bak") =
      match fs_files (w_fs w) !! p with
      | Some b0 => Some b0
      | None => fs_files (w_fs w) !! (p +:+ ".bak")
      end /\
    is_modified (w_ed w') = false /\ w_ui w' = w_ui w /\ w_widget w' = w_widget w.
Proof.
  intros Hf Hk Hro Hbro Hw.
  destruct (save_file_success linesep p k bs w Hf Hk Hro Hbro Hw) as (w' & -> & H1 & H2 & H3 & H4 & H5 & _).
  eexists; split; [reflexivity|]. done.
Qed.

(** C9 (error).  When the encoding cannot represent the text (a
    character above U+00FF with latin-1, a lone surrogate with utf-8),
    [save_file] reports the error and returns False, the document stays
    modified, but the file has already been truncated by [open(path, 'w')]:
    its previous content survives only in [path.bak]. *)
Theorem save_file_encode_error_truncates (p : string) (k : codec) (w : world) :
  current_file (w_ed w) = Some p ->
  lookup_codec (current_encoding (w_ed w)) = Some k ->
  p ∉ fs_readonly (w_fs w) -> (p +:+ ".bak") ∉ fs_readonly (w_fs w) ->
  text_write k linesep (tk_get_all (w_text (w_widget w))) = Raise UnicodeEncodeError ->
  exists w' body, save_file linesep w = (Ok false, w') /\
    fs_files (w_fs w') !! p = Some [] /\
    fs_files (w_fs w') !! (p +:+ ".bak") =
      match fs_files (w_fs w) !! p with
      | Some b0 => Some b0
      | None => fs_files (w_fs w) !! (p +:+ ".bak")
      end /\
    is_modified (w_ed w') = is_modified (w_ed w) /\
    w_ui w' = w_ui w ++ [ShowError "Error" body].
Proof.
  intros Hf Hk Hro Hbro Hw. unfold save_file, bind at 1, gets. rewrite Hf.
  unfold try_except, bind at 1, widget_get, gets.
  unfold bind at 1. rewrite (make_backup_spec p w Hbro).
  destruct (fs_files (w_fs w) !! p) as [b0|] eqn:Hb0;
    unfold bind, gets, write_text, handle_error, show, modify, log, ret; simpl;
    rewrite bool_decide_false by done; rewrite Hk, Hw; simpl;
    do 2 eexists; (split; [reflexivity|]); simpl;
    rewrite ?lookup_insert_eq; split_and!; try done;
    rewrite ?lookup_insert_ne by (apply not_eq_sym, bak_ne); rewrite ?lookup_insert_eq; done.
Qed.

(** C10 (safety).  New, Open and Exit on a modified document, answered
    with Cancel in the unsaved-changes prompt, abort: the document, the
    widget and the files are unchanged and the application keeps running;
    only the prompt is recorded. *)
Theorem cancel_keeps_document (w : world) (rest : list pyval) :
  is_modified (w_ed w) = true -> w_answers w = PNone :: rest ->
  (exists w', new_file linesep mode w = (Ok tt, w') /\
     w_ed w' = w_ed w /\ w_widget w' = w_widget w /\ w_fs w' = w_fs w) /\
  (exists w', open_file linesep mode w = (Ok tt, w') /\
     w_ed w' = w_ed w /\ w_widget w' = w_widget w /\ w_fs w' = w_fs w) /\
  (exists w', exit_application linesep w = (Ok tt, w') /\
     w_ed w' = w_ed w /\ w_widget w' = w_widget w /\ w_fs w' = w_fs w).
Proof.
  intros Hm Ha.
  unfold new_file, open_file, exit_application, verify_unsaved_changes,
    catch_all, try_except, bind, gets, ask, ret.
  rewrite Hm, Ha. simpl. split_and!; eexists; (split; [reflexivity|]); done.
Qed.

(** C11 (functional).  [save_file_as] writes the chosen path without a
    backup: when the path already exists its content is replaced and no
    [.bak] copy is made; the document takes the new name and is
    unmodified. *)
Theorem save_file_as_overwrites_without_backup (p : string) (k : codec) (bs : bytes)
    (w : world) (rest : list pyval) :
  w_answers w = PStr p :: rest -> p <> EmptyString ->
  lookup_codec (current_encoding (w_ed w)) = Some k -> p ∉ fs_readonly (w_fs w) ->
  text_write k linesep (tk_get_all (w_text (w_widget w))) = Ok bs ->
  exists w', save_file_as linesep w = (Ok true, w') /\
    fs_files (w_fs w') = <[p := bs]> (fs_files (w_fs w)) /\
    current_file (w_ed w') = Some p /\ is_modified (w_ed w') = false.
Proof.
  intros Ha Hp Hk Hro Hw.
  unfold save_file_as, catch_all, try_except, bind, gets, ask, widget_get, write_text,
    modify, log, ret.
  rewrite Ha. simpl. unfold dialog_path, truthy. rewrite bool_decide_false by done. simpl.
  rewrite bool_decide_false by done. rewrite Hk, Hw. simpl.
  eexists; split; [reflexivity|]. simpl. split_and!; try done.
  apply insert_insert_eq.
Qed.

(** C12 (functional).  [change_encoding] on a document that was never
    saved switches the encoding without any confirmation, even when the
    document has unsaved modifications, and leaves them as they are. *)
Theorem change_encoding_untitled_no_prompt (enc : string) (w : world) :
  current_file (w_ed w) = None ->
  exists w', change_encoding enc w = (Ok tt, w') /\
    current_encoding (w_ed w') = enc /\ w_ui w' = w_ui w /\
    is_modified (w_ed w') = is_modified (w_ed w) /\ w_widget w' = w_widget w.
Proof.
  intros Hf. unfold change_encoding, bind, gets, modify, ret. rewrite Hf. simpl.
  eexists; split; [reflexivity|]. done.
Qed.

(** C18 (functional).  A file that [save_file] wrote in utf-16 does not
    reopen as utf-16: it starts with the byte-order mark 0xFF 0xFE, which
    is not valid UTF-8, and [open_file]'s loop tries latin-1 before
    utf-16; latin-1 accepts every byte, so the loop stops there, the
    widget shows the raw bytes (the mark included) and the title and the
    encoding say latin-1. *)
Theorem utf16_file_reopens_as_latin1 (s : pystr) (bs : bytes) p w :
  utf16_encode s = Some bs -> fs_files (w_fs w) !! p = Some bs -> widget_ok (w_widget w) ->
  take 2 bs = [255; 254]%Z /\
  exists w', open_with mode p open_encodings w = (Ok tt, w') /\
    w_text (w_widget w') = univ_newlines bs /\ current_encoding (w_ed w') = "latin-1" /\
    title (w_ed w') = "Text Editor - " +:+ basename p +:+ " [latin-1]".
Proof.
  intros E Hb Hw. unfold utf16_encode in E.
  destruct (encode_with utf16le_encode_char s) as [r|]; [|done]. injection E as <-.
  split; [done|].
  destruct (open_with_outcome mode p _ w Hb Hw) as (w' & Eo & Ht & _ & _ & He & _ & Hti & _).
  exists w'. unfold opened_text, opened_encoding in *. cbn [utf8_decode default] in *.
  by split_and!.
Qed.

(** C25 (error).  Opening a path that does not exist: the first attempt
    raises [FileNotFoundError], which is not a decoding error, so the loop
    reports it in one error box and stops; the document, the widget and
    the files are unchanged and the "Encoding Error" box is not shown. *)
Theorem open_missing_file_reports_error (p : string) (w : world) :
  fs_files (w_fs w) !! p = None ->
  exists w' body, open_with mode p open_encodings w = (Ok tt, w') /\
    w_ed w' = w_ed w /\ w_widget w' = w_widget w /\ w_fs w' = w_fs w /\
    w_ui w' = w_ui w ++ [ShowError "Error" body].
Proof.
  intros Hp. unfold open_encodings. cbn [open_with].
  unfold try_except, bind at 1, read_text. rewrite Hp.
  unfold handle_error, log, bind, show, modify, ret. simpl.
  do 2 eexists; split; [reflexivity|]. done.
Qed.

(** C26 (error).  Saving to a path where writing is refused: the
    "Permission Error" box is shown, [save_file] returns False, the file
    keeps its content and the document stays modified as it was. *)
Theorem save_file_permission_error (p : string) (w : world) :
  current_file (w_ed w) = Some p -> p ∈ fs_readonly (w_fs w) ->
  exists w', save_file linesep w = (Ok false, w') /\
    fs_files (w_fs w') !! p = fs_files (w_fs w) !! p /\
    is_modified (w_ed w') = is_modified (w_ed w) /\
    w_ui w' = w_ui w ++ [ShowError "Permission Error" permission_msg].
Proof.
  intros Hf Hro. unfold save_file, bind at 1, gets. rewrite Hf.
  unfold try_except, bind at 1, widget_get, gets. unfold bind at 1.
  destruct (make_backup p w) as [r wb] eqn:Eb.
  assert (Hb : fs_files (w_fs wb) !! p = fs_files (w_fs w) !! p /\ fs_readonly (w_fs wb) = fs_readonly (w_fs w) /\
               w_ed wb = w_ed w /\ w_ui wb = w_ui w).
  { revert Eb. unfold make_backup, path_exists, bind, gets, catch_all, try_except, copy2, log, modify, ret.
    destruct (fs_files (w_fs w) !! p) eqn:E; simpl; [|by intros [= _ <-]].
    rewrite E. case_bool_decide; simpl; intros [= _ <-]; [done|].
    simpl. rewrite lookup_insert_ne by (intros Heq; apply (bak_ne p); congruence). done. }
  destruct Hb as (Hb1 & Hb2 & Hb3 & Hb4). destruct r as [[]|e].
  - unfold bind, gets, write_text. rewrite Hb2, bool_decide_true by done. simpl.
    unfold show, modify, ret. eexists; split; [reflexivity|]. simpl. by rewrite Hb1, Hb3, Hb4.
  - revert Eb. unfold make_backup, path_exists, bind, gets, catch_all, try_except, log, ret.
    destruct (bool_decide _); [destruct (copy2 _ _ _) as [[[]|?] ?]|]; simpl; intros [=].
Qed.

(** C27 (safety).  Exit on a modified untitled document, answered Yes to
    save and then cancelled in the Save As dialog: [save_file] fails, so
    [verify_unsaved_changes] returns False and the application keeps
    running with the document unchanged. *)
Theorem exit_keeps_running_when_save_cancelled (w : world) (rest : list pyval) :
  is_modified (w_ed w) = true -> current_file (w_ed w) = None ->
  w_answers w = PBool true :: PStr EmptyString :: rest ->
  exists w', exit_application linesep w = (Ok tt, w') /\
    w_ed w' = w_ed w /\ w_widget w' = w_widget w /\ w_fs w' = w_fs w.
Proof.
  intros Hm Hf Ha.
  unfold exit_application, verify_unsaved_changes, save_file, save_file_as,
    catch_all, try_except, bind, gets, ask, ret.
  rewrite Hm, Ha. simpl. rewrite Hf. simpl. eexists; split; [reflexivity|]. done.
Qed.

(** [new_file] on an unmodified document forgets the
    file and empties the text but keeps [current_encoding]: the encoding
    is not reset to utf-8. *)
Theorem new_file_keeps_encoding (w : world) :
  is_modified (w_ed w) = false -> widget_ok (w_widget w) ->
  exists w', new_file linesep mode w = (Ok tt, w') /\
    current_encoding (w_ed w') = current_encoding (w_ed w) /\
    current_file (w_ed w') = None /\ w_text (w_widget w') = [].
Proof.
  intros Hm Hw.
  destruct (widget_call_spec mode tk_delete_all w) as (w' & E & F & _); [eauto with editor|done|].
  destruct (frame_widget _ _ F) as (Ht & _). destruct F as (_&_&_&_&_&_&He&_).
  eexists; split.
  - unfold new_file, verify_unsaved_changes.
    unfold bind, gets, modify, log, ret. cbn beta iota. rewrite Hm. cbn [negb].
    unfold catch_all, try_except. cbn beta iota. rewrite E. reflexivity.
  - simpl. split_and!; [done|done|]. rewrite Ht. apply tk_delete_all_text.
Qed.
End FileClaims.

(** ** Witnesses on the sample world of [Editor] *)

Lemma open_with_reads_every_file_witness :
  exists w', open_with Queued "a.txt" open_encodings (sample_world initial_editor [] []) = (Ok tt, w') /\
    current_encoding (w_ed w') = "utf-8" /\ w_text (w_widget w') = [104; 105; 10]%Z /\
    current_file (w_ed w') = Some "a.txt" /\ is_modified (w_ed w') = false.
Proof.
  destruct (open_with_reads_every_file Queued "a.txt" [104; 105; 10]%Z (sample_world initial_editor [] []))
    as (w' & E & He & Ht & Hf & Hm & _); [reflexivity|by apply widget_ok_quiet|].
  exists w'. split_and!; [exact E|exact He|exact Ht|exact Hf|exact Hm].
Defined.

Lemma save_file_writes_with_backup_witness :
  exists w', save_file [LF] (sample_world (sample_named "utf-8" true) [111; 107]%Z []) = (Ok true, w') /\
    fs_files (w_fs w') !! "a.txt" = Some [111; 107; 10]%Z /\
    fs_files (w_fs w') !! "a.txt.bak" = Some [104; 105; 10]%Z /\ is_modified (w_ed w') = false.
Proof.
  destruct (save_file_writes_with_backup [LF] "a.txt" utf8 [111; 107; 10]%Z
              (sample_world (sample_named "utf-8" true) [111; 107]%Z []))
    as (w' & E & Hp & Hb & Hm & _); [reflexivity|reflexivity|apply not_elem_of_empty
                                    |apply not_elem_of_empty|reflexivity|].
  exists w'. split_and!; [exact E|exact Hp|exact Hb|exact Hm].
Defined.

Lemma save_file_encode_error_truncates_witness :
  exists w' body, save_file [LF] (sample_world (sample_named "latin-1" true) [8364]%Z []) = (Ok false, w') /\
    fs_files (w_fs w') !! "a.txt" = Some [] /\
    fs_files (w_fs w') !! "a.txt.bak" = Some [104; 105; 10]%Z /\ is_modified (w_ed w') = true /\
    w_ui w' = [ShowError "Error" body].
Proof.
  destruct (save_file_encode_error_truncates [LF] "a.txt" latin1
              (sample_world (sample_named "latin-1" true) [8364]%Z []))
    as (w' & body & E & Hp & Hb & Hm & Hui); [reflexivity|reflexivity|apply not_elem_of_empty
                                             |apply not_elem_of_empty|reflexivity|].
  exists w', body. split_and!; [exact E|exact Hp|exact Hb|exact Hm|exact Hui].
Defined.

Lemma cancel_keeps_document_witness :
  exists w', open_file [LF] Queued (sample_world (sample_named "utf-8" true) [111]%Z [PNone]) = (Ok tt, w') /\
    w_ed w' = sample_named "utf-8" true.
Proof.
  destruct (cancel_keeps_document [LF] Queued (sample_world (sample_named "utf-8" true) [111]%Z [PNone]) [])
    as (_ & (w' & E & He & _) & _); [reflexivity|reflexivity|].
  exists w'. split; [exact E|exact He].
Defined.

Lemma save_file_as_overwrites_without_backup_witness :
  exists w', save_file_as [LF] (sample_world initial_editor [111]%Z [PStr "a.txt"]) = (Ok true, w') /\
    fs_files (w_fs w') = {["a.txt" := [111; 10]%Z]} /\ current_file (w_ed w') = Some "a.txt".
Proof.
  destruct (save_file_as_overwrites_without_backup [LF] "a.txt" utf8 [111; 10]%Z
              (sample_world initial_editor [111]%Z [PStr "a.txt"]) [])
    as (w' & E & Hfs & Hf & _); [reflexivity|done|reflexivity|apply not_elem_of_empty|reflexivity|].
  exists w'. split_and!; [exact E| |exact Hf]. rewrite Hfs. apply insert_insert_eq.
Defined.

Lemma change_encoding_untitled_no_prompt_witness :
  exists w', change_encoding "latin-1" (sample_world (with_modified true initial_editor) [111]%Z []) = (Ok tt, w') /\
    current_encoding (w_ed w') = "latin-1" /\ w_ui w' = [] /\ is_modified (w_ed w') = true.
Proof.
  destruct (change_encoding_untitled_no_prompt "latin-1" (sample_world (with_modified true initial_editor) [111]%Z []))
    as (w' & E & He & Hui & Hm & _); [reflexivity|].
  exists w'. split_and!; [exact E|exact He|exact Hui|exact Hm].
Defined.

Lemma utf16_file_reopens_as_latin1_witness :
  take 2 [255; 254; 104; 0]%Z = [255; 254]%Z /\
  exists w', open_with Queued "a.txt" open_encodings
      (set_fs (put_file "a.txt" [255; 254; 104; 0]%Z) (sample_world initial_editor [] [])) = (Ok tt, w') /\
    w_text (w_widget w') = univ_newlines [255; 254; 104; 0]%Z /\ current_encoding (w_ed w') = "latin-1" /\
    title (w_ed w') = "Text Editor - " +:+ basename "a.txt" +:+ " [latin-1]".
Proof.
  apply (utf16_file_reopens_as_latin1 Queued [104]%Z); [reflexivity|reflexivity|by apply widget_ok_quiet].
Defined.

Lemma open_missing_file_reports_error_witness :
  exists w' body, open_with Queued "b.txt" open_encodings (sample_world initial_editor [] []) = (Ok tt, w') /\
    w_ed w' = initial_editor /\ w_ui w' = [ShowError "Error" body].
Proof.
  destruct (open_missing_file_reports_error Queued "b.txt" (sample_world initial_editor [] []))
    as (w' & body & E & He & _ & _ & Hui); [reflexivity|].
  exists w', body. split_and!; [exact E|exact He|exact Hui].
Defined.

Lemma save_file_permission_error_witness :
  exists w', save_file [LF] (set_fs (fun f => {| fs_files := fs_files f; fs_readonly := {["a.txt"]} |})
                              (sample_world (sample_named "utf-8" true) [111]%Z [])) = (Ok false, w') /\
    fs_files (w_fs w') !! "a.txt" = Some [104; 105; 10]%Z /\ is_modified (w_ed w') = true /\
    w_ui w' = [ShowError "Permission Error" permission_msg].
Proof.
  destruct (save_file_permission_error [LF] "a.txt"
              (set_fs (fun f => {| fs_files := fs_files f; fs_readonly := {["a.txt"]} |})
                 (sample_world (sample_named "utf-8" true) [111]%Z [])))
    as (w' & E & Hp & Hm & Hui); [reflexivity|cbn; set_solver|].
  exists w'. split_and!; [exact E|exact Hp|exact Hm|exact Hui].
Defined.

Lemma exit_keeps_running_when_save_cancelled_witness :
  exists w', exit_application [LF]
               (sample_world (with_modified true initial_editor) [111]%Z [PBool true; PStr EmptyString]) = (Ok tt, w') /\
    running (w_ed w') = true.
Proof.
  destruct (exit_keeps_running_when_save_cancelled [LF]
              (sample_world (with_modified true initial_editor) [111]%Z [PBool true; PStr EmptyString]) [])
    as (w' & E & He & _); [reflexivity|reflexivity|reflexivity|].
  exists w'. split; [exact E|by rewrite He].
Defined.

Lemma new_file_keeps_encoding_witness :
  exists w', new_file [LF] Queued (sample_world (sample_named "latin-1" false) [111]%Z []) = (Ok tt, w') /\
    current_encoding (w_ed w') = "latin-1" /\ current_file (w_ed w') = None.
Proof.
  destruct (new_file_keeps_encoding [LF] Queued (sample_world (sample_named "latin-1" false) [111]%Z []))
    as (w' & E & He & Hf & _); [reflexivity|by apply widget_ok_quiet|].
  exists w'. split_and!; [exact E|exact He|exact Hf].
Defined.
