(* ===== verification/EditOps.v ===== *)
(** * The edit operations: [EditOperations]

    One definition per method of [src/operations/edit_operations.py], in
    the [PyM world] monad of [Editor]: [copy], [cut], [paste] and
    [select_all] on the [sel] tag, the [insert] mark and the clipboard of
    the widget ([Widget]), and [undo] / [redo].  Every method catches any
    exception and passes it to [handle_error] with [show_user=False].

    [undo] and [redo] run Tk's [edit undo] and [edit redo] on the undo
    stack of [Widget]; the [Undo] section takes [edit_result], the value
    the two commands return through [tkinter] when they succeed: the
    empty string in Tk 8.6. *)

From S2P Require Import Prelude Text Widget Editor.

Local Open Scope py_scope.

(** ** Tk commands the methods call *)

(** [text_widget.tag_ranges(tk.SEL)]. *)
Definition sel_ranges : EdM (option (nat * nat)) := gets (fun w => w_sel (w_widget w)).

(** The message of an index [sel.first] when nothing is selected: text
    doesn't contain any characters tagged with "sel". *)
Definition no_sel_msg : string :=
  let q := String (Ascii.ascii_of_nat 34) EmptyString in
  "text doesn't contain any characters tagged with " +:+ q +:+ "sel" +:+ q.

(** The indices [tk.SEL_FIRST] and [tk.SEL_LAST]. *)
Definition sel_bounds : EdM (nat * nat) :=
  fun w => match w_sel (w_widget w) with
           | Some r => (Ok r, w)
           | None => (Raise (TclError no_sel_msg), w)
           end.

(** [text_widget.clipboard_get()]. *)
Definition clipboard_get : EdM pystr :=
  fun w => match tk_clipboard_get (w_widget w) with
           | Ok s => (Ok s, w)
           | Raise e => (Raise e, w)
           end.

Section Edit.
Variable mode : delivery.

(** [EditOperations.copy]. *)
Definition copy : EdM unit :=
  try (r <- sel_ranges ;;
       match r with
       | None => ret tt
       | Some _ =>
           modify (set_widget tk_clipboard_clear) ;;
           ab <- sel_bounds ;;
           s <- gets (fun w => tk_get (fst ab) (snd ab) (w_widget w)) ;;
           modify (set_widget (tk_clipboard_append s))
       end)
  except (fun e => handle_error "copy" e false).

(** [EditOperations.cut]: [copy], then [delete(tk.SEL_FIRST, tk.SEL_LAST)]. *)
Definition cut : EdM unit :=
  try (r <- sel_ranges ;;
       match r with
       | None => ret tt
       | Some _ =>
           copy ;;
           ab <- sel_bounds ;;
           widget_call mode (tk_delete (fst ab) (snd ab))
       end)
  except (fun e => handle_error "cut" e false).

(** [EditOperations.paste]: [if text:] skips an empty clipboard. *)
Definition paste : EdM unit :=
  try (s <- clipboard_get ;;
       match s with
       | [] => ret tt
       | _ :: _ =>
           i <- gets (fun w => w_insert (w_widget w)) ;;
           widget_call mode (tk_insert i s)
       end)
  except (fun e => handle_error "paste" e false).

(** [EditOperations.select_all]; [see(tk.INSERT)] only scrolls. *)
Definition select_all : EdM unit :=
  try (modify (set_widget tk_select_all) ;;
       modify (set_widget (tk_mark_set_insert 0)))
  except (fun e => handle_error "select all" e false).
End Edit.

Section Undo.
Variable mode : delivery.
(** The value [edit_undo()] and [edit_redo()] return through [tkinter]
    when Tk succeeds: the Tcl result of [edit undo], the empty string in
    Tk 8.6. *)
Variable edit_result : pyval.

(** [text_widget.edit_undo()] / [edit_redo()]: the Tk command [f] runs on
    the widget (the [<<Modified>>] events its edits generate are delivered
    as for any widget call); when it fails, [tkinter] raises [TclError]
    with Tk's message. *)
Definition edit_call (f : widget -> bool * widget) (msg : string) : EdM pyval :=
  r <- gets (fun w => f (w_widget w)) ;;
  widget_call mode (fun _ => snd r) ;;
  if fst r then ret edit_result else raise (TclError msg).

(** [EditOperations.undo]. *)
Definition undo : EdM unit :=
  try (r <- edit_call tk_edit_undo "nothing to undo" ;;
       if truthy r then modify (set_widget tk_edit_separator) else ret tt)
  except (fun e => handle_error "undo" e false).

(** [EditOperations.redo]. *)
Definition redo : EdM unit :=
  try (r <- edit_call tk_edit_redo "nothing to redo" ;;
       if truthy r then modify (set_widget tk_edit_separator) else ret tt)
  except (fun e => handle_error "redo" e false).
End Undo.

(** The clipboard after [copy] of the range [a, b]. *)
Definition copied (a b : nat) (wd : widget) : widget :=
  tk_clipboard_append (tk_get a b wd) (tk_clipboard_clear wd).

(** ** Lemmas *)

Lemma select_all_eq w :
  select_all w = (Ok tt, set_widget (fun wd => tk_mark_set_insert 0 (tk_select_all wd)) w).
Proof. reflexivity. Qed.

Lemma copy_sel w a b :
  w_sel (w_widget w) = Some (a, b) -> copy w = (Ok tt, set_widget (copied a b) w).
Proof.
  intros H. unfold copy, catch_all, try_except, bind, sel_ranges, sel_bounds, gets, modify.
  cbn. rewrite H. cbn. rewrite H. reflexivity.
Qed.

Lemma copy_nosel w : w_sel (w_widget w) = None -> copy w = (Ok tt, w).
Proof.
  intros H. unfold copy, catch_all, try_except, bind, sel_ranges, gets. cbn. by rewrite H.
Qed.

Lemma widget_ok_copied a b wd : widget_ok wd -> widget_ok (copied a b wd).
Proof. apply widget_ok_same; reflexivity. Qed.

#[export] Hint Resolve widget_ok_copied : editor.

Lemma copied_clip a b wd : w_clip (copied a b wd) = Some (tk_get a b wd).
Proof. reflexivity. Qed.

(** [cut] with a selection: [copy], then the deletion as a widget call. *)
Lemma cut_sel mode w a b :
  w_sel (w_widget w) = Some (a, b) -> widget_ok (w_widget w) ->
  exists w', cut mode w = (Ok tt, w') /\
    frame (set_widget (fun wd => tk_delete a b (copied a b wd)) w) w' /\ widget_ok (w_widget w').
Proof.
  intros H Hw.
  destruct (widget_call_spec mode (tk_delete a b) (set_widget (copied a b) w))
    as (w' & E & F & Hok & _); [auto with editor|by apply widget_ok_copied|].
  exists w'. split; [|done].
  unfold cut, catch_all, try_except, bind at 1, sel_ranges, gets. cbv beta iota. rewrite H.
  unfold bind at 1. rewrite (copy_sel w a b H). cbv beta iota.
  unfold bind at 1, sel_bounds.
  change (w_sel (w_widget (set_widget (copied a b) w))) with (w_sel (w_widget w)).
  rewrite H. cbv beta iota. cbn [fst snd]. by rewrite E.
Qed.

(** [paste] with a non-empty clipboard: an insertion at [insert]. *)
Lemma paste_clip mode w s :
  w_clip (w_widget w) = Some s -> s <> [] -> widget_ok (w_widget w) ->
  exists w', paste mode w = (Ok tt, w') /\
    frame (set_widget (tk_insert (w_insert (w_widget w)) s) w) w' /\ widget_ok (w_widget w').
Proof.
  intros H Hs Hw.
  destruct (widget_call_spec mode (tk_insert (w_insert (w_widget w)) s) w)
    as (w' & E & F & Hok & _); [auto with editor|done|].
  exists w'. split; [|done].
  unfold paste, catch_all, try_except, bind, clipboard_get, tk_clipboard_get, gets.
  rewrite H. destruct s as [|c s]; [done|]. by rewrite E.
Qed.

(** ** Properties *)

(** C20 (functional).  Select All, Cut, then Paste does not give the text
    back: [tag_add(SEL, "1.0", END)] selects the final newline too, [cut]
    copies it to the clipboard ([get(SEL_FIRST, SEL_LAST)]) while Tk never
    deletes it, and [paste] inserts it, so the text gains a newline at its
    end, in both delivery modes. *)
Theorem select_all_cut_paste_appends_newline mode w :
  widget_ok (w_widget w) ->
  exists w1 w2 w3, select_all w = (Ok tt, w1) /\ cut mode w1 = (Ok tt, w2) /\
    paste mode w2 = (Ok tt, w3) /\
    w_text (w_widget w3) = w_text (w_widget w) ++ [LF] /\
    w_clip (w_widget w3) = Some (w_text (w_widget w) ++ [LF]).
Proof.
  intros Hw. set (w1 := set_widget (fun wd => tk_mark_set_insert 0 (tk_select_all wd)) w).
  destruct (cut_sel mode w1 0 (tk_end (w_widget w))) as (w2 & E2 & F2 & Hok2);
    [reflexivity|apply (widget_ok_same (w_widget w)); [reflexivity|reflexivity|exact Hw]|].
  destruct (frame_widget _ _ F2) as (Ht2 & Hi2 & _ & Hc2 & _). cbn [w_widget set_widget] in Ht2, Hi2, Hc2.
  destruct (tk_delete_from_start (tk_end (w_widget w))
              (copied 0 (tk_end (w_widget w)) (w_widget w1))) as [Ht Hi];
    [cbn; lia|cbn; unfold tk_end; lia|].
  rewrite Ht in Ht2. rewrite Hi in Hi2.
  assert (Hc : w_clip (w_widget w2) = Some (w_text (w_widget w) ++ [LF])).
  { rewrite Hc2, tk_delete_clip, copied_clip. exact (f_equal Some (tk_get_to_end (w_widget w))). }
  destruct (paste_clip mode w2 (w_text (w_widget w) ++ [LF])) as (w3 & E3 & F3 & _);
    [done|by destruct (w_text (w_widget w))|done|].
  destruct (frame_widget _ _ F3) as (Ht3 & _ & _ & Hc3 & _). cbn [w_widget set_widget] in Ht3, Hc3.
  exists w1, w2, w3. split_and!; [done|done|done| |].
  - rewrite Ht3, Hi2. by apply tk_insert_text_nil.
  - by rewrite Hc3, tk_insert_clip.
Qed.

(** C21 (roundtrip).  Cut then Paste restores the text when the selection
    lies inside the text and the cursor inside the selection: the cut
    leaves [insert] at the start of the selection and the clipboard holds
    the selected characters. *)
Theorem cut_paste_restores mode w a b :
  widget_ok (w_widget w) -> w_sel (w_widget w) = Some (a, b) ->
  a < b <= length (w_text (w_widget w)) -> a <= w_insert (w_widget w) <= b ->
  exists w2 w3, cut mode w = (Ok tt, w2) /\ paste mode w2 = (Ok tt, w3) /\
    w_text (w_widget w2) = take a (w_text (w_widget w)) ++ drop b (w_text (w_widget w)) /\
    w_text (w_widget w3) = w_text (w_widget w) /\
    w_clip (w_widget w3) = Some (take (b - a) (drop a (w_text (w_widget w)))).
Proof.
  intros Hw Hs Hab Hi.
  destruct (cut_sel mode w a b Hs Hw) as (w2 & E2 & F2 & Hok2).
  destruct (frame_widget _ _ F2) as (Ht2 & Hi2 & _ & Hc2 & _). cbn [w_widget set_widget] in Ht2, Hi2, Hc2.
  destruct (delete_reinsert a b (copied a b (w_widget w))) as [Hia Hre]; [done|done|].
  rewrite Hia in Hi2. rewrite tk_delete_clip, copied_clip, tk_get_inside in Hc2 by lia.
  destruct (paste_clip mode w2 (take (b - a) (drop a (w_text (w_widget w))))) as (w3 & E3 & F3 & _);
    [done|intros Hn; apply (f_equal length) in Hn; rewrite length_take, length_drop in Hn; simpl in Hn; lia|done|].
  destruct (frame_widget _ _ F3) as (Ht3 & _ & _ & Hc3 & _). cbn [w_widget set_widget] in Ht3, Hc3.
  exists w2, w3. split_and!; [done|done| | |].
  - rewrite Ht2. unfold tk_delete. cbn. rewrite Nat.min_l by lia.
    destruct (Nat.leb_spec b a); [lia|done].
  - rewrite Ht3, Hi2, (tk_insert_text_congr _ _ _ _ Ht2). exact Hre.
  - by rewrite Hc3, tk_insert_clip.
Qed.

(** C22 (error).  Paste with an empty clipboard: [clipboard_get] raises
    [TclError], which [paste] passes to [handle_error] with
    [show_user=False]: nothing changes but an ERROR line in the log. *)
Theorem paste_without_clipboard_logs_error mode w :
  w_clip (w_widget w) = None ->
  paste mode w =
    (Ok tt, {| w_fs := w_fs w; w_widget := w_widget w; w_ed := w_ed w; w_answers := w_answers w;
               w_ui := w_ui w;
               w_log := w_log w ++ [(ERROR, "Error en paste: " +:+ clipboard_missing_msg)] |}).
Proof.
  intros H. unfold paste, catch_all, try_except, bind at 1, clipboard_get, tk_clipboard_get.
  rewrite H. apply handle_error_silent.
Qed.

(** [undo] with an empty undo stack: Tk raises "nothing to
    undo", which is logged at ERROR and not shown; the text, the marks,
    the selection and the undo stack are unchanged (Tk only puts a
    separator on the redo stack). *)
Theorem undo_empty_stack_logs_error r w :
  w_undo (w_widget w) = [] ->
  undo Queued r w =
    (Ok tt, {| w_fs := w_fs w; w_widget := with_stacks [] (sep_push (w_redo (w_widget w))) (w_widget w);
               w_ed := w_ed w; w_answers := w_answers w;
               w_ui := w_ui w; w_log := w_log w ++ [(ERROR, "Error en undo: nothing to undo")] |}).
Proof.
  intros H. unfold undo, catch_all, try_except, bind at 1, edit_call, widget_call, tk_edit_undo.
  unfold bind at 1, gets. unfold bind at 1, modify. rewrite H. reflexivity.
Qed.

(** ** Witnesses on the sample world of [Editor] *)

Lemma select_all_cut_paste_appends_newline_witness :
  exists w1 w2 w3, select_all (sample_world initial_editor [104; 105]%Z []) = (Ok tt, w1) /\
    cut Queued w1 = (Ok tt, w2) /\ paste Queued w2 = (Ok tt, w3) /\
    w_text (w_widget w3) = [104; 105; 10]%Z /\ w_clip (w_widget w3) = Some [104; 105; 10]%Z.
Proof.
  apply (select_all_cut_paste_appends_newline Queued (sample_world initial_editor [104; 105]%Z [])).
  by apply widget_ok_quiet.
Defined.

Lemma cut_paste_restores_witness :
  exists w2 w3,
    cut Immediate (set_widget (fun _ => {| w_text := [104; 105; 33]%Z; w_dirty := 0; w_pending := 0;
                                          w_insert := 1; w_sel := Some (0, 2); w_clip := None;
                                          w_undo := []; w_redo := []; w_last := EditOther;
                                          w_autosep := true; w_found := [] |})
                     (sample_world initial_editor [] [])) = (Ok tt, w2) /\
    paste Immediate w2 = (Ok tt, w3) /\ w_text (w_widget w2) = [33]%Z /\
    w_text (w_widget w3) = [104; 105; 33]%Z /\ w_clip (w_widget w3) = Some [104; 105]%Z.
Proof.
  match goal with |- context [cut Immediate ?w] => apply (cut_paste_restores Immediate w 0 2) end;
    [|reflexivity|cbn; lia|cbn; lia].
  by apply widget_ok_quiet.
Defined.

Lemma paste_without_clipboard_logs_error_witness :
  paste Queued (sample_world initial_editor [104]%Z []) =
    (Ok tt, {| w_fs := sample_fs; w_widget := w_widget (sample_world initial_editor [104]%Z []);
               w_ed := initial_editor; w_answers := []; w_ui := [];
               w_log := [(ERROR, "Error en paste: " +:+ clipboard_missing_msg)] |}).
Proof. apply paste_without_clipboard_logs_error. reflexivity. Defined.

Lemma undo_empty_stack_logs_error_witness :
  undo Queued (PStr EmptyString) (sample_world initial_editor [104]%Z []) =
    (Ok tt, {| w_fs := sample_fs; w_widget := w_widget (sample_world initial_editor [104]%Z []);
               w_ed := initial_editor; w_answers := []; w_ui := [];
               w_log := [(ERROR, "Error en undo: nothing to undo")] |}).
Proof. apply undo_empty_stack_logs_error. reflexivity. Defined.
