(* ===== verification/Input.v ===== *)
(** * Keyboard and mouse input on the text widget

    A key press in the widget runs the bindings of its tags in order: first
    the widget's own [<KeyPress>] binding, [TextEditor.update_status_bar]
    of [src/text_editor.py], then the [Text] class binding of Tk's
    [text.tcl], [tk::TextInsert], which replaces the selection when the
    cursor is inside it (the deletion and the insertion then make one undo
    group) and inserts the character at the [insert] mark.  A click
    ([tk::TextButton1]) moves the [insert] mark, closes the undo group and
    clears the selection; it runs no binding of the editor.

    [update_status_bar] reads [index(tk.INSERT)], "line.column" with
    lines counted from 1 and columns from 0, and shows the column plus
    one. *)

From S2P Require Import Prelude Text Widget Editor EditOps.
From stdpp Require Import pretty.

Local Open Scope py_scope.

(** Line and column of the end of [s], starting from line [l], column [c]. *)
Fixpoint line_col (s : pystr) (l c : nat) : nat * nat :=
  match s with
  | [] => (l, c)
  | x :: r => if Z.eqb x LF then line_col r (S l) 0 else line_col r l (S c)
  end.

(** [index(i)] as "line.column" for the offset [i] of the text. *)
Definition tk_index (t : pystr) (i : nat) : nat * nat := line_col (take i t) 1 0.

(** The text [update_status_bar] puts in the status bar. *)
Definition status_text (lc : nat * nat) : string :=
  "Ready | Line: " +:+ pretty (N.of_nat (fst lc)) +:+
  ", Column: " +:+ pretty (N.of_nat (S (snd lc))).

(** [TextEditor.update_status_bar]. *)
Definition update_status_bar : EdM unit :=
  try (lc <- gets (fun w => tk_index (w_text (w_widget w)) (w_insert (w_widget w))) ;;
       modify (set_ed (with_status (status_text lc))))
  except (fun e => handle_error "update status bar" e false).

Section Bindings.
Variable mode : delivery.

(** [tk::TextInsert]: when [sel.first <= insert <= sel.last] the
    selection is deleted first, and with [-autoseparators] the deletion
    and the insertion make one undo group: the option is switched off and
    a separator is put before and after them.  Then [s] is inserted at
    [insert]; [see insert] only scrolls. *)
Definition text_insert (s : pystr) : EdM unit :=
  match s with
  | [] => ret tt
  | _ :: _ =>
      r <- gets (fun w => w_sel (w_widget w)) ;;
      i <- gets (fun w => w_insert (w_widget w)) ;;
      compound <- (match r with
                   | Some (a, b) =>
                       if Nat.leb a i && Nat.leb i b then
                         old <- gets (fun w => w_autosep (w_widget w)) ;;
                         (if old then modify (set_widget (tk_configure_autosep false)) ;;
                                      modify (set_widget tk_edit_separator)
                          else ret tt) ;;
                         widget_call mode (tk_delete a b) ;;
                         ret old
                       else ret false
                   | None => ret false
                   end) ;;
      i' <- gets (fun w => w_insert (w_widget w)) ;;
      widget_call mode (tk_insert i' s) ;;
      (if compound then modify (set_widget tk_edit_separator) ;;
                        modify (set_widget (tk_configure_autosep true))
       else ret tt)
  end.

(** A key press that types the character [c]: the widget's binding, then
    the class binding. *)
Definition key_press (c : Z) : EdM unit :=
  update_status_bar ;; text_insert [c].

(** A click at the offset [i]: [tk::TextButton1] sets [insert] and,
    with [-autoseparators], puts a separator on the undo stack; then the
    binding removes the selection. *)
Definition click (i : nat) : EdM unit :=
  modify (set_widget (tk_mark_set_insert i)) ;;
  a <- gets (fun w => w_autosep (w_widget w)) ;;
  (if a then modify (set_widget tk_edit_separator) else ret tt) ;;
  modify (set_widget tk_clear_sel).
End Bindings.

(** ** Lemmas *)

Lemma update_status_bar_eq w :
  update_status_bar w =
    (Ok tt, set_ed (with_status (status_text (tk_index (w_text (w_widget w)) (w_insert (w_widget w))))) w).
Proof. reflexivity. Qed.

(** With no selection, the class binding is one insertion at [insert]. *)
Lemma text_insert_nosel mode w s :
  w_sel (w_widget w) = None -> s <> [] ->
  text_insert mode s w = widget_call mode (tk_insert (w_insert (w_widget w)) s) w.
Proof.
  intros H Hs. destruct s as [|c s]; [done|]. cbv [text_insert bind gets ret]. rewrite H.
  by destruct (widget_call mode _ w) as [[[]|e] w'].
Qed.

(** Typing one character with no selection: the status bar, then one
    widget call. *)
Lemma key_press_eq mode w c :
  w_sel (w_widget w) = None ->
  key_press mode c w =
    widget_call mode (tk_insert (w_insert (w_widget w)) [c])
      (set_ed (with_status (status_text (tk_index (w_text (w_widget w)) (w_insert (w_widget w))))) w).
Proof.
  intros Hs. unfold key_press, bind at 1. rewrite update_status_bar_eq.
  exact (text_insert_nosel mode (set_ed (with_status (status_text (tk_index (w_text (w_widget w)) (w_insert (w_widget w))))) w) [c] Hs ltac:(done)).
Qed.

Lemma key_press_nosel mode w c :
  widget_ok (w_widget w) -> w_sel (w_widget w) = None ->
  exists w', key_press mode c w = (Ok tt, w') /\
    frame (set_widget (tk_insert (w_insert (w_widget w)) [c])
             (set_ed (with_status (status_text (tk_index (w_text (w_widget w)) (w_insert (w_widget w))))) w)) w' /\
    widget_ok (w_widget w').
Proof.
  intros Hw Hs. rewrite key_press_eq by done.
  destruct (widget_call_spec mode (tk_insert (w_insert (w_widget w)) [c])
              (set_ed (with_status (status_text (tk_index (w_text (w_widget w)) (w_insert (w_widget w))))) w))
    as (w' & E & F & Hok & _); [auto with editor|done|].
  by exists w'.
Qed.

(** The first step of the class binding with the cursor inside the
    selection: with [-autoseparators] the option is switched off and a
    separator pushed. *)
Definition compound_start (wd : widget) : widget :=
  if w_autosep wd then tk_edit_separator (tk_configure_autosep false wd) else wd.

Lemma compound_start_fields wd :
  w_text (compound_start wd) = w_text wd /\ w_insert (compound_start wd) = w_insert wd /\
  w_sel (compound_start wd) = w_sel wd.
Proof. unfold compound_start. by destruct (w_autosep wd). Qed.

(** The last step: the separator after the group, and the option back. *)
Definition compound_end (old : bool) (wd : widget) : widget :=
  if old then tk_configure_autosep true (tk_edit_separator wd) else wd.

Lemma compound_end_fields old wd :
  w_text (compound_end old wd) = w_text wd /\ w_insert (compound_end old wd) = w_insert wd.
Proof. unfold compound_end. by destruct old. Qed.

(** The class binding with the cursor inside the selection: the
    selection is deleted, then [s] is inserted where [insert] now is,
    inside one undo group. *)
Lemma text_insert_sel mode w s a b :
  s <> [] -> w_sel (w_widget w) = Some (a, b) -> a <= w_insert (w_widget w) <= b ->
  widget_ok (w_widget w) ->
  exists wa wb, widget_call mode (tk_delete a b) (set_widget compound_start w) = (Ok tt, wa) /\
    widget_call mode (tk_insert (w_insert (w_widget wa)) s) wa = (Ok tt, wb) /\
    frame (set_widget (fun wd => tk_delete a b (compound_start wd)) w) wa /\
    frame (set_widget (tk_insert (w_insert (w_widget wa)) s) wa) wb /\
    text_insert mode s w = (Ok tt, set_widget (compound_end (w_autosep (w_widget w))) wb).
Proof.
  intros Hs Hsel Hi Hw.
  destruct (widget_call_spec mode (tk_delete a b) (set_widget compound_start w)) as (wa & Ea & Fa & Hoka & _);
    [auto with editor|unfold set_widget, compound_start; cbn [w_widget]; by destruct (w_autosep (w_widget w))|].
  destruct (widget_call_spec mode (tk_insert (w_insert (w_widget wa)) s) wa) as (wb & Eb & Fb & _);
    [auto with editor|done|].
  exists wa, wb. split_and!; [done|done|done|done|].
  destruct s as [|c s]; [done|]. cbv [text_insert bind gets ret modify]. rewrite Hsel.
  destruct (Nat.leb_spec a (w_insert (w_widget w))); [|lia].
  destruct (Nat.leb_spec (w_insert (w_widget w)) b); [|lia]. cbn [andb].
  destruct (w_autosep (w_widget w)) eqn:Hauto.
  - assert (E0 : set_widget tk_edit_separator (set_widget (tk_configure_autosep false) w) =
                 set_widget compound_start w) by (unfold compound_start, set_widget; simpl; by rewrite Hauto).
    rewrite E0, Ea, Eb. reflexivity.
  - assert (E0 : set_widget compound_start w = w)
      by (unfold compound_start, set_widget; rewrite Hauto; by destruct w).
    rewrite E0 in Ea. rewrite Ea, Eb. unfold compound_end, set_widget. by destruct wb.
Qed.

(** ** Properties *)

(** C24 (functional).  The status bar lags one key behind: the widget's
    [<KeyPress>] binding [update_status_bar] runs before Tk's class
    binding inserts the character, so after typing [c] at offset [i] the
    cursor is at [i + 1] but the status bar shows the position [i]. *)
Theorem key_press_status_lags mode w c :
  widget_ok (w_widget w) -> w_sel (w_widget w) = None ->
  w_insert (w_widget w) <= length (w_text (w_widget w)) ->
  exists w', key_press mode c w = (Ok tt, w') /\
    w_text (w_widget w') = take (w_insert (w_widget w)) (w_text (w_widget w)) ++ [c] ++
                           drop (w_insert (w_widget w)) (w_text (w_widget w)) /\
    w_insert (w_widget w') = S (w_insert (w_widget w)) /\
    status (w_ed w') = status_text (tk_index (w_text (w_widget w)) (w_insert (w_widget w))).
Proof.
  intros Hw Hs Hi.
  destruct (key_press_nosel mode w c Hw Hs) as (w' & E & F & _).
  destruct (frame_widget _ _ F) as (Ht & Hi' & _). destruct F as (_&_&_&_&_&_&_&Hst&_).
  cbn [w_widget w_ed set_widget set_ed with_status status] in Ht, Hi', Hst.
  exists w'. split_and!; [done| | |done].
  - rewrite Ht. unfold tk_insert. cbn. by rewrite Nat.min_l.
  - rewrite Hi'. unfold tk_insert. cbn. rewrite Nat.min_l by done. unfold ins_pos. nat_cases.
Qed.

(** C36 (functional).  Typing over a Select All replaces the whole text:
    the cursor is at "1.0" inside the selection, so Tk's class binding
    deletes the selection (the final newline stays) and inserts the
    character, which becomes the whole text, with the cursor after it. *)
Theorem select_all_then_type_replaces_text mode w c :
  widget_ok (w_widget w) -> widget_wf (w_widget w) ->
  exists w1 w2, select_all w = (Ok tt, w1) /\ key_press mode c w1 = (Ok tt, w2) /\
    w_text (w_widget w2) = [c] /\ w_insert (w_widget w2) = 1.
Proof.
  intros Hw [Hi _].
  set (w1 := set_widget (fun wd => tk_mark_set_insert 0 (tk_select_all wd)) w).
  set (w0 := set_ed (with_status (status_text (tk_index (w_text (w_widget w1)) (w_insert (w_widget w1))))) w1).
  destruct (text_insert_sel mode w0 [c] 0 (tk_end (w_widget w))) as (wa & wb & _ & _ & Fa & Fb & E);
    [done|reflexivity|cbn; lia|by apply (widget_ok_same (w_widget w))|].
  destruct (frame_widget _ _ Fa) as (Hta & Hia & _). cbn [w_widget set_widget] in Hta, Hia.
  destruct (compound_start_fields (w_widget w0)) as (Ec1 & Ec2 & _).
  destruct (tk_delete_from_start (tk_end (w_widget w)) (compound_start (w_widget w0))) as [Ht0 Hi0];
    [rewrite Ec1, Ec2; cbn; lia|rewrite Ec1; cbn; unfold tk_end; lia|].
  rewrite Ht0 in Hta. rewrite Hi0 in Hia.
  destruct (frame_widget _ _ Fb) as (Htb & Hib & _). cbn [w_widget set_widget] in Htb, Hib.
  exists w1, (set_widget (compound_end (w_autosep (w_widget w0))) wb).
  destruct (compound_end_fields (w_autosep (w_widget w0)) (w_widget wb)) as [Ee1 Ee2].
  split_and!; [apply select_all_eq| | |].
  - unfold key_press, bind at 1. rewrite update_status_bar_eq. exact E.
  - cbn [w_widget set_widget]. rewrite Ee1, Htb, Hia. by apply tk_insert_text_nil.
  - cbn [w_widget set_widget]. rewrite Ee2, Hib, Hia. unfold tk_insert.
    cbn [push_undo ins_chars note_dirty w_insert]. rewrite Hia. reflexivity.
Qed.

Lemma select_all_then_type_replaces_text_witness :
  exists w1 w2, select_all (sample_world initial_editor [104; 105]%Z []) = (Ok tt, w1) /\
    key_press Immediate 33%Z w1 = (Ok tt, w2) /\ w_text (w_widget w2) = [33]%Z /\ w_insert (w_widget w2) = 1.
Proof.
  apply (select_all_then_type_replaces_text Immediate); [by apply widget_ok_quiet|].
  split; cbn; lia.
Defined.

Lemma key_press_status_lags_witness :
  exists w', key_press Queued 33%Z (sample_world initial_editor [104; 105]%Z []) = (Ok tt, w') /\
    w_text (w_widget w') = [33; 104; 105]%Z /\ w_insert (w_widget w') = 1 /\
    status (w_ed w') = "Ready | Line: 1, Column: 1".
Proof.
  destruct (key_press_status_lags Queued (sample_world initial_editor [104; 105]%Z []) 33%Z)
    as (w' & E & Ht & Hi & Hs); [by apply widget_ok_quiet|reflexivity|cbn; lia|].
  exists w'. split_and!; [exact E|exact Ht|exact Hi|]. rewrite Hs. vm_compute. reflexivity.
Defined.
