(* ===== verification/Shortcuts.v ===== *)
(** * Keyboard shortcuts

    [MenuManager.setup_keyboard_shortcuts] ([src/manager/menu_manager.py])
    binds Control-n, Control-o, Control-s, Control-Shift-S, Control-f and
    Control-a on the root window.  The binding tags of the text widget are
    the widget itself, its class [Text], the toplevel and [all], and none
    of the bindings returns "break": a shortcut typed in the text runs the
    widget's [<KeyPress>] binding ([update_status_bar]), then the [Text]
    class binding of Tk's [text.tcl], then the root binding.

    The class binding of Control-o is the emacs-like "open line" of
    [text.tcl] (active while [tk_strictMotif] is false, its default): it
    inserts a newline at [insert] and moves [insert] back before it.
    Control-s and Control-Shift-S only match the class's [<Control-Key>]
    binding, which does nothing.  Control-n, Control-f and Control-a are
    the emacs-like [<<NextLine>>], [<<NextChar>>] and [<<LineStart>>] of
    X11: [tk::TextSetCursor] moves [insert] (one display line down, one
    character on, to the start of the display line), removes the
    selection and closes the undo group.  The display lines depend on the
    window's geometry, so the index Control-n and Control-a move to is an
    argument of the command. *)

From S2P Require Import Prelude Text Widget SearchWin Editor FileOps EditOps Input.

Local Open Scope py_scope.

Section Shortcuts.
Variable linesep : pystr.
Variable mode : delivery.

(** [bind Text <Control-o>]: [%W insert insert \n], then
    [%W mark set insert insert-1c]. *)
Definition open_line : EdM unit :=
  i <- gets (fun w => w_insert (w_widget w)) ;;
  widget_call mode (tk_insert i [LF]) ;;
  j <- gets (fun w => w_insert (w_widget w)) ;;
  modify (set_widget (tk_mark_set_insert (Nat.pred j))).

(** Control-o in the text: the status bar, the class binding, then
    [open_file] from the root binding. *)
Definition ctrl_o : EdM unit :=
  update_status_bar ;; open_line ;; open_file linesep mode.

(** [tk::TextSetCursor] of [text.tcl], which the emacs-like motions run:
    [insert] at [pos] ("end" is brought back before the final newline),
    the selection removed, and with [-autoseparators] an undo separator;
    [see insert] only scrolls. *)
Definition text_set_cursor (pos : nat) (wd : widget) : widget :=
  let wd1 := tk_clear_sel (tk_mark_set_insert pos wd) in
  if w_autosep wd1 then tk_edit_separator wd1 else wd1.

(** [SearchOperations.open_search_window] on the editor's attributes
    (its [except] branch is not reached: no call in it raises). *)
Definition open_search : EdM unit :=
  modify (set_ed (fun e => with_search (open_search_window (search_dialog e)) e)).

(** Control-n in the text: the status bar, the class binding
    ([<<NextLine>>]: [tk::TextSetCursor] at [tk::TextUpDownLine %W 1],
    the index [i] one display line down, which the window's geometry
    decides), then [new_file]. *)
Definition ctrl_n (i : nat) : EdM unit :=
  update_status_bar ;; modify (set_widget (text_set_cursor i)) ;; new_file linesep mode.

(** Control-f in the text: the status bar, the class binding
    ([<<NextChar>>]: [tk::TextSetCursor] at [insert+1displayindices],
    one character on since no text is elided), then
    [open_search_window]. *)
Definition ctrl_f : EdM unit :=
  update_status_bar ;;
  i <- gets (fun w => w_insert (w_widget w)) ;;
  modify (set_widget (text_set_cursor (S i))) ;;
  open_search.

(** Control-a in the text: the status bar, the class binding
    ([<<LineStart>>]: [tk::TextSetCursor] at [insert display linestart],
    the index [i] the line wrapping decides), then [select_all]. *)
Definition ctrl_a (i : nat) : EdM unit :=
  update_status_bar ;; modify (set_widget (text_set_cursor i)) ;; select_all.

(** Control-s in the text: the status bar, then [save_file]. *)
Definition ctrl_s : EdM unit :=
  update_status_bar ;; save_file linesep ;; ret tt.

(** Control-Shift-S in the text: the status bar, then [save_file_as]. *)
Definition ctrl_shift_s : EdM unit :=
  update_status_bar ;; save_file_as linesep ;; ret tt.
End Shortcuts.

(** ** Lemmas *)

(** The widget after the class binding of Control-o. *)
Definition opened_line (wd : widget) : widget :=
  let wd1 := tk_insert (w_insert wd) [LF] wd in
  tk_mark_set_insert (Nat.pred (w_insert wd1)) wd1.

(** With a queued delivery the class binding is one change of the widget. *)
Lemma open_line_queued w : open_line Queued w = (Ok tt, set_widget opened_line w).
Proof. reflexivity. Qed.

(** The class binding leaves the cursor where it was, before the newline. *)
Lemma opened_line_spec wd :
  w_insert wd <= length (w_text wd) ->
  w_text (opened_line wd) = take (w_insert wd) (w_text wd) ++ [LF] ++ drop (w_insert wd) (w_text wd) /\
  w_insert (opened_line wd) = w_insert wd.
Proof.
  intros Hi. unfold opened_line, tk_insert, tk_mark_set_insert. cbn.
  rewrite !Nat.min_l by done. split; [done|]. unfold ins_pos. rewrite Nat.leb_refl, length_app, length_take,
    length_cons, length_drop. simpl. lia.
Qed.

(** Control-o answered with Cancel in the file dialog, on an unmodified
    document with a queued delivery: the newline is in the text and the
    event it queued is still pending. *)
Lemma ctrl_o_cancel ls w rest :
  is_modified (w_ed w) = false -> w_answers w = PStr EmptyString :: rest ->
  exists w1, ctrl_o ls Queued w = (Ok tt, w1) /\
    w_widget w1 = opened_line (w_widget w) /\ w_fs w1 = w_fs w /\
    w_ed w1 = with_status (status_text (tk_index (w_text (w_widget w)) (w_insert (w_widget w)))) (w_ed w) /\
    w_ui w1 = w_ui w ++ [AskOpenFilename] /\ w_answers w1 = rest.
Proof.
  intros Hm Ha. unfold ctrl_o, bind at 1. rewrite update_status_bar_eq.
  unfold bind at 1. rewrite open_line_queued.
  unfold open_file, verify_unsaved_changes, bind, gets, ask, ret, set_widget, set_ed.
  cbn [w_ed is_modified with_status w_answers].
  rewrite Hm. cbn [negb]. rewrite Ha. cbn [dialog_path truthy].
  eexists. split; [reflexivity|]. done.
Qed.

Lemma widget_ok_opened_line wd : widget_ok wd -> widget_ok (opened_line wd).
Proof.
  intros H. unfold opened_line.
  apply (widget_ok_same (tk_insert (w_insert wd) [LF] wd)); [done|done|auto with editor].
Qed.

Lemma wf_opened_line wd : widget_wf wd -> widget_wf (opened_line wd).
Proof. intros H. unfold opened_line. auto with editor. Qed.

#[export] Hint Resolve widget_ok_opened_line wf_opened_line : editor.

(** The handlers of Control-f and Control-a change the state at once,
    without raising. *)
Lemma ctrl_f_eq w :
  ctrl_f w =
    (Ok tt, set_ed (fun e => with_search (open_search_window (search_dialog e)) e)
              (set_widget (text_set_cursor (S (w_insert (w_widget w))))
                 (set_ed (with_status (status_text (tk_index (w_text (w_widget w)) (w_insert (w_widget w))))) w))).
Proof. reflexivity. Qed.

Lemma ctrl_a_eq i w :
  ctrl_a i w =
    (Ok tt, set_widget (fun wd => tk_mark_set_insert 0 (tk_select_all wd))
              (set_widget (text_set_cursor i)
                 (set_ed (with_status (status_text (tk_index (w_text (w_widget w)) (w_insert (w_widget w))))) w))).
Proof. reflexivity. Qed.

(** [tk::TextSetCursor] moves the cursor and touches neither the text
    nor the counter. *)
Lemma text_set_cursor_fields i wd :
  w_text (text_set_cursor i wd) = w_text wd /\ w_dirty (text_set_cursor i wd) = w_dirty wd /\
  w_pending (text_set_cursor i wd) = w_pending wd /\ w_found (text_set_cursor i wd) = w_found wd /\
  w_clip (text_set_cursor i wd) = w_clip wd /\ w_sel (text_set_cursor i wd) = None /\
  w_insert (text_set_cursor i wd) = Nat.min i (length (w_text wd)).
Proof. unfold text_set_cursor. by case_match. Qed.

Lemma widget_ok_text_set_cursor i wd : widget_ok wd -> widget_ok (text_set_cursor i wd).
Proof.
  destruct (text_set_cursor_fields i wd) as (_ & Hd & Hp & _). apply widget_ok_same; done.
Qed.

Lemma wf_text_set_cursor i wd : widget_wf wd -> widget_wf (text_set_cursor i wd).
Proof. intros H. unfold text_set_cursor. case_match; auto with editor. Qed.

Lemma typed_text_set_cursor i wd : widget_typed wd -> widget_typed (text_set_cursor i wd).
Proof. intros H. unfold text_set_cursor. case_match; auto with editor. Qed.

Lemma clear_text_set_cursor i wd : found_clear wd -> found_clear (text_set_cursor i wd).
Proof. apply clear_same. apply text_set_cursor_fields. Qed.

#[export] Hint Resolve widget_ok_text_set_cursor wf_text_set_cursor typed_text_set_cursor
  clear_text_set_cursor : editor.

(** The newline sets the modified flag of a clean widget. *)
Lemma tk_modified_opened_line wd : w_dirty wd = 0%Z -> tk_modified (opened_line wd) = true.
Proof.
  intros Hd. change (tk_modified (tk_insert (w_insert wd) [LF] wd) = true).
  apply tk_modified_note_edit. simpl. lia.
Qed.
