(* ===== verification/Help.v ===== *)
(** * The Help menu: [DialogManager]

    [src/manager/dialog_manager.py]: "Information" and "Members" show an
    information box with a fixed text; "User Manual" opens the project's
    page in the web browser, reporting a failure with [handle_error].
    The texts are the Python literals, with their line breaks and
    indentation. *)

From S2P Require Import Prelude Editor.

Local Open Scope py_scope.

(** The [info] literal of [show_info]. *)
Definition info_text : string := "
        Editor de Texto Avanzado
        Version: 2.0
        
        Características:
        - Abrir y editar múltiples tipos de archivos
        - Compatibilidad con diferentes codificaciones
        - Guardar y guardar como con copia de seguridad automática
        - Búsqueda avanzada con resaltado
        - Deshacer/rehacer ilimitado
        - Manejo robusto de errores
        - Registro de actividad y errores
        
        
        © 2025 - Derechos reservados
        ".

(** The [members] literal of [show_members]. *)
Definition members_text : string := "
        Equipo de trabajo/Grupo:        
        
        Marlon Hernández - ID: 7690-25-19080  
        Pamela Alvarado - ID: 7690-25-16439
        Anderson Palma - ID: 7690-25-2440
        
        Curso: Algoritmos - Seccion C
        Universidad: Universidad Mariano Gálvez de Guatemala
        Anio: 2025
        ".

(** [manual_url] of [open_manual]. *)
Definition manual_url : string := "https://github.com/your-username/your-repository".

(** [DialogManager.show_info]. *)
Definition show_info : EdM unit := show (ShowInfo "Information" info_text).

(** [DialogManager.show_members]. *)
Definition show_members : EdM unit := show (ShowInfo "Group Members" members_text).

Section Manual.
(** What [webbrowser.open] raises, if anything (it reports a browser it
    cannot run by returning [False]). *)
Variable browser_error : option exn.

(** [DialogManager.open_manual]. *)
Definition open_manual : EdM unit :=
  try (match browser_error with
       | Some e => raise e
       | None => show (OpenBrowser manual_url)
       end)
  except (fun e => handle_error "open manual" e true).
End Manual.
