(* ===== verification/Session.v ===== *)
(** * A session: user commands and the event loop

    [MenuManager.create_menu] and [setup_keyboard_shortcuts]
    ([src/manager/menu_manager.py]) bind the menu items and keys to the
    handlers of [FileOps], [EditOps] and [Help]; the Encoding menu passes
    [enc.lower()] of "UTF-8", "Latin-1" and "UTF-16".  A key press and a
    click go through the bindings of [Input], the shortcuts through
    [Shortcuts].  After each command the event loop delivers the queued
    [<<Modified>>] events to [mark_as_modified].

    [step c w] is one command followed by the event loop, and
    [dialog_step] one event of the search dialog ([SearchWin]) on the
    editor's attributes and the widget, followed by the event loop.
    [reachable] is the set of worlds reached from the state
    [TextEditor.__init__] builds by what the interface lets the user do:
    while the search window exists it holds the grab, so only the window
    manager's close button of the main window and the keys typed into
    the text (when a search gave it the focus) reach the main window
    ([cmd_allowed]).  The invariant proved by rule induction: the
    encoding is one of the four names of [open_file], the widget's
    marks, selection and "found" ranges are inside its text, the
    "Encoding Error" box is never shown, one search window at most exists
    and no "found" range is left without it, and between events no
    [<<Modified>>] event is queued and the widget's counter is clear.  A
    second invariant, [data_ok], says that the widget holds Unicode
    scalar values and every file holds bytes; it is proved handler by
    handler with [returns], which carries what a read gives back to the
    rest of the handler.  [App] shows that [main] reaches
    [initial_world].

    The last claims concern the two windows together.
    [open_search_window] opens a [Toplevel] that takes the grab and gives
    the keyboard focus to its entry; after a search that finds something,
    [focus_set] gives the focus back to the text while the window stays
    open.  The shortcuts of [setup_keyboard_shortcuts] are bound on the
    root window and run after Tk's class bindings.  Proved: while the
    entry has the focus no event edits the document and the Close button
    always releases the editor; Control-f with the window open only
    raises it; Control-a selects everything whatever the class binding
    did; and the highlighting of a search follows the text as the user
    types ([tagged]). *)

From S2P Require Import Prelude Text Search Codec Widget SearchWin Editor FileOps EditOps Input Shortcuts Help.

Local Open Scope py_scope.

(** The lower-cased labels of the Encoding menu. *)
Definition menu_encodings : list string := ["utf-8"; "latin-1"; "utf-16"].

(** What the user can do. *)
Inductive command :=
| CmdNew
| CmdOpen
| CmdSave
| CmdSaveAs
| CmdExit
| CmdEncoding (enc : string)
| CmdKey (c : Z)
| CmdClick (i : nat)
| CmdCopy
| CmdCut
| CmdPaste
| CmdSelectAll
| CmdCtrlO
| CmdCtrlS
| CmdCtrlShiftS
| CmdInfo
| CmdManual
| CmdMembers
| CmdUndo
| CmdRedo
| CmdSearch
| CmdCtrlN (i : nat)
| CmdCtrlF
| CmdCtrlA (i : nat).

(** The commands the interface can issue: the Encoding menu only offers
    its three names, and a key types a character. *)
Definition command_ok (c : command) : Prop :=
  match c with
  | CmdEncoding e => e ∈ menu_encodings
  | CmdKey c => is_scalar c
  | _ => True
  end.

(** The keys typed into the text widget. *)
Definition key_command (c : command) : bool :=
  match c with
  | CmdKey _ | CmdCtrlO | CmdCtrlS | CmdCtrlShiftS | CmdCtrlN _ | CmdCtrlF | CmdCtrlA _ => true
  | _ => false
  end.

(** The commands the interface lets through while the search dialog is
    in the state [d].  The window holds the grab ([grab_set]), so the
    pointer reaches neither the menus nor the text while it exists; a key
    goes to the widget with the keyboard focus, which is the text only
    after a successful search ([focus_set]); the window manager's close
    button of the main window ([WM_DELETE_WINDOW], bound to
    [exit_application] like the Exit item) is not a pointer event of the
    application and stays usable. *)
Definition cmd_allowed (c : command) (d : search_state) : bool :=
  match ss_window d with
  | None => true
  | Some _ => match c with CmdExit => true | _ => key_command c && ss_focus d end
  end.

(** What the user does: a command of the main window or an event of the
    search dialog. *)
Inductive app_event := ECmd (c : command) | EDialog (ev : search_event).

Definition app_event_ok (e : app_event) : Prop :=
  match e with ECmd c => command_ok c | EDialog _ => True end.

(** The state [main] starts the loop in. *)
Definition initial_world (fs : fsys) (answers : list pyval) : world :=
  {| w_fs := fs; w_widget := empty_widget; w_ed := initial_editor;
     w_answers := answers; w_ui := [];
     w_log := [(INFO, "Text editor initialized successfully")] |}.

Section Session.
Variable linesep : pystr.
Variable mode : delivery.

(** The handler a command runs. *)
Definition handler (c : command) : EdM unit :=
  match c with
  | CmdNew => new_file linesep mode
  | CmdOpen => open_file linesep mode
  | CmdSave => save_file linesep ;; ret tt
  | CmdSaveAs => save_file_as linesep ;; ret tt
  | CmdExit => exit_application linesep
  | CmdEncoding e => change_encoding e
  | CmdKey c => key_press mode c
  | CmdClick i => click i
  | CmdCopy => copy
  | CmdCut => cut mode
  | CmdPaste => paste mode
  | CmdSelectAll => select_all
  | CmdCtrlO => ctrl_o linesep mode
  | CmdCtrlS => ctrl_s linesep
  | CmdCtrlShiftS => ctrl_shift_s linesep
  | CmdInfo => show_info
  | CmdManual => open_manual None
  | CmdMembers => show_members
  (* [edit_undo()] and [edit_redo()] return the empty string under Tk 8.6 *)
  | CmdUndo => undo mode (PStr EmptyString)
  | CmdRedo => redo mode (PStr EmptyString)
  | CmdSearch => open_search
  | CmdCtrlN i => ctrl_n linesep mode i
  | CmdCtrlF => ctrl_f
  | CmdCtrlA i => ctrl_a i
  end.

(** A command, then the event loop; an exception escaping a handler is
    reported by Tk and the loop goes on. *)
Definition dispatch (c : command) : EdM unit :=
  fun w => let '(_, w1) := handler c w in run_pending w1.

Definition step (c : command) (w : world) : world := snd (dispatch c w).

(** Tk's [-nocase] folding, for the search dialog. *)
Variable nocase_fold : Z -> Z.

(** An event of the search dialog ([SearchWin]) on the editor's
    attributes and the text widget, then the event loop; [None] when the
    event cannot happen. *)
Definition dialog_step (ev : search_event) (w : world) : option world :=
  match search_step nocase_fold ev (search_dialog (w_ed w)) (w_widget w) with
  | Some (d, wd) => Some (snd (run_pending (set_widget (fun _ => wd) (set_ed (with_search d) w))))
  | None => None
  end.

(** The states the application reaches: the commands of the main window
    the dialog lets through, and the events of the dialog itself (it is
    opened by the [CmdSearch] and [CmdCtrlF] commands). *)
Inductive reachable : world -> Prop :=
| reachable_init fs answers : fs_ok fs -> reachable (initial_world fs answers)
| reachable_step c w :
    command_ok c -> cmd_allowed c (search_dialog (w_ed w)) = true -> reachable w -> reachable (step c w)
| reachable_dialog ev w w' : ev <> SOpen -> reachable w -> dialog_step ev w = Some w' -> reachable w'.

(** A run of the application: the commands and dialog events in order,
    [None] as soon as one cannot happen. *)
Fixpoint run_app (evs : list app_event) (w : world) : option world :=
  match evs with
  | [] => Some w
  | ECmd c :: r => if cmd_allowed c (search_dialog (w_ed w)) then run_app r (step c w) else None
  | EDialog ev :: r =>
      match ev with
      | SOpen => None
      | _ => match dialog_step ev w with Some w' => run_app r w' | None => None end
      end
  end.
End Session.

(** No "Encoding Error" box has been shown. *)
Definition no_encoding_error (u : list ui) : Prop :=
  forall b, ShowError "Encoding Error" b ∉ u.

(** The invariant between and during handlers: the encoding is known,
    the widget's counter is consistent with its queue, its marks,
    selection and "found" ranges are inside the text, the "Encoding
    Error" box of [open_file] has never been shown, and the search
    dialog's invariant holds: at most one window, and no "found" range
    without it. *)
Definition inv (w : world) : Prop :=
  current_encoding (w_ed w) ∈ open_encodings /\ widget_ok (w_widget w) /\
  widget_wf (w_widget w) /\ no_encoding_error (w_ui w) /\
  search_inv (search_dialog (w_ed w)) (w_widget w).

(** The data invariant: the widget holds text (its characters and the
    clipboard's are Unicode scalar values) and every file holds bytes. *)
Definition data_ok (w : world) : Prop := widget_typed (w_widget w) /\ fs_ok (w_fs w).

(** ** Lemmas *)

Lemma no_encoding_error_snoc u q :
  no_encoding_error u -> (forall b, q <> ShowError "Encoding Error" b) -> no_encoding_error (u ++ [q]).
Proof.
  intros Hu Hq b. rewrite elem_of_app, list_elem_of_singleton.
  intros [H|H]; [exact (Hu b H)|exact (Hq b (eq_sym H))].
Qed.

Lemma preserves_ask q : (forall b, q <> ShowError "Encoding Error" b) -> preserves inv (ask q).
Proof.
  intros Hq w r w' (He & Hw & Hf & Hu & Hs). unfold ask.
  destruct (w_answers w); intros [= _ <-]; (split_and!; [done|done|done| |done]); by apply no_encoding_error_snoc.
Qed.

Lemma preserves_show q : (forall b, q <> ShowError "Encoding Error" b) -> preserves inv (show q).
Proof.
  intros Hq. apply preserves_modify. intros w (He & Hw & Hf & Hu & Hs).
  split_and!; [done|done|done| |done]. by apply no_encoding_error_snoc.
Qed.

Lemma preserves_log l m : preserves inv (log l m).
Proof. unfold log. destruct (Nat.leb _ _); [apply preserves_modify; done|apply preserves_ret]. Qed.

Lemma preserves_handle_error o e b : preserves inv (handle_error o e b).
Proof. unfold handle_error. preserve_tac; auto using preserves_log. apply preserves_show. discriminate. Qed.

Lemma preserves_copy2 p q : preserves inv (copy2 p q).
Proof.
  intros w r w' Hw. unfold copy2.
  destruct (fs_files (w_fs w) !! p); [case_bool_decide|]; intros [= _ <-]; done.
Qed.

Lemma preserves_read_text p e : preserves inv (read_text p e).
Proof.
  intros w r w' Hw. unfold read_text.
  destruct (fs_files (w_fs w) !! p); [destruct (lookup_codec e)|]; intros [= _ <-]; done.
Qed.

Lemma preserves_write_text ls p e s : preserves inv (write_text ls p e s).
Proof.
  intros w r w' Hw. unfold write_text. case_bool_decide; [by intros [= _ <-]|].
  destruct (lookup_codec e); [destruct (text_write _ _ _)|]; intros [= _ <-]; done.
Qed.

Lemma preserves_set_ed f :
  (forall e, current_encoding (f e) = current_encoding e) -> (forall e, search_dialog (f e) = search_dialog e) ->
  preserves inv (modify (set_ed f)).
Proof.
  intros Hf Hd. apply preserves_modify. intros w (He & Hw & Hwf & Hu & Hs).
  split_and!; simpl; rewrite ?Hf, ?Hd; done.
Qed.

Lemma preserves_encoding enc : enc ∈ open_encodings -> preserves inv (modify (set_ed (with_encoding enc))).
Proof. intros He. apply preserves_modify. intros w (_ & Hw & Hf). done. Qed.

(** What a [frame] keeps of the invariant. *)
Lemma inv_frame w w' :
  frame w w' -> current_encoding (w_ed w) ∈ open_encodings -> widget_wf (w_widget w) ->
  no_encoding_error (w_ui w) -> search_inv (search_dialog (w_ed w)) (w_widget w) ->
  current_encoding (w_ed w') ∈ open_encodings /\ widget_wf (w_widget w') /\
  no_encoding_error (w_ui w') /\ search_inv (search_dialog (w_ed w')) (w_widget w').
Proof.
  intros F He Hwf Hu Hs. split_and!; [|by eapply wf_frame| |].
  - destruct F as (_ & _ & _ & _ & _ & _ & Fe & _). by rewrite Fe.
  - destruct F as (_ & Fu & _). unfold no_encoding_error. by rewrite Fu.
  - destruct F as (_&_&_&_&_&_&_&_&_&_&_&_&_&_&_&_&Ff&Fs). rewrite Fs.
    exact (search_inv_same_found _ _ _ Ff Hs).
Qed.

(** The search part of the invariant after a change [f] of the widget
    that adds no "found" range. *)
Lemma search_inv_set_widget f s wd :
  (forall wd, found_clear wd -> found_clear (f wd)) -> search_inv s wd -> search_inv s (f wd).
Proof. intros Hc (Hb & Hn). split; [done|]. intros H. apply Hc, Hn, H. Qed.

Lemma preserves_set_widget f :
  (forall wd, widget_ok wd -> widget_ok (f wd)) -> (forall wd, widget_wf wd -> widget_wf (f wd)) ->
  (forall wd, found_clear wd -> found_clear (f wd)) ->
  preserves inv (modify (set_widget f)).
Proof.
  intros Hf Hg Hc. apply preserves_modify. intros w (He & Hw & Hwf & Hu & Hs).
  split_and!; simpl; auto. by apply search_inv_set_widget.
Qed.

(** A widget call from a state whose change of the widget keeps the
    invariant: the event loop it may run keeps it too. *)
Lemma inv_widget_call mode f w r w' :
  (forall wd, widget_ok wd -> widget_ok (f wd)) -> inv w -> inv (set_widget f w) ->
  widget_call mode f w = (r, w') -> inv w'.
Proof.
  intros Hf (_ & Hw & _) (He & Hw' & Hwf & Hu & Hs) E.
  destruct (widget_call_spec mode f w Hf Hw) as (w1 & E1 & F & Hw1 & _).
  rewrite E1 in E. injection E as _ <-.
  destruct (inv_frame _ _ F He Hwf Hu Hs) as (He1 & Hwf1 & Hu1 & Hs1). by split_and!.
Qed.

Lemma preserves_widget_call mode f :
  (forall wd, widget_ok wd -> widget_ok (f wd)) -> (forall wd, widget_wf wd -> widget_wf (f wd)) ->
  (forall wd, found_clear wd -> found_clear (f wd)) ->
  preserves inv (widget_call mode f).
Proof.
  intros Hf Hg Hc w r w' Hw. apply (inv_widget_call mode f w r w' Hf Hw).
  exact (preserves_set_widget f Hf Hg Hc w (Ok tt) _ Hw eq_refl).
Qed.

Lemma preserves_run_pending : preserves inv run_pending.
Proof.
  intros w r w' (He & Hw & Hwf & Hu & Hs) E.
  destruct (run_pending_quiet w Hw) as (w1 & E1 & F & Hp & Hd & _).
  rewrite E1 in E. injection E as _ <-.
  destruct (inv_frame _ _ F He Hwf Hu Hs) as (He1 & Hwf1 & Hu1 & Hs1).
  split_and!; [done|by apply widget_ok_quiet|done|done|done].
Qed.

Lemma preserves_sel_bounds : preserves inv sel_bounds.
Proof. intros w r w' Hw. unfold sel_bounds. destruct (w_sel _); intros [= _ <-]; done. Qed.

Lemma preserves_clipboard_get : preserves inv clipboard_get.
Proof. intros w r w' Hw. unfold clipboard_get. destruct (tk_clipboard_get _); intros [= _ <-]; done. Qed.

(** A call of Tk's [edit undo] or [edit redo]: the widget it leaves
    keeps the invariant whenever the one it starts from does. *)
Lemma preserves_edit_call mode r f msg :
  (forall wd, widget_ok wd -> widget_ok (f wd).2) -> (forall wd, widget_wf wd -> widget_wf (f wd).2) ->
  (forall wd, found_clear wd -> found_clear (f wd).2) ->
  preserves inv (edit_call mode r f msg).
Proof.
  intros Hf Hg Hcl w x w' Hw. pose proof Hw as (He & Hok & Hwf & Hu & Hs).
  assert (Hw1 : inv (set_widget (fun _ => (f (w_widget w)).2) w)).
  { split_and!; simpl; auto. by apply (search_inv_set_widget (fun wd => (f wd).2)). }
  unfold edit_call, bind, gets, ret, raise.
  destruct (widget_call mode _ w) as [[[]|e] w1] eqn:E1;
    [destruct (f (w_widget w)).1|]; intros [= _ <-];
    exact (inv_widget_call mode _ w _ w1 (fun _ _ => Hf _ Hok) Hw Hw1 E1).
Qed.

#[export] Hint Extern 2 (preserves inv (ask _)) => (apply preserves_ask; intros ?; discriminate) : editor.
#[export] Hint Extern 2 (preserves inv (show _)) => (apply preserves_show; intros ?; discriminate) : editor.
#[export] Hint Resolve preserves_log preserves_handle_error
  preserves_copy2 preserves_read_text preserves_write_text preserves_run_pending
  preserves_sel_bounds preserves_clipboard_get : editor.
#[export] Hint Extern 3 (forall wd, widget_ok wd -> widget_ok (_ wd)) =>
  (let wd := fresh "wd" in let H := fresh "H" in intros wd H;
   first [solve [eauto with editor] | apply (widget_ok_same wd); [reflexivity|reflexivity|exact H]]) : editor.
#[export] Hint Extern 3 (forall wd, widget_wf wd -> widget_wf (_ wd)) =>
  (let wd := fresh "wd" in let H := fresh "H" in intros wd H; eauto 6 with editor) : editor.
#[export] Hint Extern 3 (forall wd, found_clear wd -> found_clear (_ wd)) =>
  (let wd := fresh "wd" in let H := fresh "H" in intros wd H; cbv beta; eauto 6 with editor) : editor.
#[export] Hint Extern 2 (preserves inv (modify (set_widget _))) =>
  (apply preserves_set_widget; eauto with editor) : editor.
#[export] Hint Extern 2 (preserves inv (modify (set_ed _))) =>
  (apply preserves_set_ed; reflexivity) : editor.
#[export] Hint Extern 2 (preserves inv (widget_call _ _)) =>
  (apply preserves_widget_call; eauto with editor) : editor.
#[export] Hint Extern 2 (preserves inv (edit_call _ _ _ _)) =>
  (apply preserves_edit_call; intros ? ?; eauto with editor) : editor.
#[export] Hint Extern 1 (preserves inv sel_ranges) => apply preserves_gets : editor.
#[export] Hint Extern 1 (preserves inv widget_get) => apply preserves_gets : editor.
#[export] Hint Extern 1 (preserves inv (path_exists _)) => apply preserves_gets : editor.

Lemma preserves_save_file_as ls : preserves inv (save_file_as ls).
Proof. unfold save_file_as. preserve_tac. Qed.

Lemma preserves_make_backup p : preserves inv (make_backup p).
Proof. unfold make_backup. preserve_tac. Qed.

#[export] Hint Resolve preserves_make_backup preserves_save_file_as : editor.

Lemma preserves_save_file ls : preserves inv (save_file ls).
Proof. unfold save_file. preserve_tac. Qed.

#[export] Hint Resolve preserves_save_file : editor.

Lemma preserves_verify ls o : preserves inv (verify_unsaved_changes ls o).
Proof. unfold verify_unsaved_changes. preserve_tac. Qed.

#[export] Hint Resolve preserves_verify : editor.

(** The encoding loop from its latin-1 attempt: latin-1 decodes every
    file, so the loop never goes further and never shows the "Encoding
    Error" box. *)
Lemma preserves_open_with_latin1 mode p rest : preserves inv (open_with mode p ("latin-1" :: rest)).
Proof.
  intros w r w' Hw E. destruct (fs_files (w_fs w) !! p) as [b|] eqn:Hb.
  - destruct Hw as (He & Hok & Hf & Hu & [Hsb Hsn]).
    destruct (open_with_loaded mode p "latin-1" rest w (univ_newlines b))
      as (w1 & E1 & _ & Hok1 & _ & He1 & _ & _ & Hui1 & _ & _ & _ & Hwf1 & Hsd1 & Hc1);
      [by rewrite (read_text_ok p "latin-1" latin1 b w Hb eq_refl)|done|].
    rewrite E1 in E. injection E as _ <-.
    split_and!; [rewrite He1; unfold open_encodings; set_solver|done|by apply Hwf1| |].
    + unfold no_encoding_error. by rewrite Hui1.
    + rewrite Hsd1. split; [done|]. intros H. by apply Hc1, Hsn.
  - revert E. cbn [open_with]. unfold try_except, bind at 1, read_text. rewrite Hb. cbv beta iota.
    apply (preserves_handle_error _ _ _ w r w' Hw).
Qed.

(** One attempt of the loop, when what follows a decoding error keeps
    the invariant. *)
Lemma preserves_open_with_cons mode p enc rest :
  enc ∈ open_encodings -> preserves inv (open_with mode p rest) ->
  preserves inv (open_with mode p (enc :: rest)).
Proof.
  intros He IH. cbn [open_with]. apply preserves_try_except.
  - preserve_tac. by apply preserves_encoding.
  - intros e. destruct e; simpl; auto with editor.
Qed.

Lemma preserves_open_encodings mode p : preserves inv (open_with mode p open_encodings).
Proof.
  apply preserves_open_with_cons; [unfold open_encodings; set_solver|].
  apply preserves_open_with_latin1.
Qed.

Lemma preserves_open_file ls mode : preserves inv (open_file ls mode).
Proof. unfold open_file. preserve_tac. apply preserves_open_encodings. Qed.

#[export] Hint Resolve preserves_open_file : editor.

(** Opening the search window, or raising it. *)
Lemma preserves_open_search : preserves inv open_search.
Proof.
  apply preserves_modify. intros w (He & Hw & Hwf & Hu & Hs).
  split_and!; try done. by apply search_inv_open.
Qed.

#[export] Hint Resolve preserves_open_search : editor.

Lemma preserves_handler ls mode c : command_ok c -> preserves inv (handler ls mode c).
Proof.
  intros Hc. destruct c; simpl in *.
  - unfold new_file. preserve_tac.
  - apply preserves_open_file.
  - preserve_tac.
  - preserve_tac.
  - unfold exit_application. preserve_tac.
  - unfold change_encoding. preserve_tac; apply preserves_encoding;
      unfold menu_encodings, open_encodings in *; set_solver.
  - unfold key_press, update_status_bar, text_insert. preserve_tac.
  - unfold click. preserve_tac.
  - unfold copy. preserve_tac.
  - unfold cut, copy. preserve_tac.
  - unfold paste. preserve_tac.
  - unfold select_all. preserve_tac.
  - unfold ctrl_o, update_status_bar, open_line. preserve_tac.
  - unfold ctrl_s, update_status_bar. preserve_tac.
  - unfold ctrl_shift_s, update_status_bar. preserve_tac.
  - unfold show_info. preserve_tac.
  - unfold open_manual. preserve_tac.
  - unfold show_members. preserve_tac.
  - unfold undo. preserve_tac.
  - unfold redo. preserve_tac.
  - apply preserves_open_search.
  - unfold ctrl_n, update_status_bar, new_file. preserve_tac.
  - unfold ctrl_f, update_status_bar. preserve_tac.
  - unfold ctrl_a, update_status_bar, select_all. preserve_tac.
Qed.

(** [TextEditor.__init__] establishes the invariant. *)
Lemma inv_initial fs answers : inv (initial_world fs answers).
Proof.
  split_and!; [by left|exact (widget_ok_quiet empty_widget eq_refl eq_refl)|exact wf_empty|
               by intros b ?%elem_of_nil|exact (search_inv_initial _ clear_empty)].
Qed.

Lemma preserves_dispatch_quiet ls mode c w :
  command_ok c -> inv w ->
  inv (step ls mode c w) /\ w_pending (w_widget (step ls mode c w)) = 0 /\
  w_dirty (w_widget (step ls mode c w)) = 0%Z.
Proof.
  intros Hc Hw. unfold step, dispatch.
  destruct (handler ls mode c w) as [r w1] eqn:E.
  pose proof (preserves_handler ls mode c Hc w r w1 Hw E) as (He1 & Hw1 & Hf1 & Hu1 & Hs1).
  destruct (run_pending_quiet w1 Hw1) as (w2 & -> & F & Hp & Hd & _). simpl.
  destruct (inv_frame _ _ F He1 Hf1 Hu1 Hs1) as (He2 & Hf2 & Hu2 & Hs2).
  refine (conj _ (conj Hp Hd)). hnf. split_and!; try done. by apply widget_ok_quiet.
Qed.

(** ** The data invariant *)

Lemma data_ok_typed w : data_ok w -> widget_typed (w_widget w).
Proof. by intros []. Qed.

#[export] Hint Resolve data_ok_typed : editor.

(** What leaves the widget and the files alone keeps the data invariant. *)
Lemma preserves_data_same {A} (m : EdM A) :
  (forall w r w', m w = (r, w') -> w_widget w' = w_widget w /\ w_fs w' = w_fs w) ->
  preserves data_ok m.
Proof. intros Hm w r w' [Ht Hf] E. destruct (Hm w r w' E) as [H1 H2]. unfold data_ok. by rewrite H1, H2. Qed.

Lemma preserves_data_ask q : preserves data_ok (ask q).
Proof.
  apply preserves_data_same. intros w r w'. unfold ask.
  destruct (w_answers w); by intros [= _ <-].
Qed.

Lemma preserves_data_show q : preserves data_ok (show q).
Proof. apply preserves_data_same. by intros w r w' [= _ <-]. Qed.

Lemma preserves_data_log l m : preserves data_ok (log l m).
Proof. apply preserves_data_same. unfold log. intros w r w'. destruct (Nat.leb _ _); by intros [= _ <-]. Qed.

Lemma preserves_data_set_ed f : preserves data_ok (modify (set_ed f)).
Proof. apply preserves_data_same. by intros w r w' [= _ <-]. Qed.

Lemma preserves_data_set_widget f :
  (forall wd, widget_typed wd -> widget_typed (f wd)) -> preserves data_ok (modify (set_widget f)).
Proof. intros Hf. apply preserves_modify. intros w [Ht Hfs]. split; [by apply Hf|done]. Qed.

Lemma preserves_data_read_text p e : preserves data_ok (read_text p e).
Proof.
  apply preserves_data_same. intros w r w'. unfold read_text.
  destruct (fs_files _ !! p); [destruct (lookup_codec e)|]; by intros [= _ <-].
Qed.

(** What [read_text] returns of a file holding bytes is text. *)
Lemma returns_read_text p e : returns data_ok (read_text p e) (Forall is_scalar).
Proof.
  intros w s w' [_ Hfs]. unfold read_text.
  destruct (fs_files (w_fs w) !! p) as [b|] eqn:Hb; [|done].
  destruct (lookup_codec e) as [k|] eqn:Hk; [|done]. intros [= E _].
  exact (text_read_scalars e k b s Hk (Hfs p b Hb) E).
Qed.

Lemma preserves_data_write_text ls p e s : preserves data_ok (write_text ls p e s).
Proof.
  intros w r w' [Ht Hfs]. unfold write_text. case_bool_decide; [by intros [= _ <-]|].
  destruct (lookup_codec e) as [k|] eqn:Hk; [|intros [= _ <-]; split; [done|by apply fs_ok_put]].
  unfold text_write. destruct (encode k (write_newlines ls s)) as [b|] eqn:E;
    intros [= _ <-]; (split; [done|]); repeat apply fs_ok_put; auto.
  exact (encode_bytes e k _ b Hk E).
Qed.

Lemma preserves_data_copy2 p q : preserves data_ok (copy2 p q).
Proof.
  intros w r w' [Ht Hfs]. unfold copy2.
  destruct (fs_files (w_fs w) !! p) as [b|] eqn:Hb; [case_bool_decide|]; intros [= _ <-]; try done.
  split; [done|]. apply fs_ok_put; [done|exact (Hfs p b Hb)].
Qed.

Lemma preserves_data_sel_bounds : preserves data_ok sel_bounds.
Proof. apply preserves_data_same. intros w r w'. unfold sel_bounds. destruct (w_sel _); by intros [= _ <-]. Qed.

Lemma preserves_data_clipboard_get : preserves data_ok clipboard_get.
Proof.
  apply preserves_data_same. intros w r w'. unfold clipboard_get.
  destruct (tk_clipboard_get _); by intros [= _ <-].
Qed.

(** What [clipboard_get] returns of a typed widget is text. *)
Lemma returns_clipboard_get : returns data_ok clipboard_get (Forall is_scalar).
Proof.
  intros w s w' [Ht _]. unfold clipboard_get.
  destruct (tk_clipboard_get _) eqn:E; intros [= <- _]. exact (tk_clipboard_get_typed _ _ Ht E).
Qed.

#[export] Hint Resolve preserves_data_ask preserves_data_show preserves_data_log preserves_data_set_ed
  preserves_data_read_text preserves_data_write_text preserves_data_copy2 preserves_data_sel_bounds
  preserves_data_clipboard_get returns_read_text returns_clipboard_get : editor.
#[export] Hint Extern 2 (preserves data_ok (modify (set_widget _))) =>
  (apply preserves_data_set_widget; intros ? ?; eauto 6 with editor) : editor.
#[export] Hint Extern 1 (returns data_ok (gets _) _) => apply returns_gets : editor.

(** Walk a handler like [preserve_tac], and give the continuation of a
    read what is known of the value read. *)
Ltac data_tac :=
  repeat match goal with
  | H : exists _, data_ok _ /\ _ = _ |- _ => destruct H as (? & ? & ->)
  | |- preserves _ (bind (gets ?f) _) =>
      eapply (preserves_bind_returns _ (gets f)); [apply preserves_gets|apply returns_gets|intros ? ?; cbv beta in *]
  | |- preserves _ (bind ?m _) =>
      first [eapply (preserves_bind_returns _ m); [solve [eauto with editor]|solve [eauto with editor]|intros ? ?; cbv beta in *]
            |apply preserves_bind; [|intros ?]]
  | |- preserves _ (catch_all _ _) => apply preserves_catch_all; [|intros ?]
  | |- preserves _ (try_except _ _) => apply preserves_try_except; [|intros ?; simpl]
  | |- preserves _ (if ?b then _ else _) => destruct b
  | |- preserves _ (match ?x with _ => _ end) => destruct x
  | |- True => exact I
  end; try solve [eauto with editor].

Lemma preserves_data_handle_error o e b : preserves data_ok (handle_error o e b).
Proof. unfold handle_error. data_tac. Qed.

#[export] Hint Resolve preserves_data_handle_error : editor.

Lemma preserves_data_process_events n : preserves data_ok (process_events n).
Proof. induction n as [|n IH]; cbn [process_events]; [auto with editor|]. unfold mark_as_modified. data_tac. Qed.

Lemma preserves_data_run_pending : preserves data_ok run_pending.
Proof. intros w r w' Hw E. exact (preserves_data_process_events _ w r w' Hw E). Qed.

#[export] Hint Resolve preserves_data_run_pending : editor.

Lemma preserves_data_widget_call mode f :
  (forall wd, widget_typed wd -> widget_typed (f wd)) -> preserves data_ok (widget_call mode f).
Proof. intros Hf. unfold widget_call. data_tac; by apply preserves_data_set_widget. Qed.

#[export] Hint Extern 2 (preserves data_ok (widget_call _ _)) =>
  (apply preserves_data_widget_call; intros ? ?; eauto 6 with editor) : editor.

Lemma preserves_data_edit_call mode r f msg :
  (forall wd, widget_typed wd -> widget_typed (f wd).2) -> preserves data_ok (edit_call mode r f msg).
Proof.
  intros Hf w x w' Hw. pose proof Hw as (Ht & _).
  pose proof (preserves_data_widget_call mode (fun _ => (f (w_widget w)).2) (fun _ _ => Hf _ Ht)) as Hc.
  unfold edit_call, bind, gets, ret, raise.
  destruct (widget_call mode _ w) as [[[]|e] w1] eqn:E1;
    [destruct (f (w_widget w)).1|]; intros [= _ <-]; exact (Hc w _ w1 Hw E1).
Qed.

#[export] Hint Extern 2 (preserves data_ok (edit_call _ _ _ _)) =>
  (apply preserves_data_edit_call; intros ? ?; eauto with editor) : editor.

Lemma preserves_data_save_file_as ls : preserves data_ok (save_file_as ls).
Proof. unfold save_file_as. data_tac. Qed.

Lemma preserves_data_make_backup p : preserves data_ok (make_backup p).
Proof. unfold make_backup. data_tac. Qed.

#[export] Hint Resolve preserves_data_save_file_as preserves_data_make_backup : editor.

Lemma preserves_data_save_file ls : preserves data_ok (save_file ls).
Proof. unfold save_file. data_tac. Qed.

#[export] Hint Resolve preserves_data_save_file : editor.

Lemma preserves_data_verify ls o : preserves data_ok (verify_unsaved_changes ls o).
Proof. unfold verify_unsaved_changes. data_tac. Qed.

#[export] Hint Resolve preserves_data_verify : editor.

Lemma preserves_data_open_with mode p encs : preserves data_ok (open_with mode p encs).
Proof. induction encs as [|enc rest IH]; cbn [open_with]; data_tac. Qed.

#[export] Hint Resolve preserves_data_open_with : editor.

Lemma preserves_data_handler ls mode c : command_ok c -> preserves data_ok (handler ls mode c).
Proof.
  intros Hc. destruct c; simpl in *.
  - unfold new_file. data_tac.
  - unfold open_file. data_tac.
  - data_tac.
  - data_tac.
  - unfold exit_application. data_tac.
  - unfold change_encoding. data_tac.
  - unfold key_press, update_status_bar, text_insert. data_tac.
  - unfold click. data_tac.
  - unfold copy. data_tac.
  - unfold cut, copy. data_tac.
  - unfold paste. data_tac.
  - unfold select_all. data_tac.
  - unfold ctrl_o, update_status_bar, open_line, open_file. data_tac.
  - unfold ctrl_s, update_status_bar. data_tac.
  - unfold ctrl_shift_s, update_status_bar. data_tac.
  - unfold show_info. data_tac.
  - unfold open_manual. data_tac.
  - unfold show_members. data_tac.
  - unfold undo. data_tac.
  - unfold redo. data_tac.
  - unfold open_search. data_tac.
  - unfold ctrl_n, update_status_bar, new_file. data_tac.
  - unfold ctrl_f, update_status_bar, open_search. data_tac.
  - unfold ctrl_a, update_status_bar, select_all. data_tac.
Qed.

Lemma preserves_dispatch_data ls mode c w :
  command_ok c -> data_ok w -> data_ok (step ls mode c w).
Proof.
  intros Hc Hw. unfold step, dispatch. destruct (handler ls mode c w) as [r w1] eqn:E.
  pose proof (preserves_data_handler ls mode c Hc w r w1 Hw E) as Hw1.
  destruct (run_pending w1) as [r2 w2] eqn:E2. exact (preserves_data_run_pending w1 r2 w2 Hw1 E2).
Qed.

(** A load on a quiet widget that changes its text sets the counter. *)
Lemma tk_modified_load wd c :
  w_dirty wd = 0%Z -> (w_text wd <> [] \/ c <> []) ->
  tk_modified (tk_insert 0 c (tk_delete_all wd)) = true.
Proof.
  intros Hd Hne. unfold tk_modified. rewrite tk_insert_dirty.
  destruct (decide (w_text wd = [])) as [E|E].
  - rewrite tk_delete_all_nil, Hd by done. destruct c; naive_solver.
  - rewrite tk_delete_all_dirty, Hd by done. destruct c; done.
Qed.

(** A step starts with the handler and ends with the event loop. *)
Lemma step_run ls mode c w w1 r :
  handler ls mode c w = (r, w1) -> step ls mode c w = snd (run_pending w1).
Proof. intros E. unfold step, dispatch. by rewrite E. Qed.

Lemma run_pending_idle w : w_pending (w_widget w) = 0 -> run_pending w = (Ok tt, w).
Proof. intros Hp. unfold run_pending. rewrite Hp. simpl. unfold bind, gets. by rewrite Hp. Qed.

(** [open_file] on an unmodified document: no prompt, then the dialog. *)
Lemma open_file_unmodified ls mode w p rest :
  is_modified (w_ed w) = false -> w_answers w = PStr p :: rest -> p <> EmptyString ->
  exists wa, open_file ls mode w = open_with mode p open_encodings wa /\
    w_fs wa = w_fs w /\ w_widget wa = w_widget w /\ w_ed wa = w_ed w /\ w_answers wa = rest /\
    w_ui wa = w_ui w ++ [AskOpenFilename].
Proof.
  intros Hm Ha Hp. unfold open_file, verify_unsaved_changes, bind, gets, ask, ret.
  rewrite Hm. simpl. rewrite Ha. simpl. unfold dialog_path, truthy.
  rewrite bool_decide_false by done. simpl.
  eexists; split; [reflexivity|]. done.
Qed.

(** A step of Open on an unmodified, quiet document naming an existing
    file: the loaded world before the event loop runs. *)
Lemma step_open_unmodified ls mode w p b rest :
  is_modified (w_ed w) = false -> widget_ok (w_widget w) ->
  fs_files (w_fs w) !! p = Some b -> w_answers w = PStr p :: rest -> p <> EmptyString ->
  exists w1, step ls mode CmdOpen w = snd (run_pending w1) /\
    w_text (w_widget w1) = opened_text b /\ widget_ok (w_widget w1) /\
    current_file (w_ed w1) = Some p /\ current_encoding (w_ed w1) = opened_encoding b /\
    is_modified (w_ed w1) = false /\ w_fs w1 = w_fs w /\
    match mode with
    | Queued => w_widget w1 = tk_insert 0 (opened_text b) (tk_delete_all (w_widget w))
    | Immediate => w_pending (w_widget w1) = 0 /\ w_dirty (w_widget w1) = 0%Z
    end /\
    w_ui w1 = w_ui w ++ [AskOpenFilename] /\ w_answers w1 = rest.
Proof.
  intros Hm Hw Hb Ha Hp.
  destruct (open_file_unmodified ls mode w p rest Hm Ha Hp) as (wa & Eo & Hfs & Hwd & Hed & Har & Hui).
  rewrite <- Hfs in Hb. rewrite <- Hwd in Hw.
  destruct (open_with_outcome mode p b wa Hb Hw)
    as (w1 & E1 & Ht & Hok & Hf & He & Hmod & _ & Hui1 & Hfs1 & Ha1 & M & _).
  exists w1. split; [apply (step_run _ _ _ _ _ (Ok tt)); simpl; by rewrite Eo, E1|].
  split_and!; try done; [congruence| |congruence|congruence]. by rewrite <- Hwd.
Qed.
Lemma step_new_unmodified ls mode w :
  is_modified (w_ed w) = false -> widget_ok (w_widget w) ->
  exists w1, step ls mode CmdNew w = snd (run_pending w1) /\
    w_text (w_widget w1) = [] /\ widget_ok (w_widget w1) /\
    current_file (w_ed w1) = None /\ is_modified (w_ed w1) = false /\
    match mode with
    | Queued => w_widget w1 = tk_delete_all (w_widget w)
    | Immediate => w_pending (w_widget w1) = 0 /\ w_dirty (w_widget w1) = 0%Z
    end.
Proof.
  intros Hm Hw.
  destruct (widget_call_spec mode tk_delete_all w) as (w' & E & F & Hok & M);
    [eauto with editor|done|].
  eexists. split.
  - apply (step_run _ _ _ _ _ (Ok tt)). unfold handler, new_file, verify_unsaved_changes.
    unfold bind, gets, modify, log, ret. cbn beta iota. rewrite Hm. cbn [negb].
    unfold catch_all, try_except. cbn beta iota. rewrite E. reflexivity.
  - simpl. destruct F as (_&_&_&_&Ht&_). split_and!; try done.
    + rewrite Ht. apply tk_delete_all_text.
    + destruct mode; [by rewrite M|done].
Qed.

Lemma tk_modified_insert i s wd : w_dirty wd = 0%Z -> s <> [] -> tk_modified (tk_insert i s wd) = true.
Proof. intros Hd Hs. destruct s as [|x s]; [done|]. apply tk_modified_note_edit. simpl. lia. Qed.

Lemma tk_modified_delete wd : w_dirty wd = 0%Z -> w_text wd <> [] -> tk_modified (tk_delete_all wd) = true.
Proof. intros Hd Hne. exact (tk_modified_load wd [] Hd (or_introl Hne)). Qed.

(** What [open_file] shows of a file that decodes as utf-8. *)
Lemma opened_utf8 bs s : text_read utf8 bs = Ok s -> opened_text bs = s /\ opened_encoding bs = "utf-8".
Proof.
  unfold text_read, opened_text, opened_encoding. simpl.
  destruct (utf8_decode bs); [by intros [= <-]|done].
Qed.

Lemma step_save_quiet ls mode w w' :
  w_pending (w_widget w) = 0 -> save_file ls w = (Ok true, w') -> w_widget w' = w_widget w ->
  step ls mode CmdSave w = w'.
Proof.
  intros Hp E Hw. rewrite (step_run ls mode CmdSave w w' (Ok tt)).
  - rewrite run_pending_idle; [done|]. by rewrite Hw.
  - simpl. unfold bind. by rewrite E.
Qed.

(** Exit on a modified document answered with Cancel: only the prompt. *)
Lemma exit_cancel ls w rest :
  is_modified (w_ed w) = true -> w_answers w = PNone :: rest ->
  exit_application ls w =
    (Ok tt, {| w_fs := w_fs w; w_widget := w_widget w; w_ed := w_ed w; w_answers := rest;
               w_ui := w_ui w ++ [AskYesNoCancel "Unsaved Changes"
                                    ("Do you want to save changes before " +:+ "exit" +:+ "?")];
               w_log := w_log w |}).
Proof.
  intros Hm Ha. unfold exit_application, verify_unsaved_changes, catch_all, try_except, bind, gets, ask, ret.
  rewrite Hm, Ha. reflexivity.
Qed.

(** Every reachable state satisfies the data invariant. *)
Lemma run_app_reachable ls mode fold evs w w' :
  Forall app_event_ok evs -> reachable ls mode fold w -> run_app ls mode fold evs w = Some w' ->
  reachable ls mode fold w'.
Proof.
  revert w. induction evs as [|[c|ev] evs IH]; intros w Hok Hr; simpl; [by intros [= <-]|..];
    apply Forall_cons in Hok as [Hc Hok].
  - destruct (cmd_allowed c _) eqn:Ha; [|done]. apply IH; [done|]. by apply reachable_step.
  - destruct ev; try done;
      (destruct (dialog_step fold _ w) as [w1|] eqn:E; [|done]; apply IH; [done|];
       refine (reachable_dialog ls mode fold _ w w1 _ Hr E); discriminate).
Qed.

(** A dialog event is the dialog's handler, then the event loop. *)
Lemma dialog_step_eq fold ev w w' :
  dialog_step fold ev w = Some w' ->
  exists d wd, search_step fold ev (search_dialog (w_ed w)) (w_widget w) = Some (d, wd) /\
    w' = snd (run_pending (set_widget (fun _ => wd) (set_ed (with_search d) w))).
Proof.
  unfold dialog_step. destruct (search_step _ _ _ _) as [[d wd]|]; [|done].
  intros [= <-]. by exists d, wd.
Qed.

Lemma dialog_step_inv fold ev w w' : inv w -> dialog_step fold ev w = Some w' -> inv w'.
Proof.
  intros (He & Hok & Hwf & Hu & Hs) E. destruct (dialog_step_eq fold ev w w' E) as (d & wd & Es & ->).
  destruct (search_step_keeps fold ev _ _ _ _ Es) as (_ & Hd & Hp & _).
  destruct (run_pending _) as [r w2] eqn:Er. refine (preserves_run_pending _ r w2 _ Er).
  split_and!; simpl; try done.
  - exact (widget_ok_same _ _ Hd Hp Hok).
  - exact (search_step_wf fold ev _ _ _ _ Hwf Es).
  - exact (search_step_inv fold ev _ _ _ _ Hs Es).
Qed.

Lemma dialog_step_data fold ev w w' : data_ok w -> dialog_step fold ev w = Some w' -> data_ok w'.
Proof.
  intros [Hty Hfs] E. destruct (dialog_step_eq fold ev w w' E) as (d & wd & Es & ->).
  destruct (run_pending _) as [r w2] eqn:Er. refine (preserves_data_run_pending _ r w2 _ Er).
  split; [exact (search_step_typed fold ev _ _ _ _ Hty Es)|exact Hfs].
Qed.

(** With nothing queued, the event loop after a dialog event has nothing
    to do, and the counter stays clear. *)
Lemma dialog_step_quiet fold ev w w' :
  w_pending (w_widget w) = 0 -> w_dirty (w_widget w) = 0%Z -> dialog_step fold ev w = Some w' ->
  w_pending (w_widget w') = 0 /\ w_dirty (w_widget w') = 0%Z.
Proof.
  intros Hp Hd E. destruct (dialog_step_eq fold ev w w' E) as (d & wd & Es & ->).
  destruct (search_step_keeps fold ev _ _ _ _ Es) as (_ & Hd' & Hp' & _).
  rewrite run_pending_idle by (simpl; congruence). simpl. split; congruence.
Qed.

Lemma reachable_data_ok ls mode fold w : reachable ls mode fold w -> data_ok w.
Proof.
  induction 1 as [fs answers Hfs|c w Hc _ _ IH|ev w w' _ _ IH E];
    [exact (conj typed_empty Hfs)|by apply preserves_dispatch_data|exact (dialog_step_data fold ev w w' IH E)].
Qed.

(** [exit_application] when no save is asked for: the document is clean,
    or the answer to the prompt is No. *)
Lemma exit_no_save ls w :
  (is_modified (w_ed w) = false \/ exists rest, w_answers w = PBool false :: rest) ->
  exists w1, exit_application ls w = (Ok tt, w1) /\ running (w_ed w1) = false /\ w_widget w1 = w_widget w.
Proof.
  intros Hw. unfold exit_application, verify_unsaved_changes, catch_all, try_except, bind, gets, ask, ret,
    modify, log, set_ed.
  destruct (is_modified (w_ed w)) eqn:Hm; [destruct Hw as [Hf|[rest ->]]; [discriminate|]|];
    eexists; (split; [reflexivity|done]).
Qed.

(** Undo when Tk's [edit undo] succeeds, under Tk 8.6 (which returns
    the empty string, so no separator is added): the widget Tk leaves,
    then the event loop. *)
Lemma step_undo_ok ls w :
  (tk_edit_undo (w_widget w)).1 = true ->
  step ls Queued CmdUndo w = snd (run_pending (set_widget (fun wd => (tk_edit_undo wd).2) w)).
Proof.
  intros H. apply (step_run _ _ _ _ _ (Ok tt)). cbn [handler].
  unfold undo, catch_all, try_except, bind at 1, edit_call, widget_call.
  unfold bind at 1, gets. unfold bind at 1, modify. rewrite H. reflexivity.
Qed.

Lemma step_redo_ok ls w :
  (tk_edit_redo (w_widget w)).1 = true ->
  step ls Queued CmdRedo w = snd (run_pending (set_widget (fun wd => (tk_edit_redo wd).2) w)).
Proof.
  intros H. apply (step_run _ _ _ _ _ (Ok tt)). cbn [handler].
  unfold redo, catch_all, try_except, bind at 1, edit_call, widget_call.
  unfold bind at 1, gets. unfold bind at 1, modify. rewrite H. reflexivity.
Qed.

(** Undo and Redo on a quiet widget when Tk's command succeeds: the
    widget Tk leaves, up to what the event loop may change. *)
Lemma step_undo_frame ls w :
  w_pending (w_widget w) = 0 -> w_dirty (w_widget w) = 0%Z -> (tk_edit_undo (w_widget w)).1 = true ->
  frame (set_widget (fun wd => (tk_edit_undo wd).2) w) (step ls Queued CmdUndo w) /\
  w_pending (w_widget (step ls Queued CmdUndo w)) = 0 /\ w_dirty (w_widget (step ls Queued CmdUndo w)) = 0%Z.
Proof.
  intros Hp Hd H. rewrite (step_undo_ok ls w H).
  destruct (run_pending_quiet (set_widget (fun wd => (tk_edit_undo wd).2) w))
    as (w' & -> & F & Hp' & Hd' & _); [apply widget_ok_edit_undo; by apply widget_ok_quiet|done].
Qed.

Lemma step_redo_frame ls w :
  w_pending (w_widget w) = 0 -> w_dirty (w_widget w) = 0%Z -> (tk_edit_redo (w_widget w)).1 = true ->
  frame (set_widget (fun wd => (tk_edit_redo wd).2) w) (step ls Queued CmdRedo w).
Proof.
  intros Hp Hd H. rewrite (step_redo_ok ls w H).
  destruct (run_pending_quiet (set_widget (fun wd => (tk_edit_redo wd).2) w))
    as (w' & -> & F & _); [apply widget_ok_edit_redo; by apply widget_ok_quiet|done].
Qed.

(** What the event loop keeps of the document. *)
Lemma frame_doc w w' :
  frame w w' ->
  w_text (w_widget w') = w_text (w_widget w) /\ w_undo (w_widget w') = w_undo (w_widget w) /\
  current_file (w_ed w') = current_file (w_ed w).
Proof. unfold frame. tauto. Qed.

(** The event loop after an undo on a quiet widget. *)
Lemma run_pending_after_undo w :
  w_pending (w_widget w) = 0 -> w_dirty (w_widget w) = 0%Z ->
  exists w', run_pending (set_widget (fun wd => (tk_edit_undo wd).2) w) = (Ok tt, w') /\
    w_text (w_widget w') = w_text (tk_edit_undo (w_widget w)).2 /\
    w_undo (w_widget w') = w_undo (tk_edit_undo (w_widget w)).2 /\
    current_file (w_ed w') = current_file (w_ed w) /\
    w_pending (w_widget w') = 0 /\ w_dirty (w_widget w') = 0%Z.
Proof.
  intros Hp Hd. destruct (run_pending_quiet (set_widget (fun wd => (tk_edit_undo wd).2) w))
    as (w' & E & F & Hp' & Hd' & _); [apply widget_ok_edit_undo; by apply widget_ok_quiet|].
  destruct (frame_doc _ _ F) as (Ht & Hu & Hf). exists w'. by split_and!.
Qed.

(** The invariant and the quiet counter, by rule induction. *)
Lemma reachable_inv_quiet ls mode fold w :
  reachable ls mode fold w -> inv w /\ w_pending (w_widget w) = 0 /\ w_dirty (w_widget w) = 0%Z.
Proof.
  induction 1 as [fs answers _|c w Hc _ _ IH|ev w w' _ _ IH E].
  - split; [apply inv_initial|done].
  - apply preserves_dispatch_quiet; [done|apply IH].
  - destruct IH as (Hi & Hp & Hd).
    split; [exact (dialog_step_inv fold ev w w' Hi E)|exact (dialog_step_quiet fold ev w w' Hp Hd E)].
Qed.

(** A command whose handler ends in [w1] without raising: the event loop
    then keeps the widget's text, marks and tags and the dialog. *)
Lemma step_frame ls mode c w w1 :
  handler ls mode c w = (Ok tt, w1) ->
  exists w', step ls mode c w = w' /\ frame w1 w'.
Proof.
  intros E. destruct (run_pending_frame w1) as (w' & E' & F). exists w'. split; [|exact F].
  unfold step, dispatch. rewrite E. by rewrite E'.
Qed.

(** ** The two windows together *)

(** After a search that found something the text has the focus:
    [<Return>], bound on the entry, and [<Escape>], bound on the dialog,
    no longer reach them, and a Return goes to the text, where Tk's
    class binding types a newline into the document. *)
Lemma return_after_search_reaches_text fold w sw :
  ss_window (search_dialog (w_ed w)) = Some sw -> ss_focus (search_dialog (w_ed w)) = true ->
  cmd_allowed (CmdKey LF) (search_dialog (w_ed w)) = true /\
  dialog_step fold SReturn w = None /\ dialog_step fold SEscape w = None.
Proof. intros Hw Hf. unfold cmd_allowed, dialog_step, search_step. by rewrite Hw, Hf. Qed.

Section Claims.
Variable ls : pystr.

(** C13 (invariant): every state the application reaches between two
    events, through the commands of the main window and the events of
    the search dialog as the grab and the keyboard focus let them
    through, satisfies the invariant [inv]: the encoding is one of the
    names [open_file] tries, the widget's marks, selection and "found"
    ranges are inside its text (the ranges in order and apart, as Tk
    keeps a tag, even after the text is edited under them), the
    "Encoding Error" box of [open_file] has never been shown, at most one
    search window exists (the one [editor.search_window] names) and no
    "found" range is left without it, and no [<<Modified>>] event is
    queued with the widget's modified flag clear; moreover the data
    invariant [data_ok] holds: the text and the clipboard consist of
    Unicode scalar values and every file holds bytes. *)
Theorem reachable_quiet_inv mode fold w :
  reachable ls mode fold w ->
  inv w /\ data_ok w /\ w_pending (w_widget w) = 0 /\ w_dirty (w_widget w) = 0%Z.
Proof.
  intros Hr. destruct (reachable_inv_quiet ls mode fold w Hr) as (Hi & Hp & Hd).
  split_and!; [exact Hi|exact (reachable_data_ok ls mode fold w Hr)|exact Hp|exact Hd].
Qed.

(** C14: opening a file from an unmodified document loads its text; the
    document is then marked modified exactly when Tk queues the
    [<<Modified>>] event (Tk 8.6), because [edit_modified(False)] runs
    before the queued event reaches [mark_as_modified]. *)
Theorem open_marks_modified_iff_queued mode w p b rest :
  is_modified (w_ed w) = false -> w_pending (w_widget w) = 0 -> w_dirty (w_widget w) = 0%Z ->
  fs_files (w_fs w) !! p = Some b -> w_answers w = PStr p :: rest -> p <> EmptyString ->
  (w_text (w_widget w) <> [] \/ opened_text b <> []) ->
  w_text (w_widget (step ls mode CmdOpen w)) = opened_text b /\
  is_modified (w_ed (step ls mode CmdOpen w)) =
    match mode with Queued => true | Immediate => false end.
Proof.
  intros Hm Hp Hd Hb Ha Hpne Hne.
  destruct (step_open_unmodified ls mode w p b rest Hm (widget_ok_quiet _ Hp Hd) Hb Ha Hpne)
    as (w1 & -> & Ht & Hok & _ & _ & Hm1 & _ & M & _).
  destruct (run_pending_quiet w1 Hok) as (w2 & -> & (_&_&_&_&Ht2&_) & _ & _ & Hm2 & _). simpl.
  rewrite Ht2, Ht, Hm2, Hm1. split; [done|]. simpl. destruct mode.
  - rewrite M. by apply tk_modified_load.
  - destruct M as [_ Hd1]. unfold tk_modified. by rewrite Hd1.
Qed.

(** C39 (functional).  With Tk 8.6's queued [<<Modified>>], closing the editor right
    after opening a file asks whether to save it: the freshly opened
    document is already marked modified.  Answered with Cancel, the editor
    keeps running. *)
Theorem open_then_exit_prompts w p b rest :
  is_modified (w_ed w) = false -> w_pending (w_widget w) = 0 -> w_dirty (w_widget w) = 0%Z ->
  fs_files (w_fs w) !! p = Some b -> w_answers w = PStr p :: PNone :: rest -> p <> EmptyString ->
  (w_text (w_widget w) <> [] \/ opened_text b <> []) ->
  w_ui (step ls Queued CmdExit (step ls Queued CmdOpen w)) =
    w_ui w ++ [AskOpenFilename; AskYesNoCancel "Unsaved Changes"
                                  ("Do you want to save changes before " +:+ "exit" +:+ "?")] /\
  running (w_ed (step ls Queued CmdExit (step ls Queued CmdOpen w))) =
    running (w_ed (step ls Queued CmdOpen w)).
Proof.
  intros Hm Hp Hd Hb Ha Hpne Hne.
  destruct (step_open_unmodified ls Queued w p b (PNone :: rest) Hm (widget_ok_quiet _ Hp Hd) Hb Ha Hpne)
    as (w1 & -> & _ & Hok & _ & _ & Hm1 & _ & M & Hui1 & Ha1).
  destruct (run_pending_quiet w1 Hok) as (w2 & -> & F & Hp2 & _ & Hm2 & _). simpl.
  destruct F as (_ & Fu & Fa & _).
  assert (Hmod : is_modified (w_ed w2) = true).
  { rewrite Hm2, Hm1, M. simpl. by apply tk_modified_load. }
  erewrite (step_run ls Queued CmdExit w2); [|simpl; apply exit_cancel; [done|by rewrite Fa, Ha1]].
  rewrite run_pending_idle by done. simpl. split; [|done].
  rewrite Fu, Hui1, <- app_assoc. reflexivity.
Qed.

(** C15: [new_file] on an unmodified, non-empty document clears the text
    and forgets the file; the document is then marked modified exactly when
    Tk queues the [<<Modified>>] event. *)
Theorem new_marks_modified_iff_queued mode w :
  is_modified (w_ed w) = false -> w_pending (w_widget w) = 0 -> w_dirty (w_widget w) = 0%Z ->
  w_text (w_widget w) <> [] ->
  w_text (w_widget (step ls mode CmdNew w)) = [] /\
  current_file (w_ed (step ls mode CmdNew w)) = None /\
  is_modified (w_ed (step ls mode CmdNew w)) =
    match mode with Queued => true | Immediate => false end.
Proof.
  intros Hm Hp Hd Hne.
  destruct (step_new_unmodified ls mode w Hm (widget_ok_quiet _ Hp Hd))
    as (w1 & -> & Ht & Hok & Hf & Hm1 & M).
  destruct (run_pending_quiet w1 Hok) as (w2 & -> & (_&_&_&_&Ht2&Hf2&_) & _ & _ & Hm2 & _). simpl.
  rewrite Ht2, Hf2, Hm2, Hm1. split_and!; try done. simpl. destruct mode.
  - rewrite M. by apply tk_modified_delete.
  - destruct M as [_ Hd1]. unfold tk_modified. by rewrite Hd1.
Qed.

(** C16: typing a character with no selection inserts it at the cursor,
    marks the document modified and puts "*" before the title, in both
    delivery modes. *)
Theorem typing_marks_modified mode w c :
  w_pending (w_widget w) = 0 -> w_dirty (w_widget w) = 0%Z -> w_sel (w_widget w) = None ->
  w_insert (w_widget w) <= length (w_text (w_widget w)) ->
  w_text (w_widget (step ls mode (CmdKey c) w)) =
    take (w_insert (w_widget w)) (w_text (w_widget w)) ++ [c] ++
    drop (w_insert (w_widget w)) (w_text (w_widget w)) /\
  is_modified (w_ed (step ls mode (CmdKey c) w)) = true /\
  starred (title (w_ed (step ls mode (CmdKey c) w))) = true.
Proof.
  intros Hp Hd Hs Hi.
  set (w0 := set_ed (with_status (status_text (tk_index (w_text (w_widget w)) (w_insert (w_widget w))))) w).
  destruct (widget_call_marks mode (tk_insert (w_insert (w_widget w)) [c]) w0)
    as (w1 & E1 & F1 & Hok1 & M1); [auto with editor|by apply widget_ok_quiet|by apply tk_modified_insert|].
  destruct (run_pending_marks w1 Hok1 M1) as (w2 & E2 & F2 & Hm2 & Hs2).
  rewrite (step_run ls mode (CmdKey c) w w1 (Ok tt)) by (simpl; rewrite key_press_eq by done; exact E1).
  rewrite E2. simpl. split_and!; [|done|done].
  destruct (frame_widget _ _ F2) as (-> & _). destruct (frame_widget _ _ F1) as (-> & _).
  unfold tk_insert. cbn. by rewrite Nat.min_l.
Qed.

(** Save, then Open of the same file, when the saved bytes read back as
    utf-8: the file holds what [save_file] wrote, and the widget what
    text mode reads from it in utf-8. *)
Lemma save_then_open mode w p k bs s rest :
  w_pending (w_widget w) = 0 -> w_dirty (w_widget w) = 0%Z ->
  current_file (w_ed w) = Some p -> p <> EmptyString -> lookup_codec (current_encoding (w_ed w)) = Some k ->
  p ∉ fs_readonly (w_fs w) -> (p +:+ ".bak") ∉ fs_readonly (w_fs w) -> w_answers w = PStr p :: rest ->
  text_write k ls (tk_get_all (w_text (w_widget w))) = Ok bs -> text_read utf8 bs = Ok s ->
  fs_files (w_fs (step ls mode CmdOpen (step ls mode CmdSave w))) !! p = Some bs /\
  w_text (w_widget (step ls mode CmdOpen (step ls mode CmdSave w))) = s /\
  current_encoding (w_ed (step ls mode CmdOpen (step ls mode CmdSave w))) = "utf-8".
Proof.
  intros Hp Hd Hf Hpne Hk Hro Hrob Ha Hw Hr.
  destruct (save_file_success ls p k bs w Hf Hk Hro Hrob Hw)
    as (w' & E & Hfs & _ & Hm & _ & Hwd & _ & _ & Ha' & _).
  rewrite (step_save_quiet ls mode w w' Hp E Hwd).
  destruct (opened_utf8 _ _ Hr) as [Hot Hoe].
  destruct (step_open_unmodified ls mode w' p bs rest Hm) as (w1 & -> & Ht1 & Hok & _ & He1 & _ & Hfs1 & _);
    [by apply widget_ok_quiet; rewrite Hwd|done|by rewrite Ha'|done|].
  destruct (run_pending_quiet w1 Hok) as (w2 & -> & (Hfs2&_&_&_&Ht2&_&He2&_) & _). simpl.
  by rewrite Hfs2, Ht2, He2, Hfs1, Ht1, He1, Hot, Hoe.
Qed.

(** C17: saving a utf-8 document and opening the same file again gives the
    text with one more newline: [get(1.0, END)] adds the newline Tk keeps
    at the end, [save_file] writes it, and [open_file] inserts it back.  The
    file holds the bytes written, on POSIX and on Windows. *)
Theorem save_then_open_appends_newline mode w p t bs rest :
  (ls = [LF] \/ ls = [CR; LF]) ->
  w_pending (w_widget w) = 0 -> w_dirty (w_widget w) = 0%Z ->
  current_file (w_ed w) = Some p -> p <> EmptyString -> current_encoding (w_ed w) = "utf-8" ->
  p ∉ fs_readonly (w_fs w) -> (p +:+ ".bak") ∉ fs_readonly (w_fs w) ->
  w_text (w_widget w) = t -> CR ∉ t -> w_answers w = PStr p :: rest ->
  text_write utf8 ls (tk_get_all t) = Ok bs ->
  fs_files (w_fs (step ls mode CmdOpen (step ls mode CmdSave w))) !! p = Some bs /\
  w_text (w_widget (step ls mode CmdOpen (step ls mode CmdSave w))) = t ++ [LF].
Proof.
  intros Hls Hp Hd Hf Hpne He Hro Hrob Ht Hcr Ha Hw.
  assert (Hr : text_read utf8 bs = Ok (tk_get_all t)).
  { apply (text_roundtrip ls Hls _ _ _ utf8_roundtrip); [|exact Hw].
    unfold tk_get_all. rewrite elem_of_app, list_elem_of_singleton. by intros [?|?]. }
  rewrite <- Ht in Hw.
  destruct (save_then_open mode w p utf8 bs (tk_get_all t) rest Hp Hd Hf Hpne ltac:(by rewrite He)
              Hro Hrob Ha Hw Hr) as (H1 & H2 & _).
  by split.
Qed.
(** C31: Control-o typed in the text runs Tk's "open line" class binding
    before the root binding opens the file dialog.  With Tk 8.6's queued
    [<<Modified>>], cancelling the dialog on an unmodified document leaves
    a newline inserted at the cursor, the cursor before it, the document
    marked modified and the files untouched. *)
Theorem ctrl_o_cancel_inserts_newline w rest :
  is_modified (w_ed w) = false -> w_pending (w_widget w) = 0 -> w_dirty (w_widget w) = 0%Z ->
  w_insert (w_widget w) <= length (w_text (w_widget w)) ->
  w_answers w = PStr EmptyString :: rest ->
  w_text (w_widget (step ls Queued CmdCtrlO w)) =
    take (w_insert (w_widget w)) (w_text (w_widget w)) ++ [LF] ++
    drop (w_insert (w_widget w)) (w_text (w_widget w)) /\
  w_insert (w_widget (step ls Queued CmdCtrlO w)) = w_insert (w_widget w) /\
  is_modified (w_ed (step ls Queued CmdCtrlO w)) = true /\
  w_fs (step ls Queued CmdCtrlO w) = w_fs w /\
  current_file (w_ed (step ls Queued CmdCtrlO w)) = current_file (w_ed w) /\
  w_ui (step ls Queued CmdCtrlO w) = w_ui w ++ [AskOpenFilename].
Proof.
  intros Hm Hp Hd Hi Ha.
  destruct (ctrl_o_cancel ls w rest Hm Ha) as (w1 & E & Hw1 & Hfs & Hed & Hui & _).
  rewrite (step_run ls Queued CmdCtrlO w w1 (Ok tt)) by exact E.
  destruct (run_pending_quiet w1) as (w2 & -> & F & _ & _ & Hm2 & _);
    [rewrite Hw1; by apply widget_ok_opened_line, widget_ok_quiet|].
  simpl. destruct (frame_widget _ _ F) as (Ht & Hi2 & _).
  destruct F as (Ffs & Fui & _ & _ & _ & Ffile & _).
  destruct (opened_line_spec (w_widget w) Hi) as [Ht1 Hi1].
  rewrite Ht, Hi2, Hm2, Ffs, Fui, Ffile, Hw1, Hed, Hfs, Hui, Ht1, Hi1, tk_modified_opened_line by done.
  simpl. by rewrite orb_true_r.
Qed.
(** C29 (safety).  With the platform's line separator, saving the text of
    any reachable state to a writable path in utf-8 or utf-16 succeeds:
    the encoder never raises, because the widget only ever holds Unicode
    scalar values (the data invariant), so [save_file] never reaches its
    [UnicodeEncodeError] branch for these encodings. *)
Theorem reachable_unicode_saves mode fold w p :
  (ls = [LF] \/ ls = [CR; LF]) -> reachable ls mode fold w ->
  (current_encoding (w_ed w) = "utf-8" \/ current_encoding (w_ed w) = "utf-16") ->
  p ∉ fs_readonly (w_fs w) ->
  exists bs, write_text ls p (current_encoding (w_ed w)) (tk_get_all (w_text (w_widget w))) w =
    (Ok tt, set_fs (put_file p bs) (set_fs (put_file p []) w)).
Proof.
  intros Hls Hr Henc Hp. destruct (reachable_data_ok ls mode fold w Hr) as [[Ht _] _].
  destruct (lookup_codec (current_encoding (w_ed w))) as [k|] eqn:Hk;
    [|destruct Henc as [E|E]; rewrite E in Hk; discriminate].
  assert (Hl : Forall is_scalar ls) by (destruct Hls as [->| ->]; eauto with editor).
  destruct (text_write_unicode _ k ls _ Henc Hk Hl (tk_get_all_scalars _ Ht)) as [bs Hbs].
  exists bs. unfold write_text. rewrite bool_decide_false by done. cbn [set_fs w_ed]. by rewrite Hk, Hbs.
Qed.

(** C33 (liveness).  The Exit command ends the main loop whenever no
    save is asked for: on a clean document, or when the user answers No
    to "Do you want to save changes before exit?". *)
Theorem exit_discard_quits mode w :
  widget_ok (w_widget w) ->
  (is_modified (w_ed w) = false \/ exists rest, w_answers w = PBool false :: rest) ->
  running (w_ed (step ls mode CmdExit w)) = false.
Proof.
  intros Hok Hw. destruct (exit_no_save ls w Hw) as (w1 & E & Hr & Hwd).
  rewrite (step_run ls mode CmdExit w w1 (Ok tt)) by exact E.
  destruct (run_pending_quiet w1) as (w2 & -> & (_&_&_&_&_&_&_&_&Fr&_) & _); [by rewrite Hwd|].
  simpl. by rewrite Fr.
Qed.

(** C28 (functional).  [open_file] never resets Tk's undo stack
    ([edit_reset]): right after opening a file over a document with text,
    two Undo commands take the widget back to the previous document's
    text (the first removes the file's text, the second restores the old
    one), while the editor still names the opened file, so a Save would
    write the old document over it. *)
Theorem open_undo_restores_previous w p b rest :
  is_modified (w_ed w) = false -> w_pending (w_widget w) = 0 -> w_dirty (w_widget w) = 0%Z ->
  w_autosep (w_widget w) = true -> w_last (w_widget w) <> EditDelete ->
  fs_files (w_fs w) !! p = Some b -> w_answers w = PStr p :: rest -> p <> EmptyString ->
  w_text (w_widget w) <> [] -> opened_text b <> [] ->
  w_text (w_widget (step ls Queued CmdUndo (step ls Queued CmdUndo (step ls Queued CmdOpen w)))) =
    w_text (w_widget w) /\
  current_file (w_ed (step ls Queued CmdUndo (step ls Queued CmdUndo (step ls Queued CmdOpen w)))) = Some p.
Proof.
  intros Hm Hp Hd Ha Hl Hb Har Hpe Ht HC.
  destruct (step_open_unmodified ls Queued w p b rest Hm (widget_ok_quiet _ Hp Hd) Hb Har Hpe)
    as (w1 & E1 & _ & Hok1 & Hf1 & _ & _ & _ & Hwd1 & _).
  destruct (replace_undo_stack (w_widget w) (opened_text b) Ht HC Ha Hl) as [Tr Ur].
  rewrite <- Hwd1 in Tr, Ur.
  destruct (run_pending_quiet w1 Hok1) as (w2 & E2 & F2 & Hp2 & Hd2 & _).
  destruct (frame_doc _ _ F2) as (T2 & U2 & Hf2). rewrite Tr in T2. rewrite Ur in U2.
  rewrite E1, E2. cbn [snd].
  destruct (undo_insert_group (w_widget w2) (opened_text b) _ _ U2 T2 HC) as (Ok3 & T3 & U3).
  rewrite (step_undo_ok ls w2 Ok3).
  destruct (run_pending_after_undo w2 Hp2 Hd2) as (w4 & -> & T4 & U4 & Hf4 & Hp4 & Hd4). cbn [snd].
  rewrite T3 in T4. rewrite U3 in U4.
  destruct (undo_delete_group (w_widget w4) (w_text (w_widget w)) _ U4 (group_end_sep_push _) T4) as (Ok5 & T5).
  rewrite (step_undo_ok ls w4 Ok5).
  destruct (run_pending_after_undo w4 Hp4 Hd4) as (w6 & -> & T6 & _ & Hf6 & _). cbn [snd].
  split; [by rewrite T6, T5|]. rewrite Hf6, Hf4, Hf2. exact Hf1.
Qed.

(** C5 (roundtrip): Undo takes back a typed character and Redo types it
    again, under Tk 8.6.  A key typed with no selection, when it starts an
    undo group of its own (the stack ends a group, or [-autoseparators] is
    on and the last edit was not an insertion), is inserted at the cursor
    by Tk's class binding; the Undo command ([EditOperations.undo]: [edit
    undo], then the event loop) gives the previous text back, and the Redo
    command then gives the typed text again. *)
Theorem type_undo_redo w c :
  w_pending (w_widget w) = 0 -> w_dirty (w_widget w) = 0%Z -> w_sel (w_widget w) = None ->
  w_insert (w_widget w) <= length (w_text (w_widget w)) -> new_group EditInsert (w_widget w) ->
  w_text (w_widget (step ls Queued CmdUndo (step ls Queued (CmdKey c) w))) = w_text (w_widget w) /\
  w_text (w_widget (step ls Queued CmdRedo (step ls Queued CmdUndo (step ls Queued (CmdKey c) w)))) =
    w_text (w_widget (step ls Queued (CmdKey c) w)).
Proof.
  intros Hp Hd Hs Hi Hg.
  destruct (key_press_nosel Queued w c (widget_ok_quiet _ Hp Hd) Hs) as (w1 & E1 & F1 & Hok1).
  destruct (run_pending_quiet w1 Hok1) as (w2 & E2 & F2 & Hp2 & Hd2 & _).
  rewrite (step_run ls Queued (CmdKey c) w w1 (Ok tt)) by exact E1. rewrite E2. cbn [snd].
  destruct (push_undo_new_group EditInsert (UInsert (w_insert (w_widget w)) [c])
              (ins_chars 1 (w_insert (w_widget w)) [c] (w_widget w)) Hg) as (u & Hu & Hgu).
  destruct F1 as (_&_&_&_&T1&_&_&_&_&_&_&_&U1&R1&_). destruct F2 as (_&_&_&_&T2&_&_&_&_&_&_&_&U2&R2&_).
  unfold tk_insert in T1, U1, R1. cbn [set_widget set_ed w_widget] in T1, U1, R1. rewrite Nat.min_l in T1, U1, R1 by done.
  destruct (undo_redo_top_insert (w_widget w2) (w_insert (w_widget w)) [c] (w_text (w_widget w)) u)
    as (Ok & Tu & Hredo); [done|done|by rewrite T2, T1|by rewrite U2, U1|done|by rewrite R2, R1|].
  destruct (step_undo_frame ls w2 Hp2 Hd2 Ok) as (F3 & Hp3 & Hd3).
  destruct (frame_doc _ _ F3) as (T3 & _). cbn [set_widget w_widget] in T3. rewrite Tu in T3.
  destruct F3 as (_&_&_&_&_&_&_&_&_&_&_&_&_&R3&_). cbn [set_widget w_widget] in R3.
  destruct (Hredo (w_widget (step ls Queued CmdUndo w2)) T3 R3) as (Okr & Tr).
  destruct (frame_doc _ _ (step_redo_frame ls _ Hp3 Hd3 Okr)) as (T4 & _). cbn [set_widget w_widget] in T4.
  split; [exact T3|by rewrite T4, Tr].
Qed.

(** C19 (functional): the open/save round trip changes a latin-1
    document whose characters happen to spell valid UTF-8.  On POSIX, a
    document opened as latin-1 whose text is, character for character,
    the bytes of the utf-8 encoding of a text [u] (such as "Ã©", the bytes
    of "é") is saved as those bytes plus the newline [get(1.0, END)]
    adds; opening the file again tries utf-8 first, which accepts it, so
    the widget shows [u] with the newline and the encoding becomes
    utf-8. *)
Theorem latin1_text_reopens_as_utf8 mode w p u bs rest :
  ls = [LF] -> w_pending (w_widget w) = 0 -> w_dirty (w_widget w) = 0%Z ->
  current_file (w_ed w) = Some p -> p <> EmptyString -> current_encoding (w_ed w) = "latin-1" ->
  p ∉ fs_readonly (w_fs w) -> (p +:+ ".bak") ∉ fs_readonly (w_fs w) -> w_answers w = PStr p :: rest ->
  encode utf8 u = Some bs -> CR ∉ u -> w_text (w_widget w) = bs ->
  fs_files (w_fs (step ls mode CmdOpen (step ls mode CmdSave w))) !! p = Some (bs ++ [LF]) /\
  w_text (w_widget (step ls mode CmdOpen (step ls mode CmdSave w))) = u ++ [LF] /\
  current_encoding (w_ed (step ls mode CmdOpen (step ls mode CmdSave w))) = "utf-8".
Proof.
  intros Hls Hp Hd Hf Hpne He Hro Hrob Ha Hu Hcr Ht.
  destruct (latin1_save_utf8_read u bs Hu Hcr) as [Hw Hr].
  assert (Hw' : text_write latin1 ls (tk_get_all (w_text (w_widget w))) = Ok (bs ++ [LF]))
    by (rewrite Hls, Ht; exact Hw).
  apply (save_then_open mode w p latin1 _ _ rest Hp Hd Hf Hpne ltac:(by rewrite He) Hro Hrob Ha Hw' Hr).
Qed.

(** C32 (safety).  The search window's grab and the keyboard focus: while
    the window exists and its entry has the focus, the only command of
    the main window that can run is the window manager's close button
    (Exit), and no event of the dialog changes the document: its text,
    its undo stack, the editor's modified flag and the files stay as
    they were.  The user is never locked out: the Close button always
    works, and after it no highlighting is left and every command gets
    through again. *)
Theorem entry_focus_blocks_edits mode fold w sw :
  reachable ls mode fold w ->
  ss_window (search_dialog (w_ed w)) = Some sw -> ss_focus (search_dialog (w_ed w)) = false ->
  (forall c, cmd_allowed c (search_dialog (w_ed w)) = true -> c = CmdExit) /\
  (forall ev w', dialog_step fold ev w = Some w' ->
     w_text (w_widget w') = w_text (w_widget w) /\ w_undo (w_widget w') = w_undo (w_widget w) /\
     is_modified (w_ed w') = is_modified (w_ed w) /\ w_fs w' = w_fs w) /\
  (exists w', dialog_step fold SCloseButton w = Some w' /\ w_found (w_widget w') = [] /\
     forall c, cmd_allowed c (search_dialog (w_ed w')) = true).
Proof.
  intros Hr Hw Hf. destruct (reachable_inv_quiet ls mode fold w Hr) as (_ & Hp & _). split_and!.
  - intros c. unfold cmd_allowed. rewrite Hw, Hf. destruct c; simpl; intros H; congruence.
  - intros ev w' E. destruct (dialog_step_eq fold ev w w' E) as (d & wd & Es & ->).
    destruct (search_step_keeps fold ev _ _ _ _ Es) as (Ht & _ & Hp' & _ & _ & _ & Hu & _).
    rewrite run_pending_idle by (simpl; congruence). simpl. by split_and!.
  - unfold dialog_step, search_step. rewrite Hw. unfold close_search.
    rewrite run_pending_idle by (simpl; exact Hp). eexists; split; [reflexivity|]. by split.
Qed.

(** C4 (functional).  Control-f typed in the text while the search window
    is open (after a search gave the text the focus) gets through the
    grab, and [open_search_window] only raises the window: the dialog
    keeps its entry, label, focus and "found" ranges and records one
    [lift()].  The class binding has moved [insert] one character on
    and removed the selection. *)
Theorem ctrl_f_raises_window mode w sw :
  ss_window (search_dialog (w_ed w)) = Some sw -> ss_focus (search_dialog (w_ed w)) = true ->
  cmd_allowed CmdCtrlF (search_dialog (w_ed w)) = true /\
  search_dialog (w_ed (step ls mode CmdCtrlF w)) = with_ops [WLift] (search_dialog (w_ed w)) /\
  w_found (w_widget (step ls mode CmdCtrlF w)) = w_found (w_widget w) /\
  w_text (w_widget (step ls mode CmdCtrlF w)) = w_text (w_widget w) /\
  w_insert (w_widget (step ls mode CmdCtrlF w)) = Nat.min (S (w_insert (w_widget w))) (length (w_text (w_widget w))) /\
  w_sel (w_widget (step ls mode CmdCtrlF w)) = None.
Proof.
  intros Hw Hf. split; [unfold cmd_allowed; by rewrite Hw, Hf|].
  destruct (step_frame ls mode CmdCtrlF w _ (ctrl_f_eq w)) as (w' & -> & F).
  destruct (frame_widget _ _ F) as (Ht & Hi & Hs & _ & Hfd).
  destruct F as (_&_&_&_&_&_&_&_&_&_&_&_&_&_&_&_&_&Fd).
  destruct (text_set_cursor_fields (S (w_insert (w_widget w))) (w_widget w)) as (Tt & _ & _ & Tf & _ & Ts & Ti).
  cbn [w_widget w_ed set_widget set_ed with_search search_dialog with_status] in *.
  rewrite Fd, Hfd, Ht, Hi, Hs, Tt, Tf, Ts, Ti. unfold open_search_window. by rewrite Hw.
Qed.

(** C23 (functional).  Control-a in the text selects the whole text
    whatever index the platform's class binding moved the cursor to: the
    text is unchanged, the selection runs from "1.0" to "end" and
    [insert] is at "1.0". *)
Theorem ctrl_a_selects_all mode i w :
  w_text (w_widget (step ls mode (CmdCtrlA i) w)) = w_text (w_widget w) /\
  w_sel (w_widget (step ls mode (CmdCtrlA i) w)) = Some (0, tk_end (w_widget w)) /\
  w_insert (w_widget (step ls mode (CmdCtrlA i) w)) = 0.
Proof.
  destruct (step_frame ls mode (CmdCtrlA i) w _ (ctrl_a_eq i w)) as (w' & -> & F).
  destruct (frame_widget _ _ F) as (Ht & Hi & Hs & _).
  destruct (text_set_cursor_fields i (w_widget w)) as (Tt & _).
  cbn [w_widget w_ed set_widget set_ed with_status tk_mark_set_insert tk_select_all w_text w_insert w_sel] in *.
  rewrite Ht, Hi, Hs. unfold tk_end. rewrite Tt. split_and!; [done|done|lia].
Qed.

(** C30: typing a character with no selection moves the search's
    highlighting with the text, in both delivery modes: a match around
    the cursor stretches over the new character, and every other match
    keeps highlighting exactly the characters it highlighted before. *)
Theorem typing_keeps_highlight mode w c :
  widget_ok (w_widget w) -> w_sel (w_widget w) = None ->
  w_insert (w_widget w) <= length (w_text (w_widget w)) ->
  tagged (w_widget (step ls mode (CmdKey c) w)) =
    map (fun r => tag_stretch (w_insert (w_widget w)) [c] r (tk_get (fst r) (snd r) (w_widget w)))
      (w_found (w_widget w)).
Proof.
  intros Hok Hs Hi. destruct (key_press_nosel mode w c Hok Hs) as (w1 & E1 & F1 & _).
  destruct (run_pending_frame w1) as (w2 & E2 & F2).
  rewrite (step_run ls mode (CmdKey c) w w1 (Ok tt)) by exact E1. rewrite E2. cbn [snd].
  rewrite (frame_tagged _ _ F2), (frame_tagged _ _ F1). cbn [snd w_widget set_widget set_ed].
  by rewrite tagged_insert, Nat.min_l.
Qed.

End Claims.

(** ** Witnesses on the sample world of [Editor] *)

(** Open "a.txt" and press Control-f: the dialog is open, its entry has
    the focus. *)
Definition search_open_run : list app_event := [ECmd CmdOpen; ECmd CmdCtrlF].

(** Then type "h" in the entry and press Return: the dialog stays open
    with the text focused and its first character highlighted. *)
Definition search_done_run : list app_event := search_open_run ++ [EDialog (SType [104]%Z); EDialog SReturn].

(** Then type "!" in the text. *)
Definition search_run : list app_event := search_done_run ++ [ECmd (CmdKey 33)].

Ltac app_events_ok :=
  repeat (apply Forall_cons_2; [simpl; first [exact I|unfold is_scalar; lia]|]); apply Forall_nil_2.

Lemma reachable_quiet_inv_witness :
  exists w, run_app [LF] Queued tcl_lower search_run (initial_world sample_fs [PStr "a.txt"]) = Some w /\
    inv w /\ w_pending (w_widget w) = 0 /\
    w_text (w_widget w) = [104; 105; 10; 33]%Z /\ w_found (w_widget w) = [(0, 1)].
Proof.
  destruct (run_app [LF] Queued tcl_lower search_run (initial_world sample_fs [PStr "a.txt"])) as [w|] eqn:E;
    [|vm_compute in E; discriminate].
  assert (Hr : reachable [LF] Queued tcl_lower w).
  { refine (run_app_reachable [LF] Queued tcl_lower search_run _ w _
              (reachable_init [LF] Queued tcl_lower sample_fs [PStr "a.txt"] fs_ok_sample) E).
    unfold search_run, search_done_run, search_open_run. simpl app. app_events_ok. }
  destruct (reachable_quiet_inv [LF] Queued tcl_lower w Hr) as (Hi & _ & Hp & _).
  exists w. split_and!; [reflexivity|exact Hi|exact Hp| |]; vm_compute in E; by injection E as <-.
Defined.

Lemma open_marks_modified_iff_queued_witness :
  w_text (w_widget (step [LF] Queued CmdOpen (sample_world initial_editor [] [PStr "a.txt"]))) =
    [104; 105; 10]%Z /\
  is_modified (w_ed (step [LF] Queued CmdOpen (sample_world initial_editor [] [PStr "a.txt"]))) = true.
Proof.
  apply (open_marks_modified_iff_queued [LF] Queued _ "a.txt" [104; 105; 10]%Z []);
    [reflexivity|reflexivity|reflexivity|reflexivity|reflexivity|done|right; vm_compute; done].
Defined.

Lemma open_then_exit_prompts_witness :
  w_ui (step [LF] Queued CmdExit (step [LF] Queued CmdOpen (sample_world initial_editor [] [PStr "a.txt"; PNone]))) =
    [AskOpenFilename; AskYesNoCancel "Unsaved Changes" ("Do you want to save changes before " +:+ "exit" +:+ "?")] /\
  running (w_ed (step [LF] Queued CmdExit (step [LF] Queued CmdOpen (sample_world initial_editor [] [PStr "a.txt"; PNone])))) =
    running (w_ed (step [LF] Queued CmdOpen (sample_world initial_editor [] [PStr "a.txt"; PNone]))).
Proof.
  apply (open_then_exit_prompts [LF] (sample_world initial_editor [] [PStr "a.txt"; PNone]) "a.txt" [104; 105; 10]%Z []);
    [reflexivity|reflexivity|reflexivity|reflexivity|reflexivity|done|right; vm_compute; done].
Defined.

Lemma new_marks_modified_iff_queued_witness :
  w_text (w_widget (step [LF] Immediate CmdNew (sample_world initial_editor [111]%Z []))) = [] /\
  current_file (w_ed (step [LF] Immediate CmdNew (sample_world initial_editor [111]%Z []))) = None /\
  is_modified (w_ed (step [LF] Immediate CmdNew (sample_world initial_editor [111]%Z []))) = false.
Proof.
  apply (new_marks_modified_iff_queued [LF] Immediate); [reflexivity|reflexivity|reflexivity|done].
Defined.

Lemma typing_marks_modified_witness :
  w_text (w_widget (step [LF] Immediate (CmdKey 33%Z) (sample_world initial_editor [104; 105]%Z []))) =
    [33; 104; 105]%Z /\
  is_modified (w_ed (step [LF] Immediate (CmdKey 33%Z) (sample_world initial_editor [104; 105]%Z []))) = true /\
  starred (title (w_ed (step [LF] Immediate (CmdKey 33%Z) (sample_world initial_editor [104; 105]%Z [])))) = true.
Proof.
  apply (typing_marks_modified [LF] Immediate); [reflexivity|reflexivity|reflexivity|cbn; lia].
Defined.

Lemma save_then_open_appends_newline_witness :
  fs_files (w_fs (step [LF] Queued CmdOpen (step [LF] Queued CmdSave
    (sample_world (sample_named "utf-8" false) [104; 105; 10]%Z [PStr "a.txt"])))) !! "a.txt" =
    Some [104; 105; 10; 10]%Z /\
  w_text (w_widget (step [LF] Queued CmdOpen (step [LF] Queued CmdSave
    (sample_world (sample_named "utf-8" false) [104; 105; 10]%Z [PStr "a.txt"])))) = [104; 105; 10; 10]%Z.
Proof.
  apply (save_then_open_appends_newline [LF] Queued _ "a.txt" [104; 105; 10]%Z _ []);
    [by left|reflexivity|reflexivity|reflexivity|done|reflexivity|apply not_elem_of_empty
    |apply not_elem_of_empty|reflexivity|unfold CR; set_solver|reflexivity|reflexivity].
Defined.

Lemma latin1_text_reopens_as_utf8_witness :
  w_text (w_widget (step [LF] Immediate CmdOpen (step [LF] Immediate CmdSave
    (sample_world (sample_named "latin-1" false) [195; 169]%Z [PStr "a.txt"])))) = [233; 10]%Z /\
  current_encoding (w_ed (step [LF] Immediate CmdOpen (step [LF] Immediate CmdSave
    (sample_world (sample_named "latin-1" false) [195; 169]%Z [PStr "a.txt"])))) = "utf-8".
Proof.
  destruct (latin1_text_reopens_as_utf8 [LF] Immediate
              (sample_world (sample_named "latin-1" false) [195; 169]%Z [PStr "a.txt"]) "a.txt" [233]%Z
              [195; 169]%Z [])
    as (_ & Ht & He); [reflexivity|reflexivity|reflexivity|reflexivity|discriminate|reflexivity
                      |set_solver|set_solver|reflexivity|reflexivity|unfold CR; set_solver|reflexivity|].
  split; [exact Ht|exact He].
Defined.
Lemma ctrl_o_cancel_inserts_newline_witness :
  w_text (w_widget (step [LF] Queued CmdCtrlO (sample_world initial_editor [104; 105]%Z [PStr EmptyString]))) =
    [10; 104; 105]%Z /\
  is_modified (w_ed (step [LF] Queued CmdCtrlO (sample_world initial_editor [104; 105]%Z [PStr EmptyString]))) = true.
Proof.
  destruct (ctrl_o_cancel_inserts_newline [LF] (sample_world initial_editor [104; 105]%Z [PStr EmptyString]) [])
    as (Ht & _ & Hm & _); [reflexivity|reflexivity|reflexivity|cbn; lia|reflexivity|].
  split; [exact Ht|exact Hm].
Defined.

Lemma reachable_unicode_saves_witness :
  exists bs, write_text [LF] "b.txt"
    (current_encoding (w_ed (step [LF] Queued CmdOpen (initial_world sample_fs [PStr "a.txt"]))))
    (tk_get_all (w_text (w_widget (step [LF] Queued CmdOpen (initial_world sample_fs [PStr "a.txt"])))))
    (step [LF] Queued CmdOpen (initial_world sample_fs [PStr "a.txt"])) =
  (Ok tt, set_fs (put_file "b.txt" bs)
            (set_fs (put_file "b.txt" []) (step [LF] Queued CmdOpen (initial_world sample_fs [PStr "a.txt"])))).
Proof.
  apply (reachable_unicode_saves [LF] Queued tcl_lower); [by left|apply reachable_step; [done|done|apply reachable_init; apply fs_ok_sample]
    |left; vm_compute; reflexivity|vm_compute; set_solver].
Defined.

Lemma exit_discard_quits_witness :
  running (w_ed (step [LF] Queued CmdExit (sample_world (sample_named "utf-8" true) [104; 105]%Z [PBool false]))) = false.
Proof. apply exit_discard_quits; [apply widget_ok_quiet; reflexivity|right; eexists; reflexivity]. Defined.

Lemma open_undo_restores_previous_witness :
  w_text (w_widget (step [LF] Queued CmdUndo (step [LF] Queued CmdUndo
    (step [LF] Queued CmdOpen (sample_world initial_editor [120]%Z [PStr "a.txt"]))))) = [120]%Z /\
  current_file (w_ed (step [LF] Queued CmdUndo (step [LF] Queued CmdUndo
    (step [LF] Queued CmdOpen (sample_world initial_editor [120]%Z [PStr "a.txt"]))))) = Some "a.txt".
Proof.
  apply (open_undo_restores_previous [LF] (sample_world initial_editor [120]%Z [PStr "a.txt"]) "a.txt"
           [104; 105; 10]%Z []);
    [reflexivity|reflexivity|reflexivity|reflexivity|discriminate|reflexivity|reflexivity|done|done|vm_compute; done].
Defined.

Lemma type_undo_redo_witness :
  w_text (w_widget (step [LF] Queued CmdUndo
    (step [LF] Queued (CmdKey 33) (sample_world initial_editor [104; 105]%Z [])))) = [104; 105]%Z /\
  w_text (w_widget (step [LF] Queued CmdRedo (step [LF] Queued CmdUndo
    (step [LF] Queued (CmdKey 33) (sample_world initial_editor [104; 105]%Z []))))) =
  w_text (w_widget (step [LF] Queued (CmdKey 33) (sample_world initial_editor [104; 105]%Z []))).
Proof.
  apply (type_undo_redo [LF] (sample_world initial_editor [104; 105]%Z []) 33);
    [reflexivity|reflexivity|reflexivity|simpl; lia|left; exact I].
Defined.

(** ** Witnesses on the sample file of [Editor] *)

Lemma entry_focus_blocks_edits_witness :
  exists w, run_app [LF] Queued tcl_lower search_open_run (initial_world sample_fs [PStr "a.txt"]) = Some w /\
    (forall c, cmd_allowed c (search_dialog (w_ed w)) = true -> c = CmdExit) /\
    (forall ev w', dialog_step tcl_lower ev w = Some w' ->
       w_text (w_widget w') = w_text (w_widget w) /\ w_undo (w_widget w') = w_undo (w_widget w) /\
       is_modified (w_ed w') = is_modified (w_ed w) /\ w_fs w' = w_fs w) /\
    (exists w', dialog_step tcl_lower SCloseButton w = Some w' /\ w_found (w_widget w') = [] /\
       forall c, cmd_allowed c (search_dialog (w_ed w')) = true).
Proof.
  destruct (run_app [LF] Queued tcl_lower search_open_run (initial_world sample_fs [PStr "a.txt"])) as [w|] eqn:E;
    [|vm_compute in E; discriminate].
  assert (Hr : reachable [LF] Queued tcl_lower w).
  { refine (run_app_reachable [LF] Queued tcl_lower search_open_run _ w _
              (reachable_init [LF] Queued tcl_lower sample_fs [PStr "a.txt"] fs_ok_sample) E).
    unfold search_run, search_done_run, search_open_run. simpl app. app_events_ok. }
  assert (Hw : ss_window (search_dialog (w_ed w)) = Some {| sw_entry := []; sw_label := LEmpty; sw_fg := Blue |})
    by (vm_compute in E; by injection E as <-).
  assert (Hf : ss_focus (search_dialog (w_ed w)) = false) by (vm_compute in E; by injection E as <-).
  exists w. split; [reflexivity|]. exact (entry_focus_blocks_edits [LF] Queued tcl_lower w _ Hr Hw Hf).
Defined.

Lemma ctrl_f_raises_window_witness :
  exists w, run_app [LF] Queued tcl_lower search_done_run (initial_world sample_fs [PStr "a.txt"]) = Some w /\
    cmd_allowed CmdCtrlF (search_dialog (w_ed w)) = true /\
    search_dialog (w_ed (step [LF] Queued CmdCtrlF w)) = with_ops [WLift] (search_dialog (w_ed w)) /\
    w_found (w_widget (step [LF] Queued CmdCtrlF w)) = [(0, 1)].
Proof.
  destruct (run_app [LF] Queued tcl_lower search_done_run (initial_world sample_fs [PStr "a.txt"])) as [w|] eqn:E;
    [|vm_compute in E; discriminate].
  assert (Hw : ss_window (search_dialog (w_ed w)) =
                 Some {| sw_entry := [104]%Z; sw_label := LFound 1; sw_fg := Blue |})
    by (vm_compute in E; by injection E as <-).
  assert (Hf : ss_focus (search_dialog (w_ed w)) = true) by (vm_compute in E; by injection E as <-).
  destruct (ctrl_f_raises_window [LF] Queued w _ Hw Hf) as (H1 & H2 & H3 & _).
  exists w. split_and!; [reflexivity|exact H1|exact H2|]. rewrite H3. vm_compute in E. by injection E as <-.
Defined.

(** Search "hi" in the opened "hi\n" and press Return; Control-n's class
    binding puts the cursor between "h" and "i" (index 1, one display
    line down in a window one character wide) and its new-file prompt is
    cancelled (no answer left); typing "!" there stretches the match,
    which highlights "h!i". *)
Definition stretch_run : list app_event :=
  search_open_run ++ [EDialog (SType [104; 105]%Z); EDialog SReturn; ECmd (CmdCtrlN 1)].

Lemma typing_keeps_highlight_witness :
  exists w, run_app [LF] Queued tcl_lower stretch_run (initial_world sample_fs [PStr "a.txt"]) = Some w /\
    tagged (w_widget (step [LF] Queued (CmdKey 33) w)) = [[104; 33; 105]%Z].
Proof.
  destruct (run_app [LF] Queued tcl_lower stretch_run (initial_world sample_fs [PStr "a.txt"])) as [w|] eqn:E;
    [|vm_compute in E; discriminate].
  exists w. split; [reflexivity|].
  rewrite (typing_keeps_highlight [LF] Queued w 33);
    [|vm_compute in E; injection E as <-; vm_compute; first [done|lia|intros; lia] ..].
  vm_compute in E. injection E as <-. vm_compute. reflexivity.
Defined.
