(* ===== verification/App.v ===== *)
(** * Startup: [main] and [TextEditor.__init__]

    [main] ([src/main.py]) configures the log ([setup_logging],
    [src/config/logger_config.py]), creates the Tk root, builds the
    [TextEditor] ([src/text_editor.py]) and enters [root.mainloop()];
    any exception is logged at CRITICAL and shown in an "Error Critico"
    box.  [TextEditor.__init__] sets the title and the document state,
    builds the text area and the status bar, and only then creates the
    [ErrorHandler] and the managers and builds the menus.

    What the environment does at startup is a [boot_env]: whether the
    [log] directory exists (the file handler of [logging.basicConfig]
    opens [log/editor_errors.log] at once), and the exception, if any,
    that [tk.Tk()], the [ScrolledText] and the menu construction raise.
    With no display, [messagebox.showerror] cannot create its root either,
    and its [TclError] escapes [main]. *)

From S2P Require Import Prelude Text Widget SearchWin Editor Session.

Local Open Scope py_scope.

Record boot_env := {
  log_dir : bool;
  display : option exn;
  text_area_error : option exn;
  menu_error : option exn
}.

(** A library call that raises the exception the environment gives. *)
Definition lib_call (o : option exn) : EdM unit :=
  match o with Some e => raise e | None => ret tt end.

(** [self.error_handler] read before [__init__] assigns it. *)
Definition attr_error : exn :=
  AttributeError "'TextEditor' object has no attribute 'error_handler'".

(** [setup_logging]: [logging.basicConfig(level=logging.INFO,
    filename='log/editor_errors.log', ...)]. *)
Definition setup_logging (env : boot_env) : EdM unit :=
  if log_dir env then ret tt else raise FileNotFoundError.

(** [self.error_handler.handle_error(...)] when [self.error_handler] is
    or is not yet set. *)
Definition call_handler (has_handler : bool) (op : string) (e : exn) (show_user : bool) : EdM unit :=
  if has_handler then handle_error op e show_user else raise attr_error.

(** [TextEditor.create_text_area]: the [ScrolledText] and its bindings;
    the [except] branch reports the error and re-raises it.  It runs
    before [self.error_handler = ErrorHandler()]. *)
Definition create_text_area (env : boot_env) : EdM unit :=
  try (lib_call (text_area_error env) ;; modify (set_widget (fun _ => empty_widget)))
  except (fun e => call_handler false "create text area" e true ;; raise e).

(** [TextEditor.create_status_bar]. *)
Definition create_status_bar : EdM unit :=
  modify (set_ed (with_status "Ready | Line: 1, Column: 1")).

(** [MenuManager.create_menu], with [setup_keyboard_shortcuts]; it runs
    after the error handler exists. *)
Definition create_menu (env : boot_env) : EdM unit :=
  try (lib_call (menu_error env))
  except (fun e => call_handler true "create menu" e true).

(** [TextEditor.__init__]. *)
Definition texteditor_init (env : boot_env) : EdM unit :=
  modify (set_ed (with_title "Text Editor - Untitled")) ;;
  modify (set_ed (with_file None)) ;;
  modify (set_ed (with_modified false)) ;;
  modify (set_ed (with_encoding "utf-8")) ;;
  modify (set_ed (with_search initial_search)) ;;
  create_text_area env ;;
  create_status_bar ;;
  create_menu env ;;
  log INFO "Text editor initialized successfully".

(** The body of the "Error Critico" box. *)
Definition critical_msg (e : exn) : string :=
  "No se inicializo la app:" +:+ nl +:+ exn_str e +:+ nl +:+ nl +:+ "Verifica los modulos.".

(** [main]; entering [root.mainloop()] sets [running]. *)
Definition main (env : boot_env) : EdM unit :=
  try (setup_logging env ;;
       lib_call (display env) ;;
       texteditor_init env ;;
       modify (set_ed (with_running true)))
  except (fun e =>
    (if log_dir env then log CRITICAL ("Hubo un error en la app: " +:+ exn_str e) else ret tt) ;;
    match display env with
    | Some d => raise d
    | None => show (ShowError "Error Critico" (critical_msg e))
    end).

(** The process before [main]: the files and the dialog answers of the
    session, a Tk root titled "tk", no log line, no loop.  The attributes
    [__init__] assigns do not exist yet: [ed0] and [wd0] stand for
    whatever the model's record holds in their place. *)
Definition boot_world (fs : fsys) (answers : list pyval) (ed0 : editor) (wd0 : widget) : world :=
  {| w_fs := fs; w_widget := wd0; w_ed := with_title "tk" (with_running false ed0);
     w_answers := answers; w_ui := []; w_log := [] |}.

(** An environment where everything works. *)
Definition good_env : boot_env :=
  {| log_dir := true; display := None; text_area_error := None; menu_error := None |}.

(** ** Properties *)

(** C34 (error).  When building the text area fails, [create_text_area]'s
    [except] branch reads [self.error_handler], which [__init__] assigns
    only afterwards: the [AttributeError] replaces the original exception,
    so the "create text area" error is never logged, its message box is
    never shown, and the "Error Critico" box and the CRITICAL log line name
    the missing attribute instead of the failure; the main loop is not
    entered. *)
Theorem text_area_failure_masks_error env fs answers ed0 wd0 e :
  log_dir env = true -> display env = None -> text_area_error env = Some e ->
  exists w', main env (boot_world fs answers ed0 wd0) = (Ok tt, w') /\
    w_ui w' = [ShowError "Error Critico" (critical_msg attr_error)] /\
    w_log w' = [(CRITICAL, "Hubo un error en la app: " +:+ exn_str attr_error)] /\
    running (w_ed w') = false.
Proof.
  destruct env as [ld dp ta me]. cbn [log_dir display text_area_error]. intros -> -> ->.
  eexists. split; [reflexivity|]. done.
Qed.

(** C35 (refinement).  When the environment lets every step succeed,
    [main] enters the main loop in exactly the state [Session] starts its
    sessions from ([initial_world]): an empty widget, the untitled utf-8
    document with no search window, the status bar's first text and the
    one INFO log line of [__init__].  The state does not depend on what
    the record held before: [__init__] assigns every attribute the
    session reads. *)
Theorem main_enters_loop env fs answers ed0 wd0 :
  log_dir env = true -> display env = None -> text_area_error env = None -> menu_error env = None ->
  main env (boot_world fs answers ed0 wd0) = (Ok tt, initial_world fs answers).
Proof.
  destruct env as [ld dp ta me]. cbn [log_dir display text_area_error menu_error].
  intros -> -> -> ->. reflexivity.
Qed.

Lemma text_area_failure_masks_error_witness :
  exists w', main {| log_dir := true; display := None; text_area_error := Some (TclError "bad font");
                     menu_error := None |} (boot_world sample_fs [] initial_editor empty_widget) = (Ok tt, w') /\
    w_ui w' = [ShowError "Error Critico" (critical_msg attr_error)].
Proof.
  destruct (text_area_failure_masks_error
              {| log_dir := true; display := None; text_area_error := Some (TclError "bad font");
                 menu_error := None |} sample_fs [] initial_editor empty_widget (TclError "bad font"))
    as (w' & E & Hu & _); [reflexivity|reflexivity|reflexivity|].
  exists w'. split; [exact E|exact Hu].
Defined.

Lemma main_enters_loop_witness :
  main good_env (boot_world sample_fs [PStr "a.txt"] (with_modified true initial_editor) empty_widget) =
    (Ok tt, initial_world sample_fs [PStr "a.txt"]).
Proof. apply main_enters_loop; reflexivity. Defined.
